(** * CPDF_DIB: the PDF image stream decoder and scanline renderer

    A shallow embedding of [core/fpdfapi/page/cpdf_dib.cpp].  Integers are
    [Z] with the C++ wrap-around written out, byte buffers are [list Z],
    the decoder object is a record threaded through a small state monad
    whose failure case stands for undefined behaviour (a null dereference
    or an access outside a buffer).  The codecs, the colour-space objects
    and the PDF object layer are collaborators: they enter through two type
    classes and every result below holds for all of their instances. *)

From stdpp Require Import base option list gmap strings.
From Stdlib Require Import ZArith Lia QArith Qround.
Set Warnings "-register-all".
Set Default Proof Using "Type".
Close Scope Q_scope.
Open Scope Z_scope.

(** ** Machine integers *)

Definition uint32_max : Z := 4294967295.

(** Conversion to [uint32_t]: reduction modulo 2^32. *)
Definition wrap32 (z : Z) : Z := z mod 4294967296.

(** Conversion to [uint64_t]. *)
Definition wrap64 (z : Z) : Z := z mod 18446744073709551616.

(** Conversion to [uint8_t]. *)
Definition u8 (z : Z) : Z := z mod 256.

(** [FX_SAFE_UINT32]: a checked number is [None] once any intermediate
    result left the range of [uint32_t]. *)
Definition safe_u32 (z : Z) : option Z :=
  if bool_decide (0 <= z <= uint32_max) then Some z else None.

Definition safe_mul (a : option Z) (b : Z) : option Z :=
  x ← a; safe_u32 (x * b).

Definition safe_add (a : option Z) (b : Z) : option Z :=
  x ← a; safe_u32 (x + b).

Definition safe_div (a : option Z) (b : Z) : option Z :=
  x ← a; if bool_decide (b = 0) then None else safe_u32 (x / b).

(** Modelled from the spec: [fxcodec::CalculatePitch8] lives in
    core/fxcodec/fx_codec.cpp, which is not among the sources.  Section 4.2:
    ceil(bpc * n_components * width / 8), with overflow yielding None. *)
Definition CalculatePitch8 (bpc components width : Z) : option Z :=
  safe_div (safe_add (safe_mul (safe_mul (safe_u32 bpc) components) width) 7) 8.

(** Modelled from the spec: [fxcodec::CalculatePitch32], same file.
    Section 4.2: ((bpp * width + 31) / 32) * 4, overflow yielding None. *)
Definition CalculatePitch32 (bpp width : Z) : option Z :=
  safe_mul (safe_div (safe_add (safe_mul (safe_u32 bpp) width) 31) 32) 4.

(** ** Floating point

    The source computes decode arrays, palettes and the matte colour in
    [float].  The arithmetic is kept abstract. *)

Class FloatArith := {
  float : Type;
  f_zero : float;
  f_one : float;
  f_255 : float;
  f_of_int : Z -> float;            (* static_cast<float>(int) *)
  f_to_int : float -> Z;            (* static_cast<int>(float) *)
  f_to_u8 : float -> Z;             (* static_cast<uint8_t>(float) *)
  f_add : float -> float -> float;
  f_sub : float -> float -> float;
  f_mul : float -> float -> float;
  f_div : float -> float -> float;
  f_eqb : float -> float -> bool;   (* operator== *)
  f_clamp01 : float -> float;       (* pdfium::clamp(x, 0.0f, 1.0f) *)
  FXSYS_roundf : float -> Z;
}.

(** ** Enumerations *)

Inductive LoadState := kFail | kSuccess | kContinue.

Inductive Family :=
| kUnknown | kDeviceGray | kDeviceRGB | kDeviceCMYK | kCalGray | kCalRGB
| kLab | kICCBased | kSeparation | kDeviceN | kIndexed | kPattern.

Inductive FXDIB_Format :=
| kInvalid | k1bppRgb | k8bppRgb | kRgb | kRgb32 | k1bppMask | k8bppMask | kArgb.

Inductive FXCODEC_STATUS :=
| kError | kFrameReady | kFrameToBeContinued | kDecodeReady
| kDecodeToBeContinued | kDecodeFinished.

Inductive OPJ_COLOR_SPACE :=
| OPJ_CLRSPC_UNKNOWN | OPJ_CLRSPC_UNSPECIFIED | OPJ_CLRSPC_SRGB
| OPJ_CLRSPC_GRAY | OPJ_CLRSPC_SYCC | OPJ_CLRSPC_EYCC | OPJ_CLRSPC_CMYK.

(** [enum class JpxDecodeAction]; its kFail is not LoadState's. *)
Module JpxDecodeAction.
Inductive t := kFail | kDoNothing | kUseRgb | kUseCmyk | kConvertArgbToRgb.
End JpxDecodeAction.

Inductive ColorSpaceOption :=
| kNoColorSpace | kNormalColorSpace | kIndexedColorSpace.

#[global] Instance LoadState_eq_dec : EqDecision LoadState.
Proof. solve_decision. Defined.
#[global] Instance Family_eq_dec : EqDecision Family.
Proof. solve_decision. Defined.
#[global] Instance FXDIB_Format_eq_dec : EqDecision FXDIB_Format.
Proof. solve_decision. Defined.
#[global] Instance FXCODEC_STATUS_eq_dec : EqDecision FXCODEC_STATUS.
Proof. solve_decision. Defined.
#[global] Instance OPJ_COLOR_SPACE_eq_dec : EqDecision OPJ_COLOR_SPACE.
Proof. solve_decision. Defined.
#[global] Instance JpxDecodeAction_eq_dec : EqDecision JpxDecodeAction.t.
Proof. solve_decision. Defined.

(** fx_dib.h (not among the sources): bits per pixel of a format and the
    RGB format of a bit depth. *)
Definition GetBppFromFormat (f : FXDIB_Format) : Z :=
  match f with
  | kInvalid => 0
  | k1bppRgb | k1bppMask => 1
  | k8bppRgb | k8bppMask => 8
  | kRgb => 24
  | kRgb32 | kArgb => 32
  end.

Definition MakeRGBFormat (bpp : Z) : FXDIB_Format :=
  if bool_decide (bpp = 1) then k1bppRgb
  else if bool_decide (bpp = 8) then k8bppRgb
  else if bool_decide (bpp = 24) then kRgb
  else if bool_decide (bpp = 32) then kRgb32
  else kInvalid.

Section Model.
Context `{FA : FloatArith}.

(** ** The PDF object layer

    Read-only object graph.  The parser is not part of the sources; the
    accessors below are the ones cpdf_dib.cpp calls, with the documented
    behaviour of CPDF_Object, CPDF_Dictionary and CPDF_Array (a missing or
    ill-typed entry reads as 0, as an absent array or as an absent stream).
    Indirect references are taken as already resolved. *)

Inductive CPDF_Object : Type :=
| ObjNull
| ObjBoolean (b : bool)
| ObjInteger (n : Z)
| ObjReal (x : float)
| ObjName (s : string)
| ObjString (s : string)
| ObjArray (elems : list CPDF_Object)
| ObjDictionary (entries : gmap string CPDF_Object)
| ObjStream (entries : gmap string CPDF_Object) (data : list Z)
            (is_inline : bool) (objnum : Z).

#[local] Abbreviation CPDF_Dictionary := (gmap string CPDF_Object).
#[local] Abbreviation CPDF_Array := (list CPDF_Object).

Record CPDF_Stream := mkStream {
  stream_dict : CPDF_Dictionary;
  stream_data : list Z;
  stream_inline : bool;
  stream_objnum : Z;
}.

Definition GetInteger (o : CPDF_Object) : Z :=
  match o with
  | ObjBoolean b => if b then 1 else 0
  | ObjInteger n => n
  | ObjReal x => f_to_int x
  | _ => 0
  end.

Definition GetNumber (o : CPDF_Object) : float :=
  match o with
  | ObjInteger n => f_of_int n
  | ObjReal x => x
  | _ => f_zero
  end.

Definition ToArray (o : CPDF_Object) : option CPDF_Array :=
  match o with ObjArray l => Some l | _ => None end.

Definition ToStream (o : CPDF_Object) : option CPDF_Stream :=
  match o with
  | ObjStream e dat il num => Some (mkStream e dat il num)
  | _ => None
  end.

Definition IsName (o : CPDF_Object) : bool :=
  match o with ObjName _ => true | _ => false end.

Definition GetString (o : CPDF_Object) : string :=
  match o with ObjName s | ObjString s => s | _ => "" end.

Definition KeyExist (dict : CPDF_Dictionary) (key : string) : bool :=
  bool_decide (is_Some (dict !! key)).

Definition GetDirectObjectFor (dict : CPDF_Dictionary) (key : string)
  : option CPDF_Object := dict !! key.

Definition GetIntegerFor (dict : CPDF_Dictionary) (key : string) : Z :=
  from_option GetInteger 0 (dict !! key).

Definition GetIntegerFor_default (dict : CPDF_Dictionary) (key : string)
    (def : Z) : Z :=
  from_option GetInteger def (dict !! key).

Definition GetArrayFor (dict : CPDF_Dictionary) (key : string)
  : option CPDF_Array := dict !! key ≫= ToArray.

Definition GetStreamFor (dict : CPDF_Dictionary) (key : string)
  : option CPDF_Stream := dict !! key ≫= ToStream.

Definition GetIntegerAt (arr : CPDF_Array) (i : Z) : Z :=
  if bool_decide (0 <= i) then from_option GetInteger 0 (arr !! Z.to_nat i)
  else 0.

Definition GetNumberAt (arr : CPDF_Array) (i : Z) : float :=
  if bool_decide (0 <= i) then from_option GetNumber f_zero (arr !! Z.to_nat i)
  else f_zero.

(** fpdf_parser_utility: the first [n] entries of an array as floats. *)
Definition ReadArrayElementsToVector (arr : CPDF_Array) (n : Z) : list float :=
  (fun i : nat => GetNumberAt arr (Z.of_nat i)) <$> seq 0 (Z.to_nat n).

(** ** Collaborator objects *)

(** A colour space object.  [cs_ident] is the identity of the object: the
    source compares colour spaces by pointer. *)
Record CPDF_ColorSpace := mkCS {
  cs_ident : Z;
  cs_family : Family;
  cs_components : Z;          (* CountComponents() *)
}.

(** The stream accessor after [LoadAllDataImageAcc]: the bytes decoded up to
    the last filter, that filter's name and its parameter dictionary. *)
Record CPDF_StreamAcc := mkAcc {
  acc_stream : option CPDF_Stream;        (* GetStream() *)
  acc_data : option (list Z);             (* GetData(), GetSpan() *)
  acc_decoder : string;                   (* GetImageDecoder() *)
  acc_param : option CPDF_Dictionary;     (* GetImageParam() *)
}.

Definition GetSize (acc : CPDF_StreamAcc) : Z :=
  from_option (fun l => Z.of_nat (length l)) 0 (acc_data acc).

Definition GetSpan (acc : CPDF_StreamAcc) : list Z :=
  default [] (acc_data acc).

(** A lazy scanline decoder (fxcodec::ScanlineDecoder): the capabilities the
    driver uses.  [dec_scanline] yields the row, or nothing for nullptr. *)
Record ScanlineDecoder := mkDecoder {
  dec_bpc : Z;
  dec_comps : Z;
  dec_width : Z;
  dec_scanline : Z -> option (list Z);
}.

(** CFX_DIBitmap: a pitch-aligned pixel buffer. *)
Record CFX_DIBitmap := mkBitmap {
  bm_width : Z;
  bm_height : Z;
  bm_format : FXDIB_Format;
  bm_pitch : Z;
  bm_buffer : list Z;
}.

(** JpegModule::ImageInfo *)
Record JpegImageInfo := mkJpegInfo {
  jpeg_width : Z;
  jpeg_height : Z;
  num_components : Z;
  bits_per_components : Z;
  color_transform : bool;
}.

(** CJPX_Decoder::JpxImageInfo *)
Record JpxImageInfo := mkJpxInfo {
  jpx_width : Z;
  jpx_height : Z;
  jpx_components : Z;
  jpx_colorspace : OPJ_COLOR_SPACE;
}.

#[local] Abbreviation DecoderArray := (list (string * option CPDF_Dictionary)).

(** The collaborators: stream access, colour spaces, codecs, bitmaps. *)
Class Collaborators := {
  PauseIndicatorIface : Type;
  Jbig2Context : Type;
  CJPX_Decoder : Type;
  (* parser *)
  GetDecoderArray : CPDF_Dictionary -> option DecoderArray;
  LoadAllDataImageAcc : CPDF_Stream -> Z -> CPDF_StreamAcc;
  LoadAllDataFiltered : CPDF_Stream -> CPDF_StreamAcc;
  (* colour spaces *)
  GetColorSpace : CPDF_Object -> option CPDF_Dictionary -> option CPDF_ColorSpace;
  GetStockCS : Family -> CPDF_ColorSpace;
  ComponentsForFamily : Family -> Z;
  IsValidIccComponents : Z -> bool;
  GetDefaultValue : CPDF_ColorSpace -> Z -> float * float * float;
  GetRGB : CPDF_ColorSpace -> list float -> option (float * float * float);
  TranslateImageLine :
    CPDF_ColorSpace -> list Z -> list Z -> Z -> Z -> Z -> bool -> option (list Z);
  EnableStdConversion : bool -> CPDF_ColorSpace -> CPDF_ColorSpace;
  (* bitmaps and palettes *)
  CFX_DIBitmap_Create : Z -> Z -> FXDIB_Format -> option CFX_DIBitmap;
  SetPaletteArgb : FXDIB_Format -> list Z -> Z -> Z -> list Z;
  (* lazy codecs *)
  CreateFaxDecoder :
    list Z -> Z -> Z -> option CPDF_Dictionary -> option ScanlineDecoder;
  CreateFlateDecoder :
    list Z -> Z -> Z -> Z -> Z -> option CPDF_Dictionary -> option ScanlineDecoder;
  CreateRunLengthDecoder :
    list Z -> Z -> Z -> Z -> Z -> option ScanlineDecoder;
  JpegModule_CreateDecoder :
    list Z -> Z -> Z -> Z -> bool -> option ScanlineDecoder;
  JpegModule_LoadInfo : list Z -> option JpegImageInfo;
  (* JPX *)
  CJPX_Decoder_Create : list Z -> ColorSpaceOption -> option CJPX_Decoder;
  CJPX_StartDecode : CJPX_Decoder -> bool;
  CJPX_GetInfo : CJPX_Decoder -> JpxImageInfo;
  CJPX_Decode : CJPX_Decoder -> list Z -> Z -> bool -> option (list Z);
  (* JBIG2 *)
  Jbig2_NewContext : Jbig2Context;
  Jbig2_StartDecode :
    Jbig2Context -> Z -> Z -> list Z -> Z -> list Z -> Z -> list Z -> Z ->
    PauseIndicatorIface -> FXCODEC_STATUS * Jbig2Context * list Z;
  Jbig2_ContinueDecode :
    Jbig2Context -> list Z -> PauseIndicatorIface ->
    FXCODEC_STATUS * Jbig2Context * list Z;
}.


Context `{CO : Collaborators}.

(** ** The decoder object *)

(** DIB_COMP_DATA (cpdf_dib.h): per-component decode map and colour key. *)
Record DIB_COMP_DATA := mkComp {
  m_DecodeMin : float;
  m_DecodeStep : float;
  m_ColorKeyMin : Z;
  m_ColorKeyMax : Z;
}.

(** CPDF_DIB::JpxSMaskInlineData *)
Record JpxSMaskInlineData := mkInline {
  inline_width : Z;
  inline_height : Z;
  inline_data : list Z;
}.

(** The fields of CPDF_DIB and of its base CFX_DIBBase.  Owning pointers
    are options; [m_pMask] owns the soft-mask sub-decoder, itself a
    CPDF_DIB. *)
Inductive CPDF_DIB : Type := mkDIB {
  m_Width : Z;
  m_Height : Z;
  m_Pitch : Z;
  m_Format : FXDIB_Format;
  m_palette : list Z;
  m_pDict : option CPDF_Dictionary;
  m_pStream : option CPDF_Stream;
  m_pStreamAcc : option CPDF_StreamAcc;
  m_pColorSpace : option CPDF_ColorSpace;
  m_Family : Family;
  m_bpc : Z;
  m_bpc_orig : Z;
  m_nComponents : Z;
  m_GroupFamily : Family;
  m_MatteColor : Z;
  m_Status : LoadState;
  m_bLoadMask : bool;
  m_bDefaultDecode : bool;
  m_bImageMask : bool;
  m_bDoBpcCheck : bool;
  m_bColorKey : bool;
  m_bHasMask : bool;
  m_bStdCS : bool;
  m_CompData : list DIB_COMP_DATA;
  m_pLineBuf : option (list Z);
  m_pMaskedLine : option (list Z);
  m_pCachedBitmap : option CFX_DIBitmap;
  m_pMask : option CPDF_DIB;
  m_pGlobalAcc : option CPDF_StreamAcc;
  m_pDecoder : option ScanlineDecoder;
  m_JpxInlineData : JpxSMaskInlineData;
  m_pJbig2Context : option Jbig2Context;
}.

(** Field updates. *)
Definition set_m_Width (v : Z) (d : CPDF_DIB) : CPDF_DIB :=
  mkDIB v (m_Height d) (m_Pitch d) (m_Format d) (m_palette d) (m_pDict d)
    (m_pStream d) (m_pStreamAcc d) (m_pColorSpace d) (m_Family d) (m_bpc d)
    (m_bpc_orig d) (m_nComponents d) (m_GroupFamily d) (m_MatteColor d)
    (m_Status d) (m_bLoadMask d) (m_bDefaultDecode d) (m_bImageMask d)
    (m_bDoBpcCheck d) (m_bColorKey d) (m_bHasMask d) (m_bStdCS d)
    (m_CompData d) (m_pLineBuf d) (m_pMaskedLine d) (m_pCachedBitmap d)
    (m_pMask d) (m_pGlobalAcc d) (m_pDecoder d) (m_JpxInlineData d)
    (m_pJbig2Context d).
Definition set_m_Height (v : Z) (d : CPDF_DIB) : CPDF_DIB :=
  mkDIB (m_Width d) v (m_Pitch d) (m_Format d) (m_palette d) (m_pDict d)
    (m_pStream d) (m_pStreamAcc d) (m_pColorSpace d) (m_Family d) (m_bpc d)
    (m_bpc_orig d) (m_nComponents d) (m_GroupFamily d) (m_MatteColor d)
    (m_Status d) (m_bLoadMask d) (m_bDefaultDecode d) (m_bImageMask d)
    (m_bDoBpcCheck d) (m_bColorKey d) (m_bHasMask d) (m_bStdCS d)
    (m_CompData d) (m_pLineBuf d) (m_pMaskedLine d) (m_pCachedBitmap d)
    (m_pMask d) (m_pGlobalAcc d) (m_pDecoder d) (m_JpxInlineData d)
    (m_pJbig2Context d).
Definition set_m_Pitch (v : Z) (d : CPDF_DIB) : CPDF_DIB :=
  mkDIB (m_Width d) (m_Height d) v (m_Format d) (m_palette d) (m_pDict d)
    (m_pStream d) (m_pStreamAcc d) (m_pColorSpace d) (m_Family d) (m_bpc d)
    (m_bpc_orig d) (m_nComponents d) (m_GroupFamily d) (m_MatteColor d)
    (m_Status d) (m_bLoadMask d) (m_bDefaultDecode d) (m_bImageMask d)
    (m_bDoBpcCheck d) (m_bColorKey d) (m_bHasMask d) (m_bStdCS d)
    (m_CompData d) (m_pLineBuf d) (m_pMaskedLine d) (m_pCachedBitmap d)
    (m_pMask d) (m_pGlobalAcc d) (m_pDecoder d) (m_JpxInlineData d)
    (m_pJbig2Context d).
Definition set_m_Format (v : FXDIB_Format) (d : CPDF_DIB) : CPDF_DIB :=
  mkDIB (m_Width d) (m_Height d) (m_Pitch d) v (m_palette d) (m_pDict d)
    (m_pStream d) (m_pStreamAcc d) (m_pColorSpace d) (m_Family d) (m_bpc d)
    (m_bpc_orig d) (m_nComponents d) (m_GroupFamily d) (m_MatteColor d)
    (m_Status d) (m_bLoadMask d) (m_bDefaultDecode d) (m_bImageMask d)
    (m_bDoBpcCheck d) (m_bColorKey d) (m_bHasMask d) (m_bStdCS d)
    (m_CompData d) (m_pLineBuf d) (m_pMaskedLine d) (m_pCachedBitmap d)
    (m_pMask d) (m_pGlobalAcc d) (m_pDecoder d) (m_JpxInlineData d)
    (m_pJbig2Context d).
Definition set_m_palette (v : list Z) (d : CPDF_DIB) : CPDF_DIB :=
  mkDIB (m_Width d) (m_Height d) (m_Pitch d) (m_Format d) v (m_pDict d)
    (m_pStream d) (m_pStreamAcc d) (m_pColorSpace d) (m_Family d) (m_bpc d)
    (m_bpc_orig d) (m_nComponents d) (m_GroupFamily d) (m_MatteColor d)
    (m_Status d) (m_bLoadMask d) (m_bDefaultDecode d) (m_bImageMask d)
    (m_bDoBpcCheck d) (m_bColorKey d) (m_bHasMask d) (m_bStdCS d)
    (m_CompData d) (m_pLineBuf d) (m_pMaskedLine d) (m_pCachedBitmap d)
    (m_pMask d) (m_pGlobalAcc d) (m_pDecoder d) (m_JpxInlineData d)
    (m_pJbig2Context d).
Definition set_m_pDict (v : option CPDF_Dictionary) (d : CPDF_DIB) : CPDF_DIB :=
  mkDIB (m_Width d) (m_Height d) (m_Pitch d) (m_Format d) (m_palette d) v
    (m_pStream d) (m_pStreamAcc d) (m_pColorSpace d) (m_Family d) (m_bpc d)
    (m_bpc_orig d) (m_nComponents d) (m_GroupFamily d) (m_MatteColor d)
    (m_Status d) (m_bLoadMask d) (m_bDefaultDecode d) (m_bImageMask d)
    (m_bDoBpcCheck d) (m_bColorKey d) (m_bHasMask d) (m_bStdCS d)
    (m_CompData d) (m_pLineBuf d) (m_pMaskedLine d) (m_pCachedBitmap d)
    (m_pMask d) (m_pGlobalAcc d) (m_pDecoder d) (m_JpxInlineData d)
    (m_pJbig2Context d).
Definition set_m_pStream (v : option CPDF_Stream) (d : CPDF_DIB) : CPDF_DIB :=
  mkDIB (m_Width d) (m_Height d) (m_Pitch d) (m_Format d) (m_palette d)
    (m_pDict d) v (m_pStreamAcc d) (m_pColorSpace d) (m_Family d) (m_bpc d)
    (m_bpc_orig d) (m_nComponents d) (m_GroupFamily d) (m_MatteColor d)
    (m_Status d) (m_bLoadMask d) (m_bDefaultDecode d) (m_bImageMask d)
    (m_bDoBpcCheck d) (m_bColorKey d) (m_bHasMask d) (m_bStdCS d)
    (m_CompData d) (m_pLineBuf d) (m_pMaskedLine d) (m_pCachedBitmap d)
    (m_pMask d) (m_pGlobalAcc d) (m_pDecoder d) (m_JpxInlineData d)
    (m_pJbig2Context d).
Definition set_m_pStreamAcc (v : option CPDF_StreamAcc) (d : CPDF_DIB) : CPDF_DIB :=
  mkDIB (m_Width d) (m_Height d) (m_Pitch d) (m_Format d) (m_palette d)
    (m_pDict d) (m_pStream d) v (m_pColorSpace d) (m_Family d) (m_bpc d)
    (m_bpc_orig d) (m_nComponents d) (m_GroupFamily d) (m_MatteColor d)
    (m_Status d) (m_bLoadMask d) (m_bDefaultDecode d) (m_bImageMask d)
    (m_bDoBpcCheck d) (m_bColorKey d) (m_bHasMask d) (m_bStdCS d)
    (m_CompData d) (m_pLineBuf d) (m_pMaskedLine d) (m_pCachedBitmap d)
    (m_pMask d) (m_pGlobalAcc d) (m_pDecoder d) (m_JpxInlineData d)
    (m_pJbig2Context d).
Definition set_m_pColorSpace (v : option CPDF_ColorSpace) (d : CPDF_DIB) : CPDF_DIB :=
  mkDIB (m_Width d) (m_Height d) (m_Pitch d) (m_Format d) (m_palette d)
    (m_pDict d) (m_pStream d) (m_pStreamAcc d) v (m_Family d) (m_bpc d)
    (m_bpc_orig d) (m_nComponents d) (m_GroupFamily d) (m_MatteColor d)
    (m_Status d) (m_bLoadMask d) (m_bDefaultDecode d) (m_bImageMask d)
    (m_bDoBpcCheck d) (m_bColorKey d) (m_bHasMask d) (m_bStdCS d)
    (m_CompData d) (m_pLineBuf d) (m_pMaskedLine d) (m_pCachedBitmap d)
    (m_pMask d) (m_pGlobalAcc d) (m_pDecoder d) (m_JpxInlineData d)
    (m_pJbig2Context d).
Definition set_m_Family (v : Family) (d : CPDF_DIB) : CPDF_DIB :=
  mkDIB (m_Width d) (m_Height d) (m_Pitch d) (m_Format d) (m_palette d)
    (m_pDict d) (m_pStream d) (m_pStreamAcc d) (m_pColorSpace d) v (m_bpc d)
    (m_bpc_orig d) (m_nComponents d) (m_GroupFamily d) (m_MatteColor d)
    (m_Status d) (m_bLoadMask d) (m_bDefaultDecode d) (m_bImageMask d)
    (m_bDoBpcCheck d) (m_bColorKey d) (m_bHasMask d) (m_bStdCS d)
    (m_CompData d) (m_pLineBuf d) (m_pMaskedLine d) (m_pCachedBitmap d)
    (m_pMask d) (m_pGlobalAcc d) (m_pDecoder d) (m_JpxInlineData d)
    (m_pJbig2Context d).
Definition set_m_bpc (v : Z) (d : CPDF_DIB) : CPDF_DIB :=
  mkDIB (m_Width d) (m_Height d) (m_Pitch d) (m_Format d) (m_palette d)
    (m_pDict d) (m_pStream d) (m_pStreamAcc d) (m_pColorSpace d) (m_Family d)
    v (m_bpc_orig d) (m_nComponents d) (m_GroupFamily d) (m_MatteColor d)
    (m_Status d) (m_bLoadMask d) (m_bDefaultDecode d) (m_bImageMask d)
    (m_bDoBpcCheck d) (m_bColorKey d) (m_bHasMask d) (m_bStdCS d)
    (m_CompData d) (m_pLineBuf d) (m_pMaskedLine d) (m_pCachedBitmap d)
    (m_pMask d) (m_pGlobalAcc d) (m_pDecoder d) (m_JpxInlineData d)
    (m_pJbig2Context d).
Definition set_m_bpc_orig (v : Z) (d : CPDF_DIB) : CPDF_DIB :=
  mkDIB (m_Width d) (m_Height d) (m_Pitch d) (m_Format d) (m_palette d)
    (m_pDict d) (m_pStream d) (m_pStreamAcc d) (m_pColorSpace d) (m_Family d)
    (m_bpc d) v (m_nComponents d) (m_GroupFamily d) (m_MatteColor d)
    (m_Status d) (m_bLoadMask d) (m_bDefaultDecode d) (m_bImageMask d)
    (m_bDoBpcCheck d) (m_bColorKey d) (m_bHasMask d) (m_bStdCS d)
    (m_CompData d) (m_pLineBuf d) (m_pMaskedLine d) (m_pCachedBitmap d)
    (m_pMask d) (m_pGlobalAcc d) (m_pDecoder d) (m_JpxInlineData d)
    (m_pJbig2Context d).
Definition set_m_nComponents (v : Z) (d : CPDF_DIB) : CPDF_DIB :=
  mkDIB (m_Width d) (m_Height d) (m_Pitch d) (m_Format d) (m_palette d)
    (m_pDict d) (m_pStream d) (m_pStreamAcc d) (m_pColorSpace d) (m_Family d)
    (m_bpc d) (m_bpc_orig d) v (m_GroupFamily d) (m_MatteColor d) (m_Status d)
    (m_bLoadMask d) (m_bDefaultDecode d) (m_bImageMask d) (m_bDoBpcCheck d)
    (m_bColorKey d) (m_bHasMask d) (m_bStdCS d) (m_CompData d) (m_pLineBuf d)
    (m_pMaskedLine d) (m_pCachedBitmap d) (m_pMask d) (m_pGlobalAcc d)
    (m_pDecoder d) (m_JpxInlineData d) (m_pJbig2Context d).
Definition set_m_GroupFamily (v : Family) (d : CPDF_DIB) : CPDF_DIB :=
  mkDIB (m_Width d) (m_Height d) (m_Pitch d) (m_Format d) (m_palette d)
    (m_pDict d) (m_pStream d) (m_pStreamAcc d) (m_pColorSpace d) (m_Family d)
    (m_bpc d) (m_bpc_orig d) (m_nComponents d) v (m_MatteColor d) (m_Status d)
    (m_bLoadMask d) (m_bDefaultDecode d) (m_bImageMask d) (m_bDoBpcCheck d)
    (m_bColorKey d) (m_bHasMask d) (m_bStdCS d) (m_CompData d) (m_pLineBuf d)
    (m_pMaskedLine d) (m_pCachedBitmap d) (m_pMask d) (m_pGlobalAcc d)
    (m_pDecoder d) (m_JpxInlineData d) (m_pJbig2Context d).
Definition set_m_MatteColor (v : Z) (d : CPDF_DIB) : CPDF_DIB :=
  mkDIB (m_Width d) (m_Height d) (m_Pitch d) (m_Format d) (m_palette d)
    (m_pDict d) (m_pStream d) (m_pStreamAcc d) (m_pColorSpace d) (m_Family d)
    (m_bpc d) (m_bpc_orig d) (m_nComponents d) (m_GroupFamily d) v
    (m_Status d) (m_bLoadMask d) (m_bDefaultDecode d) (m_bImageMask d)
    (m_bDoBpcCheck d) (m_bColorKey d) (m_bHasMask d) (m_bStdCS d)
    (m_CompData d) (m_pLineBuf d) (m_pMaskedLine d) (m_pCachedBitmap d)
    (m_pMask d) (m_pGlobalAcc d) (m_pDecoder d) (m_JpxInlineData d)
    (m_pJbig2Context d).
Definition set_m_Status (v : LoadState) (d : CPDF_DIB) : CPDF_DIB :=
  mkDIB (m_Width d) (m_Height d) (m_Pitch d) (m_Format d) (m_palette d)
    (m_pDict d) (m_pStream d) (m_pStreamAcc d) (m_pColorSpace d) (m_Family d)
    (m_bpc d) (m_bpc_orig d) (m_nComponents d) (m_GroupFamily d)
    (m_MatteColor d) v (m_bLoadMask d) (m_bDefaultDecode d) (m_bImageMask d)
    (m_bDoBpcCheck d) (m_bColorKey d) (m_bHasMask d) (m_bStdCS d)
    (m_CompData d) (m_pLineBuf d) (m_pMaskedLine d) (m_pCachedBitmap d)
    (m_pMask d) (m_pGlobalAcc d) (m_pDecoder d) (m_JpxInlineData d)
    (m_pJbig2Context d).
Definition set_m_bLoadMask (v : bool) (d : CPDF_DIB) : CPDF_DIB :=
  mkDIB (m_Width d) (m_Height d) (m_Pitch d) (m_Format d) (m_palette d)
    (m_pDict d) (m_pStream d) (m_pStreamAcc d) (m_pColorSpace d) (m_Family d)
    (m_bpc d) (m_bpc_orig d) (m_nComponents d) (m_GroupFamily d)
    (m_MatteColor d) (m_Status d) v (m_bDefaultDecode d) (m_bImageMask d)
    (m_bDoBpcCheck d) (m_bColorKey d) (m_bHasMask d) (m_bStdCS d)
    (m_CompData d) (m_pLineBuf d) (m_pMaskedLine d) (m_pCachedBitmap d)
    (m_pMask d) (m_pGlobalAcc d) (m_pDecoder d) (m_JpxInlineData d)
    (m_pJbig2Context d).
Definition set_m_bDefaultDecode (v : bool) (d : CPDF_DIB) : CPDF_DIB :=
  mkDIB (m_Width d) (m_Height d) (m_Pitch d) (m_Format d) (m_palette d)
    (m_pDict d) (m_pStream d) (m_pStreamAcc d) (m_pColorSpace d) (m_Family d)
    (m_bpc d) (m_bpc_orig d) (m_nComponents d) (m_GroupFamily d)
    (m_MatteColor d) (m_Status d) (m_bLoadMask d) v (m_bImageMask d)
    (m_bDoBpcCheck d) (m_bColorKey d) (m_bHasMask d) (m_bStdCS d)
    (m_CompData d) (m_pLineBuf d) (m_pMaskedLine d) (m_pCachedBitmap d)
    (m_pMask d) (m_pGlobalAcc d) (m_pDecoder d) (m_JpxInlineData d)
    (m_pJbig2Context d).
Definition set_m_bImageMask (v : bool) (d : CPDF_DIB) : CPDF_DIB :=
  mkDIB (m_Width d) (m_Height d) (m_Pitch d) (m_Format d) (m_palette d)
    (m_pDict d) (m_pStream d) (m_pStreamAcc d) (m_pColorSpace d) (m_Family d)
    (m_bpc d) (m_bpc_orig d) (m_nComponents d) (m_GroupFamily d)
    (m_MatteColor d) (m_Status d) (m_bLoadMask d) (m_bDefaultDecode d) v
    (m_bDoBpcCheck d) (m_bColorKey d) (m_bHasMask d) (m_bStdCS d)
    (m_CompData d) (m_pLineBuf d) (m_pMaskedLine d) (m_pCachedBitmap d)
    (m_pMask d) (m_pGlobalAcc d) (m_pDecoder d) (m_JpxInlineData d)
    (m_pJbig2Context d).
Definition set_m_bDoBpcCheck (v : bool) (d : CPDF_DIB) : CPDF_DIB :=
  mkDIB (m_Width d) (m_Height d) (m_Pitch d) (m_Format d) (m_palette d)
    (m_pDict d) (m_pStream d) (m_pStreamAcc d) (m_pColorSpace d) (m_Family d)
    (m_bpc d) (m_bpc_orig d) (m_nComponents d) (m_GroupFamily d)
    (m_MatteColor d) (m_Status d) (m_bLoadMask d) (m_bDefaultDecode d)
    (m_bImageMask d) v (m_bColorKey d) (m_bHasMask d) (m_bStdCS d)
    (m_CompData d) (m_pLineBuf d) (m_pMaskedLine d) (m_pCachedBitmap d)
    (m_pMask d) (m_pGlobalAcc d) (m_pDecoder d) (m_JpxInlineData d)
    (m_pJbig2Context d).
Definition set_m_bColorKey (v : bool) (d : CPDF_DIB) : CPDF_DIB :=
  mkDIB (m_Width d) (m_Height d) (m_Pitch d) (m_Format d) (m_palette d)
    (m_pDict d) (m_pStream d) (m_pStreamAcc d) (m_pColorSpace d) (m_Family d)
    (m_bpc d) (m_bpc_orig d) (m_nComponents d) (m_GroupFamily d)
    (m_MatteColor d) (m_Status d) (m_bLoadMask d) (m_bDefaultDecode d)
    (m_bImageMask d) (m_bDoBpcCheck d) v (m_bHasMask d) (m_bStdCS d)
    (m_CompData d) (m_pLineBuf d) (m_pMaskedLine d) (m_pCachedBitmap d)
    (m_pMask d) (m_pGlobalAcc d) (m_pDecoder d) (m_JpxInlineData d)
    (m_pJbig2Context d).
Definition set_m_bHasMask (v : bool) (d : CPDF_DIB) : CPDF_DIB :=
  mkDIB (m_Width d) (m_Height d) (m_Pitch d) (m_Format d) (m_palette d)
    (m_pDict d) (m_pStream d) (m_pStreamAcc d) (m_pColorSpace d) (m_Family d)
    (m_bpc d) (m_bpc_orig d) (m_nComponents d) (m_GroupFamily d)
    (m_MatteColor d) (m_Status d) (m_bLoadMask d) (m_bDefaultDecode d)
    (m_bImageMask d) (m_bDoBpcCheck d) (m_bColorKey d) v (m_bStdCS d)
    (m_CompData d) (m_pLineBuf d) (m_pMaskedLine d) (m_pCachedBitmap d)
    (m_pMask d) (m_pGlobalAcc d) (m_pDecoder d) (m_JpxInlineData d)
    (m_pJbig2Context d).
Definition set_m_bStdCS (v : bool) (d : CPDF_DIB) : CPDF_DIB :=
  mkDIB (m_Width d) (m_Height d) (m_Pitch d) (m_Format d) (m_palette d)
    (m_pDict d) (m_pStream d) (m_pStreamAcc d) (m_pColorSpace d) (m_Family d)
    (m_bpc d) (m_bpc_orig d) (m_nComponents d) (m_GroupFamily d)
    (m_MatteColor d) (m_Status d) (m_bLoadMask d) (m_bDefaultDecode d)
    (m_bImageMask d) (m_bDoBpcCheck d) (m_bColorKey d) (m_bHasMask d) v
    (m_CompData d) (m_pLineBuf d) (m_pMaskedLine d) (m_pCachedBitmap d)
    (m_pMask d) (m_pGlobalAcc d) (m_pDecoder d) (m_JpxInlineData d)
    (m_pJbig2Context d).
Definition set_m_CompData (v : list DIB_COMP_DATA) (d : CPDF_DIB) : CPDF_DIB :=
  mkDIB (m_Width d) (m_Height d) (m_Pitch d) (m_Format d) (m_palette d)
    (m_pDict d) (m_pStream d) (m_pStreamAcc d) (m_pColorSpace d) (m_Family d)
    (m_bpc d) (m_bpc_orig d) (m_nComponents d) (m_GroupFamily d)
    (m_MatteColor d) (m_Status d) (m_bLoadMask d) (m_bDefaultDecode d)
    (m_bImageMask d) (m_bDoBpcCheck d) (m_bColorKey d) (m_bHasMask d)
    (m_bStdCS d) v (m_pLineBuf d) (m_pMaskedLine d) (m_pCachedBitmap d)
    (m_pMask d) (m_pGlobalAcc d) (m_pDecoder d) (m_JpxInlineData d)
    (m_pJbig2Context d).
Definition set_m_pLineBuf (v : option (list Z)) (d : CPDF_DIB) : CPDF_DIB :=
  mkDIB (m_Width d) (m_Height d) (m_Pitch d) (m_Format d) (m_palette d)
    (m_pDict d) (m_pStream d) (m_pStreamAcc d) (m_pColorSpace d) (m_Family d)
    (m_bpc d) (m_bpc_orig d) (m_nComponents d) (m_GroupFamily d)
    (m_MatteColor d) (m_Status d) (m_bLoadMask d) (m_bDefaultDecode d)
    (m_bImageMask d) (m_bDoBpcCheck d) (m_bColorKey d) (m_bHasMask d)
    (m_bStdCS d) (m_CompData d) v (m_pMaskedLine d) (m_pCachedBitmap d)
    (m_pMask d) (m_pGlobalAcc d) (m_pDecoder d) (m_JpxInlineData d)
    (m_pJbig2Context d).
Definition set_m_pMaskedLine (v : option (list Z)) (d : CPDF_DIB) : CPDF_DIB :=
  mkDIB (m_Width d) (m_Height d) (m_Pitch d) (m_Format d) (m_palette d)
    (m_pDict d) (m_pStream d) (m_pStreamAcc d) (m_pColorSpace d) (m_Family d)
    (m_bpc d) (m_bpc_orig d) (m_nComponents d) (m_GroupFamily d)
    (m_MatteColor d) (m_Status d) (m_bLoadMask d) (m_bDefaultDecode d)
    (m_bImageMask d) (m_bDoBpcCheck d) (m_bColorKey d) (m_bHasMask d)
    (m_bStdCS d) (m_CompData d) (m_pLineBuf d) v (m_pCachedBitmap d)
    (m_pMask d) (m_pGlobalAcc d) (m_pDecoder d) (m_JpxInlineData d)
    (m_pJbig2Context d).
Definition set_m_pCachedBitmap (v : option CFX_DIBitmap) (d : CPDF_DIB) : CPDF_DIB :=
  mkDIB (m_Width d) (m_Height d) (m_Pitch d) (m_Format d) (m_palette d)
    (m_pDict d) (m_pStream d) (m_pStreamAcc d) (m_pColorSpace d) (m_Family d)
    (m_bpc d) (m_bpc_orig d) (m_nComponents d) (m_GroupFamily d)
    (m_MatteColor d) (m_Status d) (m_bLoadMask d) (m_bDefaultDecode d)
    (m_bImageMask d) (m_bDoBpcCheck d) (m_bColorKey d) (m_bHasMask d)
    (m_bStdCS d) (m_CompData d) (m_pLineBuf d) (m_pMaskedLine d) v (m_pMask d)
    (m_pGlobalAcc d) (m_pDecoder d) (m_JpxInlineData d) (m_pJbig2Context d).
Definition set_m_pMask (v : option CPDF_DIB) (d : CPDF_DIB) : CPDF_DIB :=
  mkDIB (m_Width d) (m_Height d) (m_Pitch d) (m_Format d) (m_palette d)
    (m_pDict d) (m_pStream d) (m_pStreamAcc d) (m_pColorSpace d) (m_Family d)
    (m_bpc d) (m_bpc_orig d) (m_nComponents d) (m_GroupFamily d)
    (m_MatteColor d) (m_Status d) (m_bLoadMask d) (m_bDefaultDecode d)
    (m_bImageMask d) (m_bDoBpcCheck d) (m_bColorKey d) (m_bHasMask d)
    (m_bStdCS d) (m_CompData d) (m_pLineBuf d) (m_pMaskedLine d)
    (m_pCachedBitmap d) v (m_pGlobalAcc d) (m_pDecoder d) (m_JpxInlineData d)
    (m_pJbig2Context d).
Definition set_m_pGlobalAcc (v : option CPDF_StreamAcc) (d : CPDF_DIB) : CPDF_DIB :=
  mkDIB (m_Width d) (m_Height d) (m_Pitch d) (m_Format d) (m_palette d)
    (m_pDict d) (m_pStream d) (m_pStreamAcc d) (m_pColorSpace d) (m_Family d)
    (m_bpc d) (m_bpc_orig d) (m_nComponents d) (m_GroupFamily d)
    (m_MatteColor d) (m_Status d) (m_bLoadMask d) (m_bDefaultDecode d)
    (m_bImageMask d) (m_bDoBpcCheck d) (m_bColorKey d) (m_bHasMask d)
    (m_bStdCS d) (m_CompData d) (m_pLineBuf d) (m_pMaskedLine d)
    (m_pCachedBitmap d) (m_pMask d) v (m_pDecoder d) (m_JpxInlineData d)
    (m_pJbig2Context d).
Definition set_m_pDecoder (v : option ScanlineDecoder) (d : CPDF_DIB) : CPDF_DIB :=
  mkDIB (m_Width d) (m_Height d) (m_Pitch d) (m_Format d) (m_palette d)
    (m_pDict d) (m_pStream d) (m_pStreamAcc d) (m_pColorSpace d) (m_Family d)
    (m_bpc d) (m_bpc_orig d) (m_nComponents d) (m_GroupFamily d)
    (m_MatteColor d) (m_Status d) (m_bLoadMask d) (m_bDefaultDecode d)
    (m_bImageMask d) (m_bDoBpcCheck d) (m_bColorKey d) (m_bHasMask d)
    (m_bStdCS d) (m_CompData d) (m_pLineBuf d) (m_pMaskedLine d)
    (m_pCachedBitmap d) (m_pMask d) (m_pGlobalAcc d) v (m_JpxInlineData d)
    (m_pJbig2Context d).
Definition set_m_JpxInlineData (v : JpxSMaskInlineData) (d : CPDF_DIB) : CPDF_DIB :=
  mkDIB (m_Width d) (m_Height d) (m_Pitch d) (m_Format d) (m_palette d)
    (m_pDict d) (m_pStream d) (m_pStreamAcc d) (m_pColorSpace d) (m_Family d)
    (m_bpc d) (m_bpc_orig d) (m_nComponents d) (m_GroupFamily d)
    (m_MatteColor d) (m_Status d) (m_bLoadMask d) (m_bDefaultDecode d)
    (m_bImageMask d) (m_bDoBpcCheck d) (m_bColorKey d) (m_bHasMask d)
    (m_bStdCS d) (m_CompData d) (m_pLineBuf d) (m_pMaskedLine d)
    (m_pCachedBitmap d) (m_pMask d) (m_pGlobalAcc d) (m_pDecoder d) v
    (m_pJbig2Context d).
Definition set_m_pJbig2Context (v : option Jbig2Context) (d : CPDF_DIB) : CPDF_DIB :=
  mkDIB (m_Width d) (m_Height d) (m_Pitch d) (m_Format d) (m_palette d)
    (m_pDict d) (m_pStream d) (m_pStreamAcc d) (m_pColorSpace d) (m_Family d)
    (m_bpc d) (m_bpc_orig d) (m_nComponents d) (m_GroupFamily d)
    (m_MatteColor d) (m_Status d) (m_bLoadMask d) (m_bDefaultDecode d)
    (m_bImageMask d) (m_bDoBpcCheck d) (m_bColorKey d) (m_bHasMask d)
    (m_bStdCS d) (m_CompData d) (m_pLineBuf d) (m_pMaskedLine d)
    (m_pCachedBitmap d) (m_pMask d) (m_pGlobalAcc d) (m_pDecoder d)
    (m_JpxInlineData d) v.

(** The object after [CPDF_DIB::CPDF_DIB() = default]: the in-class
    initialisers of cpdf_dib.h. *)
Definition new_CPDF_DIB : CPDF_DIB :=
  {| m_Width := 0; m_Height := 0; m_Pitch := 0; m_Format := kInvalid;
     m_palette := []; m_pDict := None; m_pStream := None;
     m_pStreamAcc := None; m_pColorSpace := None; m_Family := kUnknown;
     m_bpc := 0; m_bpc_orig := 0; m_nComponents := 0;
     m_GroupFamily := kUnknown; m_MatteColor := 0; m_Status := kFail;
     m_bLoadMask := false; m_bDefaultDecode := true; m_bImageMask := false;
     m_bDoBpcCheck := true; m_bColorKey := false; m_bHasMask := false;
     m_bStdCS := false; m_CompData := []; m_pLineBuf := None;
     m_pMaskedLine := None; m_pCachedBitmap := None; m_pMask := None;
     m_pGlobalAcc := None; m_pDecoder := None;
     m_JpxInlineData := mkInline 0 0 []; m_pJbig2Context := None |}.

(** ** The state monad of member functions

    A member function reads and writes the object; [None] is undefined
    behaviour. *)

Definition M (A : Type) : Type := CPDF_DIB -> option (A * CPDF_DIB).

Definition retM {A} (a : A) : M A := fun d => Some (a, d).

Definition bindM {A B} (m : M A) (k : A -> M B) : M B :=
  fun d => match m d with
           | Some (a, d') => k a d'
           | None => None
           end.

Definition gets {A} (f : CPDF_DIB -> A) : M A := fun d => Some (f d, d).

Definition modify (f : CPDF_DIB -> CPDF_DIB) : M unit := fun d => Some (tt, f d).

Definition undefined {A} : M A := fun _ => None.

(** Dereference of a pointer that must not be null. *)
Definition deref {A} (o : option A) : M A :=
  match o with Some a => retM a | None => undefined end.

End Model.

Declare Scope dib_scope.
Delimit Scope dib_scope with dib.
Notation "x <~ m ;; k" := (bindM m (fun x => k))
  (at level 100, m at next level, right associativity) : dib_scope.
Notation "m ;;; k" := (bindM m (fun _ => k))
  (at level 100, right associativity) : dib_scope.
Open Scope dib_scope.
Abbreviation CPDF_Dictionary := (gmap string CPDF_Object).
Abbreviation CPDF_Array := (list CPDF_Object).
Abbreviation DecoderArray := (list (string * option CPDF_Dictionary)).

(** ** Memory: byte buffers and pointers into them *)

(** A [const uint8_t*]: a buffer and an offset into it. *)
Record BytePtr := mkPtr { ptr_base : list Z; ptr_off : Z }.

Definition ptr_of (buf : list Z) : BytePtr := mkPtr buf 0.

Definition ptr_add (p : BytePtr) (n : Z) : BytePtr :=
  mkPtr (ptr_base p) (ptr_off p + n).

(** [p[i]]; reading outside the buffer is undefined. *)
Definition ptr_read (p : BytePtr) (i : Z) : option Z :=
  if bool_decide (0 <= ptr_off p + i) then ptr_base p !! Z.to_nat (ptr_off p + i)
  else None.

(** The [n] bytes at [p]. *)
Definition ptr_bytes (p : BytePtr) (n : Z) : option (list Z) :=
  mapM (fun i : nat => ptr_read p (Z.of_nat i)) (seq 0 (Z.to_nat n)).

(** [buf[i] = v] with [v] converted to [uint8_t]. *)
Definition buf_write (buf : list Z) (i v : Z) : option (list Z) :=
  if bool_decide (0 <= i < Z.of_nat (length buf))
  then Some (<[Z.to_nat i := u8 v]> buf) else None.

Definition memset (buf : list Z) (v n : Z) : option (list Z) :=
  if bool_decide (0 <= n <= Z.of_nat (length buf))
  then Some (replicate (Z.to_nat n) (u8 v) ++ drop (Z.to_nat n) buf) else None.

Definition memcpy (dst : list Z) (src : BytePtr) (n : Z) : option (list Z) :=
  bytes ← ptr_bytes src n;
  if bool_decide (0 <= n <= Z.of_nat (length dst))
  then Some (bytes ++ drop (Z.to_nat n) dst) else None.

(** [FX_Alloc(uint8_t, n)]: a zeroed buffer. *)
Definition FX_Alloc (n : Z) : list Z := replicate (Z.to_nat n) 0.

(** [for (i = start; ...; ++i)] run [n] times over a state [St];
    the body may be undefined. *)
Fixpoint for_loop {St : Type} (n : nat) (i : Z) (body : Z -> St -> option St)
    (s : St) : option St :=
  match n with
  | O => Some s
  | S n' => s' ← body i s; for_loop n' (i + 1) body s'
  end.

(** ** The helpers of the anonymous namespace *)

Definition kMaxImageDimension : Z := 131071.   (* 0x01FFFF *)

Definition IsValidDimension (value : Z) : bool :=
  bool_decide (0 < value) && bool_decide (value <= kMaxImageDimension).

Definition GetBits8 (pData : BytePtr) (bitpos nbits : Z) : option Z :=
  byte ← ptr_read pData (bitpos / 8);
  if bool_decide (nbits = 8) then Some byte
  else if bool_decide (nbits = 16) then
    next ← ptr_read pData (bitpos / 8 + 1);
    Some (wrap32 (byte * 256 + next))
  else
    let shift := wrap64 (8 - nbits - bitpos mod 8) in
    if bool_decide (shift < 32) && bool_decide (0 <= nbits < 31)
    then Some (Z.land (Z.shiftr byte shift) (Z.shiftl 1 nbits - 1))
    else None.

Definition GetBitValue (pSrc : BytePtr) (pos : Z) : option bool :=
  byte ← ptr_read pSrc (pos / 8);
  Some (negb (Z.land byte (Z.shiftl 1 (7 - pos mod 8)) =? 0)).

Definition IsMaybeValidBitsPerComponent (bpc : Z) : bool :=
  bool_decide (0 <= bpc) && bool_decide (bpc <= 16).

Definition IsAllowedBitsPerComponent (bpc : Z) : bool :=
  bool_decide (bpc = 1) || bool_decide (bpc = 2) || bool_decide (bpc = 4)
  || bool_decide (bpc = 8) || bool_decide (bpc = 16).

Definition CalculateBitsPerPixel (bpc comps : Z) : Z :=
  let bpp := wrap32 (bpc * comps) in
  if bool_decide (bpp = 1) then 1
  else if bool_decide (bpp <= 8) then 8
  else 24.

Section Helpers.
Context `{FA : FloatArith} `{CO : !Collaborators}.

Definition IsColorIndexOutOfBounds (index : Z) (comp_datum : DIB_COMP_DATA)
  : bool :=
  bool_decide (index < m_ColorKeyMin comp_datum)
  || bool_decide (index > m_ColorKeyMax comp_datum).

(** The loop of AreColorIndicesOutOfBounds from index [i], [n] rounds left;
    it returns at the first component found out of bounds. *)
Fixpoint AreColorIndicesOutOfBounds_from (indices : BytePtr)
    (comp_data : list DIB_COMP_DATA) (i : Z) (n : nat) : option bool :=
  match n with
  | O => Some false
  | S n' =>
      index ← ptr_read indices i;
      datum ← comp_data !! Z.to_nat i;
      if IsColorIndexOutOfBounds index datum then Some true
      else AreColorIndicesOutOfBounds_from indices comp_data (i + 1) n'
  end.

Definition AreColorIndicesOutOfBounds (indices : BytePtr)
    (comp_data : list DIB_COMP_DATA) (count : Z) : option bool :=
  AreColorIndicesOutOfBounds_from indices comp_data 0 (Z.to_nat count).

Definition ColorSpaceOptionFromColorSpace (pCS : option CPDF_ColorSpace)
  : ColorSpaceOption :=
  match pCS with
  | None => kNoColorSpace
  | Some cs =>
      if decide (cs_family cs = kIndexed) then kIndexedColorSpace
      else kNormalColorSpace
  end.

(** Pointer comparison of two colour-space objects. *)
Definition same_colorspace (a b : CPDF_ColorSpace) : bool :=
  bool_decide (cs_ident a = cs_ident b).

Definition GetJpxDecodeAction (jpx_info : JpxImageInfo)
    (pdf_colorspace : option CPDF_ColorSpace) : JpxDecodeAction.t :=
  match pdf_colorspace with
  | Some cs =>
      if bool_decide (jpx_components jpx_info ≠ cs_components cs) then
        if bool_decide (cs_components cs = 3)
           && bool_decide (jpx_components jpx_info = 4)
           && bool_decide (jpx_colorspace jpx_info = OPJ_CLRSPC_SRGB)
        then JpxDecodeAction.kConvertArgbToRgb
        else JpxDecodeAction.kFail
      else if same_colorspace cs (GetStockCS kDeviceRGB)
      then JpxDecodeAction.kUseRgb
      else JpxDecodeAction.kDoNothing
  | None =>
      if bool_decide (jpx_components jpx_info = 3)
      then JpxDecodeAction.kUseRgb
      else if bool_decide (jpx_components jpx_info = 4)
      then JpxDecodeAction.kUseCmyk
      else JpxDecodeAction.kDoNothing
  end.

(** Modelled from the spec: CPDF_Image::IsValidJpegComponent and
    IsValidJpegBitsPerComponent are in cpdf_image.cpp, not among the
    sources.  Section 4.4: num_components in {1,3,4}, bits_per_components
    in {8}. *)
Definition IsValidJpegComponent (comps : Z) : bool :=
  bool_decide (comps = 1) || bool_decide (comps = 3) || bool_decide (comps = 4).

Definition IsValidJpegBitsPerComponent (bpc : Z) : bool :=
  bool_decide (bpc = 8).

(** Modelled from the spec: the ARGB packing of fx_dib.h, not among the
    sources.  Section 4.9 writes it ARGB(a, r, g, b); each channel is one
    byte, alpha in the top byte. *)
Definition ArgbEncode (a r g b : Z) : Z :=
  Z.lor (Z.lor (Z.lor (Z.shiftl (u8 a) 24) (Z.shiftl (u8 r) 16))
               (Z.shiftl (u8 g) 8)) (u8 b).

Definition FXARGB_B (argb : Z) : Z := u8 argb.
Definition FXARGB_G (argb : Z) : Z := u8 (Z.shiftr argb 8).
Definition FXARGB_R (argb : Z) : Z := u8 (Z.shiftr argb 16).

(** CFX_DIBitmap::GetScanline and GetWritableScanline (fxge, not among the
    sources): the address of row [line] in the pixel buffer. *)
Definition CFX_GetScanline (bm : CFX_DIBitmap) (line : Z) : BytePtr :=
  mkPtr (bm_buffer bm) (line * bm_pitch bm).

End Helpers.

Section Loading.
Context `{FA : FloatArith} `{CO : !Collaborators}.

(** Conversion of a [uint32_t] to [int]. *)
Definition as_int32 (z : Z) : Z := (z + 2147483648) mod 4294967296 - 2147483648.

(** ** Interpreting the image dictionary *)

Definition ValidateDictParam (filter : string) : M unit :=
  bpc_orig <~ gets m_bpc_orig ;;
  modify (set_m_bpc bpc_orig) ;;;
  if bool_decide (filter = "JPXDecode") then
    modify (set_m_bDoBpcCheck false)
  else
    (if bool_decide (filter = "CCITTFaxDecode")
        || bool_decide (filter = "JBIG2Decode") then
       modify (set_m_bpc 1) ;;; modify (set_m_nComponents 1)
     else if bool_decide (filter = "DCTDecode") then
       modify (set_m_bpc 8)
     else retM tt) ;;;
    bpc <~ gets m_bpc ;;
    if IsAllowedBitsPerComponent (as_int32 bpc) then retM tt
    else modify (set_m_bpc 0).

(** [std::vector::resize] on m_CompData: value-initialised entries. *)
Definition default_comp : DIB_COMP_DATA := mkComp f_zero f_zero 0 0.

(** One round of the first loop of GetDecodeAndMaskArray when a Decode
    array is present: the entry for component [i], and whether it departs
    from the colour space's default. *)
Definition decode_entry (cs : CPDF_ColorSpace) (family : Family)
    (pDecode : CPDF_Array) (max_data : Z) (i : Z) (old : DIB_COMP_DATA)
  : DIB_COMP_DATA * bool :=
  let dmin := GetNumberAt pDecode (i * 2) in
  let max := GetNumberAt pDecode (i * 2 + 1) in
  let step := f_div (f_sub max dmin) (f_of_int max_data) in
  let '(_, def_min, def_max0) := GetDefaultValue cs i in
  let def_max :=
    if decide (family = kIndexed) then f_of_int max_data else def_max0 in
  (mkComp dmin step (m_ColorKeyMin old) (m_ColorKeyMax old),
   negb (f_eqb def_min dmin) || negb (f_eqb def_max max)).

(** The same round when the Decode array is absent. *)
Definition default_entry (cs : CPDF_ColorSpace) (family : Family)
    (max_data : Z) (i : Z) (old : DIB_COMP_DATA) : DIB_COMP_DATA :=
  let '(_, dmin, dmax) := GetDefaultValue cs i in
  let step0 := if decide (family = kIndexed) then f_of_int max_data else dmax in
  mkComp dmin (f_div (f_sub step0 dmin) (f_of_int max_data))
         (m_ColorKeyMin old) (m_ColorKeyMax old).

(** One round of the colour-key loop: the clamped key range. *)
Definition color_key_entry (pArray : CPDF_Array) (max_data : Z) (i : Z)
    (old : DIB_COMP_DATA) : DIB_COMP_DATA :=
  let min_num := GetIntegerAt pArray (i * 2) in
  let max_num := GetIntegerAt pArray (i * 2 + 1) in
  mkComp (m_DecodeMin old) (m_DecodeStep old)
         (Z.max min_num 0) (Z.min max_num max_data).

Definition zimap {A B} (f : Z -> A -> B) (l : list A) : list B :=
  imap (fun i => f (Z.of_nat i)) l.

Definition GetDecodeAndMaskArray : M bool :=
  pCS <~ gets m_pColorSpace ;;
  match pCS with
  | None => retM false
  | Some cs =>
      n <~ gets m_nComponents ;;
      old <~ gets m_CompData ;;
      let resized := resize (Z.to_nat n) default_comp old in
      bpc <~ gets m_bpc ;;
      let max_data := Z.shiftl 1 bpc - 1 in
      dict <~ bindM (gets m_pDict) deref ;;
      family <~ gets m_Family ;;
      (match GetArrayFor dict "Decode" with
       | Some pDecode =>
           let entries := zimap (decode_entry cs family pDecode max_data) resized in
           modify (set_m_CompData (fst <$> entries)) ;;;
           if existsb snd entries then modify (set_m_bDefaultDecode false)
           else retM tt
       | None =>
           modify (set_m_CompData
                     (zimap (default_entry cs family max_data) resized))
       end) ;;;
      if KeyExist dict "SMask" then retM true
      else
        match GetDirectObjectFor dict "Mask" with
        | None => retM true
        | Some pMask =>
            match ToArray pMask with
            | Some pArray =>
                comps <~ gets m_CompData ;;
                (if bool_decide (Z.of_nat (length pArray) >= wrap32 (n * 2))
                 then modify (set_m_CompData
                                (zimap (color_key_entry pArray max_data) comps))
                 else retM tt) ;;;
                modify (set_m_bColorKey true) ;;;
                retM true
            | None => retM true
            end
        end
  end.

(** The name of the last filter of the chain, or the empty string. *)
Definition last_filter (decoder_array : DecoderArray) : string :=
  from_option fst "" (last decoder_array).

Definition LoadColorInfo (pFormResources pPageResources : option CPDF_Dictionary)
  : M bool :=
  dict <~ bindM (gets m_pDict) deref ;;
  match GetDecoderArray dict with
  | None => retM false
  | Some decoder_array =>
      modify (set_m_bpc_orig (wrap32 (GetIntegerFor dict "BitsPerComponent"))) ;;;
      bpc_orig <~ gets m_bpc_orig ;;
      if negb (IsMaybeValidBitsPerComponent (as_int32 bpc_orig)) then retM false
      else
        (if bool_decide (GetIntegerFor dict "ImageMask" ≠ 0)
         then modify (set_m_bImageMask true) else retM tt) ;;;
        bImageMask <~ gets m_bImageMask ;;
        if bImageMask || negb (KeyExist dict "ColorSpace") then
          if negb bImageMask
             && negb (bool_decide (decoder_array = []))
             && bool_decide (last_filter decoder_array = "JPXDecode")
          then modify (set_m_bDoBpcCheck false) ;;; retM true
          else
            modify (set_m_bImageMask true) ;;;
            modify (set_m_nComponents 1) ;;;
            modify (set_m_bpc 1) ;;;
            let pDecode := GetArrayFor dict "Decode" in
            modify (set_m_bDefaultDecode
                      (match pDecode with
                       | None => true
                       | Some arr => bool_decide (GetIntegerAt arr 0 = 0)
                       end)) ;;;
            retM true
        else
          match GetDirectObjectFor dict "ColorSpace" with
          | None => retM false
          | Some pCSObj =>
              (match pFormResources with
               | Some _ =>
                   modify (set_m_pColorSpace (GetColorSpace pCSObj pFormResources))
               | None => retM tt
               end) ;;;
              cs0 <~ gets m_pColorSpace ;;
              (if bool_decide (cs0 = None)
               then modify (set_m_pColorSpace (GetColorSpace pCSObj pPageResources))
               else retM tt) ;;;
              cs1 <~ gets m_pColorSpace ;;
              match cs1 with
              | None => retM false
              | Some cs =>
                  modify (set_m_nComponents (cs_components cs)) ;;;
                  modify (set_m_Family (cs_family cs)) ;;;
                  (if bool_decide (cs_family cs = kICCBased) && IsName pCSObj then
                     let name := GetString pCSObj in
                     if bool_decide (name = "DeviceGray") then
                       modify (set_m_nComponents 1)
                     else if bool_decide (name = "DeviceRGB") then
                       modify (set_m_nComponents 3)
                     else if bool_decide (name = "DeviceCMYK") then
                       modify (set_m_nComponents 4)
                     else retM tt
                   else retM tt) ;;;
                  ValidateDictParam (last_filter decoder_array) ;;;
                  GetDecodeAndMaskArray
              end
          end
  end.

(** ** Decoder construction *)

Definition CreateDCTDecoder (src_span : list Z)
    (pParams : option CPDF_Dictionary) : M bool :=
  w <~ gets m_Width ;;
  h <~ gets m_Height ;;
  n <~ gets m_nComponents ;;
  let transform :=
    match pParams with
    | None => true
    | Some p => bool_decide (GetIntegerFor_default p "ColorTransform" 1 ≠ 0)
    end in
  modify (set_m_pDecoder (JpegModule_CreateDecoder src_span w h n transform)) ;;;
  dec <~ gets m_pDecoder ;;
  if bool_decide (is_Some dec) then retM true
  else
    match JpegModule_LoadInfo src_span with
    | None => retM false
    | Some info =>
        modify (set_m_Width (jpeg_width info)) ;;;
        modify (set_m_Height (jpeg_height info)) ;;;
        if negb (IsValidJpegComponent (num_components info))
           || negb (IsValidJpegBitsPerComponent (bits_per_components info))
        then retM false
        else if bool_decide (n = wrap32 (num_components info)) then
          modify (set_m_bpc (bits_per_components info)) ;;;
          modify (set_m_pDecoder
                    (JpegModule_CreateDecoder src_span (jpeg_width info)
                       (jpeg_height info) n (color_transform info))) ;;;
          retM true
        else
          let n' := wrap32 (num_components info) in
          modify (set_m_nComponents n') ;;;
          modify (set_m_CompData []) ;;;
          pCS <~ gets m_pColorSpace ;;
          family <~ gets m_Family ;;
          let family_ok :=
            match pCS with
            | Some cs =>
                let colorspace_comps := cs_components cs in
                match family with
                | kDeviceGray | kDeviceRGB | kDeviceCMYK =>
                    let dwMinComps := ComponentsForFamily family in
                    negb (bool_decide (colorspace_comps < dwMinComps)
                          || bool_decide (n' < dwMinComps))
                | kLab =>
                    negb (bool_decide (n' ≠ 3)
                          || bool_decide (colorspace_comps < 3))
                | kICCBased =>
                    negb (negb (IsValidIccComponents colorspace_comps)
                          || negb (IsValidIccComponents n')
                          || bool_decide (colorspace_comps < n'))
                | _ => negb (bool_decide (colorspace_comps ≠ n'))
                end
            | None =>
                negb (bool_decide (family = kLab) && bool_decide (n' ≠ 3))
            end in
          if negb family_ok then retM false
          else
            ok <~ GetDecodeAndMaskArray ;;
            if negb ok then retM false
            else
              modify (set_m_bpc (bits_per_components info)) ;;;
              modify (set_m_pDecoder
                        (JpegModule_CreateDecoder src_span (jpeg_width info)
                           (jpeg_height info) n' (color_transform info))) ;;;
              retM true
    end.

(** The bitmap format LoadJpxBitmap picks for a component count, and the
    width it allocates (rewritten for five components and more). *)
Definition jpx_bitmap_format (info : JpxImageInfo) : FXDIB_Format * Z :=
  if bool_decide (jpx_components info = 1) then (k8bppRgb, jpx_width info)
  else if bool_decide (jpx_components info <= 3) then (kRgb, jpx_width info)
  else if bool_decide (jpx_components info = 4) then (kRgb32, jpx_width info)
  else (kRgb, wrap32 (wrap32 (jpx_width info * jpx_components info) + 2) / 3).

(** One pixel of the ARGB flattening with SMaskInData: the alpha byte goes
    to the inline mask, the colour is blended against white. *)
Definition jpx_blend_pixel (src dest : BytePtr) (st : list Z * list Z)
  : option (list Z * list Z) :=
  let '(rgb, alpha) := st in
  a ← ptr_read src 3;
  s0 ← ptr_read src 0;
  s1 ← ptr_read src 1;
  s2 ← ptr_read src 2;
  let na := u8 (255 - a) in
  rgb ← buf_write rgb (ptr_off dest) ((s0 * a + 255 * na) / 255);
  rgb ← buf_write rgb (ptr_off dest + 1) ((s1 * a + 255 * na) / 255);
  rgb ← buf_write rgb (ptr_off dest + 2) ((s2 * a + 255 * na) / 255);
  Some (rgb, alpha ++ [a]).

(** One pixel of the flattening without SMaskInData: memcpy(dest, src, 3). *)
Definition jpx_copy_pixel (src dest : BytePtr) (rgb : list Z)
  : option (list Z) :=
  s0 ← ptr_read src 0;
  s1 ← ptr_read src 1;
  s2 ← ptr_read src 2;
  rgb ← buf_write rgb (ptr_off dest) s0;
  rgb ← buf_write rgb (ptr_off dest + 1) s1;
  buf_write rgb (ptr_off dest + 2) s2.

Definition jpx_flatten_with_alpha (result rgb_bitmap : CFX_DIBitmap)
    (width height : Z) (alpha : list Z) : option (list Z * list Z) :=
  for_loop (Z.to_nat height) 0
    (fun row st =>
       for_loop (Z.to_nat width) 0
         (fun col st =>
            jpx_blend_pixel
              (ptr_add (CFX_GetScanline result row) (col * 4))
              (ptr_add (CFX_GetScanline rgb_bitmap row) (col * 3)) st)
         st)
    (bm_buffer rgb_bitmap, alpha).

Definition jpx_flatten (result rgb_bitmap : CFX_DIBitmap)
    (width height : Z) : option (list Z) :=
  for_loop (Z.to_nat height) 0
    (fun row rgb =>
       for_loop (Z.to_nat width) 0
         (fun col rgb =>
            jpx_copy_pixel
              (ptr_add (CFX_GetScanline result row) (col * 4))
              (ptr_add (CFX_GetScanline rgb_bitmap row) (col * 3)) rgb)
         rgb)
    (bm_buffer rgb_bitmap).

(** Indexed images of less than 8 bits: every byte shifted right. *)
Definition jpx_scale_indices (result : CFX_DIBitmap) (width height scale : Z)
  : option (list Z) :=
  for_loop (Z.to_nat height) 0
    (fun row buf =>
       for_loop (Z.to_nat width) 0
         (fun col buf =>
            let p := ptr_add (CFX_GetScanline result row) col in
            v ← ptr_read (mkPtr buf (ptr_off p)) 0;
            buf_write buf (ptr_off p) (Z.shiftr v scale))
         buf)
    (bm_buffer result).

Definition with_buffer (bm : CFX_DIBitmap) (buf : list Z) : CFX_DIBitmap :=
  mkBitmap (bm_width bm) (bm_height bm) (bm_format bm) (bm_pitch bm) buf.

Definition LoadJpxBitmap : M (option CFX_DIBitmap) :=
  acc <~ bindM (gets m_pStreamAcc) deref ;;
  pCS <~ gets m_pColorSpace ;;
  match CJPX_Decoder_Create (GetSpan acc) (ColorSpaceOptionFromColorSpace pCS) with
  | None => retM None
  | Some decoder =>
      if negb (CJPX_StartDecode decoder) then retM None
      else
        let image_info := CJPX_GetInfo decoder in
        w <~ gets m_Width ;;
        h <~ gets m_Height ;;
        if bool_decide (as_int32 (jpx_width image_info) < w)
           || bool_decide (as_int32 (jpx_height image_info) < h)
        then retM None
        else
          let original_colorspace := pCS in
          let action := GetJpxDecodeAction image_info pCS in
          if decide (action = JpxDecodeAction.kFail) then retM None
          else
            (match action with
             | JpxDecodeAction.kUseRgb | JpxDecodeAction.kConvertArgbToRgb =>
                 modify (set_m_pColorSpace None)
             | JpxDecodeAction.kUseCmyk =>
                 modify (set_m_pColorSpace (Some (GetStockCS kDeviceCMYK)))
             | _ => retM tt
             end) ;;;
            let swap_rgb :=
              match action with
              | JpxDecodeAction.kUseRgb
              | JpxDecodeAction.kConvertArgbToRgb => true
              | _ => false
              end in
            let convert_argb_to_rgb :=
              bool_decide (action = JpxDecodeAction.kConvertArgbToRgb) in
            (match original_colorspace with
             | Some _ => retM tt
             | None => modify (set_m_nComponents (jpx_components image_info))
             end) ;;;
            let '(format, width) := jpx_bitmap_format image_info in
            let height := jpx_height image_info in
            match CFX_DIBitmap_Create width height format with
            | None => retM None
            | Some blank =>
                let cleared :=
                  with_buffer blank (replicate (length (bm_buffer blank)) 255) in
                match CJPX_Decode decoder (bm_buffer cleared) (bm_pitch cleared)
                        swap_rgb with
                | None => retM None
                | Some pixels =>
                    let result_bitmap := with_buffer cleared pixels in
                    dict <~ bindM (gets m_pDict) deref ;;
                    pCS' <~ gets m_pColorSpace ;;
                    bpc <~ gets m_bpc ;;
                    final <~
                      (if convert_argb_to_rgb then
                         match CFX_DIBitmap_Create width height kRgb with
                         | None => retM None
                         | Some rgb_bitmap =>
                             if bool_decide (GetIntegerFor dict "SMaskInData" = 1)
                             then
                               inline <~ gets m_JpxInlineData ;;
                               st <~ deref (jpx_flatten_with_alpha result_bitmap
                                              rgb_bitmap width height
                                              (inline_data inline)) ;;
                               modify (set_m_JpxInlineData
                                         (mkInline width height (snd st))) ;;;
                               retM (Some (with_buffer rgb_bitmap (fst st)))
                             else
                               rgb <~ deref (jpx_flatten result_bitmap rgb_bitmap
                                               width height) ;;
                               retM (Some (with_buffer rgb_bitmap rgb))
                         end
                       else if bool_decide
                                 (cs_family <$> pCS' = Some kIndexed)
                               && bool_decide (bpc < 8) then
                         buf <~ deref (jpx_scale_indices result_bitmap width
                                         height (8 - bpc)) ;;
                         retM (Some (with_buffer result_bitmap buf))
                       else retM (Some result_bitmap)) ;;
                    match final with
                    | None => retM None
                    | Some bitmap =>
                        modify (set_m_bpc 8) ;;; retM (Some bitmap)
                    end
                end
            end
  end.

Definition CreateDecoder : M LoadState :=
  acc <~ bindM (gets m_pStreamAcc) deref ;;
  let decoder := acc_decoder acc in
  if bool_decide (decoder = "") then retM kSuccess
  else
    bDoBpcCheck <~ gets m_bDoBpcCheck ;;
    bpc <~ gets m_bpc ;;
    if bDoBpcCheck && bool_decide (bpc = 0) then retM kFail
    else if bool_decide (decoder = "JPXDecode") then
      bitmap <~ LoadJpxBitmap ;;
      modify (set_m_pCachedBitmap bitmap) ;;;
      retM (if bool_decide (is_Some bitmap) then kSuccess else kFail)
    else if bool_decide (decoder = "JBIG2Decode") then
      w <~ gets m_Width ;;
      h <~ gets m_Height ;;
      bImageMask <~ gets m_bImageMask ;;
      match CFX_DIBitmap_Create w h (if bImageMask then k1bppMask else k1bppRgb)
      with
      | None => modify (set_m_pCachedBitmap None) ;;; retM kFail
      | Some bitmap =>
          modify (set_m_pCachedBitmap (Some bitmap)) ;;;
          modify (set_m_Status kSuccess) ;;;
          retM kContinue
      end
    else
      let src_span := GetSpan acc in
      let pParams := acc_param acc in
      w <~ gets m_Width ;;
      h <~ gets m_Height ;;
      n <~ gets m_nComponents ;;
      built <~
        (if bool_decide (decoder = "CCITTFaxDecode") then
           modify (set_m_pDecoder (CreateFaxDecoder src_span w h pParams)) ;;;
           retM true
         else if bool_decide (decoder = "FlateDecode") then
           modify (set_m_pDecoder
                     (CreateFlateDecoder src_span w h n bpc pParams)) ;;;
           retM true
         else if bool_decide (decoder = "RunLengthDecode") then
           modify (set_m_pDecoder
                     (CreateRunLengthDecoder src_span w h n bpc)) ;;;
           retM true
         else if bool_decide (decoder = "DCTDecode") then
           CreateDCTDecoder src_span pParams
         else retM true) ;;
      if negb built then retM kFail
      else
        pDecoder <~ gets m_pDecoder ;;
        match pDecoder with
        | None => retM kFail
        | Some dec =>
            bpc' <~ gets m_bpc ;;
            n' <~ gets m_nComponents ;;
            w' <~ gets m_Width ;;
            match CalculatePitch8 bpc' n' w' with
            | None => retM kFail
            | Some requested_pitch =>
                match CalculatePitch8 (dec_bpc dec) (dec_comps dec)
                        (dec_width dec) with
                | None => retM kFail
                | Some provided_pitch =>
                    if bool_decide (provided_pitch < requested_pitch)
                    then retM kFail
                    else retM kSuccess
                end
            end
        end.

(** ** The palette *)

Definition rgb_or (old : float * float * float)
    (res : option (float * float * float)) : float * float * float :=
  default old res.

Definition argb_of_rgb (alpha : Z) (rgb : float * float * float) : Z :=
  let '(R, G, B) := rgb in
  ArgbEncode alpha (FXSYS_roundf (f_mul R f_255)) (FXSYS_roundf (f_mul G f_255))
             (FXSYS_roundf (f_mul B f_255)).

(** The inner loop of LoadPalette: the decoded colour values of palette
    index [color_data], component by component. *)
Definition palette_color_values (comp_data : list DIB_COMP_DATA) (bpc n : Z)
    (color_data : Z) (color_values : list float) : option (list float) :=
  snd <$>
  for_loop (Z.to_nat n) 0
    (fun j st =>
       let '(data, values) := st in
       let encoded_component := data `mod` Z.shiftl 1 bpc in
       datum ← comp_data !! Z.to_nat j;
       Some (data `div` Z.shiftl 1 bpc,
             <[Z.to_nat j :=
                 f_add (m_DecodeMin datum)
                       (f_mul (m_DecodeStep datum) (f_of_int encoded_component))]>
               values))
    (color_data, color_values).

Definition LoadPalette : M unit :=
  pCS <~ gets m_pColorSpace ;;
  family <~ gets m_Family ;;
  match pCS with
  | None => retM tt
  | Some cs =>
      if bool_decide (family = kPattern) then retM tt
      else
        bpc <~ gets m_bpc ;;
        n <~ gets m_nComponents ;;
        if bool_decide (bpc = 0) then retM tt
        else
          let bits := default 255 (safe_mul (safe_u32 bpc) n) in
          if bool_decide (bits > 8) then retM tt
          else
            bDefaultDecode <~ gets m_bDefaultDecode ;;
            comp_data <~ gets m_CompData ;;
            format <~ gets m_Format ;;
            if bool_decide (bits = 1) then
              if bDefaultDecode
                 && (bool_decide (family = kDeviceGray)
                     || bool_decide (family = kDeviceRGB))
              then retM tt
              else if bool_decide (cs_components cs > 3) then retM tt
              else
                datum <~ deref (comp_data !! 0%nat) ;;
                let values0 := replicate 3 (m_DecodeMin datum) in
                let rgb0 := rgb_or (f_zero, f_zero, f_zero) (GetRGB cs values0) in
                let argb0 := argb_of_rgb 255 rgb0 in
                let values1 :=
                  (fun v => f_add v (m_DecodeStep datum)) <$> values0 in
                let rgb1 := rgb_or rgb0 (GetRGB cs values1) in
                let argb1 := argb_of_rgb 255 rgb1 in
                if bool_decide (argb0 ≠ 4278190080)
                   || bool_decide (argb1 ≠ 4294967295) then
                  palette <~ gets m_palette ;;
                  modify (set_m_palette
                            (SetPaletteArgb format
                               (SetPaletteArgb format palette 0 argb0) 1 argb1))
                else retM tt
            else if bool_decide (bpc = 8) && bDefaultDecode
                    && same_colorspace cs (GetStockCS kDeviceGray)
            then retM tt
            else
              let palette_count := Z.shiftl 1 bits in
              palette <~ gets m_palette ;;
              st <~ deref
                (for_loop (Z.to_nat palette_count) 0
                   (fun i st =>
                      let '(color_values, palette) := st in
                      color_values ← palette_color_values comp_data bpc n i
                                       color_values;
                      let rgb :=
                        if bool_decide (n = 1) && bool_decide (family = kICCBased)
                           && bool_decide (cs_components cs > 1)
                        then
                          value0 ← color_values !! 0%nat;
                          Some (rgb_or (f_zero, f_zero, f_zero)
                                  (GetRGB cs
                                     (replicate (Z.to_nat (cs_components cs))
                                        value0)))
                        else
                          Some (rgb_or (f_zero, f_zero, f_zero)
                                  (GetRGB cs color_values)) in
                      rgb ← rgb;
                      Some (color_values,
                            SetPaletteArgb format palette i (argb_of_rgb 255 rgb)))
                   (replicate (Z.to_nat (Z.max n 16)) f_zero, palette)) ;;
              modify (set_m_palette (snd st))
  end.

Definition SetMaskProperties : M unit :=
  modify (set_m_bpc 1) ;;;
  modify (set_m_nComponents 1) ;;;
  modify (set_m_Format k1bppMask).

(** [m_pColorSpace->EnableStdConversion(b)] when the colour space is there
    and the image is loaded as a standard colour space. *)
Definition std_conversion (enable : bool) : M unit :=
  pCS <~ gets m_pColorSpace ;;
  bStdCS <~ gets m_bStdCS ;;
  match pCS with
  | Some cs =>
      if bStdCS then modify (set_m_pColorSpace (Some (EnableStdConversion enable cs)))
      else retM tt
  | None => retM tt
  end.

(** The tail shared by Load and ContinueToLoadMask: the colour-key line. *)
Definition alloc_masked_line (pitch : Z) : M (option Z) :=
  bColorKey <~ gets m_bColorKey ;;
  if bColorKey then
    modify (set_m_Format kArgb) ;;;
    w <~ gets m_Width ;;
    match CalculatePitch32 (GetBppFromFormat kArgb) w with
    | None => retM None
    | Some pitch' =>
        modify (set_m_pMaskedLine (Some (FX_Alloc pitch'))) ;;;
        retM (Some pitch')
    end
  else retM (Some pitch).

Definition ContinueToLoadMask : M bool :=
  bImageMask <~ gets m_bImageMask ;;
  bpc <~ gets m_bpc ;;
  n <~ gets m_nComponents ;;
  if negb bImageMask && (bool_decide (bpc = 0) || bool_decide (n = 0))
  then retM false
  else
    (if bImageMask then SetMaskProperties
     else modify (set_m_Format (MakeRGBFormat (CalculateBitsPerPixel bpc n)))) ;;;
    format <~ gets m_Format ;;
    w <~ gets m_Width ;;
    match CalculatePitch32 (GetBppFromFormat format) w with
    | None => retM false
    | Some pitch =>
        modify (set_m_pLineBuf (Some (FX_Alloc pitch))) ;;;
        std_conversion true ;;;
        LoadPalette ;;;
        final <~ alloc_masked_line pitch ;;
        match final with
        | None => retM false
        | Some pitch' => modify (set_m_Pitch pitch') ;;; retM true
        end
    end.

(** ** The soft mask *)

(** The start of a sub-decoder on a mask stream: StartLoadDIBBase with
    bHasMask = false, no resources, bStdCS = true, group family unknown and
    bLoadMask = false, on a freshly constructed CPDF_DIB. *)
Definition StartLoadMaskDIB_body
    (start_mask : CPDF_Stream -> option (LoadState * CPDF_DIB))
    (mask : CPDF_Stream) : M LoadState :=
  r <~ deref (start_mask mask) ;;
  modify (set_m_pMask (Some (snd r))) ;;;
  if decide (fst r = kContinue) then
    status <~ gets m_Status ;;
    (if decide (status = kFail) then modify (set_m_Status kContinue)
     else retM tt) ;;;
    retM kContinue
  else
    (if decide (fst r = kFail) then modify (set_m_pMask None) else retM tt) ;;;
    retM kSuccess.

(** The image dictionary StartLoadMask synthesises around the alpha bytes
    LoadJpxBitmap extracted. *)
Definition inline_mask_stream (inline : JpxSMaskInlineData) : CPDF_Stream :=
  mkStream
    (<["Type" := ObjName "XObject"]>
       (<["Subtype" := ObjName "Image"]>
          (<["ColorSpace" := ObjName "DeviceGray"]>
             (<["Width" := ObjInteger (inline_width inline)]>
                (<["Height" := ObjInteger (inline_height inline)]>
                   (<["BitsPerComponent" := ObjInteger 8]> ∅))))))
    (inline_data inline) false 0.

Definition StartLoadMask
    (start_mask : CPDF_Stream -> option (LoadState * CPDF_DIB)) : M LoadState :=
  modify (set_m_MatteColor 4294967295) ;;;
  inline <~ gets m_JpxInlineData ;;
  if negb (bool_decide (inline_data inline = [])) then
    StartLoadMaskDIB_body start_mask (inline_mask_stream inline)
  else
    dict <~ bindM (gets m_pDict) deref ;;
    match GetStreamFor dict "SMask" with
    | None =>
        match GetDirectObjectFor dict "Mask" ≫= ToStream with
        | Some mask => StartLoadMaskDIB_body start_mask mask
        | None => retM kSuccess
        end
    | Some mask =>
        pCS <~ gets m_pColorSpace ;;
        family <~ gets m_Family ;;
        n <~ gets m_nComponents ;;
        (match GetArrayFor (stream_dict mask) "Matte", pCS with
         | Some pMatte, Some cs =>
             if negb (bool_decide (family = kPattern))
                && bool_decide (Z.of_nat (length pMatte) = n)
                && bool_decide (cs_components cs <= n)
             then
               let colors := ReadArrayElementsToVector pMatte n in
               (* R, G and B are uninitialised when GetRGB gives nothing *)
               rgb <~ deref (GetRGB cs colors) ;;
               modify (set_m_MatteColor (argb_of_rgb 0 rgb))
             else retM tt
         | _, _ => retM tt
         end) ;;;
        StartLoadMaskDIB_body start_mask mask
    end.

(** ** The driver *)

(** The size check shared by Load and StartLoadDIBBase: the byte size of
    the decoded image, when it fits 32 bits. *)
Definition checked_src_size (bpc n w h : Z) : option Z :=
  safe_mul (CalculatePitch8 bpc n w) h.

Definition StartLoadDIBBase_body
    (start_mask : CPDF_Stream -> option (LoadState * CPDF_DIB))
    (pStream : option CPDF_Stream) (bHasMask : bool)
    (pFormResources pPageResources : option CPDF_Dictionary) (bStdCS : bool)
    (GroupFamily : Family) (bLoadMask : bool) : M LoadState :=
  match pStream with
  | None => retM kFail
  | Some stream =>
      let dict := stream_dict stream in
      modify (set_m_pDict (Some dict)) ;;;
      modify (set_m_pStream (Some stream)) ;;;
      modify (set_m_bStdCS bStdCS) ;;;
      modify (set_m_bHasMask bHasMask) ;;;
      modify (set_m_Width (GetIntegerFor dict "Width")) ;;;
      modify (set_m_Height (GetIntegerFor dict "Height")) ;;;
      w <~ gets m_Width ;;
      h <~ gets m_Height ;;
      if negb (IsValidDimension w) || negb (IsValidDimension h) then retM kFail
      else
        modify (set_m_GroupFamily GroupFamily) ;;;
        modify (set_m_bLoadMask bLoadMask) ;;;
        ok <~ LoadColorInfo (if stream_inline stream then pFormResources else None)
                pPageResources ;;
        if negb ok then retM kFail
        else
          bDoBpcCheck <~ gets m_bDoBpcCheck ;;
          bpc <~ gets m_bpc ;;
          n <~ gets m_nComponents ;;
          if bDoBpcCheck && (bool_decide (bpc = 0) || bool_decide (n = 0))
          then retM kFail
          else
            match checked_src_size bpc n w h with
            | None => retM kFail
            | Some src_size =>
                modify (set_m_pStreamAcc
                          (Some (LoadAllDataImageAcc stream src_size))) ;;;
                acc <~ bindM (gets m_pStreamAcc) deref ;;
                if bool_decide (GetSize acc = 0)
                   || bool_decide (acc_data acc = None)
                then retM kFail
                else
                  iCreatedDecoder <~ CreateDecoder ;;
                  if decide (iCreatedDecoder = kFail) then retM kFail
                  else
                    loaded <~ ContinueToLoadMask ;;
                    if negb loaded then retM kFail
                    else
                      has_mask <~ gets m_bHasMask ;;
                      iLoadedMask <~
                        (if has_mask : bool then StartLoadMask start_mask
                         else retM kSuccess) ;;
                      if bool_decide (iCreatedDecoder = kContinue)
                         || bool_decide (iLoadedMask = kContinue)
                      then retM kContinue
                      else std_conversion false ;;; retM kSuccess
            end
  end.

(** A mask sub-decoder is started with bHasMask = false and never starts a
    mask of its own. *)
Definition StartLoadDIBBase_mask (mask : CPDF_Stream)
  : option (LoadState * CPDF_DIB) :=
  StartLoadDIBBase_body (fun _ => None) (Some mask) false None None true
    kUnknown false new_CPDF_DIB.

Definition StartLoadDIBBase := StartLoadDIBBase_body StartLoadDIBBase_mask.

Definition StartLoadMaskDIB := StartLoadMaskDIB_body StartLoadDIBBase_mask.

Definition Load (pStream : option CPDF_Stream) : M bool :=
  match pStream with
  | None => retM false
  | Some stream =>
      let dict := stream_dict stream in
      modify (set_m_pDict (Some dict)) ;;;
      modify (set_m_pStream (Some stream)) ;;;
      modify (set_m_Width (GetIntegerFor dict "Width")) ;;;
      modify (set_m_Height (GetIntegerFor dict "Height")) ;;;
      w <~ gets m_Width ;;
      h <~ gets m_Height ;;
      if negb (IsValidDimension w) || negb (IsValidDimension h) then retM false
      else
        modify (set_m_GroupFamily kUnknown) ;;;
        modify (set_m_bLoadMask false) ;;;
        ok <~ LoadColorInfo None None ;;
        if negb ok then retM false
        else
          bDoBpcCheck <~ gets m_bDoBpcCheck ;;
          bpc <~ gets m_bpc ;;
          n <~ gets m_nComponents ;;
          if bDoBpcCheck && (bool_decide (bpc = 0) || bool_decide (n = 0))
          then retM false
          else
            match checked_src_size bpc n w h with
            | None => retM false
            | Some src_size =>
                modify (set_m_pStreamAcc
                          (Some (LoadAllDataImageAcc stream src_size))) ;;;
                acc <~ bindM (gets m_pStreamAcc) deref ;;
                if bool_decide (GetSize acc = 0)
                   || bool_decide (acc_data acc = None)
                then retM false
                else
                  created <~ CreateDecoder ;;
                  if decide (created = kFail) then retM false
                  else
                    bImageMask <~ gets m_bImageMask ;;
                    bpc' <~ gets m_bpc ;;
                    n' <~ gets m_nComponents ;;
                    (if bImageMask then SetMaskProperties
                     else modify (set_m_Format
                                    (MakeRGBFormat
                                       (CalculateBitsPerPixel bpc' n')))) ;;;
                    format <~ gets m_Format ;;
                    w' <~ gets m_Width ;;
                    match CalculatePitch32 (GetBppFromFormat format) w' with
                    | None => retM false
                    | Some pitch =>
                        modify (set_m_pLineBuf (Some (FX_Alloc pitch))) ;;;
                        LoadPalette ;;;
                        final <~ alloc_masked_line pitch ;;
                        match final with
                        | None => retM false
                        | Some pitch' =>
                            modify (set_m_Pitch pitch') ;;; retM true
                        end
                    end
            end
  end.

(** ** Resuming *)

Definition ContinueLoadMaskDIB_body
    (continue_mask : CPDF_DIB -> option (LoadState * CPDF_DIB)) : M LoadState :=
  pMask <~ gets m_pMask ;;
  match pMask with
  | None => retM kSuccess
  | Some mask =>
      r <~ deref (continue_mask mask) ;;
      modify (set_m_pMask (Some (snd r))) ;;;
      if decide (fst r = kContinue) then retM kContinue
      else
        std_conversion false ;;;
        if decide (fst r = kFail) then
          modify (set_m_pMask None) ;;; retM kFail
        else retM kSuccess
  end.

(** The JBIG2 step of ContinueLoadDIBBase: the first call starts the codec
    on the cached bitmap, later calls resume it. *)
Definition Jbig2_step (pPause : PauseIndicatorIface) (acc : CPDF_StreamAcc)
  : M FXCODEC_STATUS :=
  ctx <~ gets m_pJbig2Context ;;
  match ctx with
  | None =>
      modify (set_m_pJbig2Context (Some Jbig2_NewContext)) ;;;
      (match acc_param acc ≫= (fun p => GetStreamFor p "JBIG2Globals") with
       | Some pGlobals =>
           modify (set_m_pGlobalAcc (Some (LoadAllDataFiltered pGlobals)))
       | None => retM tt
       end) ;;;
      let pSrcSpan := GetSpan acc in
      let nSrcObjNum := from_option stream_objnum 0 (acc_stream acc) in
      pGlobalAcc <~ gets m_pGlobalAcc ;;
      let pGlobalSpan := from_option GetSpan [] pGlobalAcc in
      let nGlobalObjNum :=
        from_option stream_objnum 0 (pGlobalAcc ≫= acc_stream) in
      w <~ gets m_Width ;;
      h <~ gets m_Height ;;
      bitmap <~ bindM (gets m_pCachedBitmap) deref ;;
      let '(status, ctx', buf) :=
        Jbig2_StartDecode Jbig2_NewContext w h pSrcSpan nSrcObjNum pGlobalSpan
          nGlobalObjNum (bm_buffer bitmap) (bm_pitch bitmap) pPause in
      modify (set_m_pJbig2Context (Some ctx')) ;;;
      modify (set_m_pCachedBitmap (Some (with_buffer bitmap buf))) ;;;
      retM status
  | Some c =>
      bitmap <~ gets m_pCachedBitmap ;;
      let '(status, ctx', buf) :=
        Jbig2_ContinueDecode c (from_option bm_buffer [] bitmap) pPause in
      modify (set_m_pJbig2Context (Some ctx')) ;;;
      modify (set_m_pCachedBitmap ((fun b => with_buffer b buf) <$> bitmap)) ;;;
      retM status
  end.

Definition ContinueLoadDIBBase_body
    (continue_mask : CPDF_DIB -> option (LoadState * CPDF_DIB))
    (pPause : PauseIndicatorIface) : M LoadState :=
  status <~ gets m_Status ;;
  if decide (status = kContinue) then ContinueLoadMaskDIB_body continue_mask
  else
    acc <~ bindM (gets m_pStreamAcc) deref ;;
    let decoder := acc_decoder acc in
    if bool_decide (decoder = "JPXDecode") then retM kFail
    else if negb (bool_decide (decoder = "JBIG2Decode")) then retM kSuccess
    else if decide (status = kFail) then retM kFail
    else
      iDecodeStatus <~ Jbig2_step pPause acc ;;
      if decide (iDecodeStatus = kError) then
        modify (set_m_pJbig2Context None) ;;;
        modify (set_m_pCachedBitmap None) ;;;
        modify (set_m_pGlobalAcc None) ;;;
        retM kFail
      else if decide (iDecodeStatus = kDecodeToBeContinued) then retM kContinue
      else
        bHasMask <~ gets m_bHasMask ;;
        iContinueStatus <~
          (if bHasMask then
             r <~ ContinueLoadMaskDIB_body continue_mask ;;
             if decide (r = kContinue) then
               modify (set_m_Status kContinue) ;;; retM kContinue
             else retM kSuccess
           else retM kSuccess) ;;
        if decide (iContinueStatus = kContinue) then retM kContinue
        else std_conversion false ;;; retM iContinueStatus.

(** [m_pMask->ContinueLoadDIBBase(pPause)] recurses into the mask object
    owned by this one.  No step of the body replaces [m_pMask] before that
    call, so the mask continued is the one held on entry; the equation
    with the body applied to the function itself is
    [ContinueLoadDIBBase_unfold]. *)
Fixpoint ContinueLoadDIBBase (pPause : PauseIndicatorIface) (d : CPDF_DIB)
    {struct d} : option (LoadState * CPDF_DIB) :=
  ContinueLoadDIBBase_body
    (fun _ =>
       match m_pMask d with
       | Some mask => ContinueLoadDIBBase pPause mask
       | None => None
       end)
    pPause d.

Definition ContinueLoadMaskDIB (pPause : PauseIndicatorIface) : M LoadState :=
  ContinueLoadMaskDIB_body (ContinueLoadDIBBase pPause).

Definition DetachMask : M (option CPDF_DIB) :=
  mask <~ gets m_pMask ;;
  modify (set_m_pMask None) ;;;
  retM mask.

Definition IsJBigImage : M bool :=
  acc <~ bindM (gets m_pStreamAcc) deref ;;
  retM (bool_decide (acc_decoder acc = "JBIG2Decode")).

(** ** Scanline rendering *)

Definition TransMask (d : CPDF_DIB) : bool :=
  m_bLoadMask d && bool_decide (m_GroupFamily d = kDeviceCMYK)
  && bool_decide (m_Family d = kDeviceCMYK).

Definition HasPalette (d : CPDF_DIB) : bool :=
  negb (bool_decide (m_palette d = [])).

(** The bytes from a pointer to the end of its buffer: what a collaborator
    handed the pointer may read. *)
Definition ptr_rest (p : BytePtr) : list Z :=
  if bool_decide (0 <= ptr_off p) then drop (Z.to_nat (ptr_off p)) (ptr_base p)
  else [].

(** The three loops of TranslateScanline24bppDefaultDecode, one per
    [switch (m_bpc)] case. *)
Definition swap_rgb_8 (width : Z) (src : BytePtr) (dest : list Z)
  : option (list Z) :=
  for_loop (Z.to_nat width) 0
    (fun column dest =>
       s2 ← ptr_read src (column * 3 + 2);
       dest ← buf_write dest (column * 3) s2;
       s1 ← ptr_read src (column * 3 + 1);
       dest ← buf_write dest (column * 3 + 1) s1;
       s0 ← ptr_read src (column * 3);
       buf_write dest (column * 3 + 2) s0)
    dest.

Definition swap_rgb_16 (width : Z) (src : BytePtr) (dest : list Z)
  : option (list Z) :=
  for_loop (Z.to_nat width) 0
    (fun col dest =>
       s4 ← ptr_read src (col * 6 + 4);
       dest ← buf_write dest (col * 3) s4;
       s2 ← ptr_read src (col * 6 + 2);
       dest ← buf_write dest (col * 3 + 1) s2;
       s0 ← ptr_read src (col * 6);
       buf_write dest (col * 3 + 2) s0)
    dest.

Definition swap_rgb_bits (bpc width : Z) (src : BytePtr) (dest : list Z)
  : option (list Z) :=
  let max_data := wrap32 (Z.shiftl 1 bpc - 1) in
  for_loop (Z.to_nat width) 0
    (fun column dest =>
       let src_bit_pos := column * 3 * bpc in
       R ← GetBits8 src src_bit_pos bpc;
       G ← GetBits8 src (src_bit_pos + bpc) bpc;
       B ← GetBits8 src (src_bit_pos + 2 * bpc) bpc;
       if bool_decide (max_data = 0) then None
       else
         dest ← buf_write dest (column * 3)
                  (wrap32 (Z.min B max_data * 255) / max_data);
         dest ← buf_write dest (column * 3 + 1)
                  (wrap32 (Z.min G max_data * 255) / max_data);
         buf_write dest (column * 3 + 2)
           (wrap32 (Z.min R max_data * 255) / max_data))
    dest.

(** The result is the function's [bool] and the destination row after it. *)
Definition TranslateScanline24bppDefaultDecode (d : CPDF_DIB)
    (dest_scan : list Z) (src_scan : BytePtr) : option (bool * list Z) :=
  if negb (m_bDefaultDecode d) then Some (false, dest_scan)
  else if negb (bool_decide (m_Family d = kDeviceRGB))
          && negb (bool_decide (m_Family d = kCalRGB)) then
    if negb (bool_decide (m_bpc d = 8)) then Some (false, dest_scan)
    else
      cs ← m_pColorSpace d;
      if bool_decide (m_nComponents d = cs_components cs) then
        dest ← TranslateImageLine cs dest_scan (ptr_rest src_scan) (m_Width d)
                 (m_Width d) (m_Height d) (TransMask d);
        Some (true, dest)
      else Some (true, dest_scan)
  else if negb (bool_decide (m_nComponents d = 3)) then Some (true, dest_scan)
  else
    dest ← (if bool_decide (m_bpc d = 8) then
              swap_rgb_8 (m_Width d) src_scan dest_scan
            else if bool_decide (m_bpc d = 16) then
              swap_rgb_16 (m_Width d) src_scan dest_scan
            else swap_rgb_bits (m_bpc d) (m_Width d) src_scan dest_scan);
    Some (true, dest).

(** The decoded colour values of one pixel in the general path: the inner
    loop over the components.  The source position of component [color] of
    column [column] is the running counter of the source. *)
Definition decode_pixel (d : CPDF_DIB) (src_scan : BytePtr) (column : Z)
    (color_values : list float) : option (list float) :=
  for_loop (Z.to_nat (m_nComponents d)) 0
    (fun color values =>
       let pos := column * m_nComponents d + color in
       data ← (if bool_decide (m_bpc d = 8) then ptr_read src_scan pos
               else GetBits8 src_scan (pos * m_bpc d) (m_bpc d));
       datum ← m_CompData d !! Z.to_nat color;
       Some (<[Z.to_nat color :=
                 f_add (m_DecodeMin datum)
                       (f_mul (m_DecodeStep datum) (f_of_int data))]> values))
    color_values.

Definition TranslateScanline24bpp (d : CPDF_DIB) (dest_scan : list Z)
    (src_scan : BytePtr) : option (list Z) :=
  if bool_decide (m_bpc d = 0) then Some dest_scan
  else
    '(done, dest_fast) ← TranslateScanline24bppDefaultDecode d dest_scan src_scan;
    if done : bool then Some dest_fast
    else
      st ← for_loop (Z.to_nat (m_Width d)) 0
             (fun column st =>
                let '(values, rgb, dest) := st in
                values ← decode_pixel d src_scan column values;
                rgb ← (if TransMask d then
                         v0 ← values !! 0%nat;
                         v1 ← values !! 1%nat;
                         v2 ← values !! 2%nat;
                         v3 ← values !! 3%nat;
                         let k := f_sub f_one v3 in
                         Some (f_mul (f_sub f_one v0) k,
                               f_mul (f_sub f_one v1) k,
                               f_mul (f_sub f_one v2) k)
                       else if negb (bool_decide (m_Family d = kPattern)) then
                         cs ← m_pColorSpace d;
                         Some (rgb_or rgb (GetRGB cs values))
                       else Some rgb);
                let '(R, G, B) := rgb in
                let R := f_clamp01 R in
                let G := f_clamp01 G in
                let B := f_clamp01 B in
                dest ← buf_write dest (column * 3) (f_to_u8 (f_mul B f_255));
                dest ← buf_write dest (column * 3 + 1) (f_to_u8 (f_mul G f_255));
                dest ← buf_write dest (column * 3 + 2) (f_to_u8 (f_mul R f_255));
                Some (values, (R, G, B), dest))
             (replicate (Z.to_nat (Z.max (m_nComponents d) 16)) f_zero,
              (f_zero, f_zero, f_zero), dest_scan);
      Some (snd st).

Definition Get1BitSetValue (d : CPDF_DIB) : option Z :=
  datum ← m_CompData d !! 0%nat;
  if bool_decide (m_ColorKeyMax datum = 1) then Some 0
  else if HasPalette d then m_palette d !! 1%nat
  else Some 4294967295.

Definition Get1BitResetValue (d : CPDF_DIB) : option Z :=
  datum ← m_CompData d !! 0%nat;
  if bool_decide (m_ColorKeyMin datum = 0) then Some 0
  else if HasPalette d then m_palette d !! 0%nat
  else Some 4278190080.

(** A store through [uint32_t*] into a byte buffer, least significant
    byte first. *)
Definition write_u32 (buf : list Z) (index value : Z) : option (list Z) :=
  buf ← buf_write buf (index * 4) value;
  buf ← buf_write buf (index * 4 + 1) (Z.shiftr value 8);
  buf ← buf_write buf (index * 4 + 2) (Z.shiftr value 16);
  buf_write buf (index * 4 + 3) (Z.shiftr value 24).

(** Source acquisition: the cached bitmap, the lazy decoder or the raw
    stream, in that order.  The inner option is the null pointer. *)
(** The two last cases of source acquisition: the lazy decoder, else the
    raw stream when it is long enough for the line. *)
Definition uncached_line (d : CPDF_DIB) (line src_pitch_value : Z)
  : option (option BytePtr) :=
  match m_pDecoder d with
  | Some dec => Some (ptr_of <$> dec_scanline dec line)
  | None =>
      acc ← m_pStreamAcc d;
      if bool_decide (GetSize acc >= wrap32 ((line + 1) * src_pitch_value))
      then Some (Some (mkPtr (GetSpan acc) (wrap32 (line * src_pitch_value))))
      else Some None
  end.

Definition source_line (d : CPDF_DIB) (line src_pitch_value : Z)
  : option (option BytePtr) :=
  match m_pCachedBitmap d with
  | Some bitmap =>
      if bool_decide (src_pitch_value <= bm_pitch bitmap) then
        let line' :=
          if bool_decide (line >= bm_height bitmap) then bm_height bitmap - 1
          else line in
        Some (Some (CFX_GetScanline bitmap line'))
      else uncached_line d line src_pitch_value
  | None => uncached_line d line src_pitch_value
  end.

(** The loops of GetScanline. *)
Definition invert_line (src : BytePtr) (src_pitch_value : Z) (dest : list Z)
  : option (list Z) :=
  for_loop (Z.to_nat src_pitch_value) 0
    (fun i dest => b ← ptr_read src i; buf_write dest i (Z.lnot b))
    dest.

Definition key_line_1bpp (src : BytePtr) (width set_argb reset_argb : Z)
    (dest : list Z) : option (list Z) :=
  for_loop (Z.to_nat width) 0
    (fun col dest =>
       bit ← GetBitValue src col;
       write_u32 dest col (if bit : bool then set_argb else reset_argb))
    dest.

Definition unpack_indices (src : BytePtr) (bpc n width : Z) (dest : list Z)
  : option (list Z) :=
  for_loop (Z.to_nat width) 0
    (fun col dest =>
       color_index ←
         for_loop (Z.to_nat n) 0
           (fun color index =>
              data ← GetBits8 src ((col * n + color) * bpc) bpc;
              if bool_decide (0 <= wrap32 (color * bpc) < 32) then
                Some (Z.lor index (wrap32 (Z.shiftl data (wrap32 (color * bpc)))))
              else None)
           0;
       buf_write dest col color_index)
    dest.

Definition key_line_indexed (d : CPDF_DIB) (indices : list Z) (dest : list Z)
  : option (list Z) :=
  for_loop (Z.to_nat (m_Width d)) 0
    (fun col dest =>
       index ← ptr_read (ptr_of indices) col;
       dest ←
         (if HasPalette d then
            argb ← m_palette d !! Z.to_nat index;
            dest ← buf_write dest (col * 4) (FXARGB_B argb);
            dest ← buf_write dest (col * 4 + 1) (FXARGB_G argb);
            buf_write dest (col * 4 + 2) (FXARGB_R argb)
          else
            dest ← buf_write dest (col * 4) index;
            dest ← buf_write dest (col * 4 + 1) index;
            buf_write dest (col * 4 + 2) index);
       datum ← m_CompData d !! 0%nat;
       buf_write dest (col * 4 + 3)
         (if IsColorIndexOutOfBounds index datum then 255 else 0))
    dest.

Definition key_alpha_24bpp (d : CPDF_DIB) (src : BytePtr) (dest : list Z)
  : option (list Z) :=
  for_loop (Z.to_nat (m_Width d)) 0
    (fun col dest =>
       out ← AreColorIndicesOutOfBounds (ptr_add src (col * 3)) (m_CompData d) 3;
       buf_write dest (3 + col * 4) (if out : bool then 255 else 0))
    dest.

Definition interleave_bgr (width : Z) (src : BytePtr) (dest : list Z)
  : option (list Z) :=
  for_loop (Z.to_nat width) 0
    (fun col dest =>
       s0 ← ptr_read src (col * 3);
       dest ← buf_write dest (col * 4) s0;
       s1 ← ptr_read src (col * 3 + 1);
       dest ← buf_write dest (col * 4 + 1) s1;
       s2 ← ptr_read src (col * 3 + 2);
       buf_write dest (col * 4 + 2) s2)
    dest.

(** Run a pure step on the line buffer, resp. the masked line. *)
Definition on_line_buf (f : list Z -> option (list Z)) : M (list Z) :=
  buf <~ bindM (gets m_pLineBuf) deref ;;
  buf' <~ deref (f buf) ;;
  modify (set_m_pLineBuf (Some buf')) ;;;
  retM buf'.

Definition on_masked_line (f : list Z -> option (list Z)) : M (list Z) :=
  buf <~ bindM (gets m_pMaskedLine) deref ;;
  buf' <~ deref (f buf) ;;
  modify (set_m_pMaskedLine (Some buf')) ;;;
  retM buf'.

Definition GetScanline (line : Z) : M (option BytePtr) :=
  bpc <~ gets m_bpc ;;
  n <~ gets m_nComponents ;;
  w <~ gets m_Width ;;
  if bool_decide (bpc = 0) then retM None
  else
    match CalculatePitch8 bpc n w with
    | None => retM None
    | Some src_pitch_value =>
        src <~ bindM (gets (fun d => source_line d line src_pitch_value)) deref ;;
        pitch <~ gets m_Pitch ;;
        bColorKey <~ gets m_bColorKey ;;
        match src with
        | None =>
            pMaskedLine <~ gets m_pMaskedLine ;;
            buf <~ (if bool_decide (is_Some pMaskedLine)
                    then on_masked_line (fun buf => memset buf 255 pitch)
                    else on_line_buf (fun buf => memset buf 255 pitch)) ;;
            retM (Some (ptr_of buf))
        | Some pSrcLine =>
            if bool_decide (wrap32 (bpc * n) = 1) then
              bImageMask <~ gets m_bImageMask ;;
              bDefaultDecode <~ gets m_bDefaultDecode ;;
              if bImageMask && bDefaultDecode then
                buf <~ on_line_buf (invert_line pSrcLine src_pitch_value) ;;
                retM (Some (ptr_of buf))
              else if negb bColorKey then
                buf <~ on_line_buf
                         (fun buf => memcpy buf pSrcLine src_pitch_value) ;;
                retM (Some (ptr_of buf))
              else
                reset_argb <~ bindM (gets Get1BitResetValue) deref ;;
                set_argb <~ bindM (gets Get1BitSetValue) deref ;;
                buf <~ on_masked_line
                         (key_line_1bpp pSrcLine w set_argb reset_argb) ;;
                retM (Some (ptr_of buf))
            else if bool_decide (wrap32 (bpc * n) <= 8) then
              indices <~
                (if bool_decide (bpc = 8) then
                   on_line_buf (fun buf => memcpy buf pSrcLine src_pitch_value)
                 else on_line_buf (unpack_indices pSrcLine bpc n w)) ;;
              if negb bColorKey then retM (Some (ptr_of indices))
              else
                d <~ gets id ;;
                buf <~ on_masked_line (key_line_indexed d indices) ;;
                retM (Some (ptr_of buf))
            else
              d <~ gets id ;;
              (if bColorKey then
                 if bool_decide (n = 3) && bool_decide (bpc = 8) then
                   on_masked_line (key_alpha_24bpp d pSrcLine) ;;; retM tt
                 else
                   on_masked_line (fun buf => memset buf 255 pitch) ;;; retM tt
               else retM tt) ;;;
              pCS <~ gets m_pColorSpace ;;
              pSrcLine' <~
                (if bool_decide (is_Some pCS) then
                   buf <~ on_line_buf
                            (fun buf => TranslateScanline24bpp d buf pSrcLine) ;;
                   retM (ptr_of buf)
                 else retM pSrcLine) ;;
              if negb bColorKey then retM (Some pSrcLine')
              else
                buf <~ on_masked_line (interleave_bgr w pSrcLine') ;;
                retM (Some (ptr_of buf))
        end
    end.

Definition GetBuffer (d : CPDF_DIB) : option (list Z) :=
  bm_buffer <$> m_pCachedBitmap d.

End Loading.

(** ** Vocabulary of the statements *)

(** A value that fits [uint8_t]. *)
Definition is_byte (b : Z) : Prop := 0 <= b < 256.

(** The bitwise complement of a byte: all eight bits flipped. *)
Definition bitwise_complement (b : Z) : Z := Z.lxor b 255.

(** A row of 3-byte pixels with the first and the third byte of every
    pixel exchanged. *)
Fixpoint swap_red_blue (row : list Z) : list Z :=
  match row with
  | r :: g :: b :: rest => b :: g :: r :: swap_red_blue rest
  | _ => row
  end.

Section Vocabulary.
Context `{FA : FloatArith} `{CO : !Collaborators}.

(** Nothing was loaded or allocated between two states of the decoder: the
    stream accessor, the line buffers, the cached bitmap and the lazy
    decoder are the same. *)
Definition nothing_allocated (d d' : CPDF_DIB) : Prop :=
  m_pStreamAcc d' = m_pStreamAcc d /\ m_pLineBuf d' = m_pLineBuf d /\
  m_pMaskedLine d' = m_pMaskedLine d /\ m_pCachedBitmap d' = m_pCachedBitmap d /\
  m_pDecoder d' = m_pDecoder d.

(** A field has the same value in two states. *)
Definition same {A} (f : CPDF_DIB -> A) (d d' : CPDF_DIB) : Prop := f d' = f d.

(** A member function keeps a relation between the object before and
    after it. *)
Definition keeps {A} (R : CPDF_DIB -> CPDF_DIB -> Prop) (m : M A) : Prop :=
  forall d a d', m d = Some (a, d') -> R d d'.

(** The object once StartLoadDIBBase has stored its arguments and the
    dimensions of the dictionary, before LoadColorInfo runs. *)
Definition start_header (stream : CPDF_Stream) (bHasMask bStdCS : bool)
    (GroupFamily : Family) (bLoadMask : bool) (d : CPDF_DIB) : CPDF_DIB :=
  set_m_bLoadMask bLoadMask
    (set_m_GroupFamily GroupFamily
       (set_m_Height (GetIntegerFor (stream_dict stream) "Height")
          (set_m_Width (GetIntegerFor (stream_dict stream) "Width")
             (set_m_bHasMask bHasMask
                (set_m_bStdCS bStdCS
                   (set_m_pStream (Some stream)
                      (set_m_pDict (Some (stream_dict stream)) d))))))).

(** The same for Load. *)
Definition load_header (stream : CPDF_Stream) (d : CPDF_DIB) : CPDF_DIB :=
  set_m_bLoadMask false
    (set_m_GroupFamily kUnknown
       (set_m_Height (GetIntegerFor (stream_dict stream) "Height")
          (set_m_Width (GetIntegerFor (stream_dict stream) "Width")
             (set_m_pStream (Some stream)
                (set_m_pDict (Some (stream_dict stream)) d))))).


(** Row [line] of the source of the pixels, at source pitch [p]: row
    [line] of the cached bitmap when the bitmap's pitch suffices, else the
    scanline the lazy decoder yields for [line], else the [p] bytes at
    offset [line * p] of the stream data when the data reach to the end of
    that row. *)
Inductive source_row (d : CPDF_DIB) (line p : Z) : BytePtr -> Prop :=
  | row_of_bitmap (bitmap : CFX_DIBitmap) :
      m_pCachedBitmap d = Some bitmap -> p <= bm_pitch bitmap ->
      line < bm_height bitmap ->
      source_row d line p (mkPtr (bm_buffer bitmap) (line * bm_pitch bitmap))
  | row_of_decoder (dec : ScanlineDecoder) (row : list Z) :
      (forall bitmap, m_pCachedBitmap d = Some bitmap -> bm_pitch bitmap < p) ->
      m_pDecoder d = Some dec -> dec_scanline dec line = Some row ->
      source_row d line p (ptr_of row)
  | row_of_stream (acc : CPDF_StreamAcc) :
      (forall bitmap, m_pCachedBitmap d = Some bitmap -> bm_pitch bitmap < p) ->
      m_pDecoder d = None -> m_pStreamAcc d = Some acc ->
      0 <= line -> 0 <= p ->
      (line + 1) * p <= GetSize acc -> (line + 1) * p < 4294967296 ->
      source_row d line p (mkPtr (GetSpan acc) (line * p)).

End Vocabulary.

(** ** A concrete instance of the collaborators

    Exact rational arithmetic for [float], the three device colour spaces,
    a stored-rows stand-in for the Flate codec and a JBIG2 codec that
    rejects a stream whose first byte is 0.  The scenarios of the spec
    (S2, S3, S4, S6) and the counterexamples below run on it. *)

Module Demo.

Definition q_trunc (q : Q) : Z := Z.quot (Qnum q) (Z.pos (Qden q)).

Definition q_clamp01 (q : Q) : Q :=
  if Qle_bool q 0%Q then 0%Q else if Qle_bool 1%Q q then 1%Q else q.

Definition QFloat : FloatArith :=
  {| float := Q;
     f_zero := 0%Q;
     f_one := 1%Q;
     f_255 := 255%Q;
     f_of_int := inject_Z;
     f_to_int := q_trunc;
     f_to_u8 := fun q => u8 (q_trunc q);
     f_add := Qplus;
     f_sub := Qminus;
     f_mul := Qmult;
     f_div := Qdiv;
     f_eqb := Qeq_bool;
     f_clamp01 := q_clamp01;
     FXSYS_roundf := fun q => Qfloor (Qplus q (1 # 2)%Q) |}.

#[local] Existing Instance QFloat.

Definition stock (family : Family) : CPDF_ColorSpace :=
  match family with
  | kDeviceGray => mkCS 1 kDeviceGray 1
  | kDeviceRGB => mkCS 2 kDeviceRGB 3
  | kDeviceCMYK => mkCS 3 kDeviceCMYK 4
  | f => mkCS 0 f 0
  end.

Definition resolve_colorspace (o : CPDF_Object)
    (_ : option (gmap string CPDF_Object)) : option CPDF_ColorSpace :=
  match o with
  | ObjName "DeviceGray" => Some (stock kDeviceGray)
  | ObjName "DeviceRGB" => Some (stock kDeviceRGB)
  | ObjName "DeviceCMYK" => Some (stock kDeviceCMYK)
  | _ => None
  end.

Definition decoder_array_of (dict : gmap string CPDF_Object)
  : option (list (string * option (gmap string CPDF_Object))) :=
  match dict !! "Filter" with
  | None => Some []
  | Some (ObjName s) => Some [(s, None)]
  | Some (ObjArray l) => Some ((fun o => (GetString o, None)) <$> l)
  | Some _ => None
  end.

Definition load_image_acc (s : CPDF_Stream) (_ : Z) : CPDF_StreamAcc :=
  mkAcc (Some s)
        (if bool_decide (stream_data s = []) then None else Some (stream_data s))
        (from_option fst "" (last (default [] (decoder_array_of (stream_dict s)))))
        None.

Definition to_rgb (cs : CPDF_ColorSpace) (v : list Q) : option (Q * Q * Q) :=
  match cs_family cs, v with
  | kDeviceGray, g :: _ => Some (g, g, g)
  | kDeviceRGB, r :: g :: b :: _ => Some (r, g, b)
  | kDeviceCMYK, c :: m :: y :: k :: _ =>
      Some (Qmult (1 - c) (1 - k), Qmult (1 - m) (1 - k), Qmult (1 - y) (1 - k))%Q
  | _, _ => None
  end.

Definition gray_line (dest src : list Z) (pixels : Z) : list Z :=
  let bgr := mjoin ((fun b => [b; b; b]) <$> take (Z.to_nat pixels) src) in
  bgr ++ drop (length bgr) dest.

Definition create_bitmap (w h : Z) (format : FXDIB_Format)
  : option CFX_DIBitmap :=
  if bool_decide (0 < w) && bool_decide (0 < h) then
    pitch ← CalculatePitch32 (GetBppFromFormat format) w;
    Some (mkBitmap w h format pitch (replicate (Z.to_nat (h * pitch)) 0))
  else None.

Definition set_palette (format : FXDIB_Format) (palette : list Z)
    (index color : Z) : list Z :=
  let built :=
    if bool_decide (palette = []) then
      if bool_decide (GetBppFromFormat format = 1)
      then [4278190080; 4294967295]
      else (fun i : nat => 4278190080 + Z.of_nat i * 65793) <$> seq 0 256
    else palette in
  <[Z.to_nat index := color]> built.

(** Rows stored back to back. *)
Definition stored_rows (span : list Z) (w h n bpc : Z)
  : option ScanlineDecoder :=
  pitch ← CalculatePitch8 bpc n w;
  Some (mkDecoder bpc n w
          (fun line =>
             if bool_decide (0 <= line < h)
                && bool_decide ((line + 1) * pitch <= Z.of_nat (length span))
             then Some (take (Z.to_nat pitch) (drop (Z.to_nat (line * pitch)) span))
             else None)).

Definition jbig2_start (w h : Z) (src : list Z) (buf : list Z)
  : FXCODEC_STATUS * unit * list Z :=
  match src with
  | 0 :: _ => (kError, tt, buf)
  | _ => (kDecodeFinished, tt, take (length buf) (src ++ buf))
  end.

Definition env : @Collaborators QFloat :=
  {| PauseIndicatorIface := unit;
     Jbig2Context := unit;
     CJPX_Decoder := unit;
     GetDecoderArray := decoder_array_of;
     LoadAllDataImageAcc := load_image_acc;
     LoadAllDataFiltered := fun s => mkAcc (Some s) (Some (stream_data s)) "" None;
     GetColorSpace := resolve_colorspace;
     GetStockCS := stock;
     ComponentsForFamily :=
       fun f => match f with kDeviceGray => 1 | kDeviceRGB => 3 | _ => 4 end;
     IsValidIccComponents :=
       fun n => bool_decide (n = 1) || bool_decide (n = 3) || bool_decide (n = 4);
     GetDefaultValue := fun _ _ => (0%Q, 0%Q, 1%Q);
     GetRGB := to_rgb;
     TranslateImageLine :=
       fun cs dest src pixels _ _ _ =>
         Some (if decide (cs_family cs = kDeviceGray)
               then gray_line dest src pixels else dest);
     EnableStdConversion := fun _ cs => cs;
     CFX_DIBitmap_Create := create_bitmap;
     SetPaletteArgb := set_palette;
     CreateFaxDecoder := fun _ _ _ _ => None;
     CreateFlateDecoder := fun span w h n bpc _ => stored_rows span w h n bpc;
     CreateRunLengthDecoder := fun _ _ _ _ _ => None;
     JpegModule_CreateDecoder := fun _ _ _ _ _ => None;
     JpegModule_LoadInfo := fun _ => None;
     CJPX_Decoder_Create := fun _ _ => None;
     CJPX_StartDecode := fun _ => false;
     CJPX_GetInfo := fun _ => mkJpxInfo 0 0 0 OPJ_CLRSPC_UNKNOWN;
     CJPX_Decode := fun _ _ _ _ => None;
     Jbig2_NewContext := tt;
     Jbig2_StartDecode := fun _ w h src _ _ _ buf _ _ => jbig2_start w h src buf;
     Jbig2_ContinueDecode := fun _ buf _ => (kDecodeFinished, tt, buf) |}.

#[local] Existing Instance env.

(** A pause indicator that never asks for a pause. *)
Definition no_pause : PauseIndicatorIface := tt.

Definition image_stream (entries : list (string * CPDF_Object)) (data : list Z)
  : CPDF_Stream :=
  mkStream (list_to_map entries) data false 1.

(** S2: 2x1 DeviceRGB, 8 bits, payload 10 20 30 40 50 60. *)
Definition s2_stream : CPDF_Stream :=
  image_stream [("Width", ObjInteger 2); ("Height", ObjInteger 1);
                ("BitsPerComponent", ObjInteger 8);
                ("ColorSpace", ObjName "DeviceRGB")]
               [10; 20; 30; 40; 50; 60].

(** S3: 8x1 image mask, payload 10110001. *)
Definition s3_stream : CPDF_Stream :=
  image_stream [("Width", ObjInteger 8); ("Height", ObjInteger 1);
                ("BitsPerComponent", ObjInteger 1);
                ("ImageMask", ObjBoolean true)]
               [177].

(** S4: 1x1 DeviceRGB with the colour key 0 0 0 0 0 0, payload 0 0 0. *)
Definition s4_stream : CPDF_Stream :=
  image_stream [("Width", ObjInteger 1); ("Height", ObjInteger 1);
                ("BitsPerComponent", ObjInteger 8);
                ("ColorSpace", ObjName "DeviceRGB");
                ("Mask", ObjArray (replicate 6 (ObjInteger 0)))]
               [0; 0; 0].

(** The decoder object after a successful Load of a stream. *)
Definition loaded (s : CPDF_Stream) : option CPDF_DIB :=
  match Load (Some s) new_CPDF_DIB with
  | Some (true, d) => Some d
  | _ => None
  end.

Definition s2_dib : CPDF_DIB := default new_CPDF_DIB (loaded s2_stream).
Definition s3_dib : CPDF_DIB := default new_CPDF_DIB (loaded s3_stream).
Definition s4_dib : CPDF_DIB := default new_CPDF_DIB (loaded s4_stream).

(** The start of a decoder on a stream, as CPDF_Image drives it. *)
Definition start (s : CPDF_Stream) (bHasMask : bool)
  : option (LoadState * CPDF_DIB) :=
  StartLoadDIBBase (Some s) bHasMask None None false kUnknown false
    new_CPDF_DIB.

(** S6 taken to the limit of the dimension bound: 0x1FFFF x 0x1FFFF pixels.
    As an image mask it has 2^34 bits and a byte size below 2^31; as
    8-bit DeviceRGB its byte size is beyond 2^32. *)
Definition big_mask_stream : CPDF_Stream :=
  image_stream [("Width", ObjInteger 131071); ("Height", ObjInteger 131071);
                ("BitsPerComponent", ObjInteger 1);
                ("ImageMask", ObjBoolean true)]
               [0].

Definition big_rgb_stream : CPDF_Stream :=
  image_stream [("Width", ObjInteger 131071); ("Height", ObjInteger 131071);
                ("BitsPerComponent", ObjInteger 8);
                ("ColorSpace", ObjName "DeviceRGB")]
               [0].

(** A decoder about to build a Flate codec for a 2x1 RGB image. *)
Definition flate_acc : CPDF_StreamAcc :=
  mkAcc None (Some [10; 20; 30; 40; 50; 60]) "FlateDecode" None.

Definition flate_dib : CPDF_DIB :=
  set_m_pStreamAcc (Some flate_acc)
    (set_m_bpc 8 (set_m_nComponents 3 (set_m_Width 2 (set_m_Height 1
       new_CPDF_DIB)))).

(** A gray soft mask coded in JBIG2 whose data the codec rejects. *)
Definition corrupt_mask : CPDF_Object :=
  ObjStream (list_to_map
               [("Width", ObjInteger 2); ("Height", ObjInteger 1);
                ("BitsPerComponent", ObjInteger 1);
                ("ColorSpace", ObjName "DeviceGray");
                ("Filter", ObjName "JBIG2Decode")])
            [0; 1] false 2.

(** S2 with that soft mask. *)
Definition masked_stream : CPDF_Stream :=
  image_stream [("Width", ObjInteger 2); ("Height", ObjInteger 1);
                ("BitsPerComponent", ObjInteger 8);
                ("ColorSpace", ObjName "DeviceRGB");
                ("SMask", corrupt_mask)]
               [10; 20; 30; 40; 50; 60].

(** The decoder of [masked_stream] after start: it waits on its mask. *)
Definition masked_dib : CPDF_DIB :=
  default new_CPDF_DIB (snd <$> start masked_stream true).

(** A gray soft mask with a Matte entry. *)
Definition matte_mask (matte : list CPDF_Object) : CPDF_Object :=
  ObjStream (list_to_map
               [("Width", ObjInteger 8); ("Height", ObjInteger 1);
                ("BitsPerComponent", ObjInteger 8);
                ("ColorSpace", ObjName "DeviceGray");
                ("Matte", ObjArray matte)])
            [1; 2; 3; 4; 5; 6; 7; 8] false 3.

(** A DeviceRGB image about to load a soft mask with a 3-entry Matte. *)
Definition matte_dict : gmap string CPDF_Object :=
  list_to_map [("Width", ObjInteger 8); ("Height", ObjInteger 1);
               ("SMask", matte_mask (replicate 3 (ObjReal (1 # 2)%Q)))].

Definition matte_dib : CPDF_DIB :=
  set_m_pDict (Some matte_dict)
    (set_m_pColorSpace (Some (stock kDeviceRGB))
       (set_m_Family kDeviceRGB (set_m_nComponents 3 new_CPDF_DIB))).

(** A DeviceRGB image behind JBIG2Decode, which forces one component, with
    a soft mask whose Matte has one entry. *)
Definition one_entry_matte_stream : CPDF_Stream :=
  image_stream [("Width", ObjInteger 8); ("Height", ObjInteger 1);
                ("BitsPerComponent", ObjInteger 1);
                ("ColorSpace", ObjName "DeviceRGB");
                ("Filter", ObjName "JBIG2Decode");
                ("SMask", matte_mask [ObjReal (1 # 2)%Q])]
               [177].

End Demo.
(** ** Further vocabulary *)

Section MoreVocabulary.
Context `{FA : FloatArith} `{CO : !Collaborators}.

(** The colour-key range of a component. *)
Definition key_range (c : DIB_COMP_DATA) : Z * Z :=
  (m_ColorKeyMin c, m_ColorKeyMax c).

(** While m_bHasMask is false the mask, its matte colour and the flag
    itself stay as they are. *)
Definition mask_untouched (d d' : CPDF_DIB) : Prop :=
  m_bHasMask d = false ->
  m_bHasMask d' = false /\ m_pMask d' = m_pMask d /\
  m_MatteColor d' = m_MatteColor d.


(** A member function establishes a property of its result and of the
    object after it, whenever it returns. *)
Definition ensures {A} (Q : A -> CPDF_DIB -> Prop) (m : M A) : Prop :=
  forall d a d', m d = Some (a, d') -> Q a d'.

End MoreVocabulary.

(** ** Further inputs on the concrete collaborators *)

Module Cases.
#[local] Existing Instance Demo.QFloat.
#[local] Existing Instance Demo.env.

(** S6: a Width of 0x20000. *)
Definition wide_stream : CPDF_Stream :=
  Demo.image_stream [("Width", ObjInteger 131072); ("Height", ObjInteger 1);
                     ("BitsPerComponent", ObjInteger 8);
                     ("ColorSpace", ObjName "DeviceGray")]
                    [0].

(** A dictionary that declares 17 bits per component. *)
Definition deep_dib : CPDF_DIB :=
  set_m_pDict (Some (list_to_map [("BitsPerComponent", ObjInteger 17)]))
    new_CPDF_DIB.

(** A DeviceRGB image of 8 bits whose dictionary has the given entries,
    as LoadColorInfo leaves it before GetDecodeAndMaskArray. *)
Definition rgb_dib (entries : list (string * CPDF_Object)) : CPDF_DIB :=
  set_m_pDict (Some (list_to_map entries))
    (set_m_pColorSpace (Some (Demo.stock kDeviceRGB))
       (set_m_Family kDeviceRGB
          (set_m_bpc 8 (set_m_nComponents 3 new_CPDF_DIB)))).

Definition key_array : CPDF_Array :=
  ObjInteger <$> [-5; 300; 10; 20; 0; 0].

(** One 8-bit component read straight from three bytes of stream data,
    two pixels a row. *)
Definition raw_gray_dib : CPDF_DIB :=
  set_m_pStreamAcc (Some (mkAcc None (Some [1; 2; 3]) "" None))
    (set_m_bpc 8
       (set_m_nComponents 1
          (set_m_Width 2
             (set_m_Pitch 4
                (set_m_pLineBuf (Some [0; 0; 0; 0]) new_CPDF_DIB))))).

(** A 1-bit image of eight pixels, 10110001, keyed on the value 1. *)
Definition keyed_bits_dib : CPDF_DIB :=
  set_m_pStreamAcc (Some (mkAcc None (Some [177]) "" None))
    (set_m_bpc 1
       (set_m_nComponents 1
          (set_m_Width 8
             (set_m_Pitch 32
                (set_m_bColorKey true
                   (set_m_CompData [mkComp 0%Q 1%Q 1 1]
                      (set_m_pLineBuf (Some (replicate 4 0))
                         (set_m_pMaskedLine (Some (replicate 32 0))
                            new_CPDF_DIB)))))))).

(** One RGB pixel of 16 bits per component. *)
Definition rgb16_dib : CPDF_DIB :=
  set_m_bpc 16
    (set_m_nComponents 3 (set_m_Family kDeviceRGB (set_m_Width 1 new_CPDF_DIB))).

(** A 2-bit DeviceGray image about to get its palette. *)
Definition gray2_dib : CPDF_DIB :=
  set_m_pColorSpace (Some (Demo.stock kDeviceGray))
    (set_m_Family kDeviceGray
       (set_m_bpc 2
          (set_m_nComponents 1
             (set_m_CompData [mkComp 0%Q (1 # 3)%Q 0 0]
                (set_m_Format k8bppRgb new_CPDF_DIB))))).

(** A 2x1 image of three 8-bit components about to get its buffers. *)
Definition unbuffered_dib : CPDF_DIB :=
  set_m_bpc 8 (set_m_nComponents 3 (set_m_Width 2 (set_m_Height 1 new_CPDF_DIB))).

(** A decoder holding two alpha bytes taken from its JPX data. *)
Definition inline_alpha_dib : CPDF_DIB :=
  set_m_JpxInlineData (mkInline 2 1 [255; 0]) new_CPDF_DIB.

(** An 8x2 JBIG2 image as CreateDecoder leaves it, on data the codec
    rejects. *)
Definition jbig_rejected_dib : CPDF_DIB :=
  set_m_pStreamAcc (Some (mkAcc None (Some [0; 1]) "JBIG2Decode" None))
    (set_m_Status kSuccess
       (set_m_pCachedBitmap (Demo.create_bitmap 8 2 k1bppRgb)
          (set_m_bpc 1
             (set_m_nComponents 1
                (set_m_Width 8 (set_m_Height 2 new_CPDF_DIB)))))).

(** The same image before CreateDecoder. *)
Definition jbig_fresh_dib : CPDF_DIB :=
  set_m_pStreamAcc (Some (mkAcc None (Some [177; 5]) "JBIG2Decode" None))
    (set_m_bpc 1
       (set_m_nComponents 1 (set_m_Width 8 (set_m_Height 2 new_CPDF_DIB)))).

(** One decoded ARGB pixel and the RGB bitmap it is flattened into. *)
Definition argb_pixel : CFX_DIBitmap := mkBitmap 1 1 kRgb32 4 [10; 20; 30; 128].
Definition rgb_pixel : CFX_DIBitmap := mkBitmap 1 1 kRgb 4 [0; 0; 0; 0].

(** Two RGB pixels of 4 bits per component. *)
Definition rgb4_dib : CPDF_DIB :=
  set_m_bpc 4
    (set_m_nComponents 3 (set_m_Family kDeviceRGB (set_m_Width 2 new_CPDF_DIB))).

(** Two pixels of one 4-bit component, packed in the byte 0xA5. *)
Definition gray4_dib : CPDF_DIB :=
  set_m_pStreamAcc (Some (mkAcc None (Some [165]) "" None))
    (set_m_bpc 4
       (set_m_nComponents 1
          (set_m_Width 2
             (set_m_Pitch 4
                (set_m_pLineBuf (Some [0; 0; 0; 0]) new_CPDF_DIB))))).

(** Two 4-bit indices of a JPX image, stored in the high bits of a byte. *)
Definition index_pixels : CFX_DIBitmap :=
  mkBitmap 2 1 k8bppRgb 4 [240; 128; 7; 9].

(** An 8x2 image mask read straight from two bytes of stream data. *)
Definition mask_rows_stream : CPDF_Stream :=
  Demo.image_stream [("Width", ObjInteger 8); ("Height", ObjInteger 2);
                     ("BitsPerComponent", ObjInteger 1);
                     ("ImageMask", ObjBoolean true)]
                    [177; 5].

Definition mask_rows_dib : CPDF_DIB :=
  default new_CPDF_DIB (Demo.loaded mask_rows_stream).

(** A 16x2 image mask whose data stop after the first byte of the second
    row. *)
Definition short_mask_stream : CPDF_Stream :=
  Demo.image_stream [("Width", ObjInteger 16); ("Height", ObjInteger 2);
                     ("BitsPerComponent", ObjInteger 1);
                     ("ImageMask", ObjBoolean true)]
                    [177; 5; 15].

Definition short_mask_dib : CPDF_DIB :=
  default new_CPDF_DIB (Demo.loaded short_mask_stream).

(** S2 with a second row. *)
Definition rgb_rows_stream : CPDF_Stream :=
  Demo.image_stream [("Width", ObjInteger 2); ("Height", ObjInteger 2);
                     ("BitsPerComponent", ObjInteger 8);
                     ("ColorSpace", ObjName "DeviceRGB")]
                    [10; 20; 30; 40; 50; 60; 1; 2; 3; 4; 5; 6].

Definition rgb_rows_dib : CPDF_DIB :=
  default new_CPDF_DIB (Demo.loaded rgb_rows_stream).

(** The same image with data that stop after the first pixel of the
    second row. *)
Definition short_rgb_stream : CPDF_Stream :=
  Demo.image_stream [("Width", ObjInteger 2); ("Height", ObjInteger 2);
                     ("BitsPerComponent", ObjInteger 8);
                     ("ColorSpace", ObjName "DeviceRGB")]
                    [10; 20; 30; 40; 50; 60; 1; 2; 3].

Definition short_rgb_dib : CPDF_DIB :=
  default new_CPDF_DIB (Demo.loaded short_rgb_stream).

(** A 2x2 DeviceRGB image with the colour key 10..20, 30..40, 50..60. *)
Definition keyed_rgb_stream : CPDF_Stream :=
  Demo.image_stream [("Width", ObjInteger 2); ("Height", ObjInteger 2);
                     ("BitsPerComponent", ObjInteger 8);
                     ("ColorSpace", ObjName "DeviceRGB");
                     ("Mask", ObjArray (ObjInteger <$> [10; 20; 30; 40; 50; 60]))]
                    [0; 0; 0; 0; 0; 0; 15; 35; 55; 15; 35; 61].

Definition keyed_rgb_dib : CPDF_DIB :=
  default new_CPDF_DIB (Demo.loaded keyed_rgb_stream).







(** An 8x2 JBIG2 image mask whose second row is not blank, started and
    decoded to the end. *)
Definition jbig_rows_stream : CPDF_Stream :=
  Demo.image_stream [("Width", ObjInteger 8); ("Height", ObjInteger 2);
                     ("BitsPerComponent", ObjInteger 1);
                     ("ImageMask", ObjBoolean true);
                     ("Filter", ObjName "JBIG2Decode")]
                    [177; 0; 0; 0; 5].

Definition jbig_rows_dib : CPDF_DIB :=
  default new_CPDF_DIB
    (r ← Demo.start jbig_rows_stream false;
     r' ← ContinueLoadDIBBase Demo.no_pause (snd r);
     Some (snd r')).

(** An 8x2 JBIG2 image with the soft mask the codec rejects, after
    start. *)
Definition jbig_masked_stream : CPDF_Stream :=
  Demo.image_stream [("Width", ObjInteger 8); ("Height", ObjInteger 2);
                     ("BitsPerComponent", ObjInteger 1);
                     ("ColorSpace", ObjName "DeviceGray");
                     ("Filter", ObjName "JBIG2Decode");
                     ("SMask", Demo.corrupt_mask)]
                    [177; 5].

Definition jbig_masked_dib : CPDF_DIB :=
  default new_CPDF_DIB (snd <$> Demo.start jbig_masked_stream true).

End Cases.

(** ** Collaborators with stand-ins for the JPEG and the JPX codec

    The data of both stand-ins is a three-byte header (width, height,
    component count) followed by the rows.  The JPEG codec refuses
    parameters that differ from the header. *)

Module Codecs.
#[local] Existing Instance Demo.QFloat.

Definition jpeg_info (src : list Z) : option JpegImageInfo :=
  match src with
  | w :: h :: c :: _ => Some (mkJpegInfo w h c 8 true)
  | _ => None
  end.

Definition jpeg_decoder (src : list Z) (w h n : Z) (_ : bool)
  : option ScanlineDecoder :=
  match src with
  | w0 :: h0 :: c0 :: rows =>
      if bool_decide (w = w0) && bool_decide (h = h0) && bool_decide (n = c0)
      then Demo.stored_rows rows w h n 8 else None
  | _ => None
  end.

Definition jpx_info (src : list Z) : JpxImageInfo :=
  match src with
  | w :: h :: c :: _ => mkJpxInfo w h c OPJ_CLRSPC_SRGB
  | _ => mkJpxInfo 0 0 0 OPJ_CLRSPC_UNKNOWN
  end.

Definition env : @Collaborators Demo.QFloat :=
  {| PauseIndicatorIface := unit;
     Jbig2Context := unit;
     CJPX_Decoder := list Z;
     GetDecoderArray := Demo.decoder_array_of;
     LoadAllDataImageAcc := Demo.load_image_acc;
     LoadAllDataFiltered := fun s => mkAcc (Some s) (Some (stream_data s)) "" None;
     GetColorSpace := Demo.resolve_colorspace;
     GetStockCS := Demo.stock;
     ComponentsForFamily :=
       fun f => match f with kDeviceGray => 1 | kDeviceRGB => 3 | _ => 4 end;
     IsValidIccComponents :=
       fun n => bool_decide (n = 1) || bool_decide (n = 3) || bool_decide (n = 4);
     GetDefaultValue := fun _ _ => (0%Q, 0%Q, 1%Q);
     GetRGB := Demo.to_rgb;
     TranslateImageLine := fun _ dest _ _ _ _ _ => Some dest;
     EnableStdConversion := fun _ cs => cs;
     CFX_DIBitmap_Create := Demo.create_bitmap;
     SetPaletteArgb := Demo.set_palette;
     CreateFaxDecoder := fun _ _ _ _ => None;
     CreateFlateDecoder := fun span w h n bpc _ => Demo.stored_rows span w h n bpc;
     CreateRunLengthDecoder := fun _ _ _ _ _ => None;
     JpegModule_CreateDecoder := jpeg_decoder;
     JpegModule_LoadInfo := jpeg_info;
     CJPX_Decoder_Create := fun span _ =>
       if bool_decide (span = []) then None else Some span;
     CJPX_StartDecode := fun _ => true;
     CJPX_GetInfo := jpx_info;
     CJPX_Decode := fun src buf _ _ =>
       Some (take (length buf) (drop 3 src ++ buf));
     Jbig2_NewContext := tt;
     Jbig2_StartDecode :=
       fun _ w h src _ _ _ buf _ _ => Demo.jbig2_start w h src buf;
     Jbig2_ContinueDecode := fun _ buf _ => (kDecodeFinished, tt, buf) |}.

#[local] Existing Instance env.

(** A JPEG of 2x1 pixels with 3 components behind a dictionary that says
    1x1. *)
Definition jpeg_data : list Z := [2; 1; 3; 10; 20; 30; 40; 50; 60].

Definition jpeg_dib : CPDF_DIB :=
  set_m_Width 1 (set_m_Height 1 (set_m_nComponents 3 new_CPDF_DIB)).

(** A JPX image of one RGB pixel without a ColorSpace entry. *)
Definition jpx_dib : CPDF_DIB :=
  set_m_pStreamAcc (Some (mkAcc None (Some [1; 1; 3; 10; 20; 30]) "JPXDecode"
                            None))
    (set_m_pDict (Some ∅) (set_m_Width 1 (set_m_Height 1 new_CPDF_DIB))).

End Codecs.


(** * Properties *)

(** ** Tactics *)

(** Projections of updated objects. *)
Ltac dib_simpl :=
  cbn [
    m_Width m_Height m_Pitch m_Format m_palette m_pDict m_pStream
    m_pStreamAcc m_pColorSpace m_Family m_bpc m_bpc_orig m_nComponents
    m_GroupFamily m_MatteColor m_Status m_bLoadMask m_bDefaultDecode
    m_bImageMask m_bDoBpcCheck m_bColorKey m_bHasMask m_bStdCS m_CompData
    m_pLineBuf m_pMaskedLine m_pCachedBitmap m_pMask m_pGlobalAcc m_pDecoder
    m_JpxInlineData m_pJbig2Context set_m_Width set_m_Height set_m_Pitch
    set_m_Format set_m_palette set_m_pDict set_m_pStream set_m_pStreamAcc
    set_m_pColorSpace set_m_Family set_m_bpc set_m_bpc_orig set_m_nComponents
    set_m_GroupFamily set_m_MatteColor set_m_Status set_m_bLoadMask
    set_m_bDefaultDecode set_m_bImageMask set_m_bDoBpcCheck set_m_bColorKey
    set_m_bHasMask set_m_bStdCS set_m_CompData set_m_pLineBuf
    set_m_pMaskedLine set_m_pCachedBitmap set_m_pMask set_m_pGlobalAcc
    set_m_pDecoder set_m_JpxInlineData set_m_pJbig2Context
  ] in *.

(** One step of the state monad. *)
Ltac monad_simpl :=
  cbv [bindM gets retM modify deref undefined] in *; dib_simpl.

Section Basics.
Context `{FA : FloatArith} `{CO : !Collaborators}.

(** ** Loops *)

(** A loop whose body keeps an invariant and never fails under it runs to
    the end and establishes the invariant at the exit index. *)
Lemma for_loop_total {St : Type} (P : Z -> St -> Prop)
    (body : Z -> St -> option St) (n : nat) (i : Z) (s : St) :
  P i s ->
  (forall k t, i <= k < i + Z.of_nat n -> P k t ->
               exists t', body k t = Some t' /\ P (k + 1) t') ->
  exists s', for_loop n i body s = Some s' /\ P (i + Z.of_nat n) s'.
Proof.
  revert i s. induction n as [|n IH]; intros i s Hs Hstep.
  - exists s. split; [done|]. by replace (i + Z.of_nat 0) with i by lia.
  - destruct (Hstep i s) as (t & Hbody & Ht); [lia|done|].
    destruct (IH (i + 1) t Ht) as (s' & Hloop & Hs').
    { intros k u Hk Hu. apply Hstep; [lia|done]. }
    exists s'. split.
    + cbn [for_loop]. rewrite Hbody. exact Hloop.
    + by replace (i + Z.of_nat (S n)) with (i + 1 + Z.of_nat n) by lia.
Qed.

(** ** Buffers *)

Lemma buf_write_Some (buf : list Z) (i v : Z) :
  0 <= i < Z.of_nat (length buf) ->
  buf_write buf i v = Some (<[Z.to_nat i := u8 v]> buf).
Proof. intros H. unfold buf_write. by rewrite bool_decide_eq_true_2. Qed.

Lemma ptr_read_of (buf : list Z) (i : Z) :
  0 <= i -> ptr_read (ptr_of buf) i = buf !! Z.to_nat i.
Proof.
  intros H. unfold ptr_read, ptr_of. cbn.
  by rewrite bool_decide_eq_true_2 by lia.
Qed.

Lemma ptr_bytes_length (p : BytePtr) (n : Z) (row : list Z) :
  ptr_bytes p n = Some row -> length row = Z.to_nat n.
Proof.
  unfold ptr_bytes. intros H. apply length_mapM in H.
  by rewrite length_seq in H.
Qed.

Lemma ptr_bytes_lookup (p : BytePtr) (n : Z) (row : list Z) (i : nat) :
  ptr_bytes p n = Some row -> (i < Z.to_nat n)%nat ->
  ptr_read p (Z.of_nat i) = row !! i.
Proof.
  unfold ptr_bytes. intros H Hi. apply mapM_Some_1 in H.
  assert (Hseq : seq 0 (Z.to_nat n) !! i = Some i)
    by (by apply lookup_seq).
  destruct (Forall2_lookup_l _ _ _ _ _ H Hseq) as (y & Hy & Hread).
  by rewrite Hy.
Qed.

Lemma u8_byte (b : Z) : is_byte b -> u8 b = b.
Proof. unfold is_byte, u8. intros H. by apply Z.mod_small. Qed.


(** ** Frame reasoning *)

Section Keeps.
Context (R : CPDF_DIB -> CPDF_DIB -> Prop).
Context (R_refl : forall d, R d d).
Context (R_trans : forall d1 d2 d3, R d1 d2 -> R d2 d3 -> R d1 d3).

Lemma keeps_ret {A} (a : A) : keeps R (retM a).
Proof using R_refl. intros d a' d' [= <- <-]. apply R_refl. Qed.

Lemma keeps_gets {A} (f : CPDF_DIB -> A) : keeps R (gets f).
Proof using R_refl. intros d a' d' [= <- <-]. apply R_refl. Qed.

Lemma keeps_undefined {A} : keeps R (@undefined _ _ A).
Proof. intros d a' d' [=]. Qed.

Lemma keeps_deref {A} (o : option A) : keeps R (deref o).
Proof using R_refl. destruct o; [apply keeps_ret | apply keeps_undefined]. Qed.

Lemma keeps_modify (f : CPDF_DIB -> CPDF_DIB) :
  (forall d, R d (f d)) -> keeps R (modify f).
Proof. intros Hf d a' d' [= <- <-]. apply Hf. Qed.

Lemma keeps_bind {A B} (m : M A) (k : A -> M B) :
  keeps R m -> (forall a, keeps R (k a)) -> keeps R (bindM m k).
Proof using R_trans.
  intros Hm Hk d b d'. unfold bindM.
  destruct (m d) as [[a d1]|] eqn:E; [|done].
  intros Hkd. eapply R_trans; [by eapply Hm | by eapply Hk].
Qed.

End Keeps.

Lemma nothing_allocated_refl (d : CPDF_DIB) : nothing_allocated d d.
Proof. by repeat split. Qed.

Lemma nothing_allocated_trans (d1 d2 d3 : CPDF_DIB) :
  nothing_allocated d1 d2 -> nothing_allocated d2 d3 -> nothing_allocated d1 d3.
Proof.
  unfold nothing_allocated. intros (?&?&?&?&?) (?&?&?&?&?).
  repeat split; congruence.
Qed.

Lemma same_refl {A} (f : CPDF_DIB -> A) (d : CPDF_DIB) : same f d d.
Proof. done. Qed.

Lemma same_trans {A} (f : CPDF_DIB -> A) (d1 d2 d3 : CPDF_DIB) :
  same f d1 d2 -> same f d2 d3 -> same f d1 d3.
Proof. unfold same. congruence. Qed.


End Basics.

(** One syntax-directed step of a frame proof; the two arguments prove
    reflexivity and transitivity of the relation kept. *)
Ltac keeps_with prove_refl prove_trans :=
  first
    [ eapply keeps_ret; prove_refl
    | eapply keeps_gets; prove_refl
    | eapply keeps_deref; prove_refl
    | eapply keeps_modify; intros ?; by repeat split
    | eapply keeps_bind; [prove_trans | | intros ?]
    | case_match ].

Ltac keeps_step :=
  keeps_with ltac:(apply nothing_allocated_refl)
             ltac:(apply nothing_allocated_trans).

Ltac same_step := keeps_with ltac:(apply same_refl) ltac:(apply same_trans).

Section Properties.
Context `{FA : FloatArith} `{CO : !Collaborators}.

Lemma ValidateDictParam_allocates_nothing (filter : string) :
  keeps nothing_allocated (ValidateDictParam filter).
Proof. unfold ValidateDictParam. repeat keeps_step. Qed.

Lemma GetDecodeAndMaskArray_allocates_nothing :
  keeps nothing_allocated GetDecodeAndMaskArray.
Proof. unfold GetDecodeAndMaskArray. repeat keeps_step. Qed.

Lemma LoadColorInfo_allocates_nothing
    (pFormResources pPageResources : option CPDF_Dictionary) :
  keeps nothing_allocated (LoadColorInfo pFormResources pPageResources).
Proof.
  unfold LoadColorInfo.
  repeat first [ apply ValidateDictParam_allocates_nothing
               | apply GetDecodeAndMaskArray_allocates_nothing
               | keeps_step ].
Qed.

(** ** JPX negotiation *)

(** C4.  GetJpxDecodeAction computes the negotiation table of section 4.5:
    with a PDF colour space, equal component counts give DoNothing, or
    UseRgb when the colour space is the stock DeviceRGB; 3 declared
    components against 4 in an sRGB bitstream give ConvertArgbToRgb; every
    other mismatch gives Fail.  Without a PDF colour space, 3 components
    give UseRgb, 4 give UseCmyk and any other count gives DoNothing. *)
Theorem GetJpxDecodeAction_table (jpx_info : JpxImageInfo)
    (pdf_colorspace : option CPDF_ColorSpace) :
  (forall cs, pdf_colorspace = Some cs ->
     jpx_components jpx_info = cs_components cs ->
     GetJpxDecodeAction jpx_info pdf_colorspace =
       if same_colorspace cs (GetStockCS kDeviceRGB)
       then JpxDecodeAction.kUseRgb
       else JpxDecodeAction.kDoNothing) /\
  (forall cs, pdf_colorspace = Some cs ->
     cs_components cs = 3 -> jpx_components jpx_info = 4 ->
     jpx_colorspace jpx_info = OPJ_CLRSPC_SRGB ->
     GetJpxDecodeAction jpx_info pdf_colorspace
       = JpxDecodeAction.kConvertArgbToRgb) /\
  (forall cs, pdf_colorspace = Some cs ->
     jpx_components jpx_info <> cs_components cs ->
     ~ (cs_components cs = 3 /\ jpx_components jpx_info = 4 /\
        jpx_colorspace jpx_info = OPJ_CLRSPC_SRGB) ->
     GetJpxDecodeAction jpx_info pdf_colorspace = JpxDecodeAction.kFail) /\
  (pdf_colorspace = None -> jpx_components jpx_info = 3 ->
     GetJpxDecodeAction jpx_info pdf_colorspace = JpxDecodeAction.kUseRgb) /\
  (pdf_colorspace = None -> jpx_components jpx_info = 4 ->
     GetJpxDecodeAction jpx_info pdf_colorspace = JpxDecodeAction.kUseCmyk) /\
  (pdf_colorspace = None -> jpx_components jpx_info <> 3 ->
     jpx_components jpx_info <> 4 ->
     GetJpxDecodeAction jpx_info pdf_colorspace = JpxDecodeAction.kDoNothing).
Proof.
  unfold GetJpxDecodeAction.
  repeat split.
  - intros cs -> Heq. rewrite bool_decide_eq_false_2 by (intros Hne; by apply Hne).
    done.
  - intros cs -> H3 H4 Hs.
    rewrite bool_decide_eq_true_2 by lia.
    by rewrite !bool_decide_eq_true_2.
  - intros cs -> Hne Hnot.
    rewrite bool_decide_eq_true_2 by done.
    destruct (bool_decide (cs_components cs = 3)) eqn:E3;
      destruct (bool_decide (jpx_components jpx_info = 4)) eqn:E4;
      destruct (bool_decide (jpx_colorspace jpx_info = OPJ_CLRSPC_SRGB)) eqn:Es;
      try done.
    apply bool_decide_eq_true_1 in E3, E4, Es. by destruct Hnot.
  - intros -> H3. by rewrite bool_decide_eq_true_2.
  - intros -> H4. rewrite bool_decide_eq_false_2 by lia.
    by rewrite bool_decide_eq_true_2.
  - intros -> H3 H4. by rewrite !bool_decide_eq_false_2.
Qed.

(** ** Resuming *)

Lemma ContinueLoadDIBBase_entry (pPause : PauseIndicatorIface) (d : CPDF_DIB) :
  ContinueLoadDIBBase pPause d =
  ContinueLoadDIBBase_body
    (fun _ => match m_pMask d with
              | Some mask => ContinueLoadDIBBase pPause mask
              | None => None
              end) pPause d.
Proof. by destruct d. Qed.

Lemma ContinueLoadMaskDIB_body_ext
    (f g : CPDF_DIB -> option (LoadState * CPDF_DIB)) (d : CPDF_DIB) :
  (forall mask, m_pMask d = Some mask -> f mask = g mask) ->
  ContinueLoadMaskDIB_body f d = ContinueLoadMaskDIB_body g d.
Proof.
  intros Hfg. unfold ContinueLoadMaskDIB_body. monad_simpl.
  destruct (m_pMask d) as [mask|] eqn:Hmask; [|done].
  by rewrite (Hfg mask).
Qed.

Lemma Jbig2_step_mask (pPause : PauseIndicatorIface) (acc : CPDF_StreamAcc)
    (d d' : CPDF_DIB) (status : FXCODEC_STATUS) :
  Jbig2_step pPause acc d = Some (status, d') ->
  m_pMask d' = m_pMask d /\ m_bHasMask d' = m_bHasMask d.
Proof.
  unfold Jbig2_step. monad_simpl.
  destruct (m_pJbig2Context d) as [c|].
  - destruct (Jbig2_ContinueDecode _ _ _) as [[st c'] buf].
    monad_simpl. by intros [= <- <-].
  - destruct (acc_param acc ≫= _) as [g|]; monad_simpl.
    + destruct (m_pCachedBitmap d) as [bm|]; [|done]. monad_simpl.
      destruct (Jbig2_StartDecode _ _ _ _ _ _ _ _ _ _) as [[st c'] buf].
      monad_simpl. by intros [= <- <-].
    + destruct (m_pCachedBitmap d) as [bm|]; [|done]. monad_simpl.
      destruct (Jbig2_StartDecode _ _ _ _ _ _ _ _ _ _) as [[st c'] buf].
      monad_simpl. by intros [= <- <-].
Qed.

Lemma ContinueLoadDIBBase_body_ext
    (f g : CPDF_DIB -> option (LoadState * CPDF_DIB))
    (pPause : PauseIndicatorIface) (d : CPDF_DIB) :
  (forall mask, m_pMask d = Some mask -> f mask = g mask) ->
  ContinueLoadDIBBase_body f pPause d = ContinueLoadDIBBase_body g pPause d.
Proof.
  intros Hfg. unfold ContinueLoadDIBBase_body.
  cbv [bindM gets retM deref undefined].
  destruct (decide (m_Status d = kContinue)).
  { by apply ContinueLoadMaskDIB_body_ext. }
  destruct (m_pStreamAcc d) as [acc|]; [|done].
  destruct (bool_decide (acc_decoder acc = "JPXDecode")); [done|].
  destruct (negb (bool_decide (acc_decoder acc = "JBIG2Decode"))); [done|].
  destruct (decide (m_Status d = kFail)); [done|].
  destruct (Jbig2_step pPause acc d) as [[st d']|] eqn:Hstep; [|done].
  apply Jbig2_step_mask in Hstep as [Hm _].
  destruct (decide (st = kError)); [done|].
  destruct (decide (st = kDecodeToBeContinued)); [done|].
  destruct (m_bHasMask d'); [|done].
  rewrite (ContinueLoadMaskDIB_body_ext f g d'); [done|].
  by rewrite Hm.
Qed.

(** The recursive equation of the source: the body runs with the function
    itself on the mask. *)
Lemma ContinueLoadDIBBase_unfold (pPause : PauseIndicatorIface) (d : CPDF_DIB) :
  ContinueLoadDIBBase pPause d =
  ContinueLoadDIBBase_body (ContinueLoadDIBBase pPause) pPause d.
Proof.
  rewrite ContinueLoadDIBBase_entry.
  apply ContinueLoadDIBBase_body_ext. by intros mask ->.
Qed.

(** C9.  A decoder that is not waiting on a mask continuation
    (m_Status is not kContinue) answers ContinueLoadDIBBase with Fail when
    the terminal filter is JPXDecode, and with Success when it is neither
    JPXDecode nor JBIG2Decode; in both cases the object is left as it was,
    so no decoding work is done: only JBIG2Decode drives the codec. *)
Theorem ContinueLoadDIBBase_without_codec (pPause : PauseIndicatorIface)
    (d : CPDF_DIB) (acc : CPDF_StreamAcc) :
  m_Status d <> kContinue ->
  m_pStreamAcc d = Some acc ->
  (acc_decoder acc = "JPXDecode" ->
     ContinueLoadDIBBase pPause d = Some (kFail, d)) /\
  (acc_decoder acc <> "JPXDecode" -> acc_decoder acc <> "JBIG2Decode" ->
     ContinueLoadDIBBase pPause d = Some (kSuccess, d)).
Proof.
  intros Hstatus Hacc. rewrite ContinueLoadDIBBase_unfold.
  unfold ContinueLoadDIBBase_body. cbv [bindM gets retM deref].
  destruct (decide (m_Status d = kContinue)); [done|].
  rewrite Hacc. split.
  - intros Hjpx. by rewrite bool_decide_eq_true_2.
  - intros Hjpx Hjbig. by rewrite !bool_decide_eq_false_2.
Qed.

Lemma std_conversion_mask (enable : bool) :
  keeps (same m_pMask) (std_conversion enable).
Proof. unfold std_conversion. repeat same_step. Qed.

Lemma std_conversion_total (enable : bool) (d : CPDF_DIB) :
  exists d', std_conversion enable d = Some (tt, d').
Proof.
  unfold std_conversion. cbv [bindM gets retM modify].
  destruct (m_pColorSpace d); [destruct (m_bStdCS d)|]; by eexists.
Qed.

(** A mask whose resumed load fails is dropped, and ContinueLoadMaskDIB
    reports the failure. *)
Lemma ContinueLoadMaskDIB_body_fail
    (continue_mask : CPDF_DIB -> option (LoadState * CPDF_DIB))
    (d mask mask' : CPDF_DIB) :
  m_pMask d = Some mask ->
  continue_mask mask = Some (kFail, mask') ->
  exists d', ContinueLoadMaskDIB_body continue_mask d = Some (kFail, d')
             /\ m_pMask d' = None.
Proof.
  intros Hmask Hfail. unfold ContinueLoadMaskDIB_body.
  cbv [bindM gets retM modify deref]. rewrite Hmask, Hfail. cbn [fst snd].
  destruct (decide (kFail = kContinue)); [done|].
  destruct (std_conversion_total false (set_m_pMask (Some mask') d))
    as [d1 Hd1].
  rewrite Hd1. destruct (decide (kFail = kFail)); [|done].
  by eexists.
Qed.

(** C7.  A mask sub-decoder that fails at its start is dropped and
    StartLoadMaskDIB reports Success.  A mask whose resumed load ends in
    Fail is dropped as well and ContinueLoadMaskDIB reports Fail: the
    JBIG2 branch of ContinueLoadDIBBase ignores that Fail and reports
    Success for the primary, but a decoder that was waiting on its mask
    (m_Status = kContinue) hands the Fail to its caller. *)
Theorem mask_failure_detaches_mask (pPause : PauseIndicatorIface)
    (d : CPDF_DIB) :
  (forall stream failed,
     StartLoadDIBBase_mask stream = Some (kFail, failed) ->
     StartLoadMaskDIB stream d = Some (kSuccess, set_m_pMask None d)) /\
  (forall mask failed,
     m_pMask d = Some mask ->
     ContinueLoadDIBBase pPause mask = Some (kFail, failed) ->
     (exists d', ContinueLoadMaskDIB pPause d = Some (kFail, d')
                 /\ m_pMask d' = None) /\
     (forall acc status d1,
        m_Status d = kSuccess ->
        m_pStreamAcc d = Some acc -> acc_decoder acc = "JBIG2Decode" ->
        Jbig2_step pPause acc d = Some (status, d1) ->
        status <> kError -> status <> kDecodeToBeContinued ->
        m_bHasMask d = true ->
        exists d', ContinueLoadDIBBase pPause d = Some (kSuccess, d')
                   /\ m_pMask d' = None) /\
     (m_Status d = kContinue ->
      exists d', ContinueLoadDIBBase pPause d = Some (kFail, d')
                 /\ m_pMask d' = None)).
Proof.
  split.
  - intros stream failed Hfail.
    unfold StartLoadMaskDIB, StartLoadMaskDIB_body.
    cbv [bindM gets retM modify deref]. rewrite Hfail. cbn [fst snd].
    destruct (decide (kFail = kContinue)); [done|].
    destruct (decide (kFail = kFail)); done.
  - intros mask failed Hmask Hfail.
    pose proof (ContinueLoadMaskDIB_body_fail (ContinueLoadDIBBase pPause)
                  d mask failed Hmask Hfail) as Hbody.
    split; [exact Hbody|]. split.
    + intros acc status d1 Hstatus Hacc Hdec Hstep Herr Hcont Hhas.
      destruct (Jbig2_step_mask _ _ _ _ _ Hstep) as [Hm1 Hh1].
      destruct (ContinueLoadMaskDIB_body_fail (ContinueLoadDIBBase pPause)
                  d1 mask failed) as (d2 & Hd2 & Hm2);
        [by rewrite Hm1|done|].
      destruct (std_conversion_total false d2) as [d3 Hd3].
      exists d3. split; [|by rewrite (std_conversion_mask _ _ _ _ Hd3)].
      rewrite ContinueLoadDIBBase_unfold.
      unfold ContinueLoadDIBBase_body. cbv [bindM gets retM deref modify].
      rewrite Hstatus. destruct (decide (kSuccess = kContinue)); [done|].
      rewrite Hacc, Hdec. cbn [negb].
      rewrite bool_decide_eq_false_2 by done.
      rewrite bool_decide_eq_true_2 by done. cbn [negb].
      destruct (decide (kSuccess = kFail)); [done|].
      rewrite Hstep.
      destruct (decide (status = kError)); [done|].
      destruct (decide (status = kDecodeToBeContinued)); [done|].
      rewrite Hh1, Hhas, Hd2.
      destruct (decide (kFail = kContinue)); [done|].
      destruct (decide (kSuccess = kContinue)); [done|].
      by rewrite Hd3.
    + intros Hstatus. rewrite ContinueLoadDIBBase_unfold.
      unfold ContinueLoadDIBBase_body. cbv [bindM gets].
      destruct (decide (m_Status d = kContinue)); [|done]. exact Hbody.
Qed.

(** ** Decoder construction *)

(** C6.  For the lazy codecs (CCITTFax, Flate, RunLength, DCT) CreateDecoder
    succeeds only with a decoder whose pitch, computed from its own bpc,
    component count and width, is at least the pitch computed from m_bpc,
    m_nComponents and m_Width; a decoder that falls short makes it return
    Fail. *)
Theorem CreateDecoder_pitch (d d' : CPDF_DIB) (acc : CPDF_StreamAcc)
    (r : LoadState) :
  m_pStreamAcc d = Some acc ->
  acc_decoder acc = "CCITTFaxDecode" \/ acc_decoder acc = "FlateDecode" \/
  acc_decoder acc = "RunLengthDecode" \/ acc_decoder acc = "DCTDecode" ->
  CreateDecoder d = Some (r, d') ->
  (r = kSuccess ->
     exists dec requested provided,
       m_pDecoder d' = Some dec /\
       CalculatePitch8 (m_bpc d') (m_nComponents d') (m_Width d')
         = Some requested /\
       CalculatePitch8 (dec_bpc dec) (dec_comps dec) (dec_width dec)
         = Some provided /\
       requested <= provided) /\
  (forall dec requested provided,
     m_pDecoder d' = Some dec ->
     CalculatePitch8 (m_bpc d') (m_nComponents d') (m_Width d')
       = Some requested ->
     CalculatePitch8 (dec_bpc dec) (dec_comps dec) (dec_width dec)
       = Some provided ->
     provided < requested -> r = kFail).
Proof.
  intros Hacc Hname. unfold CreateDecoder.
  cbv [bindM gets retM deref]. rewrite Hacc.
  assert (Hne : acc_decoder acc <> "" /\ acc_decoder acc <> "JPXDecode"
                /\ acc_decoder acc <> "JBIG2Decode").
  { destruct Hname as [-> | [-> | [-> | ->]]]; done. }
  destruct Hne as (Hn1 & Hn2 & Hn3).
  rewrite !(bool_decide_eq_false_2 _ Hn1), !(bool_decide_eq_false_2 _ Hn2),
          !(bool_decide_eq_false_2 _ Hn3).
  destruct (m_bDoBpcCheck d && bool_decide (m_bpc d = 0)) eqn:Hearly.
  { intros [= <- <-]. split; [done|]. intros; done. }
  set (build := if bool_decide (acc_decoder acc = "CCITTFaxDecode") then _ else _).
  destruct (build d) as [[built d1]|] eqn:Hbuild; [|done]. clear build Hbuild.
  destruct built; cbn [negb].
  2: { intros [= <- <-]. split; [done|]. intros; done. }
  destruct (m_pDecoder d1) as [dec|] eqn:Hdec.
  2: { intros [= <- <-]. split; [done|]. intros; done. }
  destruct (CalculatePitch8 (m_bpc d1) _ _) as [req|] eqn:Hreq.
  2: { intros [= <- <-]. split; [done|]. intros; done. }
  destruct (CalculatePitch8 (dec_bpc dec) _ _) as [prov|] eqn:Hprov.
  2: { intros [= <- <-]. split; [done|]. intros; done. }
  destruct (bool_decide (prov < req)) eqn:Hlt; intros [= <- <-].
  - split; [done|]. intros; done.
  - split.
    + intros _. exists dec, req, prov. repeat split; try done.
      apply bool_decide_eq_false_1 in Hlt. lia.
    + intros dec' req' prov' Hd Hr Hp Hsmall.
      apply bool_decide_eq_false_1 in Hlt.
      rewrite Hdec in Hd. injection Hd as <-.
      rewrite Hreq in Hr. rewrite Hprov in Hp.
      injection Hr as <-. injection Hp as <-. lia.
Qed.

(** ** The size check *)

Lemma safe_u32_Some (z : Z) : 0 <= z <= uint32_max -> safe_u32 z = Some z.
Proof. intros H. unfold safe_u32. by rewrite bool_decide_eq_true_2. Qed.

Lemma safe_u32_None (z : Z) : ~ (0 <= z <= uint32_max) -> safe_u32 z = None.
Proof. intros H. unfold safe_u32. by rewrite bool_decide_eq_false_2. Qed.

Lemma safe_u32_inv (z x : Z) : safe_u32 z = Some x -> x = z /\ 0 <= z <= uint32_max.
Proof.
  unfold safe_u32. case_bool_decide; [|done]. by intros [= <-].
Qed.

Lemma CalculatePitch8_inv (bpc n w p : Z) :
  CalculatePitch8 bpc n w = Some p ->
  p = (bpc * n * w + 7) / 8 /\ 0 <= bpc * n * w /\ bpc * n * w + 7 <= uint32_max.
Proof.
  unfold CalculatePitch8, safe_div, safe_add, safe_mul. intros H.
  destruct (safe_u32 bpc) as [a|] eqn:Ha; [|done]. cbn in H.
  destruct (safe_u32 (a * n)) as [b|] eqn:Hb; [|done]. cbn in H.
  destruct (safe_u32 (b * w)) as [c|] eqn:Hc; [|done]. cbn in H.
  destruct (safe_u32 (c + 7)) as [e|] eqn:He; [|done]. cbn in H.
  rewrite bool_decide_eq_false_2 in H by done.
  apply safe_u32_inv in Ha as [-> ?], Hb as [-> ?], Hc as [-> ?], He as [-> ?],
    H as [-> ?].
  unfold uint32_max in *. repeat split; lia.
Qed.

(** The check fails as soon as the byte size of the image does not fit
    32 bits. *)
Lemma checked_src_size_overflow (bpc n w h : Z) :
  0 < h -> 4294967296 <= (bpc * n * w + 7) / 8 * h ->
  checked_src_size bpc n w h = None.
Proof.
  intros Hh Hbig. unfold checked_src_size, safe_mul.
  destruct (CalculatePitch8 bpc n w) as [p|] eqn:Hp; [|done]. cbn.
  apply CalculatePitch8_inv in Hp as (-> & _ & _).
  apply safe_u32_None. unfold uint32_max. lia.
Qed.

(** A bit count of 2^35 and more is a byte size of 2^32 and more. *)
Lemma byte_size_of_bit_product (bpc n w h : Z) :
  0 < h -> 0 <= bpc * n * w ->
  34359738368 <= w * h * bpc * n ->
  4294967296 <= (bpc * n * w + 7) / 8 * h.
Proof.
  intros Hh Hx Hbig.
  assert (Hdiv : bpc * n * w <= 8 * ((bpc * n * w + 7) / 8)).
  { pose proof (Z.div_mod (bpc * n * w + 7) 8).
    pose proof (Z.mod_pos_bound (bpc * n * w + 7) 8). lia. }
  nia.
Qed.

Lemma IsValidDimension_pos (v : Z) : IsValidDimension v = true -> 0 < v.
Proof.
  unfold IsValidDimension. intros H. apply andb_prop in H as [H _].
  by apply bool_decide_eq_true_1 in H.
Qed.

(** C5, amended.  What StartLoadDIBBase and Load check is the byte size:
    when ceil(bpc * n_components * width / 8) * height, with bpc and
    n_components as LoadColorInfo set them, is 2^32 or more, both return
    failure with no stream data loaded and no buffer allocated.  (By
    [byte_size_of_bit_product] this covers every bit product of 2^35 and
    more; a bit product between 2^32 and 2^35 can pass.) *)
Theorem oversize_image_rejected (stream : CPDF_Stream) (bHasMask : bool)
    (pFormResources pPageResources : option CPDF_Dictionary) (bStdCS : bool)
    (GroupFamily : Family) (bLoadMask : bool) (d : CPDF_DIB) :
  let w := GetIntegerFor (stream_dict stream) "Width" in
  let h := GetIntegerFor (stream_dict stream) "Height" in
  (forall d1,
     LoadColorInfo (if stream_inline stream then pFormResources else None)
       pPageResources (start_header stream bHasMask bStdCS GroupFamily bLoadMask d)
       = Some (true, d1) ->
     4294967296 <= (m_bpc d1 * m_nComponents d1 * w + 7) / 8 * h ->
     exists d',
       StartLoadDIBBase (Some stream) bHasMask pFormResources pPageResources
         bStdCS GroupFamily bLoadMask d = Some (kFail, d') /\
       nothing_allocated d d') /\
  (forall d1,
     LoadColorInfo None None (load_header stream d) = Some (true, d1) ->
     4294967296 <= (m_bpc d1 * m_nComponents d1 * w + 7) / 8 * h ->
     exists d',
       Load (Some stream) d = Some (false, d') /\ nothing_allocated d d').
Proof.
  intros w h. split.
  - intros d1 Hinfo Hbig.
    unfold StartLoadDIBBase, StartLoadDIBBase_body.
    cbv [bindM gets retM modify]. dib_simpl. fold w h.
    destruct (negb (IsValidDimension w) || negb (IsValidDimension h)) eqn:Hdim.
    { eexists. split; [done|]. by repeat split. }
    apply orb_false_elim in Hdim as [_ Hh%negb_false_iff%IsValidDimension_pos].
    change (set_m_bLoadMask _ _)
      with (start_header stream bHasMask bStdCS GroupFamily bLoadMask d).
    rewrite Hinfo. cbn [negb].
    apply LoadColorInfo_allocates_nothing in Hinfo.
    assert (Hframe : nothing_allocated d d1).
    { eapply nothing_allocated_trans; [|exact Hinfo]. by repeat split. }
    destruct (m_bDoBpcCheck d1 && _).
    { by exists d1. }
    rewrite (checked_src_size_overflow _ _ _ _ Hh Hbig). by exists d1.
  - intros d1 Hinfo Hbig.
    unfold Load. cbv [bindM gets retM modify]. dib_simpl. fold w h.
    destruct (negb (IsValidDimension w) || negb (IsValidDimension h)) eqn:Hdim.
    { eexists. split; [done|]. by repeat split. }
    apply orb_false_elim in Hdim as [_ Hh%negb_false_iff%IsValidDimension_pos].
    change (set_m_bLoadMask _ _) with (load_header stream d).
    rewrite Hinfo. cbn [negb].
    apply LoadColorInfo_allocates_nothing in Hinfo.
    assert (Hframe : nothing_allocated d d1).
    { eapply nothing_allocated_trans; [|exact Hinfo]. by repeat split. }
    destruct (m_bDoBpcCheck d1 && _).
    { by exists d1. }
    rewrite (checked_src_size_overflow _ _ _ _ Hh Hbig). by exists d1.
Qed.

(** ** The soft mask *)

Lemma StartLoadMaskDIB_body_matte
    (start_mask : CPDF_Stream -> option (LoadState * CPDF_DIB))
    (mask : CPDF_Stream) :
  keeps (same m_MatteColor) (StartLoadMaskDIB_body start_mask mask).
Proof. unfold StartLoadMaskDIB_body. repeat same_step. Qed.

(** C8, amended.  With no inline JPX alpha and an SMask stream present,
    StartLoadMask sets MatteColor to ARGB(0, round(R*255), round(G*255),
    round(B*255)), (R, G, B) being the colour space's RGB of the Matte
    entries, exactly when the SMask dictionary has a Matte array of
    m_nComponents entries, the colour space is present, the family is not
    Pattern, and the colour space itself has no more than m_nComponents
    components; otherwise MatteColor stays 0xFFFFFFFF. *)
Theorem StartLoadMask_matte
    (start_mask : CPDF_Stream -> option (LoadState * CPDF_DIB))
    (d d' : CPDF_DIB) (dict : CPDF_Dictionary) (mask : CPDF_Stream)
    (r : LoadState) :
  inline_data (m_JpxInlineData d) = [] ->
  m_pDict d = Some dict ->
  GetStreamFor dict "SMask" = Some mask ->
  StartLoadMask start_mask d = Some (r, d') ->
  let has_matte :=
    exists pMatte cs,
      GetArrayFor (stream_dict mask) "Matte" = Some pMatte /\
      m_pColorSpace d = Some cs /\ m_Family d <> kPattern /\
      Z.of_nat (length pMatte) = m_nComponents d /\
      cs_components cs <= m_nComponents d in
  (forall pMatte cs,
     GetArrayFor (stream_dict mask) "Matte" = Some pMatte ->
     m_pColorSpace d = Some cs -> m_Family d <> kPattern ->
     Z.of_nat (length pMatte) = m_nComponents d ->
     cs_components cs <= m_nComponents d ->
     exists R G B,
       GetRGB cs (ReadArrayElementsToVector pMatte (m_nComponents d))
         = Some (R, G, B) /\
       m_MatteColor d' =
         ArgbEncode 0 (FXSYS_roundf (f_mul R f_255))
           (FXSYS_roundf (f_mul G f_255)) (FXSYS_roundf (f_mul B f_255))) /\
  (~ has_matte -> m_MatteColor d' = 4294967295).
Proof.
  intros Hinline Hdict Hsmask. unfold StartLoadMask.
  cbv [bindM gets retM modify deref]. dib_simpl.
  rewrite Hinline. rewrite bool_decide_eq_true_2 by done. cbn [negb].
  dib_simpl. rewrite Hdict, Hsmask. dib_simpl.
  destruct (GetArrayFor (stream_dict mask) "Matte") as [pMatte|] eqn:HM.
  2: { intros Hrun. apply StartLoadMaskDIB_body_matte in Hrun.
       split; [done|]. intros _. exact Hrun. }
  destruct (m_pColorSpace d) as [cs|] eqn:Hcs.
  2: { intros Hrun. apply StartLoadMaskDIB_body_matte in Hrun.
       split; [done|]. intros _. exact Hrun. }
  destruct (negb (bool_decide (m_Family d = kPattern))
            && bool_decide (Z.of_nat (length pMatte) = m_nComponents d)
            && bool_decide (cs_components cs <= m_nComponents d)) eqn:Hguard.
  - apply andb_prop in Hguard as [[Hf Hlen]%andb_prop Hcomps].
    apply negb_true_iff, bool_decide_eq_false_1 in Hf.
    apply bool_decide_eq_true_1 in Hlen, Hcomps.
    destruct (GetRGB cs _) as [[[R G] B]|] eqn:Hrgb; [|done].
    dib_simpl. intros Hrun. apply StartLoadMaskDIB_body_matte in Hrun.
    unfold same in Hrun. dib_simpl. split.
    + intros pMatte' cs' [= <-] [= <-] _ _ _. exists R, G, B.
      split; [done|]. rewrite Hrun. done.
    + intros Hnot. destruct Hnot. by exists pMatte, cs.
  - intros Hrun. apply StartLoadMaskDIB_body_matte in Hrun.
    unfold same in Hrun. dib_simpl. split.
    + intros pMatte' cs' [= <-] [= <-] Hf Hlen Hcomps.
      rewrite (bool_decide_eq_false_2 _ Hf) in Hguard.
      rewrite !bool_decide_eq_true_2 in Hguard by done. done.
    + intros _. exact Hrun.
Qed.


Lemma lor_below_pow2 (a b n : Z) :
  0 <= n -> 0 <= a < 2 ^ n -> 0 <= b < 2 ^ n -> 0 <= Z.lor a b < 2 ^ n.
Proof.
  intros Hn Ha Hb.
  assert (Hnn : 0 <= Z.lor a b) by (apply Z.lor_nonneg; lia).
  split; [done|].
  destruct (decide (Z.lor a b = 0)) as [->|Hne].
  { apply Z.pow_pos_nonneg; lia. }
  apply Z.log2_lt_pow2; [lia|].
  rewrite Z.log2_lor by lia.
  destruct (decide (a = 0)) as [->|]; destruct (decide (b = 0)) as [->|].
  - done.
  - rewrite Z.max_r by (apply Z.log2_nonneg). apply Z.log2_lt_pow2; lia.
  - rewrite Z.max_l by (apply Z.log2_nonneg). apply Z.log2_lt_pow2; lia.
  - apply Z.max_lub_lt; apply Z.log2_lt_pow2; lia.
Qed.

Lemma shiftl_byte_below (v k : Z) :
  0 <= k <= 16 -> 0 <= Z.shiftl (u8 v) k < 2 ^ 24.
Proof.
  intros Hk. unfold u8. pose proof (Z.mod_pos_bound v 256).
  rewrite Z.shiftl_mul_pow2 by lia.
  assert (2 ^ k <= 2 ^ 16) by (apply Z.pow_le_mono_r; lia).
  assert (0 < 2 ^ k) by (apply Z.pow_pos_nonneg; lia).
  change (2 ^ 24) with (256 * 2 ^ 16). change (2 ^ 16) with 65536 in *. nia.
Qed.

(** The top byte of a colour packed with alpha 0 is 0. *)
Lemma ArgbEncode_alpha0 (r g b : Z) : ArgbEncode 0 r g b < 16777216.
Proof.
  unfold ArgbEncode. change (Z.shiftl (u8 0) 24) with 0.
  change 16777216 with (2 ^ 24).
  pose proof (shiftl_byte_below r 16). pose proof (shiftl_byte_below g 8).
  pose proof (shiftl_byte_below b 0) as Hb. rewrite Z.shiftl_0_r in Hb.
  apply lor_below_pow2; [lia| |lia].
  apply lor_below_pow2; [lia| |lia].
  apply lor_below_pow2; lia.
Qed.

(** ** Scanlines *)

(** An image mask comes out of LoadColorInfo as a 1-bit, 1-component
    stencil; its decode is the default one when Decode is absent or starts
    with 0. *)
Lemma LoadColorInfo_image_mask
    (pFormResources pPageResources : option CPDF_Dictionary) (d : CPDF_DIB)
    (dict : CPDF_Dictionary) (filters : DecoderArray) :
  m_pDict d = Some dict ->
  GetDecoderArray dict = Some filters ->
  IsMaybeValidBitsPerComponent
    (as_int32 (wrap32 (GetIntegerFor dict "BitsPerComponent"))) = true ->
  GetIntegerFor dict "ImageMask" <> 0 ->
  exists d',
    LoadColorInfo pFormResources pPageResources d = Some (true, d') /\
    m_bImageMask d' = true /\ m_bpc d' = 1 /\ m_nComponents d' = 1 /\
    m_bDefaultDecode d' =
      match GetArrayFor dict "Decode" with
      | None => true
      | Some arr => bool_decide (GetIntegerAt arr 0 = 0)
      end.
Proof.
  intros Hdict Hfilters Hbpc Hmask. unfold LoadColorInfo.
  cbv [bindM gets retM modify deref]. rewrite Hdict, Hfilters. dib_simpl.
  rewrite Hbpc. cbn [negb].
  rewrite (bool_decide_eq_true_2 _ Hmask). dib_simpl. cbn [orb negb andb].
  eexists. split; [reflexivity|]. by dib_simpl.
Qed.


Lemma u8_lnot (b : Z) : is_byte b -> u8 (Z.lnot b) = bitwise_complement b.
Proof.
  unfold is_byte, u8, bitwise_complement. intros Hb.
  assert (Hx : Z.lxor b 255 = 255 - b).
  { apply Z.bits_inj'. intros i Hi.
    rewrite Z.lxor_spec.
    change 255 with (Z.ones 8) at 1. 
    destruct (decide (i < 8)).
    - rewrite Z.ones_spec_low by lia.
      replace (255 - b) with (Z.lnot b + 1 * 2 ^ 8) by (unfold Z.lnot; cbn; lia).
      rewrite <- (Z.mod_pow2_bits_low (Z.lnot b + 1 * 2 ^ 8) 8 i) by lia.
      rewrite Z.mod_add by lia. rewrite Z.mod_pow2_bits_low by lia.
      rewrite Z.lnot_spec by lia. by destruct (Z.testbit b i).
    - rewrite Z.ones_spec_high by lia.
      rewrite xorb_false_r.
      rewrite (Z.bits_above_log2 b) by
        (destruct (decide (b = 0)) as [->|]; [cbn; lia|];
         assert (Z.log2 b < 8) by (apply Z.log2_lt_pow2; lia); lia).
      symmetry. destruct (decide (255 - b = 0)) as [->|]; [apply Z.bits_0|].
      apply Z.bits_above_log2; [lia|].
      assert (Z.log2 (255 - b) < 8) by (apply Z.log2_lt_pow2; lia). lia. }
  rewrite Hx. unfold Z.lnot.
  replace (Z.pred (- b)) with (255 - b + (-1) * 256) by lia.
  rewrite Z.mod_add by lia. apply Z.mod_small. lia.
Qed.

Lemma buf_write_length (buf buf' : list Z) (i v : Z) :
  buf_write buf i v = Some buf' -> length buf' = length buf.
Proof.
  unfold buf_write. case_bool_decide; [|done]. intros [= <-].
  apply length_insert.
Qed.

Lemma invert_line_spec (src : BytePtr) (p : Z) (dest row : list Z) :
  ptr_bytes src p = Some row ->
  0 <= p <= Z.of_nat (length dest) ->
  invert_line src p dest =
    Some (((fun b => u8 (Z.lnot b)) <$> row) ++ drop (Z.to_nat p) dest).
Proof.
  intros Hrow Hp. unfold invert_line.
  pose proof (ptr_bytes_length _ _ _ Hrow) as Hlen.
  set (f := fun b => u8 (Z.lnot b)).
  destruct (for_loop_total
              (fun k buf => buf = (f <$> take (Z.to_nat k) row)
                                    ++ drop (Z.to_nat k) dest)
              (fun i dest => b ← ptr_read src i; buf_write dest i (Z.lnot b))
              (Z.to_nat p) 0 dest) as (out & Hrun & Hout).
  - cbn. by rewrite drop_0.
  - intros k buf Hk ->.
    assert (Hk' : (Z.to_nat k < length row)%nat) by lia.
    destruct (lookup_lt_is_Some_2 row _ Hk') as [b Hb].
    pose proof (ptr_bytes_lookup src p row (Z.to_nat k) Hrow ltac:(lia)) as Hread.
    rewrite Z2Nat.id in Hread by lia. rewrite Hread, Hb. cbn.
    assert (Hlenbuf : length ((f <$> take (Z.to_nat k) row)
                                ++ drop (Z.to_nat k) dest) = length dest).
    { rewrite length_app, length_fmap, length_take, length_drop. lia. }
    rewrite buf_write_Some by (rewrite Hlenbuf; lia).
    eexists. split; [done|].
    replace (Z.to_nat (k + 1)) with (S (Z.to_nat k)) by lia.
    rewrite (take_S_r _ _ b) by done. rewrite fmap_app. cbn.
    assert (Hd : (Z.to_nat k < length dest)%nat) by lia.
    destruct (lookup_lt_is_Some_2 dest _ Hd) as [x Hx].
    rewrite (drop_S _ x _ Hx).
    rewrite insert_app_r_alt by (rewrite length_fmap, length_take; lia).
    rewrite length_fmap, length_take.
    replace (Z.to_nat k - Z.to_nat k `min` length row)%nat with 0%nat by lia.
    cbn. by rewrite <- app_assoc.
  - rewrite Hrun. f_equal. rewrite Hout.
    replace (Z.to_nat (0 + Z.of_nat (Z.to_nat p))) with (Z.to_nat p) by lia.
    by rewrite take_ge by lia.
Qed.


Lemma source_line_clamped (d : CPDF_DIB) (bitmap : CFX_DIBitmap) (line p : Z) :
  m_pCachedBitmap d = Some bitmap -> p <= bm_pitch bitmap ->
  bm_height bitmap <= line ->
  source_line d line p
    = Some (Some (CFX_GetScanline bitmap (bm_height bitmap - 1))).
Proof.
  intros Hbm Hp Hline. unfold source_line. rewrite Hbm.
  rewrite bool_decide_eq_true_2 by done.
  by rewrite bool_decide_eq_true_2 by lia.
Qed.

Lemma source_line_last (d : CPDF_DIB) (bitmap : CFX_DIBitmap) (p : Z) :
  m_pCachedBitmap d = Some bitmap -> p <= bm_pitch bitmap ->
  source_line d (bm_height bitmap - 1) p
    = Some (Some (CFX_GetScanline bitmap (bm_height bitmap - 1))).
Proof.
  intros Hbm Hp. unfold source_line. rewrite Hbm.
  rewrite bool_decide_eq_true_2 by done.
  by rewrite bool_decide_eq_false_2 by lia.
Qed.


Lemma triple_ind (P : list Z -> Prop) :
  P [] -> (forall a, P [a]) -> (forall a b, P [a; b]) ->
  (forall a b c l, P l -> P (a :: b :: c :: l)) ->
  forall l, P l.
Proof.
  intros H0 H1 H2 H3.
  fix IH 1. intros [|a [|b [|c l]]]; [done..|]. apply H3, IH.
Qed.

Lemma swap_red_blue_length (l : list Z) :
  length (swap_red_blue l) = length l.
Proof.
  induction l as [| | |a b c l IH] using triple_ind; [done..|].
  cbn. by rewrite IH.
Qed.

Lemma swap_red_blue_app (l1 l2 : list Z) (n : nat) :
  length l1 = (3 * n)%nat ->
  swap_red_blue (l1 ++ l2) = swap_red_blue l1 ++ swap_red_blue l2.
Proof.
  revert l1. induction n as [|n IH]; intros l1 Hlen.
  - by destruct l1.
  - destruct l1 as [|a [|b [|c l1]]]; cbn in Hlen; try lia.
    cbn. rewrite IH by lia. done.
Qed.

Lemma insert3_middle (front rest : list Z) (x0 x1 x2 v0 v1 v2 : Z) (k : nat) :
  length front = k ->
  <[S (S k) := v2]> (<[S k := v1]> (<[k := v0]>
     (front ++ x0 :: x1 :: x2 :: rest)))
  = front ++ v0 :: v1 :: v2 :: rest.
Proof.
  intros <-.
  rewrite (insert_app_r_alt _ _ (length front)) by lia.
  rewrite (insert_app_r_alt _ _ (S (length front))) by lia.
  rewrite (insert_app_r_alt _ _ (S (S (length front)))) by lia.
  replace (length front - length front)%nat with 0%nat by lia.
  replace (S (length front) - length front)%nat with 1%nat by lia.
  replace (S (S (length front)) - length front)%nat with 2%nat by lia.
  done.
Qed.

Lemma drop_3 (l : list Z) (k : nat) (x0 x1 x2 : Z) :
  l !! k = Some x0 -> l !! S k = Some x1 -> l !! S (S k) = Some x2 ->
  drop k l = x0 :: x1 :: x2 :: drop (S (S (S k))) l.
Proof.
  intros H0 H1 H2.
  rewrite (drop_S _ x0 _ H0), (drop_S _ x1 _ H1), (drop_S _ x2 _ H2). done.
Qed.

Lemma ptr_bytes_read (p : BytePtr) (n i : Z) (row : list Z) :
  ptr_bytes p n = Some row -> 0 <= i < n ->
  exists b, ptr_read p i = Some b /\ row !! Z.to_nat i = Some b.
Proof.
  intros Hrow Hi.
  pose proof (ptr_bytes_length _ _ _ Hrow) as Hlen.
  pose proof (ptr_bytes_lookup p n row (Z.to_nat i) Hrow ltac:(lia)) as Hread.
  rewrite Z2Nat.id in Hread by lia.
  destruct (lookup_lt_is_Some_2 row (Z.to_nat i)) as [b Hb]; [lia|].
  exists b. by rewrite Hread.
Qed.

(** The 8-bit loop of the fast path exchanges red and blue. *)
Lemma swap_rgb_8_spec (w : Z) (src : BytePtr) (dest row : list Z) :
  0 <= w -> ptr_bytes src (3 * w) = Some row -> Forall is_byte row ->
  3 * w <= Z.of_nat (length dest) ->
  swap_rgb_8 w src dest
    = Some (swap_red_blue row ++ drop (Z.to_nat (3 * w)) dest).
Proof.
  intros Hw Hrow Hbytes Hdest. unfold swap_rgb_8.
  pose proof (ptr_bytes_length _ _ _ Hrow) as Hlen.
  destruct (for_loop_total
              (fun k buf => buf = swap_red_blue (take (Z.to_nat (3 * k)) row)
                                    ++ drop (Z.to_nat (3 * k)) dest)
              (fun column dest =>
                 s2 ← ptr_read src (column * 3 + 2);
                 dest ← buf_write dest (column * 3) s2;
                 s1 ← ptr_read src (column * 3 + 1);
                 dest ← buf_write dest (column * 3 + 1) s1;
                 s0 ← ptr_read src (column * 3);
                 buf_write dest (column * 3 + 2) s0)
              (Z.to_nat w) 0 dest) as (out & Hrun & Hout).
  - cbn. by rewrite drop_0.
  - intros k buf Hk ->.
    destruct (ptr_bytes_read src (3 * w) (k * 3) row Hrow) as (s0 & Hr0 & Hs0);
      [lia|].
    destruct (ptr_bytes_read src (3 * w) (k * 3 + 1) row Hrow)
      as (s1 & Hr1 & Hs1); [lia|].
    destruct (ptr_bytes_read src (3 * w) (k * 3 + 2) row Hrow)
      as (s2 & Hr2 & Hs2); [lia|].
    set (front := swap_red_blue (take (Z.to_nat (3 * k)) row)).
    assert (Hfront : length front = Z.to_nat (3 * k)).
    { unfold front. rewrite swap_red_blue_length, length_take. lia. }
    destruct (lookup_lt_is_Some_2 dest (Z.to_nat (3 * k))) as [x0 Hx0]; [lia|].
    destruct (lookup_lt_is_Some_2 dest (S (Z.to_nat (3 * k)))) as [x1 Hx1];
      [lia|].
    destruct (lookup_lt_is_Some_2 dest (S (S (Z.to_nat (3 * k))))) as [x2 Hx2];
      [lia|].
    rewrite (drop_3 dest _ x0 x1 x2 Hx0 Hx1 Hx2).
    set (rest := drop _ dest).
    rewrite Hr2, Hr1, Hr0. cbn.
    assert (Hl0 : length (front ++ x0 :: x1 :: x2 :: rest) = length dest).
    { rewrite length_app. cbn. unfold rest. rewrite length_drop. lia. }
    rewrite buf_write_Some by lia. cbn.
    rewrite buf_write_Some by (rewrite length_insert; lia). cbn.
    rewrite buf_write_Some by (rewrite !length_insert; lia).
    eexists. split; [done|].
    replace (Z.to_nat (k * 3)) with (Z.to_nat (3 * k)) by lia.
    replace (Z.to_nat (k * 3 + 1)) with (S (Z.to_nat (3 * k))) by lia.
    replace (Z.to_nat (k * 3 + 2)) with (S (S (Z.to_nat (3 * k)))) by lia.
    rewrite (insert3_middle front rest x0 x1 x2 _ _ _ _ Hfront).
    replace (Z.to_nat (3 * (k + 1))) with (S (S (S (Z.to_nat (3 * k))))) by lia.
    replace (Z.to_nat (k * 3)) with (Z.to_nat (3 * k)) in Hs0 by lia.
    replace (Z.to_nat (k * 3 + 1)) with (S (Z.to_nat (3 * k))) in Hs1 by lia.
    replace (Z.to_nat (k * 3 + 2)) with (S (S (Z.to_nat (3 * k)))) in Hs2 by lia.
    rewrite (take_S_r _ _ s2 Hs2), (take_S_r _ _ s1 Hs1), (take_S_r _ _ s0 Hs0).
    rewrite <- !app_assoc. cbn [app].
    rewrite (swap_red_blue_app _ _ (Z.to_nat k))
      by (rewrite length_take; lia).
    cbn [swap_red_blue]. fold front. rewrite <- app_assoc. cbn [app].
    assert (Hb : forall i b, row !! i = Some b -> u8 b = b).
    { intros i b Hi. apply u8_byte.
      by eapply (Forall_lookup_1 _ _ _ _ Hbytes). }
    by rewrite (Hb _ _ Hs0), (Hb _ _ Hs1), (Hb _ _ Hs2).
  - rewrite Hrun. f_equal. rewrite Hout.
    replace (3 * (0 + Z.of_nat (Z.to_nat w))) with (3 * w) by lia.
    by rewrite take_ge by lia.
Qed.

Lemma ptr_bytes_of_app (row rest : list Z) (n : Z) :
  Z.to_nat n = length row ->
  ptr_bytes (ptr_of (row ++ rest)) n = Some row.
Proof.
  intros Hn. unfold ptr_bytes. apply mapM_Some_2.
  apply Forall2_same_length_lookup_2.
  { rewrite length_seq. lia. }
  intros i x y Hx Hy. apply lookup_seq in Hx as [-> Hi]. cbn.
  rewrite ptr_read_of by lia. rewrite Nat2Z.id.
  by rewrite lookup_app_l by lia.
Qed.


(** A loop that returns established its invariant. *)
Lemma for_loop_invariant {St : Type} (P : Z -> St -> Prop)
    (body : Z -> St -> option St) (n : nat) (i : Z) (s s' : St) :
  for_loop n i body s = Some s' ->
  P i s ->
  (forall k t t', i <= k < i + Z.of_nat n -> P k t -> body k t = Some t' ->
                  P (k + 1) t') ->
  P (i + Z.of_nat n) s'.
Proof.
  revert i s. induction n as [|n IH]; intros i s Hrun Hs Hstep.
  - injection Hrun as <-. by replace (i + Z.of_nat 0) with i by lia.
  - cbn [for_loop] in Hrun.
    destruct (body i s) as [t|] eqn:Hbody; [|done]. cbn in Hrun.
    replace (i + Z.of_nat (S n)) with (i + 1 + Z.of_nat n) by lia.
    apply (IH (i + 1) t Hrun).
    + apply (Hstep i s t); [lia|done..].
    + intros k u u' Hk Hu Hb. apply (Hstep k u u'); [lia|done..].
Qed.

Lemma buf_write_read (buf buf' : list Z) (i v j : Z) :
  buf_write buf i v = Some buf' ->
  ptr_read (ptr_of buf') j
    = if decide (j = i) then Some (u8 v) else ptr_read (ptr_of buf) j.
Proof.
  unfold buf_write. case_bool_decide as Hi; [|done]. intros [= <-].
  unfold ptr_read, ptr_of. cbn.
  destruct (decide (j = i)) as [->|Hne].
  - rewrite bool_decide_eq_true_2 by lia.
    apply list_lookup_insert_eq. lia.
  - case_bool_decide; [|done].
    apply list_lookup_insert_ne. lia.
Qed.



Lemma ptr_read_add (p : BytePtr) (n i : Z) :
  ptr_read (ptr_add p n) i = ptr_read p (n + i).
Proof. unfold ptr_read, ptr_add. cbn. by rewrite Z.add_assoc. Qed.





Lemma GetBits8_small (p : BytePtr) (pos nbits code : Z) :
  GetBits8 p pos nbits = Some code -> nbits <> 8 -> nbits <> 16 ->
  0 <= nbits < 31 /\ 0 <= code < 2 ^ nbits.
Proof.
  unfold GetBits8. intros Hget H8 H16.
  destruct (ptr_read p (pos / 8)) as [byte|]; [|done]. cbn in Hget.
  rewrite !bool_decide_eq_false_2 in Hget by done.
  destruct (bool_decide (wrap64 _ < 32) && bool_decide (0 <= nbits < 31))
    eqn:Hok; [|done].
  apply andb_prop in Hok as [_ Hn%bool_decide_eq_true_1].
  injection Hget as <-. split; [done|].
  replace (Z.shiftl 1 nbits - 1) with (Z.ones nbits)
    by (unfold Z.ones; lia).
  rewrite Z.land_ones by lia. apply Z.mod_pos_bound.
  apply Z.pow_pos_nonneg; lia.
Qed.

(** The unpacked index of a single-component row is the code of the
    pixel. *)
Lemma unpack_indices_single (src : BytePtr) (bpc w : Z) (dest out : list Z) :
  unpack_indices src bpc 1 w dest = Some out ->
  bpc <> 8 -> wrap32 (bpc * 1) <= 8 ->
  forall col, 0 <= col < w ->
    exists code, GetBits8 src (col * bpc) bpc = Some code /\
                 out !! Z.to_nat col = Some code.
Proof.
  intros Hrun H8 Hle. unfold unpack_indices in Hrun.
  pose proof (for_loop_invariant
    (fun c buf => forall col, 0 <= col < c ->
       exists code, GetBits8 src (col * bpc) bpc = Some code /\
                    ptr_read (ptr_of buf) col = Some code)
    _ _ _ _ _ Hrun) as Hinv.
  intros col Hcol.
  assert (Hgoal : exists code, GetBits8 src (col * bpc) bpc = Some code /\
                                ptr_read (ptr_of out) col = Some code).
  2: { destruct Hgoal as (code & Hc & Hr). exists code. split; [done|].
       by rewrite ptr_read_of in Hr by lia. }
  apply Hinv; [intros; lia| |lia].
  - clear col Hcol. intros k buf buf' Hk IH Hbody col Hcol.
    change (Z.to_nat 1) with 1%nat in Hbody. cbn [for_loop] in Hbody.
    replace ((k * 1 + 0) * bpc) with (k * bpc) in Hbody by lia.
    destruct (GetBits8 src (k * bpc) bpc) as [code|] eqn:Hcode; [|done].
    cbn in Hbody. rewrite Z.mul_0_l in Hbody.
    change (wrap32 0) with 0 in Hbody.
    rewrite bool_decide_eq_true_2 in Hbody by lia. cbn in Hbody.
    assert (H16 : bpc <> 16).
    { intros ->. revert Hle. vm_compute. congruence. }
    destruct (GetBits8_small _ _ _ _ Hcode H8 H16) as [Hn Hsmall].
    assert (Hn8 : bpc <= 8).
    { revert Hle. unfold wrap32. rewrite Z.mul_1_r, Z.mod_small by lia. done. }
    assert (H256 : 2 ^ bpc <= 2 ^ 8) by (apply Z.pow_le_mono_r; lia).
    change (2 ^ 8) with 256 in H256.
    rewrite (buf_write_read _ _ _ _ _ Hbody).
    destruct (decide (col = k)) as [->|Hne].
    + exists code. split; [done|]. f_equal.
      unfold wrap32, u8. rewrite Z.shiftl_0_r.
      rewrite (Z.mod_small code) by lia. apply Z.mod_small. lia.
    + apply IH. lia.
Qed.



End Properties.

(** * The scenarios of the spec on the concrete collaborators

    Runs are evaluated on closed data; only small observations of a run
    (a status, a field, a few bytes) are ever normalised. *)

Section Scenarios.
#[local] Existing Instance Demo.QFloat.
#[local] Existing Instance Demo.env.

(** The iOS case: a 3-component colour space, 4 components of sRGB. *)
Lemma JpxDecodeAction_ios_witness :
  GetJpxDecodeAction (mkJpxInfo 16 16 4 OPJ_CLRSPC_SRGB)
    (Some (mkCS 7 kICCBased 3)) = JpxDecodeAction.kConvertArgbToRgb.
Proof.
  destruct (GetJpxDecodeAction_table (mkJpxInfo 16 16 4 OPJ_CLRSPC_SRGB)
              (Some (mkCS 7 kICCBased 3))) as (_ & Hconvert & _).
  apply (Hconvert (mkCS 7 kICCBased 3)); reflexivity.
Defined.

(** Resuming the unfiltered S2 image does nothing and reports Success. *)
Lemma ContinueLoadDIBBase_unfiltered_witness :
  ContinueLoadDIBBase Demo.no_pause Demo.s2_dib = Some (kSuccess, Demo.s2_dib).
Proof.
  assert (Hdec : acc_decoder <$> m_pStreamAcc Demo.s2_dib = Some "")
    by (vm_compute; reflexivity).
  destruct (m_pStreamAcc Demo.s2_dib) as [acc|] eqn:Hacc; [|discriminate Hdec].
  injection Hdec as Hdec.
  destruct (ContinueLoadDIBBase_without_codec Demo.no_pause Demo.s2_dib acc)
    as [_ Hother].
  - vm_compute; discriminate.
  - exact Hacc.
  - apply Hother; rewrite Hdec; discriminate.
Defined.








(** The 0x1FFFF x 0x1FFFF DeviceRGB image through the size check: its byte
    size is beyond 2^32 and start fails with nothing allocated. *)
Lemma oversize_rgb_witness :
  exists d', Demo.start Demo.big_rgb_stream false = Some (kFail, d')
             /\ nothing_allocated new_CPDF_DIB d'.
Proof.
  destruct (oversize_image_rejected Demo.big_rgb_stream false None None false
              kUnknown false new_CPDF_DIB) as [Hstart _].
  set (header := start_header Demo.big_rgb_stream false false kUnknown false
                   new_CPDF_DIB) in *.
  assert (Hobs : (fun r => (fst r, m_bpc (snd r), m_nComponents (snd r)))
                   <$> LoadColorInfo None None header = Some (true, 8, 3))
    by (vm_compute; reflexivity).
  change (if stream_inline Demo.big_rgb_stream then None else None)
    with (@None CPDF_Dictionary) in Hstart.
  destruct (LoadColorInfo None None header) as [[ok d1]|] eqn:Hinfo;
    [|discriminate Hobs].
  injection Hobs as -> Hbpc Hn.
  apply (Hstart d1 eq_refl). cbn [fst snd] in Hbpc, Hn. rewrite Hbpc, Hn.
  vm_compute. discriminate.
Defined.

(** The same dimensions as an image mask against property 8 of the spec: the bit
    product is 2^34 - 2^18 + 1, beyond 2^32, and both entry points
    succeed, with a line buffer of 16384 bytes allocated. *)
Lemma oversize_bit_product_counterexample :
  4294967296 <= 131071 * 131071 * 1 * 1 /\
  (fun r => (fst r, m_Width (snd r), m_Height (snd r), m_bpc (snd r),
             m_nComponents (snd r),
             (fun buf => Z.of_nat (length buf)) <$> m_pLineBuf (snd r)))
    <$> Demo.start Demo.big_mask_stream false
    = Some (kSuccess, 131071, 131071, 1, 1, Some 16384) /\
  fst <$> Load (Some Demo.big_mask_stream) new_CPDF_DIB = Some true.
Proof.
  split; [lia|]. split; vm_compute; reflexivity.
Qed.

(** A Flate codec built for a 2x1 RGB image provides the 6 bytes per row
    that were requested. *)
Lemma CreateDecoder_flate_witness :
  exists d' dec requested provided,
    CreateDecoder Demo.flate_dib = Some (kSuccess, d') /\
    m_pDecoder d' = Some dec /\
    CalculatePitch8 (m_bpc d') (m_nComponents d') (m_Width d') = Some requested /\
    CalculatePitch8 (dec_bpc dec) (dec_comps dec) (dec_width dec)
      = Some provided /\
    requested <= provided.
Proof.
  assert (Hobs : fst <$> CreateDecoder Demo.flate_dib = Some kSuccess)
    by (vm_compute; reflexivity).
  destruct (CreateDecoder Demo.flate_dib) as [[r d']|] eqn:Hrun;
    [|discriminate Hobs].
  injection Hobs as ->.
  destruct (CreateDecoder_pitch Demo.flate_dib d' Demo.flate_acc kSuccess)
    as [Hok _].
  - reflexivity.
  - right. left. reflexivity.
  - exact Hrun.
  - destruct (Hok eq_refl) as (dec & requested & provided & H).
    exists d', dec, requested, provided. split; [reflexivity|exact H].
Defined.



(** A DeviceRGB image with a 3-entry Matte through the matte theorem. *)
Lemma matte_witness :
  exists r d' R G B,
    StartLoadMask StartLoadDIBBase_mask Demo.matte_dib = Some (r, d') /\
    m_MatteColor d' =
      ArgbEncode 0 (FXSYS_roundf (f_mul R f_255))
        (FXSYS_roundf (f_mul G f_255)) (FXSYS_roundf (f_mul B f_255)).
Proof.
  assert (Hrun : is_Some (fst <$> StartLoadMask StartLoadDIBBase_mask
                                    Demo.matte_dib))
    by (eexists; vm_compute; reflexivity).
  destruct (StartLoadMask StartLoadDIBBase_mask Demo.matte_dib)
    as [[r d']|] eqn:Hstart; [|by destruct Hrun].
  assert (Hobs : (GetStreamFor Demo.matte_dict "SMask" ≫= fun mask =>
                  length <$> GetArrayFor (stream_dict mask) "Matte")
                 = Some 3%nat) by (vm_compute; reflexivity).
  destruct (GetStreamFor Demo.matte_dict "SMask") as [mask|] eqn:Hmask;
    [|discriminate Hobs].
  cbn in Hobs.
  destruct (GetArrayFor (stream_dict mask) "Matte") as [pMatte|] eqn:Hmatte;
    [|discriminate Hobs].
  injection Hobs as Hlen.
  destruct (StartLoadMask_matte StartLoadDIBBase_mask Demo.matte_dib d'
              Demo.matte_dict mask r) as [Hset _].
  - reflexivity.
  - reflexivity.
  - exact Hmask.
  - exact Hstart.
  - destruct (Hset pMatte (Demo.stock kDeviceRGB)) as (R & G & B & _ & Hcolor).
    + exact Hmatte.
    + reflexivity.
    + discriminate.
    + rewrite Hlen. reflexivity.
    + vm_compute; discriminate.
    + exists r, d', R, G, B. split; [reflexivity|exact Hcolor].
Defined.

(** A DeviceRGB image behind JBIG2Decode against the Matte rule of the spec: the SMask
    has a Matte of one entry, as many as the image has components, the
    colour space is present and is DeviceRGB, yet MatteColor stays
    0xFFFFFFFF, which no ARGB(0, r, g, b) equals. *)
Lemma matte_guard_counterexample :
  (GetStreamFor (stream_dict Demo.one_entry_matte_stream) "SMask" ≫=
     fun mask => length <$> GetArrayFor (stream_dict mask) "Matte")
    = Some 1%nat /\
  (fun r => (m_nComponents (snd r), cs_family <$> m_pColorSpace (snd r),
             m_Family (snd r), m_MatteColor (snd r)))
    <$> Demo.start Demo.one_entry_matte_stream true
    = Some (1, Some kDeviceRGB, kDeviceRGB, 4294967295) /\
  (forall r g b, ArgbEncode 0 r g b <> 4294967295).
Proof.
  split; [vm_compute; reflexivity|]. split; [vm_compute; reflexivity|].
  intros r g b. pose proof (ArgbEncode_alpha0 r g b). lia.
Qed.


End Scenarios.
(** * Further properties of the decoder *)

Section MoreProperties.
Context `{FA : FloatArith} `{CO : !Collaborators}.

(** ** Steps of the state monad *)

Lemma bind_gets {A B} (f : CPDF_DIB -> A) (k : A -> M B) (d : CPDF_DIB) :
  bindM (gets f) k d = k (f d) d.
Proof. done. Qed.

Lemma bind_modify {B} (f : CPDF_DIB -> CPDF_DIB) (k : unit -> M B)
    (d : CPDF_DIB) :
  bindM (modify f) k d = k tt (f d).
Proof. done. Qed.

Lemma bind_gets_deref {A B} (f : CPDF_DIB -> option A) (k : A -> M B)
    (d : CPDF_DIB) (a : A) :
  f d = Some a -> bindM (bindM (gets f) deref) k d = k a d.
Proof. intros H. cbv [bindM gets deref retM]. by rewrite H. Qed.

Lemma bind_assoc {A B C} (m : M A) (k1 : A -> M B) (k2 : B -> M C)
    (d : CPDF_DIB) :
  bindM (bindM m k1) k2 d = bindM m (fun a => bindM (k1 a) k2) d.
Proof. unfold bindM. by destruct (m d) as [[a d1]|]. Qed.

Lemma bind_ret {A B} (a : A) (k : A -> M B) (d : CPDF_DIB) :
  bindM (retM a) k d = k a d.
Proof. done. Qed.

Lemma ensures_bind {A B} (Q : B -> CPDF_DIB -> Prop) (m : M A)
    (k : A -> M B) :
  (forall a, ensures Q (k a)) -> ensures Q (bindM m k).
Proof.
  intros Hk d b d'. unfold bindM.
  destruct (m d) as [[a d1]|]; [|done]. apply Hk.
Qed.

Lemma ensures_ret {A} (Q : A -> CPDF_DIB -> Prop) (a : A) :
  (forall d, Q a d) -> ensures Q (retM a).
Proof. intros HQ d a' d' [= <- <-]. apply HQ. Qed.

Lemma ensures_modify_ret {A} (Q : A -> CPDF_DIB -> Prop)
    (f : CPDF_DIB -> CPDF_DIB) (a : A) :
  (forall d, Q a (f d)) -> ensures Q (bindM (modify f) (fun _ => retM a)).
Proof. intros HQ d a' d' [= <- <-]. apply HQ. Qed.

(** ** Reading the dictionary *)

Lemma IsValidDimension_spec (v : Z) :
  IsValidDimension v = true <-> 0 < v <= 131071.
Proof.
  unfold IsValidDimension, kMaxImageDimension.
  rewrite andb_true_iff, !bool_decide_eq_true. lia.
Qed.

(** X1.  A Width or Height outside 1 .. 0x1FFFF makes StartLoadDIBBase
    return kFail and Load return false before the colour information is
    read: nothing is loaded or allocated and bits per component, component
    count and colour space are as they were. *)
Theorem invalid_dimension_rejected (stream : CPDF_Stream) (bHasMask : bool)
    (pFormResources pPageResources : option CPDF_Dictionary) (bStdCS : bool)
    (GroupFamily : Family) (bLoadMask : bool) (d : CPDF_DIB) :
  let w := GetIntegerFor (stream_dict stream) "Width" in
  let h := GetIntegerFor (stream_dict stream) "Height" in
  ~ (0 < w <= 131071 /\ 0 < h <= 131071) ->
  (exists d',
     StartLoadDIBBase (Some stream) bHasMask pFormResources pPageResources
       bStdCS GroupFamily bLoadMask d = Some (kFail, d') /\
     nothing_allocated d d' /\ m_bpc d' = m_bpc d /\
     m_nComponents d' = m_nComponents d /\ m_pColorSpace d' = m_pColorSpace d /\
     m_pMask d' = m_pMask d) /\
  (exists d',
     Load (Some stream) d = Some (false, d') /\
     nothing_allocated d d' /\ m_bpc d' = m_bpc d /\
     m_nComponents d' = m_nComponents d /\ m_pColorSpace d' = m_pColorSpace d).
Proof.
  intros w h Hbad.
  assert (Hdim : negb (IsValidDimension w) || negb (IsValidDimension h) = true).
  { destruct (IsValidDimension w) eqn:Hw, (IsValidDimension h) eqn:Hh; try done.
    apply IsValidDimension_spec in Hw, Hh. lia. }
  split.
  - unfold StartLoadDIBBase, StartLoadDIBBase_body.
    cbv [bindM gets retM modify]. dib_simpl. fold w h. rewrite Hdim.
    eexists. split; [done|]. by repeat split.
  - unfold Load. cbv [bindM gets retM modify]. dib_simpl. fold w h.
    rewrite Hdim. eexists. split; [done|]. by repeat split.
Qed.

Lemma as_int32_wrap32 (v : Z) :
  -2147483648 <= v < 2147483648 -> as_int32 (wrap32 v) = v.
Proof.
  intros H. unfold as_int32, wrap32.
  rewrite Zplus_mod_idemp_l.
  rewrite Z.mod_small by lia. lia.
Qed.

Lemma as_int32_small (v : Z) : 0 <= v < 2147483648 -> as_int32 v = v.
Proof. intros H. unfold as_int32. rewrite Z.mod_small by lia. lia. Qed.

Lemma IsAllowedBitsPerComponent_spec (bpc : Z) :
  IsAllowedBitsPerComponent bpc = true <->
  bpc = 1 \/ bpc = 2 \/ bpc = 4 \/ bpc = 8 \/ bpc = 16.
Proof.
  unfold IsAllowedBitsPerComponent.
  rewrite !orb_true_iff, !bool_decide_eq_true. tauto.
Qed.

(** X2.  ValidateDictParam always returns.  For JPXDecode it copies the
    declared bits per component and switches the later check off; for
    every other filter it leaves a bits-per-component of 1, 2, 4, 8 or 16,
    or 0 for a value that is not allowed: 1 with one component for
    CCITTFaxDecode and JBIG2Decode, 8 for DCTDecode, the declared value
    otherwise.  (The declared value is a uint32_t.) *)
Theorem ValidateDictParam_post (filter : string) (d : CPDF_DIB) :
  0 <= m_bpc_orig d < 4294967296 ->
  exists d',
    ValidateDictParam filter d = Some (tt, d') /\
    (filter = "JPXDecode" ->
       m_bpc d' = m_bpc_orig d /\ m_bDoBpcCheck d' = false /\
       m_nComponents d' = m_nComponents d) /\
    (filter <> "JPXDecode" ->
       m_bDoBpcCheck d' = m_bDoBpcCheck d /\
       (m_bpc d' = 0 \/ m_bpc d' = 1 \/ m_bpc d' = 2 \/ m_bpc d' = 4 \/
        m_bpc d' = 8 \/ m_bpc d' = 16) /\
       (filter = "CCITTFaxDecode" \/ filter = "JBIG2Decode" ->
          m_bpc d' = 1 /\ m_nComponents d' = 1) /\
       (filter = "DCTDecode" -> m_bpc d' = 8) /\
       (filter <> "CCITTFaxDecode" -> filter <> "JBIG2Decode" ->
        filter <> "DCTDecode" ->
          m_nComponents d' = m_nComponents d /\
          m_bpc d' =
            if IsAllowedBitsPerComponent (as_int32 (m_bpc_orig d))
            then m_bpc_orig d else 0)).
Proof.
  intros Hrange.
  assert (Hr : IsAllowedBitsPerComponent (as_int32 (m_bpc_orig d)) = true ->
               as_int32 (m_bpc_orig d) = m_bpc_orig d).
  { intros Hok%IsAllowedBitsPerComponent_spec. unfold as_int32 in *.
    destruct (Z_lt_ge_dec (m_bpc_orig d) 2147483648).
    - rewrite Z.mod_small by lia. lia.
    - replace (m_bpc_orig d + 2147483648)
        with (m_bpc_orig d - 2147483648 + 1 * 4294967296) in * by lia.
      rewrite Z.mod_add in * by lia. rewrite Z.mod_small in * by lia. lia. }
  unfold ValidateDictParam. cbv [bindM gets retM modify]. dib_simpl.
  case_bool_decide as Hjpx.
  { eexists. split; [done|]. dib_simpl. by split. }
  case_bool_decide as Hfax; [|case_bool_decide as Hjbig];
    cbn [orb]; dib_simpl.
  1, 2: cbn; eexists; (split; [done|]); dib_simpl; subst filter;
        (split; [done|]); intros _; repeat split; (done || tauto).
  case_bool_decide as Hdct; dib_simpl.
  { cbn. eexists. split; [done|]. dib_simpl. subst filter.
    split; [done|]. intros _. repeat split; (done || tauto). }
  destruct (IsAllowedBitsPerComponent (as_int32 (m_bpc_orig d))) eqn:Hok.
  - eexists. split; [done|]. dib_simpl. split; [done|]. intros _.
    specialize (Hr eq_refl). apply IsAllowedBitsPerComponent_spec in Hok.
    repeat split; (done || tauto || lia).
  - eexists. split; [done|]. dib_simpl. split; [done|]. intros _.
    repeat split; (done || tauto).
Qed.

(** X3.  What LoadColorInfo rejects before it looks at the colour space.
    A filter chain that cannot be read makes it return false with the
    object untouched; a BitsPerComponent below 0 or above 16 makes it
    return false with nothing changed but the copy of the declared
    value. *)
Theorem LoadColorInfo_rejects
    (pFormResources pPageResources : option CPDF_Dictionary)
    (d : CPDF_DIB) (dict : CPDF_Dictionary) :
  m_pDict d = Some dict ->
  (GetDecoderArray dict = None ->
   LoadColorInfo pFormResources pPageResources d = Some (false, d)) /\
  (is_Some (GetDecoderArray dict) ->
   -2147483648 <= GetIntegerFor dict "BitsPerComponent" < 2147483648 ->
   ~ 0 <= GetIntegerFor dict "BitsPerComponent" <= 16 ->
   LoadColorInfo pFormResources pPageResources d
     = Some (false,
             set_m_bpc_orig (wrap32 (GetIntegerFor dict "BitsPerComponent")) d)).
Proof.
  intros Hdict. unfold LoadColorInfo.
  rewrite (bind_gets_deref _ _ _ _ Hdict). split.
  - by intros ->.
  - intros [filters ->] Hint Hbad. rewrite bind_modify, bind_gets.
    dib_simpl. rewrite as_int32_wrap32 by done.
    unfold IsMaybeValidBitsPerComponent.
    destruct (bool_decide (0 <= _) && bool_decide (_ <= 16)) eqn:Hok; [|done].
    apply andb_prop in Hok as [?%bool_decide_eq_true_1 ?%bool_decide_eq_true_1].
    lia.
Qed.

Lemma zimap_length {A B} (f : Z -> A -> B) (l : list A) :
  length (zimap f l) = length l.
Proof. unfold zimap. by rewrite length_imap. Qed.

Lemma zimap_lookup {A B} (f : Z -> A -> B) (l : list A) (i : nat) :
  zimap f l !! i = f (Z.of_nat i) <$> l !! i.
Proof. unfold zimap. by rewrite list_lookup_imap. Qed.

Lemma zimap_key_range {A} (g : A -> DIB_COMP_DATA)
    (f : Z -> DIB_COMP_DATA -> A) (l : list DIB_COMP_DATA) :
  (forall i c, key_range (g (f i c)) = key_range c) ->
  key_range <$> (g <$> zimap f l) = key_range <$> l.
Proof.
  intros Hf. apply list_eq. intros i.
  rewrite !list_lookup_fmap, zimap_lookup.
  destruct (l !! i) as [c|]; [|done]. cbn. by rewrite Hf.
Qed.

(** The first loop of GetDecodeAndMaskArray sets the decode ranges and
    leaves the key ranges alone. *)
Lemma decode_loop_key_range (cs : CPDF_ColorSpace) (family : Family)
    (max_data : Z) (pDecode : option CPDF_Array) (l : list DIB_COMP_DATA) :
  key_range <$>
    match pDecode with
    | Some arr => fst <$> zimap (decode_entry cs family arr max_data) l
    | None => zimap (default_entry cs family max_data) l
    end = key_range <$> l.
Proof.
  destruct pDecode as [arr|].
  - apply zimap_key_range. intros i c. unfold decode_entry.
    by destruct (GetDefaultValue cs i) as [[? ?] ?].
  - rewrite <- (list_fmap_id (zimap _ l)).
    apply (zimap_key_range id). intros i c. unfold default_entry.
    by destruct (GetDefaultValue cs i) as [[? ?] ?].
Qed.

Lemma decode_loop_length (cs : CPDF_ColorSpace) (family : Family)
    (max_data : Z) (pDecode : option CPDF_Array) (l : list DIB_COMP_DATA) :
  length
    match pDecode with
    | Some arr => fst <$> zimap (decode_entry cs family arr max_data) l
    | None => zimap (default_entry cs family max_data) l
    end = length l.
Proof.
  destruct pDecode; by rewrite ?length_fmap, zimap_length.
Qed.

(** X4.  With no SMask key, a bits-per-component of at most 16 and a Mask
    array of at least two entries per component, GetDecodeAndMaskArray
    switches colour keying on and stores for component i the range
    [max(Mask[2i], 0), min(Mask[2i+1], 2^bpc - 1)]: one range per
    component, each clamped to the codes a component can take. *)
Theorem color_key_ranges_clamped (d : CPDF_DIB) (cs : CPDF_ColorSpace)
    (dict : CPDF_Dictionary) (pMask : CPDF_Object) (pArray : CPDF_Array) :
  m_pColorSpace d = Some cs ->
  m_pDict d = Some dict ->
  KeyExist dict "SMask" = false ->
  GetDirectObjectFor dict "Mask" = Some pMask ->
  ToArray pMask = Some pArray ->
  0 <= m_bpc d <= 16 ->
  0 <= m_nComponents d ->
  m_nComponents d * 2 <= Z.of_nat (length pArray) ->
  exists d',
    GetDecodeAndMaskArray d = Some (true, d') /\
    m_bColorKey d' = true /\
    length (m_CompData d') = Z.to_nat (m_nComponents d) /\
    forall (i : nat) datum,
      m_CompData d' !! i = Some datum ->
      m_ColorKeyMin datum = Z.max (GetIntegerAt pArray (Z.of_nat i * 2)) 0 /\
      m_ColorKeyMax datum =
        Z.min (GetIntegerAt pArray (Z.of_nat i * 2 + 1)) (2 ^ m_bpc d - 1) /\
      0 <= m_ColorKeyMin datum /\ m_ColorKeyMax datum <= 2 ^ m_bpc d - 1.
Proof.
  intros Hcs Hdict Hsmask Hmask Harr Hbpc Hn Hlen.
  unfold GetDecodeAndMaskArray. cbv [bindM gets retM modify deref].
  rewrite Hcs, Hdict. dib_simpl.
  set (resized := resize _ _ _).
  set (max_data := Z.shiftl 1 (m_bpc d) - 1).
  assert (Hmax : max_data = 2 ^ m_bpc d - 1).
  { unfold max_data. by rewrite Z.shiftl_1_l. }
  assert (Hwrap : wrap32 (m_nComponents d * 2) = m_nComponents d * 2 \/
                  wrap32 (m_nComponents d * 2) <= m_nComponents d * 2).
  { right. unfold wrap32.
    pose proof (Z.mod_le (m_nComponents d * 2) 4294967296). lia. }
  assert (Hge : bool_decide (Z.of_nat (length pArray)
                              >= wrap32 (m_nComponents d * 2)) = true).
  { apply bool_decide_eq_true_2. lia. }
  assert (Hpost : forall comps : list DIB_COMP_DATA,
            length comps = Z.to_nat (m_nComponents d) ->
            length (zimap (color_key_entry pArray max_data) comps)
              = Z.to_nat (m_nComponents d) /\
            forall (i : nat) datum,
              zimap (color_key_entry pArray max_data) comps !! i = Some datum ->
              m_ColorKeyMin datum = Z.max (GetIntegerAt pArray (Z.of_nat i * 2)) 0 /\
              m_ColorKeyMax datum =
                Z.min (GetIntegerAt pArray (Z.of_nat i * 2 + 1)) (2 ^ m_bpc d - 1) /\
              0 <= m_ColorKeyMin datum /\ m_ColorKeyMax datum <= 2 ^ m_bpc d - 1).
  { intros comps Hcomps. split; [by rewrite zimap_length|].
    intros i datum. rewrite zimap_lookup.
    destruct (comps !! i) as [c|]; [|done]. intros [= <-].
    unfold color_key_entry. cbn. rewrite Hmax. lia. }
  destruct (GetArrayFor dict "Decode") as [pDecode|] eqn:Hdecode;
    dib_simpl.
  - destruct (existsb _ _); dib_simpl; rewrite Hsmask, Hmask, Harr;
      dib_simpl; rewrite Hge; dib_simpl;
      (eexists; split; [done|]; dib_simpl; split; [done|]);
      apply Hpost; rewrite length_fmap, zimap_length;
      apply length_resize.
  - rewrite Hsmask, Hmask, Harr. dib_simpl. rewrite Hge. dib_simpl.
    eexists. split; [done|]. dib_simpl. split; [done|].
    apply Hpost. rewrite zimap_length. apply length_resize.
Qed.

(** X5.  Two edges of the same function.  When the dictionary has an
    SMask key the Mask entry is not looked at: colour keying stays as it
    was.  When the Mask array has fewer than two entries per component,
    colour keying is switched on all the same and the key ranges are left
    as they were (after the resize to the component count). *)
Theorem color_key_edges (d d' : CPDF_DIB) (dict : CPDF_Dictionary) :
  m_pDict d = Some dict ->
  GetDecodeAndMaskArray d = Some (true, d') ->
  (KeyExist dict "SMask" = true ->
     m_bColorKey d' = m_bColorKey d /\
     key_range <$> m_CompData d' =
       key_range <$> resize (Z.to_nat (m_nComponents d)) default_comp
                       (m_CompData d)) /\
  (forall pArray,
     KeyExist dict "SMask" = false ->
     GetDirectObjectFor dict "Mask" ≫= ToArray = Some pArray ->
     Z.of_nat (length pArray) < wrap32 (m_nComponents d * 2) ->
     m_bColorKey d' = true /\
     key_range <$> m_CompData d' =
       key_range <$> resize (Z.to_nat (m_nComponents d)) default_comp
                       (m_CompData d)).
Proof.
  intros Hdict Hrun. unfold GetDecodeAndMaskArray in Hrun.
  cbv [bindM gets retM modify deref] in Hrun.
  destruct (m_pColorSpace d) as [cs|]; [|done].
  rewrite Hdict in Hrun. dib_simpl.
  set (resized := resize _ _ _) in *.
  set (max_data := Z.shiftl 1 (m_bpc d) - 1) in *.
  pose proof (decode_loop_key_range cs (m_Family d) max_data
                (GetArrayFor dict "Decode") resized) as Hkeys.
  destruct (GetArrayFor dict "Decode") as [pDecode|]; dib_simpl.
  - destruct (existsb _ _); dib_simpl;
      (split;
       [ intros Hs; rewrite Hs in Hrun; injection Hrun as <-; by dib_simpl
       | intros pArray Hs Hm Hshort; rewrite Hs in Hrun;
         destruct (GetDirectObjectFor dict "Mask") as [pMask|]; [|done];
         cbn in Hm; rewrite Hm in Hrun; dib_simpl;
         rewrite bool_decide_eq_false_2 in Hrun by lia;
         injection Hrun as <-; by dib_simpl ]).
  - split.
    + intros Hs. rewrite Hs in Hrun. injection Hrun as <-. by dib_simpl.
    + intros pArray Hs Hm Hshort. rewrite Hs in Hrun.
      destruct (GetDirectObjectFor dict "Mask") as [pMask|]; [|done].
      cbn in Hm. rewrite Hm in Hrun. dib_simpl.
      rewrite bool_decide_eq_false_2 in Hrun by lia.
      injection Hrun as <-. by dib_simpl.
Qed.

Lemma GetDecodeAndMaskArray_same {A} (f : CPDF_DIB -> A) :
  (forall d x, f (set_m_CompData x d) = f d) ->
  (forall d x, f (set_m_bDefaultDecode x d) = f d) ->
  (forall d x, f (set_m_bColorKey x d) = f d) ->
  keeps (same f) GetDecodeAndMaskArray.
Proof.
  intros H1 H2 H3. unfold GetDecodeAndMaskArray.
  repeat first [ eapply keeps_modify; intros ?; unfold same; by auto
               | same_step ].
Qed.

Lemma ValidateDictParam_same {A} (f : CPDF_DIB -> A) (filter : string) :
  (forall d x, f (set_m_bpc x d) = f d) ->
  (forall d x, f (set_m_nComponents x d) = f d) ->
  (forall d x, f (set_m_bDoBpcCheck x d) = f d) ->
  keeps (same f) (ValidateDictParam filter).
Proof.
  intros H1 H2 H3. unfold ValidateDictParam.
  repeat first [ eapply keeps_modify; intros ?; unfold same; by auto
               | same_step ].
Qed.

Lemma GetDecodeAndMaskArray_length (d d' : CPDF_DIB) :
  GetDecodeAndMaskArray d = Some (true, d') ->
  length (m_CompData d') = Z.to_nat (m_nComponents d) /\
  is_Some (m_pColorSpace d).
Proof.
  unfold GetDecodeAndMaskArray. cbv [bindM gets retM modify deref undefined].
  destruct (m_pColorSpace d) as [cs|]; [|done].
  destruct (m_pDict d) as [dict|]; [|done]. dib_simpl.
  set (resized := resize _ _ _).
  set (max_data := Z.shiftl 1 (m_bpc d) - 1).
  pose proof (decode_loop_length cs (m_Family d) max_data
                (GetArrayFor dict "Decode") resized) as Hlen.
  assert (Hres : length resized = Z.to_nat (m_nComponents d))
    by apply length_resize.
  rewrite Hres in Hlen.
  intros Hrun. split; [|done]. revert Hrun.
  destruct (GetArrayFor dict "Decode") as [pDecode|]; dib_simpl.
  - destruct (existsb _ _); dib_simpl;
      repeat case_match; simplify_eq; dib_simpl; intros [= <-]; dib_simpl;
      rewrite ?zimap_length, ?length_fmap, ?zimap_length; exact Hres.
  - repeat case_match; simplify_eq; dib_simpl; intros [= <-]; dib_simpl;
      rewrite ?zimap_length, ?length_fmap, ?zimap_length; exact Hres.
Qed.

(** X6.  The three ways LoadColorInfo succeeds.  The declared
    bits-per-component is between 0 and 16, and the image is either a
    stencil mask with one 1-bit component, or a JPXDecode image without a
    ColorSpace entry whose colour information is left to the codec, or an
    image with a resolved colour space and one decode entry per
    component. *)
Theorem LoadColorInfo_outcomes
    (pFormResources pPageResources : option CPDF_Dictionary)
    (d d' : CPDF_DIB) (dict : CPDF_Dictionary) :
  m_pDict d = Some dict ->
  LoadColorInfo pFormResources pPageResources d = Some (true, d') ->
  m_bpc_orig d' = wrap32 (GetIntegerFor dict "BitsPerComponent") /\
  0 <= m_bpc_orig d' <= 16 /\
  ((m_bImageMask d' = true /\ m_bpc d' = 1 /\ m_nComponents d' = 1 /\
    m_pColorSpace d' = m_pColorSpace d)
   \/ (m_bImageMask d' = false /\ m_bDoBpcCheck d' = false /\
       KeyExist dict "ColorSpace" = false /\
       m_bpc d' = m_bpc d /\ m_nComponents d' = m_nComponents d /\
       m_pColorSpace d' = m_pColorSpace d)
   \/ (m_bImageMask d' = false /\ KeyExist dict "ColorSpace" = true /\
       exists cs, m_pColorSpace d' = Some cs /\ m_Family d' = cs_family cs /\
                  length (m_CompData d') = Z.to_nat (m_nComponents d'))).
Proof.
  intros Hdict. unfold LoadColorInfo.
  cbv [bindM gets retM modify deref]. rewrite Hdict.
  destruct (GetDecoderArray dict) as [decoder_array|]; [|done]. dib_simpl.
  set (orig := wrap32 (GetIntegerFor dict "BitsPerComponent")).
  destruct (IsMaybeValidBitsPerComponent (as_int32 orig)) eqn:Hvalid; [|done].
  cbn [negb].
  assert (Horig : 0 <= orig <= 16).
  { unfold IsMaybeValidBitsPerComponent in Hvalid.
    apply andb_prop in Hvalid as [H0%bool_decide_eq_true_1
                                    H16%bool_decide_eq_true_1].
    assert (Hw : 0 <= orig < 4294967296) by (apply Z.mod_pos_bound; lia).
    unfold as_int32 in *.
    destruct (Z_lt_ge_dec orig 2147483648).
    - rewrite Z.mod_small in * by lia. lia.
    - replace (orig + 2147483648)
        with (orig - 2147483648 + 1 * 4294967296) in * by lia.
      rewrite Z.mod_add in * by lia. rewrite Z.mod_small in * by lia. lia. }
  set (d0 := set_m_bpc_orig orig d).
  set (mask_step := if bool_decide (GetIntegerFor dict "ImageMask" ≠ 0)
                    then _ else _).
  assert (Hstep : exists d1, mask_step d0 = Some (tt, d1) /\
            m_bpc_orig d1 = orig /\ m_bpc d1 = m_bpc d /\
            m_nComponents d1 = m_nComponents d /\
            m_pColorSpace d1 = m_pColorSpace d /\ m_pDict d1 = m_pDict d).
  { unfold mask_step. case_bool_decide; eexists; (split; [done|]); by dib_simpl. }
  destruct Hstep as (d1 & -> & Ho1 & Hb1 & Hn1 & Hc1 & Hd1).
  destruct (m_bImageMask d1 || negb (KeyExist dict "ColorSpace")) eqn:Hfirst.
  - destruct (negb (m_bImageMask d1) && _ && _) eqn:Hjpx.
    + intros [= <-]. dib_simpl. split; [done|]. split; [lia|].
      right. left.
      apply andb_prop in Hjpx as [[Hm%negb_true_iff _]%andb_prop _].
      rewrite Hm in Hfirst. cbn in Hfirst. apply negb_true_iff in Hfirst.
      by repeat split.
    + intros [= <-]. dib_simpl. split; [done|]. split; [lia|].
      left. by repeat split.
  - apply orb_false_elim in Hfirst as [Hm Hkey%negb_false_iff].
    destruct (GetDirectObjectFor dict "ColorSpace") as [pCSObj|]; [|done].
    set (form_step := match pFormResources with Some _ => _ | None => _ end).
    assert (Hform : exists d2, form_step d1 = Some (tt, d2) /\
              m_bpc_orig d2 = orig /\ m_bImageMask d2 = false).
    { unfold form_step. destruct pFormResources; eexists;
        (split; [done|]); by dib_simpl. }
    destruct Hform as (d2 & -> & Ho2 & Hm2).
    set (page_step := if bool_decide (m_pColorSpace d2 = None) then _ else _).
    assert (Hpage : exists d3, page_step d2 = Some (tt, d3) /\
              m_bpc_orig d3 = orig /\ m_bImageMask d3 = false).
    { unfold page_step. case_bool_decide; eexists;
        (split; [done|]); by dib_simpl. }
    destruct Hpage as (d3 & -> & Ho3 & Hm3).
    destruct (m_pColorSpace d3) as [cs|] eqn:Hcs3; [|done]. dib_simpl.
    set (d4 := set_m_Family _ _).
    set (icc_step := if bool_decide (cs_family cs = kICCBased) && _
                     then _ else _).
    assert (Hicc : exists d5, icc_step d4 = Some (tt, d5) /\
              m_bpc_orig d5 = orig /\ m_bImageMask d5 = false /\
              m_pColorSpace d5 = Some cs /\ m_Family d5 = cs_family cs).
    { unfold icc_step.
      repeat case_match; eexists; (split; [done|]); by dib_simpl. }
    destruct Hicc as (d5 & -> & Ho5 & Hm5 & Hcs5 & Hf5).
    destruct (ValidateDictParam (last_filter decoder_array) d5)
      as [[[] d6]|] eqn:Hv; [|done].
    intros Hg.
    pose proof (ValidateDictParam_same m_bpc_orig _ ltac:(done) ltac:(done)
                  ltac:(done) _ _ _ Hv) as Ho6.
    pose proof (ValidateDictParam_same m_bImageMask _ ltac:(done) ltac:(done)
                  ltac:(done) _ _ _ Hv) as Hm6.
    pose proof (ValidateDictParam_same m_pColorSpace _ ltac:(done) ltac:(done)
                  ltac:(done) _ _ _ Hv) as Hcs6.
    pose proof (ValidateDictParam_same m_Family _ ltac:(done) ltac:(done)
                  ltac:(done) _ _ _ Hv) as Hf6.
    pose proof (GetDecodeAndMaskArray_same m_bpc_orig ltac:(done) ltac:(done)
                  ltac:(done) _ _ _ Hg) as Ho7.
    pose proof (GetDecodeAndMaskArray_same m_bImageMask ltac:(done) ltac:(done)
                  ltac:(done) _ _ _ Hg) as Hm7.
    pose proof (GetDecodeAndMaskArray_same m_pColorSpace ltac:(done) ltac:(done)
                  ltac:(done) _ _ _ Hg) as Hcs7.
    pose proof (GetDecodeAndMaskArray_same m_Family ltac:(done) ltac:(done)
                  ltac:(done) _ _ _ Hg) as Hf7.
    pose proof (GetDecodeAndMaskArray_same m_nComponents ltac:(done) ltac:(done)
                  ltac:(done) _ _ _ Hg) as Hn7.
    apply GetDecodeAndMaskArray_length in Hg as [Hlen _].
    unfold same in *.
    split; [congruence|]. split; [lia|].
    right. right. split; [congruence|]. split; [done|].
    exists cs. repeat split; congruence.
Qed.

(** ** Bit fields and the 16-bit fast path *)

Lemma land_pow2_testbit (x s : Z) :
  0 <= s -> (Z.land x (Z.shiftl 1 s) =? 0) = negb (Z.testbit x s).
Proof.
  intros Hs. rewrite Z.shiftl_1_l.
  destruct (Z.testbit x s) eqn:Hbit; cbn.
  - apply Z.eqb_neq. intros H0.
    assert (Hb : Z.testbit (Z.land x (2 ^ s)) s = true).
    { by rewrite Z.land_spec, Hbit, Z.pow2_bits_true. }
    rewrite H0 in Hb. by rewrite Z.bits_0 in Hb.
  - apply Z.eqb_eq. apply Z.bits_inj'. intros n Hn.
    rewrite Z.land_spec, Z.bits_0, Z.pow2_bits_eqb by done.
    destruct (Z.eqb_spec s n) as [->|]; [by rewrite Hbit|].
    apply andb_false_r.
Qed.

Lemma shiftr_land_1_testbit (x s : Z) :
  0 <= s -> (Z.land (Z.shiftr x s) 1 =? 0) = negb (Z.testbit x s).
Proof.
  intros Hs. change 1 with (Z.ones 1). rewrite Z.land_ones by lia.
  change (2 ^ 1) with 2. rewrite <- Z.bit0_mod, Z.shiftr_spec by lia.
  rewrite Z.add_0_l. by destruct (Z.testbit x s).
Qed.

(** X7.  The two bit readers agree: GetBitValue at a bit position is true
    exactly when the 1-bit field GetBits8 reads there is not 0, and one is
    defined when the other is. *)
Theorem GetBitValue_is_GetBits8 (p : BytePtr) (pos : Z) :
  GetBitValue p pos = (fun v => negb (v =? 0)) <$> GetBits8 p pos 1.
Proof.
  unfold GetBitValue, GetBits8.
  destruct (ptr_read p (pos / 8)) as [byte|]; [|done]. cbn [mbind option_bind].
  rewrite !bool_decide_eq_false_2 by done.
  pose proof (Z.mod_pos_bound pos 8 ltac:(lia)) as Hmod.
  assert (Hs : wrap64 (8 - 1 - pos `mod` 8) = 7 - pos `mod` 8).
  { unfold wrap64. rewrite Z.mod_small by lia. lia. }
  rewrite Hs.
  rewrite !bool_decide_eq_true_2 by lia. cbn [andb fmap option_fmap option_map].
  f_equal. change (Z.shiftl 1 1 - 1) with 1.
  rewrite land_pow2_testbit, shiftr_land_1_testbit by lia. done.
Qed.

(** The field GetBits8 extracts from a byte. *)
Lemma GetBits8_field (p : BytePtr) (i j nbits byte : Z) :
  ptr_read p i = Some byte ->
  0 < nbits < 8 -> 0 <= j -> nbits * (j + 1) <= 8 ->
  GetBits8 p (8 * i + nbits * j) nbits
    = Some (Z.land (Z.shiftr byte (8 - nbits * (j + 1))) (Z.shiftl 1 nbits - 1)).
Proof.
  intros Hread Hn Hj Hfit. unfold GetBits8.
  assert (Hdiv : (8 * i + nbits * j) / 8 = i).
  { symmetry. apply (Z.div_unique _ 8 i (nbits * j)); [nia|lia]. }
  assert (Hmod : (8 * i + nbits * j) `mod` 8 = nbits * j).
  { symmetry. apply (Z.mod_unique _ 8 i (nbits * j)); [nia|lia]. }
  rewrite Hdiv, Hread, Hmod. cbn [mbind option_bind].
  rewrite !bool_decide_eq_false_2 by lia.
  assert (Hs : wrap64 (8 - nbits - nbits * j) = 8 - nbits * (j + 1)).
  { unfold wrap64. rewrite Z.mod_small by nia. lia. }
  rewrite Hs. rewrite !bool_decide_eq_true_2 by lia. done.
Qed.

(** X8.  Unpacking is lossless and big-endian: for a sample size of 1, 2
    or 4 bits, the fields GetBits8 reads from one byte, most significant
    first, put together again give the byte. *)
Theorem GetBits8_fields_rebuild_byte (p : BytePtr) (i nbits byte : Z) :
  ptr_read p i = Some byte -> is_byte byte ->
  nbits = 1 \/ nbits = 2 \/ nbits = 4 ->
  exists codes,
    mapM (fun j : nat => GetBits8 p (8 * i + nbits * Z.of_nat j) nbits)
         (seq 0 (Z.to_nat (8 / nbits))) = Some codes /\
    Forall (fun c => 0 <= c < 2 ^ nbits) codes /\
    foldl (fun acc c => acc * 2 ^ nbits + c) 0 codes = byte.
Proof.
  intros Hread Hbyte Hn.
  set (field := fun j : nat =>
         Z.land (Z.shiftr byte (8 - nbits * (Z.of_nat j + 1)))
                (Z.shiftl 1 nbits - 1)).
  exists (field <$> seq 0 (Z.to_nat (8 / nbits))).
  assert (Hcheck :
    forallb (fun b =>
      forallb (fun nb =>
        let codes :=
          (fun j : nat => Z.land (Z.shiftr b (8 - nb * (Z.of_nat j + 1)))
                                 (Z.shiftl 1 nb - 1))
            <$> seq 0 (Z.to_nat (8 / nb)) in
        forallb (fun c => (0 <=? c) && (c <? 2 ^ nb)) codes
        && (foldl (fun acc c => acc * 2 ^ nb + c) 0 codes =? b))
        [1; 2; 4])
      (Z.of_nat <$> seq 0 256) = true) by (vm_compute; reflexivity).
  rewrite forallb_forall in Hcheck.
  specialize (Hcheck byte).
  destruct Hbyte as [Hb0 Hb1].
  assert (Hin : In byte (Z.of_nat <$> seq 0 256)).
  { apply list_elem_of_In. apply list_elem_of_fmap.
    exists (Z.to_nat byte). split; [lia|].
    apply elem_of_seq. lia. }
  specialize (Hcheck Hin). rewrite forallb_forall in Hcheck.
  specialize (Hcheck nbits).
  assert (Hin' : In nbits [1; 2; 4]) by (cbn; lia).
  specialize (Hcheck Hin'). cbn zeta in Hcheck.
  apply andb_prop in Hcheck as [Hrange Hsum%Z.eqb_eq].
  split; [|split].
  - apply mapM_Some_2. apply Forall2_fmap_r, Forall_Forall2_diag.
    apply Forall_forall. intros j Hj%elem_of_seq.
    apply GetBits8_field; [done|lia|lia|].
    destruct Hn as [-> | [-> | ->]];
      [ change (Z.to_nat (8 / 1)) with 8%nat in Hj
      | change (Z.to_nat (8 / 2)) with 4%nat in Hj
      | change (Z.to_nat (8 / 4)) with 2%nat in Hj ]; lia.
  - apply Forall_forall. intros c Hc%list_elem_of_In.
    rewrite forallb_forall in Hrange. specialize (Hrange c Hc). lia.
  - exact Hsum.
Qed.

(** The 16-bit loop of the fast path keeps the first byte of every sample
    and exchanges red and blue. *)
Lemma swap_rgb_16_spec (w : Z) (src : BytePtr) (dest row : list Z) :
  0 <= w -> ptr_bytes src (6 * w) = Some row -> Forall is_byte row ->
  3 * w <= Z.of_nat (length dest) ->
  exists out,
    swap_rgb_16 w src dest = Some out /\
    length out = length dest /\
    (forall col, 0 <= col < w ->
       out !! Z.to_nat (3 * col) = row !! Z.to_nat (6 * col + 4) /\
       out !! Z.to_nat (3 * col + 1) = row !! Z.to_nat (6 * col + 2) /\
       out !! Z.to_nat (3 * col + 2) = row !! Z.to_nat (6 * col)) /\
    (forall j, 3 * w <= j -> out !! Z.to_nat j = dest !! Z.to_nat j).
Proof.
  intros Hw Hrow Hbytes Hdest. unfold swap_rgb_16.
  pose proof (ptr_bytes_length _ _ _ Hrow) as Hlen.
  destruct (for_loop_total
    (fun k buf =>
       length buf = length dest /\
       (forall col, 0 <= col < k ->
          ptr_read (ptr_of buf) (3 * col) = row !! Z.to_nat (6 * col + 4) /\
          ptr_read (ptr_of buf) (3 * col + 1) = row !! Z.to_nat (6 * col + 2) /\
          ptr_read (ptr_of buf) (3 * col + 2) = row !! Z.to_nat (6 * col)) /\
       (forall j, 3 * k <= j ->
          ptr_read (ptr_of buf) j = ptr_read (ptr_of dest) j))
    (fun col dest =>
       s4 ← ptr_read src (col * 6 + 4);
       dest ← buf_write dest (col * 3) s4;
       s2 ← ptr_read src (col * 6 + 2);
       dest ← buf_write dest (col * 3 + 1) s2;
       s0 ← ptr_read src (col * 6);
       buf_write dest (col * 3 + 2) s0)
    (Z.to_nat w) 0 dest) as (out & Hrun & Hout).
  { split; [done|]. split; [intros; lia|done]. }
  { intros k buf Hk (Hl & Hdone & Hrest).
    destruct (ptr_bytes_read src (6 * w) (k * 6 + 4) row Hrow ltac:(lia))
      as (s4 & Hr4 & Hs4).
    destruct (ptr_bytes_read src (6 * w) (k * 6 + 2) row Hrow ltac:(lia))
      as (s2 & Hr2 & Hs2).
    destruct (ptr_bytes_read src (6 * w) (k * 6) row Hrow ltac:(lia))
      as (s0 & Hr0 & Hs0).
    assert (Hb : forall i s, row !! i = Some s -> u8 s = s).
    { intros i s Hi. apply u8_byte.
      by eapply (proj1 (Forall_lookup _ _) Hbytes). }
    rewrite Hr4. cbn [mbind option_bind].
    destruct (buf_write buf (k * 3) s4) as [b1|] eqn:Hw1.
    2:{ rewrite buf_write_Some in Hw1 by lia. done. }
    pose proof (buf_write_length _ _ _ _ Hw1) as Hl1.
    cbn [mbind option_bind]. rewrite Hr2. cbn [mbind option_bind].
    destruct (buf_write b1 (k * 3 + 1) s2) as [b2|] eqn:Hw2.
    2:{ rewrite buf_write_Some in Hw2 by lia. done. }
    pose proof (buf_write_length _ _ _ _ Hw2) as Hl2.
    cbn [mbind option_bind]. rewrite Hr0. cbn [mbind option_bind].
    destruct (buf_write b2 (k * 3 + 2) s0) as [b3|] eqn:Hw3.
    2:{ rewrite buf_write_Some in Hw3 by lia. done. }
    pose proof (buf_write_length _ _ _ _ Hw3) as Hl3.
    exists b3. split; [done|]. split; [congruence|].
    assert (Hread : forall j,
              ptr_read (ptr_of b3) j =
                if decide (j = k * 3 + 2) then Some s0
                else if decide (j = k * 3 + 1) then Some s2
                else if decide (j = k * 3) then Some s4
                else ptr_read (ptr_of buf) j).
    { intros j.
      rewrite (buf_write_read _ _ _ _ j Hw3), (buf_write_read _ _ _ _ j Hw2),
        (buf_write_read _ _ _ _ j Hw1).
      rewrite (Hb _ _ Hs0), (Hb _ _ Hs2), (Hb _ _ Hs4). done. }
    split.
    - intros col Hcol. rewrite !Hread.
      destruct (decide (col = k)) as [->|Hne].
      + repeat (destruct (decide _); try lia).
        replace (6 * k + 4) with (k * 6 + 4) by lia.
        replace (6 * k + 2) with (k * 6 + 2) by lia.
        replace (6 * k) with (k * 6) by lia. done.
      + repeat (destruct (decide _); try lia). apply Hdone. lia.
    - intros j Hj. rewrite Hread.
      repeat (destruct (decide _); try lia). apply Hrest. lia. }
  exists out. split; [done|].
  rewrite Z.add_0_l, Z2Nat.id in Hout by done.
  destruct Hout as (Hl & Hdone & Hrest). split; [done|]. split.
  - intros col Hcol. destruct (Hdone col Hcol) as (H1 & H2 & H3).
    rewrite ptr_read_of in H1, H2, H3 by lia. done.
  - intros j Hj. specialize (Hrest j Hj).
    by rewrite !ptr_read_of in Hrest by lia.
Qed.

(** X9.  On the default-decode path of a 3-component RGB image with 16
    bits per component, every output pixel is the first (most significant)
    byte of the blue, green and red sample in that order; the second byte
    of every sample is dropped and the row beyond 3 * width is left
    alone. *)
Theorem default_decode_rgb16_keeps_high_bytes (d : CPDF_DIB) (src : BytePtr)
    (buf row : list Z) :
  m_bDefaultDecode d = true ->
  m_Family d = kDeviceRGB \/ m_Family d = kCalRGB ->
  m_bpc d = 16 -> m_nComponents d = 3 -> 0 <= m_Width d ->
  ptr_bytes src (6 * m_Width d) = Some row -> Forall is_byte row ->
  3 * m_Width d <= Z.of_nat (length buf) ->
  exists out,
    TranslateScanline24bppDefaultDecode d buf src = Some (true, out) /\
    length out = length buf /\
    (forall col, 0 <= col < m_Width d ->
       out !! Z.to_nat (3 * col) = row !! Z.to_nat (6 * col + 4) /\
       out !! Z.to_nat (3 * col + 1) = row !! Z.to_nat (6 * col + 2) /\
       out !! Z.to_nat (3 * col + 2) = row !! Z.to_nat (6 * col)) /\
    (forall j, 3 * m_Width d <= j -> out !! Z.to_nat j = buf !! Z.to_nat j).
Proof.
  intros Hdef Hfam Hbpc Hn Hw Hrow Hbytes Hlen.
  destruct (swap_rgb_16_spec _ _ _ _ Hw Hrow Hbytes Hlen)
    as (out & Hrun & Hpost).
  exists out. split; [|done].
  unfold TranslateScanline24bppDefaultDecode.
  rewrite Hdef, Hbpc, Hn. cbn [negb].
  assert (Hrgb : negb (bool_decide (m_Family d = kDeviceRGB))
                 && negb (bool_decide (m_Family d = kCalRGB)) = false).
  { destruct Hfam as [-> | ->]; by vm_compute. }
  rewrite Hrgb.
  rewrite (bool_decide_eq_true_2 (3 = 3)) by done. cbn [negb].
  rewrite (bool_decide_eq_false_2 (16 = 8)) by done.
  rewrite (bool_decide_eq_true_2 (16 = 16)) by done.
  by rewrite Hrun.
Qed.

(** The loop of the fast path for the other bit depths: every sample is
    scaled from 0 .. 2^bpc - 1 to 0 .. 255. *)
Lemma swap_rgb_bits_spec (bpc w : Z) (src : BytePtr) (dest out : list Z) :
  0 < bpc < 8 ->
  swap_rgb_bits bpc w src dest = Some out ->
  forall col, 0 <= col < w ->
    exists R G B,
      GetBits8 src (col * 3 * bpc) bpc = Some R /\
      GetBits8 src (col * 3 * bpc + bpc) bpc = Some G /\
      GetBits8 src (col * 3 * bpc + 2 * bpc) bpc = Some B /\
      ptr_read (ptr_of out) (3 * col) = Some (B * 255 / (2 ^ bpc - 1)) /\
      ptr_read (ptr_of out) (3 * col + 1) = Some (G * 255 / (2 ^ bpc - 1)) /\
      ptr_read (ptr_of out) (3 * col + 2) = Some (R * 255 / (2 ^ bpc - 1)).
Proof.
  intros Hbpc Hrun. unfold swap_rgb_bits in Hrun.
  assert (Hpow : 2 <= 2 ^ bpc <= 128).
  { split.
    - change 2 with (2 ^ 1) at 1. apply Z.pow_le_mono_r; lia.
    - change 128 with (2 ^ 7). apply Z.pow_le_mono_r; lia. }
  assert (Hmax : wrap32 (Z.shiftl 1 bpc - 1) = 2 ^ bpc - 1).
  { rewrite Z.shiftl_1_l. unfold wrap32. apply Z.mod_small. lia. }
  rewrite Hmax in Hrun.
  set (max_data := 2 ^ bpc - 1) in *.
  assert (Hscale : forall code, 0 <= code < 2 ^ bpc ->
            u8 (wrap32 (Z.min code max_data * 255) / max_data)
              = code * 255 / max_data).
  { intros code Hcode. rewrite Z.min_l by (unfold max_data; lia).
    unfold wrap32. rewrite Z.mod_small by nia.
    apply u8_byte. unfold is_byte. split.
    - apply Z.div_pos; unfold max_data; nia.
    - apply Z.div_lt_upper_bound; unfold max_data; nia. }
  pose proof (for_loop_invariant
    (fun c buf => forall col, 0 <= col < c ->
       exists R G B,
         GetBits8 src (col * 3 * bpc) bpc = Some R /\
         GetBits8 src (col * 3 * bpc + bpc) bpc = Some G /\
         GetBits8 src (col * 3 * bpc + 2 * bpc) bpc = Some B /\
         ptr_read (ptr_of buf) (3 * col) = Some (B * 255 / max_data) /\
         ptr_read (ptr_of buf) (3 * col + 1) = Some (G * 255 / max_data) /\
         ptr_read (ptr_of buf) (3 * col + 2) = Some (R * 255 / max_data))
    _ _ _ _ _ Hrun) as Hinv.
  intros col Hcol. apply Hinv; [intros; lia| |lia].
  clear col Hcol. intros k buf buf' Hk IH Hbody col Hcol.
  destruct (GetBits8 src (k * 3 * bpc) bpc) as [R|] eqn:HR; [|done].
  cbn [mbind option_bind] in Hbody.
  destruct (GetBits8 src (k * 3 * bpc + bpc) bpc) as [G|] eqn:HG; [|done].
  cbn [mbind option_bind] in Hbody.
  destruct (GetBits8 src (k * 3 * bpc + 2 * bpc) bpc) as [B|] eqn:HB; [|done].
  cbn [mbind option_bind] in Hbody.
  rewrite bool_decide_eq_false_2 in Hbody by (unfold max_data; lia).
  destruct (buf_write buf (k * 3) _) as [b1|] eqn:W1; [|done].
  cbn [mbind option_bind] in Hbody.
  destruct (buf_write b1 (k * 3 + 1) _) as [b2|] eqn:W2; [|done].
  cbn [mbind option_bind] in Hbody.
  pose proof (GetBits8_small _ _ _ _ HR ltac:(lia) ltac:(lia)) as [_ HRr].
  pose proof (GetBits8_small _ _ _ _ HG ltac:(lia) ltac:(lia)) as [_ HGr].
  pose proof (GetBits8_small _ _ _ _ HB ltac:(lia) ltac:(lia)) as [_ HBr].
  assert (Hread : forall j,
            ptr_read (ptr_of buf') j =
              if decide (j = k * 3 + 2) then Some (R * 255 / max_data)
              else if decide (j = k * 3 + 1) then Some (G * 255 / max_data)
              else if decide (j = k * 3) then Some (B * 255 / max_data)
              else ptr_read (ptr_of buf) j).
  { intros j.
    rewrite (buf_write_read _ _ _ _ j Hbody), (buf_write_read _ _ _ _ j W2),
      (buf_write_read _ _ _ _ j W1).
    by rewrite !Hscale by done. }
  destruct (decide (col = k)) as [->|Hne].
  - exists R, G, B. rewrite !Hread.
    repeat (destruct (decide _); try lia). done.
  - destruct (IH col ltac:(lia)) as (R' & G' & B' & ? & ? & ? & ? & ? & ?).
    exists R', G', B'. rewrite !Hread.
    repeat (destruct (decide _); try lia). done.
Qed.

(** X10.  On the default-decode fast path for a DeviceRGB or CalRGB image
    with 3 components of fewer than 8 bits, every sample code c, read as a
    big-endian bit field, is scaled to c * 255 / (2^bpc - 1), so that the
    full range of codes covers 0 .. 255, and red and blue are exchanged. *)
Theorem default_decode_rgb_packed_is_scaled (d : CPDF_DIB) (src : BytePtr)
    (buf out : list Z) :
  m_bDefaultDecode d = true ->
  m_Family d = kDeviceRGB \/ m_Family d = kCalRGB ->
  m_nComponents d = 3 -> 0 < m_bpc d < 8 ->
  TranslateScanline24bppDefaultDecode d buf src = Some (true, out) ->
  forall col, 0 <= col < m_Width d ->
    exists R G B,
      GetBits8 src (col * 3 * m_bpc d) (m_bpc d) = Some R /\
      GetBits8 src (col * 3 * m_bpc d + m_bpc d) (m_bpc d) = Some G /\
      GetBits8 src (col * 3 * m_bpc d + 2 * m_bpc d) (m_bpc d) = Some B /\
      0 <= R < 2 ^ m_bpc d /\ 0 <= G < 2 ^ m_bpc d /\ 0 <= B < 2 ^ m_bpc d /\
      out !! Z.to_nat (3 * col) = Some (B * 255 / (2 ^ m_bpc d - 1)) /\
      out !! Z.to_nat (3 * col + 1) = Some (G * 255 / (2 ^ m_bpc d - 1)) /\
      out !! Z.to_nat (3 * col + 2) = Some (R * 255 / (2 ^ m_bpc d - 1)).
Proof.
  intros Hdef Hfam Hn Hbpc Hrun col Hcol.
  unfold TranslateScanline24bppDefaultDecode in Hrun.
  rewrite Hdef, Hn in Hrun. cbn [negb] in Hrun.
  assert (Hrgb : negb (bool_decide (m_Family d = kDeviceRGB))
                 && negb (bool_decide (m_Family d = kCalRGB)) = false).
  { destruct Hfam as [-> | ->]; by vm_compute. }
  rewrite Hrgb in Hrun.
  rewrite (bool_decide_eq_true_2 (3 = 3)) in Hrun by done. cbn [negb] in Hrun.
  rewrite !bool_decide_eq_false_2 in Hrun by lia.
  destruct (swap_rgb_bits _ _ _ _) as [o|] eqn:Hloop; [|done].
  injection Hrun as <-.
  destruct (swap_rgb_bits_spec _ _ _ _ _ Hbpc Hloop col Hcol)
    as (R & G & B & HR & HG & HB & H0 & H1 & H2).
  rewrite ptr_read_of in H0, H1, H2 by lia.
  exists R, G, B.
  pose proof (GetBits8_small _ _ _ _ HR ltac:(lia) ltac:(lia)) as [_ HRr].
  pose proof (GetBits8_small _ _ _ _ HG ltac:(lia) ltac:(lia)) as [_ HGr].
  pose proof (GetBits8_small _ _ _ _ HB ltac:(lia) ltac:(lia)) as [_ HBr].
  by repeat (split; [done|]).
Qed.

(** ** Rows *)

(** X11.  GetScanline returns the null pointer in two cases only, and then
    leaves the object as it was: a bits-per-component of 0, and a source
    pitch that does not fit 32 bits.  In every other case in which it
    returns, it returns a row. *)
Theorem GetScanline_null_cases (line : Z) (d : CPDF_DIB) :
  (m_bpc d = 0 \/
   CalculatePitch8 (m_bpc d) (m_nComponents d) (m_Width d) = None ->
   GetScanline line d = Some (None, d)) /\
  (forall d', GetScanline line d = Some (None, d') ->
     m_bpc d = 0 \/
     CalculatePitch8 (m_bpc d) (m_nComponents d) (m_Width d) = None).
Proof.
  split.
  - intros Hbad. unfold GetScanline. rewrite !bind_gets.
    case_bool_decide; [done|].
    destruct Hbad as [?| ->]; done.
  - intros d' Hrun. unfold GetScanline in Hrun.
    rewrite !bind_gets in Hrun.
    case_bool_decide as Hbpc; [by left|].
    destruct (CalculatePitch8 _ _ _) as [p|]; [|by right].
    exfalso.
    match type of Hrun with
    | ?m d = _ => assert (Hrow : ensures (fun r _ => is_Some r) m)
    end.
    { repeat first [ apply ensures_ret; by eexists
                   | apply ensures_bind; intros ?
                   | case_match ]. }
    by destruct (Hrow _ _ _ Hrun).
Qed.

Lemma memset_spec (buf : list Z) (n : Z) :
  0 <= n <= Z.of_nat (length buf) ->
  memset buf 255 n = Some (replicate (Z.to_nat n) 255 ++ drop (Z.to_nat n) buf).
Proof. intros H. unfold memset. by rewrite bool_decide_eq_true_2. Qed.

(** A raw stream shorter than the end of the row gives no source row. *)
Lemma uncached_line_short (d : CPDF_DIB) (acc : CPDF_StreamAcc) (line p : Z) :
  m_pDecoder d = None -> m_pStreamAcc d = Some acc ->
  0 <= (line + 1) * p < 4294967296 -> GetSize acc < (line + 1) * p ->
  uncached_line d line p = Some None.
Proof.
  intros Hdec Hacc Hfit Hshort. unfold uncached_line.
  rewrite Hdec, Hacc. cbn.
  unfold wrap32. rewrite Z.mod_small by lia.
  by rewrite bool_decide_eq_false_2 by lia.
Qed.

(** X12.  A short read.  With no cached bitmap and no lazy decoder, when
    the stream data ends before the end of the row asked for, GetScanline
    fills the first m_Pitch bytes of the output row with 0xFF and returns
    it: the colour-keyed row when there is one, else the line buffer. *)
Theorem truncated_stream_row_is_0xFF (d : CPDF_DIB) (acc : CPDF_StreamAcc)
    (line p : Z) (buf : list Z) :
  m_bpc d <> 0 ->
  CalculatePitch8 (m_bpc d) (m_nComponents d) (m_Width d) = Some p ->
  m_pCachedBitmap d = None -> m_pDecoder d = None ->
  m_pStreamAcc d = Some acc ->
  0 <= (line + 1) * p < 4294967296 -> GetSize acc < (line + 1) * p ->
  0 <= m_Pitch d <= Z.of_nat (length buf) ->
  let out := replicate (Z.to_nat (m_Pitch d)) 255
             ++ drop (Z.to_nat (m_Pitch d)) buf in
  (m_pMaskedLine d = Some buf ->
   GetScanline line d
     = Some (Some (ptr_of out), set_m_pMaskedLine (Some out) d)) /\
  (m_pMaskedLine d = None -> m_pLineBuf d = Some buf ->
   GetScanline line d
     = Some (Some (ptr_of out), set_m_pLineBuf (Some out) d)) /\
  ptr_bytes (ptr_of out) (m_Pitch d)
    = Some (replicate (Z.to_nat (m_Pitch d)) 255).
Proof.
  intros Hbpc Hpitch Hbm Hdec Hacc Hfit Hshort Hlen out.
  assert (Hsrc : source_line d line p = Some None).
  { unfold source_line. rewrite Hbm. by eapply uncached_line_short. }
  split; [|split].
  - intros Hm. unfold GetScanline. rewrite !bind_gets.
    rewrite bool_decide_eq_false_2 by done. rewrite Hpitch.
    cbv [bindM gets retM deref on_masked_line on_line_buf modify].
    rewrite Hsrc, Hm. rewrite bool_decide_eq_true_2 by by eexists.
    cbv beta iota. rewrite Hm. by rewrite memset_spec by done.
  - intros Hm Hl. unfold GetScanline. rewrite !bind_gets.
    rewrite bool_decide_eq_false_2 by done. rewrite Hpitch.
    cbv [bindM gets retM deref on_masked_line on_line_buf modify].
    rewrite Hsrc, Hm. rewrite bool_decide_eq_false_2 by by intros [? ?].
    cbv beta iota. rewrite Hl. by rewrite memset_spec by done.
  - apply ptr_bytes_of_app. by rewrite length_replicate.
Qed.

(** The [n] bytes at an offset inside a buffer. *)
Lemma ptr_bytes_slice (data : list Z) (off n : Z) :
  0 <= off -> 0 <= n -> off + n <= Z.of_nat (length data) ->
  ptr_bytes (mkPtr data off) n
    = Some (take (Z.to_nat n) (drop (Z.to_nat off) data)).
Proof.
  intros Hoff Hn Hfit. unfold ptr_bytes. apply mapM_Some_2.
  apply Forall2_same_length_lookup_2.
  { rewrite length_seq, length_take, length_drop. lia. }
  intros i x y Hx Hy. apply lookup_seq in Hx as [-> Hi]. cbn in *.
  unfold ptr_read. cbn. rewrite bool_decide_eq_true_2 by lia.
  rewrite lookup_take_lt, lookup_drop in Hy by lia.
  rewrite <- Hy. f_equal. lia.
Qed.

Lemma CalculatePitch8_byte_samples (w : Z) :
  0 <= w <= 131071 -> CalculatePitch8 8 1 w = Some w.
Proof.
  intros Hw.
  assert (Hdiv : (8 * 1 * w + 7) / 8 = w)
    by (symmetry; apply (Z.div_unique _ 8 w 7); lia).
  unfold CalculatePitch8, safe_div, safe_add, safe_mul, safe_u32, uint32_max.
  rewrite (bool_decide_eq_true_2 (0 <= 8 <= _)) by lia. cbn [mbind option_bind].
  rewrite (bool_decide_eq_true_2 (0 <= 8 * 1 <= _)) by lia.
  cbn [mbind option_bind].
  rewrite (bool_decide_eq_true_2 (0 <= 8 * 1 * w <= _)) by lia.
  cbn [mbind option_bind].
  rewrite (bool_decide_eq_true_2 (0 <= 8 * 1 * w + 7 <= _)) by lia.
  cbn [mbind option_bind].
  rewrite (bool_decide_eq_false_2 (8 = 0)) by done.
  rewrite Hdiv. by rewrite bool_decide_eq_true_2 by lia.
Qed.

(** X13.  Rows of an unfiltered image are consecutive slices of the
    stream.  For one 8-bit component without colour key, read straight
    from the stream data (no cached bitmap, no lazy decoder), GetScanline
    at a line that lies inside the data copies the width bytes that start
    at line * width into the line buffer and returns it. *)
Theorem unfiltered_8bit_row_is_stream_slice (d : CPDF_DIB)
    (acc : CPDF_StreamAcc) (line : Z) (buf : list Z) :
  m_bpc d = 8 -> m_nComponents d = 1 -> m_bColorKey d = false ->
  m_pCachedBitmap d = None -> m_pDecoder d = None ->
  m_pStreamAcc d = Some acc ->
  0 <= line -> 0 <= m_Width d <= 131071 ->
  (line + 1) * m_Width d <= GetSize acc ->
  (line + 1) * m_Width d < 4294967296 ->
  m_pLineBuf d = Some buf -> m_Width d <= Z.of_nat (length buf) ->
  let row := take (Z.to_nat (m_Width d))
               (drop (Z.to_nat (line * m_Width d)) (GetSpan acc)) in
  let out := row ++ drop (Z.to_nat (m_Width d)) buf in
  GetScanline line d = Some (Some (ptr_of out), set_m_pLineBuf (Some out) d) /\
  ptr_bytes (ptr_of out) (m_Width d) = Some row.
Proof.
  intros Hbpc Hn Hkey Hbm Hdec Hacc Hline Hw Hsize Hfit Hbuf Hlen row out.
  assert (Hspan : GetSize acc = Z.of_nat (length (GetSpan acc))).
  { unfold GetSize, GetSpan. by destruct (acc_data acc). }
  assert (Hrowlen : length row = Z.to_nat (m_Width d)).
  { unfold row. rewrite length_take, length_drop. nia. }
  split; [|by apply ptr_bytes_of_app].
  unfold GetScanline. rewrite !bind_gets. rewrite Hbpc, Hn.
  rewrite bool_decide_eq_false_2 by done.
  rewrite CalculatePitch8_byte_samples by done.
  cbv [bindM gets retM deref on_masked_line on_line_buf modify].
  assert (Hsrc : source_line d line (m_Width d)
                 = Some (Some (mkPtr (GetSpan acc) (line * m_Width d)))).
  { unfold source_line, uncached_line. rewrite Hbm, Hdec, Hacc. cbn.
    unfold wrap32. rewrite !Z.mod_small by nia.
    by rewrite bool_decide_eq_true_2 by lia. }
  rewrite Hsrc, Hkey.
  change (wrap32 (8 * 1)) with 8.
  rewrite (bool_decide_eq_false_2 (8 = 1)) by done.
  rewrite (bool_decide_eq_true_2 (8 <= 8)) by done.
  rewrite (bool_decide_eq_true_2 (8 = 8)) by done.
  cbv beta iota. rewrite Hbuf. unfold memcpy.
  rewrite ptr_bytes_slice by nia. cbn [mbind option_bind].
  rewrite bool_decide_eq_true_2 by lia. done.
Qed.

Lemma write_u32_read (buf buf' : list Z) (index value j : Z) :
  write_u32 buf index value = Some buf' ->
  ptr_read (ptr_of buf') j =
    if decide (j = index * 4 + 3) then Some (u8 (Z.shiftr value 24))
    else if decide (j = index * 4 + 2) then Some (u8 (Z.shiftr value 16))
    else if decide (j = index * 4 + 1) then Some (u8 (Z.shiftr value 8))
    else if decide (j = index * 4) then Some (u8 value)
    else ptr_read (ptr_of buf) j.
Proof.
  unfold write_u32. intros Hrun.
  destruct (buf_write buf (index * 4) value) as [b1|] eqn:H1; [|done].
  cbn in Hrun.
  destruct (buf_write b1 (index * 4 + 1) _) as [b2|] eqn:H2; [|done].
  cbn in Hrun.
  destruct (buf_write b2 (index * 4 + 2) _) as [b3|] eqn:H3; [|done].
  cbn in Hrun.
  by rewrite (buf_write_read _ _ _ _ j Hrun), (buf_write_read _ _ _ _ j H3),
    (buf_write_read _ _ _ _ j H2), (buf_write_read _ _ _ _ j H1).
Qed.

(** The 1-bit colour-key loop: the pixel of every column is the set value
    or the reset value, by the bit of the column. *)
Lemma key_line_1bpp_spec (src : BytePtr) (w set_argb reset_argb : Z)
    (dest out : list Z) :
  key_line_1bpp src w set_argb reset_argb dest = Some out ->
  forall col, 0 <= col < w ->
    exists bit : bool,
      GetBitValue src col = Some bit /\
      let argb := if bit then set_argb else reset_argb in
      ptr_read (ptr_of out) (4 * col) = Some (u8 argb) /\
      ptr_read (ptr_of out) (4 * col + 1) = Some (u8 (Z.shiftr argb 8)) /\
      ptr_read (ptr_of out) (4 * col + 2) = Some (u8 (Z.shiftr argb 16)) /\
      ptr_read (ptr_of out) (4 * col + 3) = Some (u8 (Z.shiftr argb 24)).
Proof.
  intros Hrun. unfold key_line_1bpp in Hrun.
  pose proof (for_loop_invariant
    (fun c buf => forall col, 0 <= col < c ->
       exists bit : bool,
         GetBitValue src col = Some bit /\
         let argb := if bit then set_argb else reset_argb in
         ptr_read (ptr_of buf) (4 * col) = Some (u8 argb) /\
         ptr_read (ptr_of buf) (4 * col + 1) = Some (u8 (Z.shiftr argb 8)) /\
         ptr_read (ptr_of buf) (4 * col + 2) = Some (u8 (Z.shiftr argb 16)) /\
         ptr_read (ptr_of buf) (4 * col + 3) = Some (u8 (Z.shiftr argb 24)))
    _ _ _ _ _ Hrun) as Hinv.
  intros col Hcol. apply Hinv; [intros; lia| |lia].
  clear col Hcol. intros k buf buf' Hk IH Hbody col Hcol.
  destruct (GetBitValue src k) as [bit|] eqn:Hbit; [|done]. cbn in Hbody.
  pose proof (write_u32_read _ _ _ _ (4 * col) Hbody) as R0.
  pose proof (write_u32_read _ _ _ _ (4 * col + 1) Hbody) as R1.
  pose proof (write_u32_read _ _ _ _ (4 * col + 2) Hbody) as R2.
  pose proof (write_u32_read _ _ _ _ (4 * col + 3) Hbody) as R3.
  destruct (decide (col = k)) as [->|Hne].
  - exists bit. split; [done|]. cbn zeta.
    rewrite R0, R1, R2, R3.
    repeat (destruct (decide _); try lia). done.
  - destruct (IH col ltac:(lia)) as (b & Hb & Hreads). exists b.
    split; [done|]. cbn zeta in *.
    rewrite R0, R1, R2, R3.
    repeat (destruct (decide _); try lia). done.
Qed.

(** X14.  Colour keying of a 1-bit image.  With a key range [min, max]
    inside 0 .. 1 and a palette, if any, of opaque entries, the alpha byte
    of a pixel in the 32-bit output row is 0 exactly when the bit of the
    pixel lies in the key range, and 0xFF exactly when it does not; a
    keyed pixel is 0 in all four bytes.  (The 32-bit pixel is stored least
    significant byte first, so alpha is the fourth byte.) *)
Theorem one_bit_color_key_alpha (d d' : CPDF_DIB) (line p : Z)
    (src out : BytePtr) (datum : DIB_COMP_DATA) :
  m_bColorKey d = true ->
  wrap32 (m_bpc d * m_nComponents d) = 1 ->
  m_bImageMask d && m_bDefaultDecode d = false ->
  m_CompData d !! 0%nat = Some datum ->
  0 <= m_ColorKeyMin datum <= m_ColorKeyMax datum ->
  m_ColorKeyMax datum <= 1 ->
  Forall (fun argb => u8 (Z.shiftr argb 24) = 255) (m_palette d) ->
  CalculatePitch8 (m_bpc d) (m_nComponents d) (m_Width d) = Some p ->
  source_line d line p = Some (Some src) ->
  GetScanline line d = Some (Some out, d') ->
  forall col, 0 <= col < m_Width d ->
    exists (bit : bool) alpha,
      GetBitValue src col = Some bit /\
      ptr_read out (4 * col + 3) = Some alpha /\
      let code := if bit then 1 else 0 in
      (alpha = 0 <-> m_ColorKeyMin datum <= code <= m_ColorKeyMax datum) /\
      (alpha = 255 <-> ~ m_ColorKeyMin datum <= code <= m_ColorKeyMax datum) /\
      (alpha = 0 ->
       ptr_read out (4 * col) = Some 0 /\ ptr_read out (4 * col + 1) = Some 0 /\
       ptr_read out (4 * col + 2) = Some 0).
Proof.
  intros Hkey Hone Hmask Hdatum Hrange Hmax Hpal Hpitch Hsrc Hrun col Hcol.
  unfold GetScanline in Hrun. rewrite !bind_gets in Hrun.
  case_bool_decide as Hbpc; [done|]. rewrite Hpitch in Hrun.
  cbv [bindM gets retM deref on_line_buf on_masked_line modify undefined]
    in Hrun.
  rewrite Hsrc, Hkey in Hrun.
  rewrite (bool_decide_eq_true_2 _ Hone) in Hrun. rewrite Hmask in Hrun.
  cbn [negb] in Hrun.
  destruct (Get1BitResetValue d) as [reset_argb|] eqn:Hreset; [|done].
  destruct (Get1BitSetValue d) as [set_argb|] eqn:Hset; [|done].
  destruct (m_pMaskedLine d) as [mbuf|]; [|done].
  destruct (key_line_1bpp _ _ _ _ _) as [obuf|] eqn:Hloop; [|done].
  injection Hrun as <- <-.
  destruct (key_line_1bpp_spec _ _ _ _ _ _ Hloop col Hcol)
    as (bit & Hbit & H0 & H1 & H2 & H3).
  assert (Hopaque : forall (i : nat) argb,
            m_palette d !! i = Some argb -> u8 (Z.shiftr argb 24) = 255).
  { intros i argb Hi. by eapply (proj1 (Forall_lookup _ _) Hpal). }
  unfold Get1BitResetValue in Hreset. unfold Get1BitSetValue in Hset.
  rewrite Hdatum in Hreset, Hset. cbn in Hreset, Hset.
  exists bit, (u8 (Z.shiftr (if bit then set_argb else reset_argb) 24)).
  split; [done|]. split; [done|]. cbn zeta.
  destruct bit.
  - clear Hreset. case_bool_decide as Hm.
    + injection Hset as <-. cbn.
      split; [split; [lia|done]|]. split; [split; [done|lia]|].
      intros _. by rewrite H0, H1, H2.
    + assert (Ha : u8 (Z.shiftr set_argb 24) = 255).
      { destruct (HasPalette d); [by eapply Hopaque|].
        by injection Hset as <-. }
      rewrite Ha. split; [split; [done|lia]|]. split; [split; [lia|done]|].
      done.
  - clear Hset. case_bool_decide as Hm.
    + injection Hreset as <-. cbn.
      split; [split; [lia|done]|]. split; [split; [done|lia]|].
      intros _. by rewrite H0, H1, H2.
    + assert (Ha : u8 (Z.shiftr reset_argb 24) = 255).
      { destruct (HasPalette d); [by eapply Hopaque|].
        by injection Hreset as <-. }
      rewrite Ha. split; [split; [done|lia]|]. split; [split; [lia|done]|].
      done.
Qed.

(** X15.  A row of packed codes is expanded to one byte per pixel.  For a
    one-component image of fewer than 8 bits per pixel (and more than 1)
    without colour key, the row GetScanline returns is the line buffer, and
    byte col of it is the code of pixel col: the big-endian bit field of
    bpc bits at bit col * bpc of the source row, a value below 2^bpc. *)
Theorem packed_codes_row_has_one_byte_per_pixel (d d' : CPDF_DIB)
    (line p : Z) (src out : BytePtr) :
  m_nComponents d = 1 -> m_bpc d <> 8 ->
  wrap32 (m_bpc d * 1) <> 1 -> wrap32 (m_bpc d * 1) <= 8 ->
  m_bColorKey d = false ->
  CalculatePitch8 (m_bpc d) (m_nComponents d) (m_Width d) = Some p ->
  source_line d line p = Some (Some src) ->
  GetScanline line d = Some (Some out, d') ->
  exists row,
    out = ptr_of row /\ d' = set_m_pLineBuf (Some row) d /\
    forall col, 0 <= col < m_Width d ->
      exists code,
        GetBits8 src (col * m_bpc d) (m_bpc d) = Some code /\
        row !! Z.to_nat col = Some code /\ 0 <= code < 2 ^ m_bpc d.
Proof.
  intros Hn Hb8 Hne1 Hle Hkey Hpitch Hsrc Hrun.
  unfold GetScanline in Hrun. rewrite !bind_gets in Hrun.
  case_bool_decide as Hbpc0; [done|]. rewrite Hpitch in Hrun.
  cbv [bindM gets retM deref on_line_buf on_masked_line modify undefined id]
    in Hrun.
  rewrite Hsrc, Hkey, Hn in Hrun.
  rewrite (bool_decide_eq_false_2 _ Hne1) in Hrun.
  rewrite (bool_decide_eq_true_2 _ Hle) in Hrun.
  rewrite (bool_decide_eq_false_2 _ Hb8) in Hrun. cbn [negb] in Hrun.
  destruct (m_pLineBuf d) as [buf|]; [|done].
  destruct (unpack_indices _ _ _ _ _) as [row|] eqn:Hunpack; [|done].
  injection Hrun as <- <-.
  exists row. split; [done|]. split; [done|].
  intros col Hcol.
  destruct (unpack_indices_single _ _ _ _ _ Hunpack Hb8 Hle col Hcol)
    as (code & Hcode & Hrow).
  exists code. split; [done|]. split; [done|].
  assert (H16 : m_bpc d <> 16).
  { intros H16. rewrite H16 in Hle. vm_compute in Hle. by apply Hle. }
  by destruct (GetBits8_small _ _ _ _ Hcode Hb8 H16).
Qed.

(** The colour bytes the interleaving loop writes. *)
Lemma interleave_bgr_colour (w : Z) (src : BytePtr) (dest out : list Z) :
  interleave_bgr w src dest = Some out ->
  forall col, 0 <= col < w ->
    exists s0 s1 s2,
      ptr_read src (col * 3) = Some s0 /\
      ptr_read src (col * 3 + 1) = Some s1 /\
      ptr_read src (col * 3 + 2) = Some s2 /\
      ptr_read (ptr_of out) (4 * col) = Some (u8 s0) /\
      ptr_read (ptr_of out) (4 * col + 1) = Some (u8 s1) /\
      ptr_read (ptr_of out) (4 * col + 2) = Some (u8 s2).
Proof.
  intros Hrun. unfold interleave_bgr in Hrun.
  pose proof (for_loop_invariant
    (fun c buf => forall col, 0 <= col < c ->
       exists s0 s1 s2,
         ptr_read src (col * 3) = Some s0 /\
         ptr_read src (col * 3 + 1) = Some s1 /\
         ptr_read src (col * 3 + 2) = Some s2 /\
         ptr_read (ptr_of buf) (4 * col) = Some (u8 s0) /\
         ptr_read (ptr_of buf) (4 * col + 1) = Some (u8 s1) /\
         ptr_read (ptr_of buf) (4 * col + 2) = Some (u8 s2))
    _ _ _ _ _ Hrun) as Hinv.
  intros col Hcol. apply Hinv; [intros; lia| |lia].
  clear col Hcol. intros k buf buf' Hk IH Hbody col Hcol.
  destruct (ptr_read src (k * 3)) as [s0|] eqn:H0; [|done].
  cbn [mbind option_bind] in Hbody.
  destruct (buf_write buf (k * 4) s0) as [b1|] eqn:W1; [|done].
  cbn [mbind option_bind] in Hbody.
  destruct (ptr_read src (k * 3 + 1)) as [s1|] eqn:H1; [|done].
  cbn [mbind option_bind] in Hbody.
  destruct (buf_write b1 (k * 4 + 1) s1) as [b2|] eqn:W2; [|done].
  cbn [mbind option_bind] in Hbody.
  destruct (ptr_read src (k * 3 + 2)) as [s2|] eqn:H2; [|done].
  cbn [mbind option_bind] in Hbody.
  assert (Hread : forall j,
            ptr_read (ptr_of buf') j =
              if decide (j = k * 4 + 2) then Some (u8 s2)
              else if decide (j = k * 4 + 1) then Some (u8 s1)
              else if decide (j = k * 4) then Some (u8 s0)
              else ptr_read (ptr_of buf) j).
  { intros j.
    by rewrite (buf_write_read _ _ _ _ j Hbody), (buf_write_read _ _ _ _ j W2),
      (buf_write_read _ _ _ _ j W1). }
  destruct (decide (col = k)) as [->|Hne].
  - exists s0, s1, s2. rewrite !Hread.
    repeat (destruct (decide _); try lia). done.
  - destruct (IH col ltac:(lia)) as (t0 & t1 & t2 & ? & ? & ? & ? & ? & ?).
    exists t0, t1, t2. rewrite !Hread.
    repeat (destruct (decide _); try lia). done.
Qed.

(** X16.  The colour bytes of a colour-keyed 24-bit row.  With colour
    keying on and more than 8 bits per pixel, the first three bytes of
    every 4-byte pixel of the row GetScanline returns are the three bytes
    of that pixel in the translated row: the line buffer after
    TranslateScanline24bpp when there is a colour space, the source row
    itself when there is none. *)
Theorem color_key_row_keeps_colour_bytes (d d' : CPDF_DIB) (line p : Z)
    (src out : BytePtr) :
  m_bColorKey d = true ->
  8 < wrap32 (m_bpc d * m_nComponents d) ->
  CalculatePitch8 (m_bpc d) (m_nComponents d) (m_Width d) = Some p ->
  source_line d line p = Some (Some src) ->
  GetScanline line d = Some (Some out, d') ->
  exists translated,
    (m_pColorSpace d = None -> translated = src) /\
    (is_Some (m_pColorSpace d) ->
     exists buf, m_pLineBuf d' = Some buf /\ translated = ptr_of buf /\
                 TranslateScanline24bpp
                   d (default [] (m_pLineBuf d)) src = Some buf) /\
    forall col, 0 <= col < m_Width d ->
      exists s0 s1 s2,
        ptr_read translated (col * 3) = Some s0 /\
        ptr_read translated (col * 3 + 1) = Some s1 /\
        ptr_read translated (col * 3 + 2) = Some s2 /\
        ptr_read out (4 * col) = Some (u8 s0) /\
        ptr_read out (4 * col + 1) = Some (u8 s1) /\
        ptr_read out (4 * col + 2) = Some (u8 s2).
Proof.
  intros Hkey Hdeep Hpitch Hsrc Hrun.
  unfold GetScanline in Hrun. rewrite !bind_gets in Hrun.
  case_bool_decide as Hbpc0; [done|]. rewrite Hpitch in Hrun.
  cbv [bindM gets retM deref on_line_buf on_masked_line modify undefined id]
    in Hrun.
  rewrite Hsrc, Hkey in Hrun.
  rewrite !bool_decide_eq_false_2 in Hrun by lia. cbn [negb] in Hrun.
  set (alpha_step := if bool_decide (m_nComponents d = 3) && _ then _ else _)
    in Hrun.
  destruct (alpha_step d) as [[[] d1]|] eqn:Halpha; [|done].
  assert (Hd1 : exists m1, d1 = set_m_pMaskedLine (Some m1) d).
  { subst alpha_step.
    destruct (bool_decide (m_nComponents d = 3) && _);
      (destruct (m_pMaskedLine d) as [mbuf|]; [|done]).
    - destruct (key_alpha_24bpp _ _ _) as [m1|]; [|done].
      injection Halpha as <-. by eexists.
    - destruct (memset _ _ _) as [m1|]; [|done].
      injection Halpha as <-. by eexists. }
  destruct Hd1 as [m1 ->]. dib_simpl.
  destruct (m_pColorSpace d) as [cs|] eqn:Hcs.
  - rewrite bool_decide_eq_true_2 in Hrun by by eexists.
    change (m_pLineBuf (set_m_pMaskedLine (Some m1) d)) with (m_pLineBuf d)
      in Hrun.
    destruct (m_pLineBuf d) as [buf|] eqn:Hbuf; [|done].
    destruct (TranslateScanline24bpp _ _ _) as [tbuf|] eqn:Htr; [|done].
    dib_simpl.
    destruct (interleave_bgr _ _ _) as [obuf|] eqn:Hinter; [|done].
    injection Hrun as <- <-. dib_simpl.
    exists (ptr_of tbuf). split; [done|]. split.
    + intros _. exists tbuf. by repeat split.
    + by apply (interleave_bgr_colour _ _ _ _ Hinter).
  - rewrite bool_decide_eq_false_2 in Hrun by by intros [? ?].
    dib_simpl.
    destruct (interleave_bgr _ _ _) as [obuf|] eqn:Hinter; [|done].
    injection Hrun as <- <-.
    exists src. split; [done|]. split; [by intros [? ?]|].
    by apply (interleave_bgr_colour _ _ _ _ Hinter).
Qed.

(** ** Palette, buffers, masks and codecs *)

(** X17.  LoadPalette changes nothing but the palette, and it builds one
    only for an image with a colour space other than Pattern whose pixel
    has between 1 and 8 bits (bits per component times components). *)
Theorem LoadPalette_only_for_small_depths (d d' : CPDF_DIB) :
  LoadPalette d = Some (tt, d') ->
  d' = set_m_palette (m_palette d') d /\
  (m_palette d' <> m_palette d ->
   is_Some (m_pColorSpace d) /\ m_Family d <> kPattern /\
   0 < m_bpc d /\ 0 <= m_bpc d * m_nComponents d <= 8).
Proof.
  assert (Hsame : forall x : CPDF_DIB, x = set_m_palette (m_palette x) x)
    by (by intros []).
  assert (Hnop : d' = d ->
            d' = set_m_palette (m_palette d') d /\
            (m_palette d' <> m_palette d ->
             is_Some (m_pColorSpace d) /\ m_Family d <> kPattern /\
             0 < m_bpc d /\ 0 <= m_bpc d * m_nComponents d <= 8)).
  { intros ->. split; [apply Hsame|done]. }
  unfold LoadPalette. cbv [bindM gets retM modify deref undefined].
  destruct (m_pColorSpace d) as [cs|] eqn:Hcs.
  2:{ intros [= <-]. by apply Hnop. }
  case_bool_decide as Hpat. { intros [= <-]. by apply Hnop. }
  case_bool_decide as Hbpc. { intros [= <-]. by apply Hnop. }
  destruct (safe_mul (safe_u32 (m_bpc d)) (m_nComponents d)) as [bits|] eqn:Hb;
    cbn [default].
  2:{ rewrite bool_decide_eq_true_2 by lia. intros [= <-]. by apply Hnop. }
  case_bool_decide as Hbig. { intros [= <-]. by apply Hnop. }
  assert (Hbits : 0 < m_bpc d /\ 0 <= m_bpc d * m_nComponents d <= 8).
  { unfold safe_mul in Hb.
    destruct (safe_u32 (m_bpc d)) as [b|] eqn:Hu; [|done]. cbn in Hb.
    apply safe_u32_inv in Hu as [-> ?], Hb as [-> ?]. unfold id in Hbig. lia. }
  assert (Hset : forall pal,
            set_m_palette pal d = set_m_palette (m_palette (set_m_palette pal d)) d
            /\ (m_palette (set_m_palette pal d) <> m_palette d ->
                is_Some (Some cs) /\ m_Family d <> kPattern /\
                0 < m_bpc d /\ 0 <= m_bpc d * m_nComponents d <= 8)).
  { intros pal. split; [done|]. intros _. split; [by eexists|]. by split. }
  repeat case_match; simplify_eq; intros [= <-];
    first [ by apply Hnop | apply Hset ].
Qed.

Lemma set_m_palette_same (d : CPDF_DIB) : d = set_m_palette (m_palette d) d.
Proof. by destruct d. Qed.

Lemma LoadPalette_frame (d d' : CPDF_DIB) :
  LoadPalette d = Some (tt, d') -> d' = set_m_palette (m_palette d') d.
Proof.
  unfold LoadPalette. cbv [bindM gets retM modify deref undefined].
  repeat case_match; simplify_eq; intros [= <-];
    first [ apply set_m_palette_same | done ].
Qed.

Lemma std_conversion_frame (enable : bool) (d d' : CPDF_DIB) :
  std_conversion enable d = Some (tt, d') ->
  d' = set_m_pColorSpace (m_pColorSpace d') d.
Proof.
  unfold std_conversion. cbv [bindM gets retM modify].
  repeat case_match; simplify_eq; intros [= <-]; try done; by destruct d.
Qed.

Lemma CalculatePitch32_inv (bpp w p : Z) :
  CalculatePitch32 bpp w = Some p ->
  p = (bpp * w + 31) / 32 * 4 /\ 0 <= p <= uint32_max.
Proof.
  unfold CalculatePitch32, safe_div, safe_add, safe_mul. intros H.
  destruct (safe_u32 bpp) as [a|] eqn:Ha; [|done]. cbn in H.
  destruct (safe_u32 (a * w)) as [b|] eqn:Hb; [|done]. cbn in H.
  destruct (safe_u32 (b + 31)) as [c|] eqn:Hc; [|done]. cbn in H.
  rewrite bool_decide_eq_false_2 in H by done.
  destruct (safe_u32 (c / 32)) as [e|] eqn:He; [|done]. cbn in H.
  apply safe_u32_inv in Ha as [-> ?], Hb as [-> ?], Hc as [-> ?], He as [-> ?],
    H as [-> ?].
  done.
Qed.

(** X18.  When ContinueToLoadMask succeeds, the row GetScanline hands out
    (the colour-keyed row when colour keying is on, else the line buffer)
    is a zeroed buffer of exactly m_Pitch bytes, and m_Pitch is the
    4-byte-aligned pitch of the final format at the image width; the
    format is kArgb with colour keying, else the 1-bit mask format or the
    RGB format of 1, 8 or 24 bits per pixel, and never kInvalid.  An image
    that is not a stencil mask gets this far only with a bits-per-component
    and a component count other than 0. *)
Theorem ContinueToLoadMask_row_has_pitch_bytes (d d' : CPDF_DIB) :
  ContinueToLoadMask d = Some (true, d') ->
  (exists row,
     (if m_bColorKey d then m_pMaskedLine d' else m_pLineBuf d') = Some row /\
     Z.of_nat (length row) = m_Pitch d' /\ Forall (fun b => b = 0) row) /\
  CalculatePitch32 (GetBppFromFormat (m_Format d')) (m_Width d)
    = Some (m_Pitch d') /\
  m_Pitch d' `mod` 4 = 0 /\
  m_Format d' =
    (if m_bColorKey d then kArgb
     else if m_bImageMask d then k1bppMask
     else MakeRGBFormat (CalculateBitsPerPixel (m_bpc d) (m_nComponents d))) /\
  m_Format d' <> kInvalid /\
  (m_bImageMask d = false -> m_bpc d <> 0 /\ m_nComponents d <> 0).
Proof.
  unfold ContinueToLoadMask. rewrite !bind_gets.
  destruct (negb (m_bImageMask d) && _) eqn:Hzero; [done|].
  assert (Hnz : m_bImageMask d = false -> m_bpc d <> 0 /\ m_nComponents d <> 0).
  { intros Hm. rewrite Hm in Hzero. cbn in Hzero.
    apply orb_false_elim in Hzero as [H1%bool_decide_eq_false_1
                                      H2%bool_decide_eq_false_1]. done. }
  set (fmt0 := if m_bImageMask d then k1bppMask
               else MakeRGBFormat (CalculateBitsPerPixel (m_bpc d)
                                     (m_nComponents d))).
  assert (Hvalid : fmt0 <> kInvalid).
  { unfold fmt0, CalculateBitsPerPixel. destruct (m_bImageMask d); [done|].
    repeat case_bool_decide; done. }
  set (first_step := if m_bImageMask d then _ else _).
  assert (Hfirst : exists d0, first_step d = Some (tt, d0) /\
            m_Format d0 = fmt0 /\ m_Width d0 = m_Width d /\
            m_bColorKey d0 = m_bColorKey d).
  { unfold first_step, fmt0, SetMaskProperties.
    destruct (m_bImageMask d); eexists; (split; [done|]); by dib_simpl. }
  destruct Hfirst as (d0 & Hd0 & Hf0 & Hw0 & Hk0).
  unfold bindM at 1. rewrite Hd0. rewrite !bind_gets. rewrite Hf0, Hw0.
  destruct (CalculatePitch32 (GetBppFromFormat fmt0) (m_Width d)) as [p0|]
    eqn:Hp0; [|done].
  rewrite bind_modify.
  unfold bindM at 1.
  destruct (std_conversion true _) as [[[] d1]|] eqn:Hstd; [|done].
  apply std_conversion_frame in Hstd.
  unfold bindM at 1.
  destruct (LoadPalette d1) as [[[] d2]|] eqn:Hpal; [|done].
  apply LoadPalette_frame in Hpal.
  assert (Hd2 : m_pLineBuf d2 = Some (FX_Alloc p0) /\ m_Width d2 = m_Width d /\
                m_bColorKey d2 = m_bColorKey d /\ m_Format d2 = fmt0).
  { rewrite Hpal, Hstd. by dib_simpl. }
  destruct Hd2 as (Hl2 & Hw2 & Hk2 & Hf2).
  unfold alloc_masked_line. cbv [bindM gets retM modify].
  rewrite Hk2.
  assert (Halloc : forall q, 0 <= q ->
            Z.of_nat (length (FX_Alloc q)) = q /\
            Forall (fun b => b = 0) (FX_Alloc q)).
  { intros q Hq. unfold FX_Alloc. rewrite length_replicate. split; [lia|].
    by apply Forall_replicate. }
  assert (Hmod : forall bpp w q, CalculatePitch32 bpp w = Some q ->
                                 0 <= q /\ q `mod` 4 = 0).
  { intros bpp w q [-> ?]%CalculatePitch32_inv. split; [lia|].
    apply Z.mod_mul. lia. }
  destruct (m_bColorKey d) eqn:Hkey.
  - dib_simpl. rewrite Hw2. change (GetBppFromFormat kArgb) with 32.
    destruct (CalculatePitch32 32 (m_Width d)) as [p1|] eqn:Hp1; [|done].
    intros [= <-]. dib_simpl.
    destruct (Hmod _ _ _ Hp1) as [Hpos Hal].
    split; [|by repeat (split; [done|])].
    exists (FX_Alloc p1). split; [done|]. by apply Halloc.
  - intros [= <-]. dib_simpl. rewrite Hf2, Hl2.
    destruct (Hmod _ _ _ Hp0) as [Hpos Hal].
    split; [|by repeat (split; [done|])].
    exists (FX_Alloc p0). split; [done|]. by apply Halloc.
Qed.

Lemma mask_untouched_refl (d : CPDF_DIB) : mask_untouched d d.
Proof. by intros ?. Qed.

Lemma mask_untouched_trans (d1 d2 d3 : CPDF_DIB) :
  mask_untouched d1 d2 -> mask_untouched d2 d3 -> mask_untouched d1 d3.
Proof.
  unfold mask_untouched. intros H12 H23 H1.
  destruct (H12 H1) as (H2 & ? & ?). destruct (H23 H2) as (? & ? & ?).
  repeat split; congruence.
Qed.

Ltac mask_step :=
  first
    [ eapply keeps_ret; apply mask_untouched_refl
    | eapply keeps_gets; apply mask_untouched_refl
    | eapply keeps_deref; apply mask_untouched_refl
    | eapply keeps_modify; intros ? ?; by repeat split
    | eapply keeps_bind; [apply mask_untouched_trans | | intros ?]
    | case_match ].

Lemma ValidateDictParam_mask (filter : string) :
  keeps mask_untouched (ValidateDictParam filter).
Proof. unfold ValidateDictParam. repeat mask_step. Qed.

Lemma GetDecodeAndMaskArray_mask : keeps mask_untouched GetDecodeAndMaskArray.
Proof. unfold GetDecodeAndMaskArray. repeat mask_step. Qed.

Lemma LoadColorInfo_mask (pF pP : option CPDF_Dictionary) :
  keeps mask_untouched (LoadColorInfo pF pP).
Proof.
  unfold LoadColorInfo.
  repeat first [ apply ValidateDictParam_mask
               | apply GetDecodeAndMaskArray_mask | mask_step ].
Qed.

Lemma CreateDCTDecoder_mask (src : list Z) (params : option CPDF_Dictionary) :
  keeps mask_untouched (CreateDCTDecoder src params).
Proof.
  unfold CreateDCTDecoder.
  repeat first [ apply GetDecodeAndMaskArray_mask | mask_step ].
Qed.

Lemma LoadJpxBitmap_mask : keeps mask_untouched LoadJpxBitmap.
Proof. unfold LoadJpxBitmap. repeat mask_step. Qed.

Lemma CreateDecoder_mask : keeps mask_untouched CreateDecoder.
Proof.
  unfold CreateDecoder.
  repeat first [ apply LoadJpxBitmap_mask | apply CreateDCTDecoder_mask
               | mask_step ].
Qed.

Lemma LoadPalette_mask : keeps mask_untouched LoadPalette.
Proof. unfold LoadPalette. repeat mask_step. Qed.

Lemma std_conversion_mask_untouched (enable : bool) :
  keeps mask_untouched (std_conversion enable).
Proof. unfold std_conversion. repeat mask_step. Qed.

Lemma ContinueToLoadMask_mask : keeps mask_untouched ContinueToLoadMask.
Proof.
  unfold ContinueToLoadMask, alloc_masked_line, SetMaskProperties.
  repeat first [ apply LoadPalette_mask | apply std_conversion_mask_untouched
               | mask_step ].
Qed.

(** The step of StartLoadDIBBase that starts the mask does nothing to an
    object whose mask flag is false. *)
Lemma mask_start_step_untouched {B}
    (start_mask : CPDF_Stream -> option (LoadState * CPDF_DIB))
    (k : LoadState -> M B) :
  (forall x, keeps mask_untouched (k x)) ->
  keeps mask_untouched
    (has_mask <~ gets m_bHasMask ;;
     iLoadedMask <~ (if has_mask : bool then StartLoadMask start_mask
                     else retM kSuccess) ;;
     k iLoadedMask).
Proof.
  intros Hk d b d'. rewrite bind_gets.
  destruct (m_bHasMask d) eqn:Hm; [intros _ ?; congruence|].
  apply (Hk kSuccess).
Qed.


Lemma StartLoadDIBBase_body_mask
    (start_mask : CPDF_Stream -> option (LoadState * CPDF_DIB))
    (stream : option CPDF_Stream)
    (pF pP : option CPDF_Dictionary) (bStdCS : bool)
    (GroupFamily : Family) (bLoadMask : bool) :
  keeps mask_untouched
    (StartLoadDIBBase_body start_mask stream false pF pP bStdCS
       GroupFamily bLoadMask).
Proof.
  unfold StartLoadDIBBase_body.
  repeat
    lazymatch goal with
    | |- keeps _ (LoadColorInfo _ _) => apply LoadColorInfo_mask
    | |- keeps _ CreateDecoder => apply CreateDecoder_mask
    | |- keeps _ ContinueToLoadMask => apply ContinueToLoadMask_mask
    | |- keeps _ (std_conversion _) => apply std_conversion_mask_untouched
    | |- keeps _ (bindM (gets m_bHasMask) _) =>
        apply mask_start_step_untouched; intros ?
    | |- _ => mask_step
    end.
Qed.

(** X19.  A decoder started with bHasMask = false never starts a mask:
    StartLoadDIBBase leaves m_pMask and the matte colour as they were,
    whatever the dictionary says about SMask and Mask.  The sub-decoder of
    a mask is started this way on a new object, so a mask has no mask of
    its own. *)
Theorem StartLoadDIBBase_without_mask (stream : option CPDF_Stream)
    (pFormResources pPageResources : option CPDF_Dictionary) (bStdCS : bool)
    (GroupFamily : Family) (bLoadMask : bool) (d d' : CPDF_DIB)
    (r : LoadState) :
  StartLoadDIBBase stream false pFormResources pPageResources bStdCS
    GroupFamily bLoadMask d = Some (r, d') ->
  m_pMask d' = m_pMask d /\ m_MatteColor d' = m_MatteColor d /\
  (is_Some stream -> m_bHasMask d' = false) /\
  (forall mask r' m, StartLoadDIBBase_mask mask = Some (r', m) ->
                     m_pMask m = None).
Proof.
  assert (Hgen : forall start_mask s pF pP std gf lm d0 r0 d1,
            StartLoadDIBBase_body start_mask s false pF pP std gf
              lm d0 = Some (r0, d1) ->
            m_pMask d1 = m_pMask d0 /\ m_MatteColor d1 = m_MatteColor d0 /\
            (is_Some s -> m_bHasMask d1 = false)).
  { intros start_mask s pF pP std gf lm d0 r0 d1 Hrun.
    destruct s as [s|].
    2:{ injection Hrun as <- <-. repeat split. by intros [? ?]. }
    assert (Heq : StartLoadDIBBase_body start_mask (Some s) false pF pP std gf
                    lm d0
                  = StartLoadDIBBase_body start_mask (Some s) false pF pP std gf
                      lm (set_m_bHasMask false d0)) by reflexivity.
    rewrite Heq in Hrun.
    apply StartLoadDIBBase_body_mask in Hrun.
    destruct (Hrun eq_refl) as (H1 & H2 & H3). by repeat split. }
  intros Hrun. apply Hgen in Hrun as (H1 & H2 & H3).
  repeat split; try done.
  intros mask r' m Hm. unfold StartLoadDIBBase_mask in Hm.
  by apply Hgen in Hm as (-> & _).
Qed.

Lemma StartLoadMaskDIB_body_frame
    (start_mask : CPDF_Stream -> option (LoadState * CPDF_DIB))
    (mask : CPDF_Stream) (d d' : CPDF_DIB) (r : LoadState) :
  StartLoadMaskDIB_body start_mask mask d = Some (r, d') ->
  exists res,
    start_mask mask = Some res /\
    r = (if decide (fst res = kContinue) then kContinue else kSuccess) /\
    m_pMask d' = (if decide (fst res = kFail) then None else Some (snd res)) /\
    m_MatteColor d' = m_MatteColor d.
Proof.
  unfold StartLoadMaskDIB_body. cbv [bindM gets retM modify deref undefined].
  destruct (start_mask mask) as [[st sub]|]; [|done]. cbn [fst snd].
  intros Hrun. exists (st, sub). split; [done|]. cbn [fst snd].
  revert Hrun. dib_simpl.
  destruct st; repeat case_match; simplify_eq; by intros [= <- <-].
Qed.

(** X20.  Alpha bytes that LoadJpxBitmap extracted from the JPX data take
    precedence over the dictionary.  When m_JpxInlineData is not empty,
    StartLoadMask starts the mask on the stream synthesised around these
    bytes, without looking at SMask or Mask, and the matte colour is
    0xFFFFFFFF whatever Matte array the SMask has.  It reports Continue or
    Success, never Fail: a mask that fails to start is dropped. *)
Theorem StartLoadMask_inline_alpha_first (d d' : CPDF_DIB) (r : LoadState) :
  inline_data (m_JpxInlineData d) <> [] ->
  StartLoadMask StartLoadDIBBase_mask d = Some (r, d') ->
  exists sub_state sub,
    StartLoadDIBBase_mask (inline_mask_stream (m_JpxInlineData d))
      = Some (sub_state, sub) /\
    m_MatteColor d' = 4294967295 /\
    r <> kFail /\ (r = kContinue <-> sub_state = kContinue) /\
    m_pMask d' = (if decide (sub_state = kFail) then None else Some sub).
Proof.
  intros Hinline. unfold StartLoadMask. rewrite bind_modify, bind_gets.
  dib_simpl. rewrite bool_decide_eq_false_2 by done. cbn [negb].
  intros Hrun. apply StartLoadMaskDIB_body_frame in Hrun
    as ([st sub] & Hsub & -> & Hmask & Hmatte).
  exists st, sub. cbn [fst snd] in *. split; [done|]. split; [done|].
  split; [by destruct st|]. split; [by destruct st|]. done.
Qed.

Lemma std_conversion_same {A} (f : CPDF_DIB -> A) (enable : bool) :
  (forall d x, f (set_m_pColorSpace x d) = f d) ->
  keeps (same f) (std_conversion enable).
Proof.
  intros Hf. unfold std_conversion.
  repeat first [ eapply keeps_modify; intros ?; unfold same; by auto
               | same_step ].
Qed.

(** X21.  The JBIG2 step of ContinueLoadDIBBase, for a decoder whose
    terminal filter is JBIG2Decode and which is not waiting on its mask.
    If CreateDecoder never ran (m_Status is kFail) the answer is Fail and
    nothing happens.  Otherwise the codec runs: on an error the answer is
    Fail and the codec context, the cached bitmap and the globals are
    released; when the codec wants to be continued the answer is Continue
    and the state is the codec's; when it is finished and there is no mask
    the answer is Success and the decoded bitmap stays. *)
Theorem ContinueLoadDIBBase_jbig2 (pPause : PauseIndicatorIface)
    (d : CPDF_DIB) (acc : CPDF_StreamAcc) :
  m_Status d <> kContinue ->
  m_pStreamAcc d = Some acc -> acc_decoder acc = "JBIG2Decode" ->
  (m_Status d = kFail -> ContinueLoadDIBBase pPause d = Some (kFail, d)) /\
  (m_Status d = kSuccess ->
   forall status d1,
     Jbig2_step pPause acc d = Some (status, d1) ->
     (status = kError ->
        exists d', ContinueLoadDIBBase pPause d = Some (kFail, d') /\
                   m_pJbig2Context d' = None /\ GetBuffer d' = None /\
                   m_pGlobalAcc d' = None /\ m_pMask d' = m_pMask d) /\
     (status = kDecodeToBeContinued ->
        ContinueLoadDIBBase pPause d = Some (kContinue, d1)) /\
     (status <> kError -> status <> kDecodeToBeContinued ->
      m_bHasMask d = false ->
        exists d', ContinueLoadDIBBase pPause d = Some (kSuccess, d') /\
                   GetBuffer d' = GetBuffer d1 /\
                   m_pJbig2Context d' = m_pJbig2Context d1)).
Proof.
  intros Hstatus Hacc Hname.
  remember (ContinueLoadDIBBase pPause d) as run eqn:Hrun.
  rewrite ContinueLoadDIBBase_unfold in Hrun.
  unfold ContinueLoadDIBBase_body in Hrun. rewrite bind_gets in Hrun.
  destruct (decide (m_Status d = kContinue)); [done|].
  rewrite (bind_gets_deref _ _ _ _ Hacc) in Hrun. rewrite Hname in Hrun.
  rewrite (bool_decide_eq_false_2 ("JBIG2Decode" = "JPXDecode")) in Hrun
    by done.
  rewrite (bool_decide_eq_true_2 ("JBIG2Decode" = "JBIG2Decode")) in Hrun
    by done.
  cbn [negb] in Hrun. split.
  - intros Hfail. by destruct (decide (m_Status d = kFail)).
  - intros Hok status d1 Hstep.
    destruct (decide (m_Status d = kFail)); [congruence|].
    unfold bindM at 1 in Hrun. rewrite Hstep in Hrun.
    pose proof (Jbig2_step_mask _ _ _ _ _ Hstep) as [Hm Hh].
    split; [|split].
    + intros ->. destruct (decide (kError = kError)); [|done].
      cbv [bindM modify retM] in Hrun. eexists. split; [done|].
      by dib_simpl.
    + intros ->. destruct (decide (kDecodeToBeContinued = kError)); [done|].
      by destruct (decide (kDecodeToBeContinued = kDecodeToBeContinued)).
    + intros He Hc Hmask.
      destruct (decide (status = kError)); [done|].
      destruct (decide (status = kDecodeToBeContinued)); [done|].
      rewrite bind_gets in Hrun. rewrite Hh, Hmask in Hrun.
      rewrite bind_ret in Hrun.
      destruct (decide (kSuccess = kContinue)); [done|].
      destruct (std_conversion false d1) as [[[] d2]|] eqn:Hstd.
      2:{ destruct (std_conversion_total false d1) as [? ?]; congruence. }
      exists d2. unfold bindM in Hrun. rewrite Hstd in Hrun.
      split; [done|].
      apply std_conversion_frame in Hstd. rewrite Hstd. done.
Qed.

(** X22.  Fail is not sticky.  A decoder that was waiting on its mask
    drops the mask when the mask's resumed load fails and reports Fail;
    asked to continue once more, it finds no mask left and reports Success
    without changing anything. *)
Theorem ContinueLoadDIBBase_after_mask_failure
    (pPause pPause' : PauseIndicatorIface) (d d1 mask failed : CPDF_DIB) :
  m_Status d = kContinue ->
  m_pMask d = Some mask ->
  ContinueLoadDIBBase pPause mask = Some (kFail, failed) ->
  ContinueLoadDIBBase pPause d = Some (kFail, d1) ->
  m_pMask d1 = None /\ m_Status d1 = kContinue /\
  ContinueLoadDIBBase pPause' d1 = Some (kSuccess, d1).
Proof.
  intros Hstatus Hmask Hfail Hrun.
  rewrite ContinueLoadDIBBase_unfold in Hrun.
  unfold ContinueLoadDIBBase_body in Hrun. rewrite bind_gets in Hrun.
  destruct (decide (m_Status d = kContinue)); [|done].
  unfold ContinueLoadMaskDIB_body in Hrun.
  cbv [bindM gets retM modify deref] in Hrun.
  rewrite Hmask, Hfail in Hrun. cbn [fst snd] in Hrun.
  destruct (decide (kFail = kContinue)); [done|].
  destruct (std_conversion false _) as [[[] d2]|] eqn:Hstd; [|done].
  destruct (decide (kFail = kFail)); [|done].
  injection Hrun as <-.
  apply std_conversion_frame in Hstd.
  assert (Hs : m_Status (set_m_pMask None d2) = kContinue).
  { rewrite Hstd. by dib_simpl. }
  split; [done|]. split; [done|].
  rewrite ContinueLoadDIBBase_unfold.
  unfold ContinueLoadDIBBase_body. rewrite bind_gets. rewrite Hs.
  destruct (decide (kContinue = kContinue)); [|done].
  unfold ContinueLoadMaskDIB_body. by rewrite bind_gets.
Qed.

(** X23.  CreateDCTDecoder after a failed first attempt.  When the codec
    refuses the parameters of the dictionary, the function succeeds only
    by the header of the JPEG data: the header has 1, 3 or 4 components of
    8 bits, and width, height, component count and bits per component of
    the object are then those of the header, as is the decoder. *)
Theorem CreateDCTDecoder_by_header (src_span : list Z)
    (pParams : option CPDF_Dictionary) (d d' : CPDF_DIB) :
  JpegModule_CreateDecoder src_span (m_Width d) (m_Height d)
    (m_nComponents d)
    match pParams with
    | None => true
    | Some p => bool_decide (GetIntegerFor_default p "ColorTransform" 1 ≠ 0)
    end = None ->
  CreateDCTDecoder src_span pParams d = Some (true, d') ->
  exists info,
    JpegModule_LoadInfo src_span = Some info /\
    (num_components info = 1 \/ num_components info = 3 \/
     num_components info = 4) /\
    bits_per_components info = 8 /\
    m_Width d' = jpeg_width info /\ m_Height d' = jpeg_height info /\
    m_nComponents d' = num_components info /\ m_bpc d' = 8 /\
    m_pDecoder d' =
      JpegModule_CreateDecoder src_span (jpeg_width info) (jpeg_height info)
        (num_components info) (color_transform info).
Proof.
  intros Hfirst. unfold CreateDCTDecoder. rewrite !bind_gets.
  rewrite bind_modify, bind_gets. dib_simpl. rewrite Hfirst.
  rewrite bool_decide_eq_false_2 by by intros [? ?].
  destruct (JpegModule_LoadInfo src_span) as [info|]; [|done].
  rewrite !bind_modify.
  destruct (negb (IsValidJpegComponent (num_components info)) || _) eqn:Hvalid;
    [done|].
  apply orb_false_elim in Hvalid as [Hc%negb_false_iff Hb%negb_false_iff].
  assert (Hcomps : num_components info = 1 \/ num_components info = 3 \/
                   num_components info = 4).
  { unfold IsValidJpegComponent in Hc.
    rewrite !orb_true_iff, !bool_decide_eq_true in Hc. tauto. }
  assert (Hbits : bits_per_components info = 8)
    by (by apply bool_decide_eq_true_1 in Hb).
  assert (Hwrap : wrap32 (num_components info) = num_components info).
  { unfold wrap32. destruct Hcomps as [-> | [-> | ->]]; done. }
  rewrite Hwrap.
  case_bool_decide as Hsame.
  - rewrite !bind_modify. intros [= <-]. dib_simpl.
    exists info. repeat split; try done. by rewrite Hsame.
  - rewrite !bind_modify, !bind_gets. dib_simpl.
    match goal with |- context [negb ?ok] => destruct ok end; [|done].
    cbn [negb]. unfold bindM at 1.
    destruct (GetDecodeAndMaskArray _) as [[ok d1]|] eqn:Hg; [|done].
    destruct ok; [|done]. cbn [negb]. rewrite !bind_modify.
    intros [= <-]. dib_simpl.
    pose proof (GetDecodeAndMaskArray_same m_Width ltac:(done) ltac:(done)
                  ltac:(done) _ _ _ Hg) as Hw.
    pose proof (GetDecodeAndMaskArray_same m_Height ltac:(done) ltac:(done)
                  ltac:(done) _ _ _ Hg) as Hh.
    pose proof (GetDecodeAndMaskArray_same m_nComponents ltac:(done)
                  ltac:(done) ltac:(done) _ _ _ Hg) as Hn.
    unfold same in *. dib_simpl.
    exists info. by repeat split.
Qed.

(** LoadJpxBitmap leaves 8 bits per component whenever it hands out a
    bitmap. *)
Lemma LoadJpxBitmap_bpc :
  ensures (fun r d' => is_Some r -> m_bpc d' = 8) LoadJpxBitmap.
Proof.
  unfold LoadJpxBitmap.
  repeat first
    [ apply ensures_modify_ret; by intros
    | apply ensures_ret; by intros ? [? ?]
    | apply ensures_bind; intros ?
    | case_match ].
Qed.

(** X24.  What a successful LoadJpxBitmap has checked and set.  The JPX
    image is at least as wide and as high as the dictionary says, the
    decode action for its component count and colour space is not kFail,
    bits per component is 8 afterwards, the colour space is the one the
    action picks (none for kUseRgb and kConvertArgbToRgb, DeviceCMYK for
    kUseCmyk, unchanged for kDoNothing), and an image without a colour
    space takes its component count from the JPX header. *)
Theorem LoadJpxBitmap_success (d d' : CPDF_DIB) (bitmap : CFX_DIBitmap) :
  LoadJpxBitmap d = Some (Some bitmap, d') ->
  exists acc decoder,
    m_pStreamAcc d = Some acc /\
    CJPX_Decoder_Create (GetSpan acc)
      (ColorSpaceOptionFromColorSpace (m_pColorSpace d)) = Some decoder /\
    let info := CJPX_GetInfo decoder in
    let action := GetJpxDecodeAction info (m_pColorSpace d) in
    m_Width d <= as_int32 (jpx_width info) /\
    m_Height d <= as_int32 (jpx_height info) /\
    action <> JpxDecodeAction.kFail /\
    m_bpc d' = 8 /\
    m_pColorSpace d' =
      match action with
      | JpxDecodeAction.kUseRgb | JpxDecodeAction.kConvertArgbToRgb => None
      | JpxDecodeAction.kUseCmyk => Some (GetStockCS kDeviceCMYK)
      | _ => m_pColorSpace d
      end /\
    m_nComponents d' =
      match m_pColorSpace d with
      | Some _ => m_nComponents d
      | None => jpx_components info
      end.
Proof.
  intros Hrun.
  pose proof (LoadJpxBitmap_bpc _ _ _ Hrun ltac:(by eexists)) as Hbpc.
  unfold LoadJpxBitmap in Hrun.
  destruct (m_pStreamAcc d) as [acc|] eqn:Hacc.
  2:{ cbv [bindM gets deref undefined] in Hrun. by rewrite Hacc in Hrun. }
  rewrite (bind_gets_deref _ _ _ _ Hacc), bind_gets in Hrun.
  destruct (CJPX_Decoder_Create _ _) as [decoder|] eqn:Hcreate; [|done].
  destruct (negb (CJPX_StartDecode decoder)); [done|].
  rewrite !bind_gets in Hrun.
  destruct (bool_decide (as_int32 (jpx_width (CJPX_GetInfo decoder)) < m_Width d)
            || _) eqn:Hdim; [done|].
  apply orb_false_elim in Hdim as [Hw%bool_decide_eq_false_1
                                   Hh%bool_decide_eq_false_1].
  destruct (decide (GetJpxDecodeAction _ _ = JpxDecodeAction.kFail))
    as [|Haction]; [done|].
  exists acc, decoder. split; [done|]. split; [done|]. cbn zeta.
  split; [lia|]. split; [lia|]. split; [done|]. split; [done|].
  set (action := GetJpxDecodeAction _ _) in *.
  set (cs_step := match action with
                  | JpxDecodeAction.kUseCmyk => _ | _ => _ end) in Hrun.
  unfold bindM at 1 in Hrun.
  assert (Hcs : exists d1, cs_step d = Some (tt, d1) /\
            m_pColorSpace d1 =
              match action with
              | JpxDecodeAction.kUseRgb
              | JpxDecodeAction.kConvertArgbToRgb => None
              | JpxDecodeAction.kUseCmyk => Some (GetStockCS kDeviceCMYK)
              | _ => m_pColorSpace d
              end /\ m_nComponents d1 = m_nComponents d).
  { unfold cs_step. destruct action; eexists; (split; [done|]); done. }
  destruct Hcs as (d1 & Hd1 & Hcs1 & Hn1). rewrite Hd1 in Hrun.
  set (n_step := match m_pColorSpace d with Some _ => _ | None => _ end)
    in Hrun.
  unfold bindM at 1 in Hrun.
  assert (Hn : exists d2, n_step d1 = Some (tt, d2) /\
            m_pColorSpace d2 = m_pColorSpace d1 /\
            m_nComponents d2 =
              match m_pColorSpace d with
              | Some _ => m_nComponents d
              | None => jpx_components (CJPX_GetInfo decoder)
              end).
  { unfold n_step. destruct (m_pColorSpace d); eexists; (split; [done|]);
      by dib_simpl. }
  destruct Hn as (d2 & Hd2 & Hcs2 & Hn2). rewrite Hd2 in Hrun.
  rewrite <- Hcs1, <- Hcs2, <- Hn2.
  match type of Hrun with
  | ?m d2 = _ =>
      assert (Hframe : keeps (fun x y => m_pColorSpace y = m_pColorSpace x /\
                                         m_nComponents y = m_nComponents x) m)
  end.
  { repeat first
      [ eapply keeps_ret; by intros
      | eapply keeps_gets; by intros
      | eapply keeps_deref; by intros
      | eapply keeps_modify; by intros
      | eapply keeps_bind;
        [ intros ? ? ? [? ?] [? ?]; split; congruence | | intros ?]
      | case_match ]. }
  by apply Hframe in Hrun.
Qed.

(** The lazy codecs never make CreateDecoder answer Continue. *)
Lemma CreateDecoder_lazy_tail (build : M bool) :
  ensures (fun r _ => r <> kContinue)
    (built <~ build ;;
     if negb built then retM kFail
     else
       pDecoder <~ gets m_pDecoder ;;
       match pDecoder with
       | None => retM kFail
       | Some dec =>
           bpc' <~ gets m_bpc ;;
           n' <~ gets m_nComponents ;;
           w' <~ gets m_Width ;;
           match CalculatePitch8 bpc' n' w' with
           | None => retM kFail
           | Some requested_pitch =>
               match CalculatePitch8 (dec_bpc dec) (dec_comps dec)
                       (dec_width dec) with
               | None => retM kFail
               | Some provided_pitch =>
                   if bool_decide (provided_pitch < requested_pitch)
                   then retM kFail
                   else retM kSuccess
               end
           end
       end).
Proof.
  repeat first [ apply ensures_ret; by intros
               | apply ensures_bind; intros ?
               | case_match ].
Qed.

(** X25.  The outcomes of CreateDecoder.  Without a filter it does nothing
    and answers Success.  With a filter, a bits-per-component of 0 that is
    still to be checked makes it answer Fail at once.  It answers Continue
    for JBIG2Decode only, and then it has created the 1-bit bitmap the
    codec will decode into and set m_Status to kSuccess; for JBIG2Decode it
    never answers Success.  For JPXDecode a Success comes with a cached
    bitmap and 8 bits per component. *)
Theorem CreateDecoder_outcomes (d d' : CPDF_DIB) (acc : CPDF_StreamAcc)
    (r : LoadState) :
  m_pStreamAcc d = Some acc ->
  CreateDecoder d = Some (r, d') ->
  (acc_decoder acc = "" -> r = kSuccess /\ d' = d) /\
  (acc_decoder acc <> "" -> m_bDoBpcCheck d = true -> m_bpc d = 0 ->
     r = kFail /\ d' = d) /\
  (r = kContinue ->
     acc_decoder acc = "JBIG2Decode" /\ m_Status d' = kSuccess /\
     exists bitmap,
       CFX_DIBitmap_Create (m_Width d) (m_Height d)
         (if m_bImageMask d then k1bppMask else k1bppRgb) = Some bitmap /\
       m_pCachedBitmap d' = Some bitmap) /\
  (acc_decoder acc = "JBIG2Decode" -> r <> kSuccess) /\
  (acc_decoder acc = "JPXDecode" -> r = kSuccess ->
     is_Some (m_pCachedBitmap d') /\ m_bpc d' = 8).
Proof.
  intros Hacc. unfold CreateDecoder.
  rewrite (bind_gets_deref _ _ _ _ Hacc).
  case_bool_decide as Hempty.
  { intros [= <- <-]. rewrite Hempty. repeat split; try done. }
  rewrite !bind_gets.
  destruct (m_bDoBpcCheck d && bool_decide (m_bpc d = 0)) eqn:Hzero.
  { intros [= <- <-]. by repeat (split; [done|]). }
  assert (Hz : m_bDoBpcCheck d = true -> m_bpc d = 0 -> False).
  { intros H1 H2. rewrite H1 in Hzero. cbn in Hzero.
    by rewrite bool_decide_eq_true_2 in Hzero. }
  clear Hzero. case_bool_decide as Hjpx.
  { unfold bindM at 1.
    destruct (LoadJpxBitmap d) as [[bitmap d1]|] eqn:Hload; [|done].
    rewrite bind_modify. intros [= <- <-]. dib_simpl.
    pose proof (LoadJpxBitmap_bpc _ _ _ Hload) as Hbpc. cbn beta in Hbpc.
    split; [done|]. split; [by intros; exfalso; apply Hz|].
    split; [by destruct bitmap|].
    split; [by rewrite Hjpx|]. intros _.
    destruct bitmap as [bm|]; cbn; [|done].
    intros _. split; [by eexists|]. apply Hbpc. by eexists. }
  case_bool_decide as Hjbig.
  { rewrite !bind_gets.
    destruct (CFX_DIBitmap_Create _ _ _) as [bitmap|] eqn:Hbm.
    - rewrite !bind_modify. intros [= <- <-]. dib_simpl.
      split; [done|]. split; [by intros; exfalso; apply Hz|].
      split; [|by split]. intros _. split; [done|]. split; [done|].
      by exists bitmap.
    - rewrite !bind_modify. intros [= <- <-].
      split; [done|]. split; [by intros; exfalso; apply Hz|]. by split. }
  rewrite !bind_gets. intros Hrun.
  apply CreateDecoder_lazy_tail in Hrun.
  split; [done|]. split; [by intros; exfalso; apply Hz|]. by split.
Qed.

(** X26.  One pixel of the flattening of a JPX image with alpha against
    white.  The alpha byte is appended to the inline mask data, and every
    colour byte s becomes (s * a + 255 * (255 - a)) / 255, which lies
    between s and 255, is s for an opaque pixel and 255 for a transparent
    one. *)
Theorem jpx_blend_pixel_against_white (src dest : BytePtr)
    (rgb alpha : list Z) (s0 s1 s2 a : Z) :
  ptr_read src 0 = Some s0 -> ptr_read src 1 = Some s1 ->
  ptr_read src 2 = Some s2 -> ptr_read src 3 = Some a ->
  is_byte s0 -> is_byte s1 -> is_byte s2 -> is_byte a ->
  0 <= ptr_off dest -> ptr_off dest + 2 < Z.of_nat (length rgb) ->
  let blend := fun s => (s * a + 255 * (255 - a)) / 255 in
  jpx_blend_pixel src dest (rgb, alpha)
    = Some (<[Z.to_nat (ptr_off dest + 2) := blend s2]>
              (<[Z.to_nat (ptr_off dest + 1) := blend s1]>
                 (<[Z.to_nat (ptr_off dest) := blend s0]> rgb)),
            alpha ++ [a]) /\
  (forall s, is_byte s -> s <= blend s <= 255) /\
  (a = 255 -> forall s, blend s = s) /\
  (a = 0 -> forall s, blend s = 255).
Proof.
  intros H0 H1 H2 H3 Hb0 Hb1 Hb2 Ha Hoff Hfit blend.
  assert (Hrange : forall s, is_byte s -> s <= blend s <= 255).
  { intros s Hs. unfold blend, is_byte in *. split.
    - apply Z.div_le_lower_bound; [lia|]. nia.
    - apply Z.div_le_upper_bound; [lia|]. nia. }
  split; [|split; [done|split]].
  - unfold jpx_blend_pixel. rewrite H3, H0, H1, H2. cbn [mbind option_bind].
    assert (Hna : u8 (255 - a) = 255 - a)
      by (apply u8_byte; unfold is_byte in *; lia).
    rewrite Hna. fold (blend s0) (blend s1) (blend s2).
    assert (Hu : forall s, is_byte s -> u8 (blend s) = blend s).
    { intros s Hs. apply u8_byte. specialize (Hrange s Hs).
      unfold is_byte in *. lia. }
    rewrite buf_write_Some by lia. cbn [mbind option_bind].
    rewrite buf_write_Some by (rewrite length_insert; lia).
    cbn [mbind option_bind].
    rewrite buf_write_Some by (rewrite !length_insert; lia).
    cbn [mbind option_bind].
    by rewrite !Hu by done.
  - intros -> s. unfold blend.
    replace (s * 255 + 255 * (255 - 255)) with (s * 255) by lia.
    apply Z.div_mul. lia.
  - intros -> s. unfold blend.
    replace (s * 0 + 255 * (255 - 0)) with (255 * 255) by lia. done.
Qed.

Lemma jpx_blend_pixel_alpha (src dest : BytePtr) (rgb alpha rgb' alpha' : list Z) :
  jpx_blend_pixel src dest (rgb, alpha) = Some (rgb', alpha') ->
  exists a, ptr_read src 3 = Some a /\ alpha' = alpha ++ [a] /\
            length rgb' = length rgb.
Proof.
  unfold jpx_blend_pixel. intros Hrun.
  destruct (ptr_read src 3) as [a|]; [|done]. cbn in Hrun.
  destruct (ptr_read src 0) as [s0|]; [|done]. cbn in Hrun.
  destruct (ptr_read src 1) as [s1|]; [|done]. cbn in Hrun.
  destruct (ptr_read src 2) as [s2|]; [|done]. cbn in Hrun.
  destruct (buf_write rgb _ _) as [r1|] eqn:W1; [|done]. cbn in Hrun.
  destruct (buf_write r1 _ _) as [r2|] eqn:W2; [|done]. cbn in Hrun.
  destruct (buf_write r2 _ _) as [r3|] eqn:W3; [|done]. cbn in Hrun.
  injection Hrun as <- <-. exists a. split; [done|]. split; [done|].
  apply buf_write_length in W1, W2, W3. congruence.
Qed.

(** X27.  The inline mask LoadJpxBitmap collects is the alpha channel of
    the decoded bitmap in row-major order, one byte per pixel: after the
    flattening loop the data has grown by width * height bytes, and the
    byte of pixel (row, col) is the fourth byte of that pixel in the
    decoded row.  The colour bitmap keeps its size. *)
Theorem jpx_flatten_alpha_row_major (result rgb_bitmap : CFX_DIBitmap)
    (width height : Z) (alpha rgb' alpha' : list Z) :
  0 <= width -> 0 <= height ->
  jpx_flatten_with_alpha result rgb_bitmap width height alpha
    = Some (rgb', alpha') ->
  length rgb' = length (bm_buffer rgb_bitmap) /\
  exists extra,
    alpha' = alpha ++ extra /\
    Z.of_nat (length extra) = width * height /\
    forall row col, 0 <= row < height -> 0 <= col < width ->
      extra !! Z.to_nat (row * width + col)
        = ptr_read (CFX_GetScanline result row) (col * 4 + 3).
Proof.
  intros Hw Hh Hrun. unfold jpx_flatten_with_alpha in Hrun.
  set (read := fun row col =>
         ptr_read (CFX_GetScanline result row) (col * 4 + 3)).
  set (rows_done := fun (k : Z) (extra : list Z) =>
         forall row col, 0 <= row < k -> 0 <= col < width ->
           extra !! Z.to_nat (row * width + col) = read row col).
  pose proof (for_loop_invariant
    (fun k (st : list Z * list Z) =>
       length (fst st) = length (bm_buffer rgb_bitmap) /\
       exists extra, snd st = alpha ++ extra /\
         Z.of_nat (length extra) = width * k /\ rows_done k extra)
    _ _ _ _ _ Hrun) as Hinv.
  rewrite Z.add_0_l, Z2Nat.id in Hinv by done. cbn [fst snd] in Hinv.
  apply Hinv; clear Hinv Hrun.
  { split; [done|]. exists []. rewrite app_nil_r. split; [done|].
    split; [cbn; lia|]. intros row col; lia. }
  intros k [rgb0 al0] [rgb1 al1] Hk (Hlen0 & extra0 & Hal0 & Hex0 & Hrows0) Hrow.
  cbn [fst snd] in *.
  pose proof (for_loop_invariant
    (fun c (st : list Z * list Z) =>
       length (fst st) = length (bm_buffer rgb_bitmap) /\
       exists extra, snd st = alpha ++ extra /\
         Z.of_nat (length extra) = width * k + c /\ rows_done k extra /\
         forall col, 0 <= col < c ->
           extra !! Z.to_nat (k * width + col) = read k col)
    _ _ _ _ _ Hrow) as Hinv.
  rewrite Z.add_0_l, Z2Nat.id in Hinv by done. cbn [fst snd] in Hinv.
  destruct Hinv as (Hlen1 & extra1 & Hal1 & Hex1 & Hrows1 & Hlast).
  { split; [done|]. exists extra0. split; [done|]. split; [lia|].
    split; [done|]. intros col; lia. }
  { intros c [rgb2 al2] [rgb3 al3] Hc
      (Hlen2 & extra2 & Hal2 & Hex2 & Hrows2 & Hcols2) Hpix.
    cbn [fst snd] in *.
    apply jpx_blend_pixel_alpha in Hpix as (a & Ha & -> & Hlen3).
    rewrite ptr_read_add in Ha.
    split; [congruence|]. exists (extra2 ++ [a]).
    split; [by rewrite Hal2, app_assoc|].
    split; [rewrite length_app; cbn; lia|]. split.
    - intros row col Hrow' Hcol. rewrite lookup_app_l by nia.
      by apply Hrows2.
    - intros col Hcol. destruct (decide (col = c)) as [->|Hne].
      + rewrite lookup_app_r by nia.
        replace (Z.to_nat (k * width + c) - length extra2)%nat with 0%nat
          by nia.
        done.
      + rewrite lookup_app_l by nia. apply Hcols2. lia. }
  split; [done|]. exists extra1. split; [done|]. split; [lia|].
  intros row col Hrow' Hcol. destruct (decide (row = k)) as [->|Hne].
  - by apply Hlast.
  - apply Hrows1; lia.
Qed.

(** X28.  The scaling of an indexed JPX image of fewer than 8 bits, whenever
    it completes on a bitmap whose rows do not overlap (0 <= width <=
    pitch): every byte of the first width bytes of each of the height rows
    is replaced by itself shifted right by scale, exactly once, and the
    buffer keeps its length. *)
Theorem jpx_scale_indices_shifts_every_index (result : CFX_DIBitmap)
    (width height scale : Z) (out : list Z) :
  0 <= width <= bm_pitch result -> 0 <= height ->
  jpx_scale_indices result width height scale = Some out ->
  length out = length (bm_buffer result) /\
  forall row col, 0 <= row < height -> 0 <= col < width ->
    exists v,
      ptr_read (ptr_of (bm_buffer result)) (row * bm_pitch result + col)
        = Some v /\
      ptr_read (ptr_of out) (row * bm_pitch result + col)
        = Some (u8 (Z.shiftr v scale)).
Proof.
  intros Hw Hh Hrun. unfold jpx_scale_indices in Hrun.
  set (orig := bm_buffer result) in *.
  set (pitch := bm_pitch result) in *.
  set (done_at := fun (buf : list Z) row col =>
         exists v, ptr_read (ptr_of orig) (row * pitch + col) = Some v /\
                   ptr_read (ptr_of buf) (row * pitch + col)
                     = Some (u8 (Z.shiftr v scale))).
  pose proof (for_loop_invariant
    (fun k buf =>
       length buf = length orig /\
       (forall row col, 0 <= row < k -> 0 <= col < width -> done_at buf row col) /\
       (forall j, k * pitch <= j ->
          ptr_read (ptr_of buf) j = ptr_read (ptr_of orig) j))
    _ _ _ _ _ Hrun) as Hinv.
  rewrite Z.add_0_l, Z2Nat.id in Hinv by done.
  destruct Hinv as (Hlen & Hdone & _); [|clear Hrun|by split].
  { split; [done|]. split; [intros; lia|done]. }
  intros k buf0 buf1 Hk (Hlen0 & Hrows0 & Hrest0) Hrow.
  pose proof (for_loop_invariant
    (fun c buf =>
       length buf = length orig /\
       (forall row col, 0 <= row < k -> 0 <= col < width -> done_at buf row col) /\
       (forall col, 0 <= col < c -> done_at buf k col) /\
       (forall j, k * pitch + c <= j ->
          ptr_read (ptr_of buf) j = ptr_read (ptr_of orig) j))
    _ _ _ _ _ Hrow) as Hinv.
  rewrite Z.add_0_l, Z2Nat.id in Hinv by lia.
  destruct Hinv as (Hlen1 & Hrows1 & Hcols1 & Hrest1).
  { split; [done|]. split; [done|]. split; [intros; lia|].
    intros j Hj. apply Hrest0. lia. }
  { intros c buf2 buf3 Hc (Hlen2 & Hrows2 & Hcols2 & Hrest2) Hpix.
    unfold ptr_add, CFX_GetScanline in Hpix. cbn [ptr_off ptr_base] in Hpix.
    fold pitch in Hpix.
    destruct (ptr_read (mkPtr buf2 (k * pitch + c)) 0) as [v|] eqn:Hv; [|done].
    cbn [mbind option_bind] in Hpix.
    assert (Hv' : ptr_read (ptr_of orig) (k * pitch + c) = Some v).
    { rewrite <- Hrest2 by lia. rewrite <- Hv.
      unfold ptr_read, ptr_of. cbn [ptr_off ptr_base].
      by rewrite Z.add_0_r, Z.add_0_l. }
    pose proof (buf_write_length _ _ _ _ Hpix) as Hlen3.
    assert (Hread : forall j,
              ptr_read (ptr_of buf3) j =
                if decide (j = k * pitch + c) then Some (u8 (Z.shiftr v scale))
                else ptr_read (ptr_of buf2) j).
    { intros j. apply (buf_write_read _ _ _ _ j Hpix). }
    split; [congruence|]. split; [|split].
    - intros row col Hr Hcol. destruct (Hrows2 row col Hr Hcol) as (x & ? & ?).
      exists x. split; [done|]. rewrite Hread.
      destruct (decide _) as [Heq|]; [nia|done].
    - intros col Hcol. destruct (decide (col = c)) as [->|Hne].
      + exists v. split; [done|]. rewrite Hread.
        by destruct (decide _).
      + destruct (Hcols2 col ltac:(lia)) as (x & ? & ?).
        exists x. split; [done|]. rewrite Hread.
        destruct (decide _) as [Heq|]; [lia|done].
    - intros j Hj. rewrite Hread.
      destruct (decide _) as [Heq|]; [lia|]. apply Hrest2. lia. }
  split; [done|]. split.
  - intros row col Hr Hcol. destruct (decide (row = k)) as [->|Hne].
    + by apply Hcols1.
    + apply Hrows1; lia.
  - intros j Hj. apply Hrest1. nia.
Qed.

Lemma jpx_copy_pixel_read (src dest : BytePtr) (rgb rgb' : list Z) :
  jpx_copy_pixel src dest rgb = Some rgb' ->
  exists s0 s1 s2,
    ptr_read src 0 = Some s0 /\ ptr_read src 1 = Some s1 /\
    ptr_read src 2 = Some s2 /\
    length rgb' = length rgb /\
    forall j,
      ptr_read (ptr_of rgb') j =
        if decide (j = ptr_off dest + 2) then Some (u8 s2)
        else if decide (j = ptr_off dest + 1) then Some (u8 s1)
        else if decide (j = ptr_off dest) then Some (u8 s0)
        else ptr_read (ptr_of rgb) j.
Proof.
  unfold jpx_copy_pixel. intros Hrun.
  destruct (ptr_read src 0) as [s0|]; [|done]. cbn [mbind option_bind] in Hrun.
  destruct (ptr_read src 1) as [s1|]; [|done]. cbn [mbind option_bind] in Hrun.
  destruct (ptr_read src 2) as [s2|]; [|done]. cbn [mbind option_bind] in Hrun.
  destruct (buf_write rgb _ s0) as [r1|] eqn:W1; [|done].
  cbn [mbind option_bind] in Hrun.
  destruct (buf_write r1 _ s1) as [r2|] eqn:W2; [|done].
  cbn [mbind option_bind] in Hrun.
  exists s0, s1, s2. repeat (split; [done|]). split.
  - apply buf_write_length in W1, W2, Hrun. congruence.
  - intros j.
    by rewrite (buf_write_read _ _ _ _ j Hrun), (buf_write_read _ _ _ _ j W2),
      (buf_write_read _ _ _ _ j W1).
Qed.

(** X29.  The flattening of a decoded 4-byte-per-pixel JPX image without
    SMaskInData, whenever it completes on an RGB bitmap whose rows do not
    overlap (0 <= 3 * width <= pitch): pixel (row, col) of the RGB bitmap
    is the first three bytes of pixel (row, col) of the decoded bitmap,
    the fourth byte is dropped, and the buffer keeps its length. *)
Theorem jpx_flatten_drops_fourth_byte (result rgb_bitmap : CFX_DIBitmap)
    (width height : Z) (out : list Z) :
  0 <= width -> 3 * width <= bm_pitch rgb_bitmap -> 0 <= height ->
  jpx_flatten result rgb_bitmap width height = Some out ->
  length out = length (bm_buffer rgb_bitmap) /\
  forall row col, 0 <= row < height -> 0 <= col < width ->
    exists s0 s1 s2,
      ptr_read (CFX_GetScanline result row) (col * 4) = Some s0 /\
      ptr_read (CFX_GetScanline result row) (col * 4 + 1) = Some s1 /\
      ptr_read (CFX_GetScanline result row) (col * 4 + 2) = Some s2 /\
      ptr_read (ptr_of out) (row * bm_pitch rgb_bitmap + col * 3)
        = Some (u8 s0) /\
      ptr_read (ptr_of out) (row * bm_pitch rgb_bitmap + col * 3 + 1)
        = Some (u8 s1) /\
      ptr_read (ptr_of out) (row * bm_pitch rgb_bitmap + col * 3 + 2)
        = Some (u8 s2).
Proof.
  intros Hw Hfit Hh Hrun. unfold jpx_flatten in Hrun.
  set (pitch := bm_pitch rgb_bitmap) in *.
  set (done_at := fun (buf : list Z) row col =>
         exists s0 s1 s2,
           ptr_read (CFX_GetScanline result row) (col * 4) = Some s0 /\
           ptr_read (CFX_GetScanline result row) (col * 4 + 1) = Some s1 /\
           ptr_read (CFX_GetScanline result row) (col * 4 + 2) = Some s2 /\
           ptr_read (ptr_of buf) (row * pitch + col * 3) = Some (u8 s0) /\
           ptr_read (ptr_of buf) (row * pitch + col * 3 + 1) = Some (u8 s1) /\
           ptr_read (ptr_of buf) (row * pitch + col * 3 + 2) = Some (u8 s2)).
  assert (Hkeep : forall buf buf' row col k c,
            done_at buf row col ->
            (forall j, j < k * pitch + c * 3 ->
               ptr_read (ptr_of buf') j = ptr_read (ptr_of buf) j) ->
            0 <= col < width -> 0 <= c ->
            (row < k \/ row = k /\ col < c) -> 0 <= row ->
            done_at buf' row col).
  { intros buf buf' row col k c (s0 & s1 & s2 & ? & ? & ? & H0 & H1 & H2)
      Hsame Hcol Hc Hbefore Hrow.
    exists s0, s1, s2. repeat (split; [done|]).
    rewrite !Hsame by nia. done. }
  pose proof (for_loop_invariant
    (fun k buf =>
       length buf = length (bm_buffer rgb_bitmap) /\
       forall row col, 0 <= row < k -> 0 <= col < width -> done_at buf row col)
    _ _ _ _ _ Hrun) as Hinv.
  rewrite Z.add_0_l, Z2Nat.id in Hinv by done.
  apply Hinv; clear Hinv Hrun.
  { split; [done|]. intros; lia. }
  intros k buf0 buf1 Hk (Hlen0 & Hrows0) Hrow.
  pose proof (for_loop_invariant
    (fun c buf =>
       length buf = length (bm_buffer rgb_bitmap) /\
       (forall row col, 0 <= row < k -> 0 <= col < width -> done_at buf row col) /\
       (forall col, 0 <= col < c -> done_at buf k col))
    _ _ _ _ _ Hrow) as Hinv.
  rewrite Z.add_0_l, Z2Nat.id in Hinv by lia.
  destruct Hinv as (Hlen1 & Hrows1 & Hcols1).
  { split; [done|]. split; [done|]. intros; lia. }
  { intros c buf2 buf3 Hc (Hlen2 & Hrows2 & Hcols2) Hpix.
    apply jpx_copy_pixel_read in Hpix
      as (s0 & s1 & s2 & H0 & H1 & H2 & Hlen3 & Hread).
    rewrite !ptr_read_add in H0, H1, H2.
    unfold ptr_add, CFX_GetScanline in Hread. cbn [ptr_off] in Hread.
    fold pitch in Hread.
    assert (Hsame : forall j, j < k * pitch + c * 3 ->
              ptr_read (ptr_of buf3) j = ptr_read (ptr_of buf2) j).
    { intros j Hj. rewrite Hread.
      repeat (destruct (decide _); try lia). done. }
    split; [congruence|]. split; [|].
    - intros row col Hr Hcol.
      apply (Hkeep buf2 buf3 row col k c); try done; try lia.
      by apply Hrows2.
    - intros col Hcol. destruct (decide (col = c)) as [->|Hne].
      + exists s0, s1, s2.
        replace (c * 4 + 0) with (c * 4) in H0 by lia.
        repeat (split; [done|]). rewrite !Hread.
        repeat (destruct (decide _); try lia). done.
      + apply (Hkeep buf2 buf3 k col k c); try done; try lia.
        apply Hcols2. lia. }
  split; [done|].
  intros row col Hr Hcol. destruct (decide (row = k)) as [->|Hne].
  - by apply Hcols1.
  - apply Hrows1; lia.
Qed.

(** Nothing below StartLoadDIBBase changes the flag of the standard
    colour-space conversion. *)
Lemma ValidateDictParam_bStdCS (filter : string) :
  keeps (same m_bStdCS) (ValidateDictParam filter).
Proof. by apply ValidateDictParam_same. Qed.

Lemma GetDecodeAndMaskArray_bStdCS : keeps (same m_bStdCS) GetDecodeAndMaskArray.
Proof. by apply GetDecodeAndMaskArray_same. Qed.

Lemma LoadColorInfo_bStdCS (pF pP : option CPDF_Dictionary) :
  keeps (same m_bStdCS) (LoadColorInfo pF pP).
Proof.
  unfold LoadColorInfo.
  repeat first [ apply ValidateDictParam_bStdCS
               | apply GetDecodeAndMaskArray_bStdCS | same_step ].
Qed.

Lemma CreateDCTDecoder_bStdCS (src : list Z) (params : option CPDF_Dictionary) :
  keeps (same m_bStdCS) (CreateDCTDecoder src params).
Proof.
  unfold CreateDCTDecoder.
  repeat first [ apply GetDecodeAndMaskArray_bStdCS | same_step ].
Qed.

Lemma LoadJpxBitmap_bStdCS : keeps (same m_bStdCS) LoadJpxBitmap.
Proof. unfold LoadJpxBitmap. repeat same_step. Qed.

Lemma CreateDecoder_bStdCS : keeps (same m_bStdCS) CreateDecoder.
Proof.
  unfold CreateDecoder.
  repeat first [ apply LoadJpxBitmap_bStdCS | apply CreateDCTDecoder_bStdCS
               | same_step ].
Qed.

Lemma std_conversion_off (enable : bool) (d : CPDF_DIB) :
  m_bStdCS d = false -> std_conversion enable d = Some (tt, d).
Proof.
  intros H. unfold std_conversion. rewrite !bind_gets, H.
  by destruct (m_pColorSpace d).
Qed.

Lemma headers_agree (stream : CPDF_Stream) (d : CPDF_DIB) :
  m_bStdCS d = false -> m_bHasMask d = false ->
  start_header stream false false kUnknown false d = load_header stream d.
Proof. destruct d. cbn. by intros -> ->. Qed.

(** The part of Load after CreateDecoder is ContinueToLoadMask without the
    check for a zero depth and without the standard conversion. *)
Lemma ContinueToLoadMask_as_in_Load (d d' : CPDF_DIB) :
  m_bStdCS d = false ->
  ContinueToLoadMask d = Some (true, d') ->
  (bImageMask <~ gets m_bImageMask ;;
   bpc' <~ gets m_bpc ;;
   n' <~ gets m_nComponents ;;
   (if bImageMask then SetMaskProperties
    else modify (set_m_Format
                   (MakeRGBFormat (CalculateBitsPerPixel bpc' n')))) ;;;
   format <~ gets m_Format ;;
   w' <~ gets m_Width ;;
   match CalculatePitch32 (GetBppFromFormat format) w' with
   | None => retM false
   | Some pitch =>
       modify (set_m_pLineBuf (Some (FX_Alloc pitch))) ;;;
       LoadPalette ;;;
       final <~ alloc_masked_line pitch ;;
       match final with
       | None => retM false
       | Some pitch' => modify (set_m_Pitch pitch') ;;; retM true
       end
   end) d = Some (true, d').
Proof.
  intros Hstd. unfold ContinueToLoadMask. rewrite !bind_gets.
  destruct (negb (m_bImageMask d) && _); [done|].
  destruct (m_bImageMask d); unfold SetMaskProperties;
    repeat (rewrite bind_assoc || rewrite bind_modify || rewrite bind_gets);
    dib_simpl;
    (destruct (CalculatePitch32 _ _) as [pitch|]; [|done]);
    repeat (rewrite bind_modify);
    unfold bindM at 1; by rewrite std_conversion_off by done.
Qed.

Lemma LoadPalette_bStdCS : keeps (same m_bStdCS) LoadPalette.
Proof. unfold LoadPalette. repeat same_step. Qed.

Lemma ContinueToLoadMask_bStdCS : keeps (same m_bStdCS) ContinueToLoadMask.
Proof.
  unfold ContinueToLoadMask, alloc_masked_line, SetMaskProperties,
    std_conversion.
  repeat first [ apply LoadPalette_bStdCS | same_step ].
Qed.

(** X30.  Load is StartLoadDIBBase without mask and without the standard
    conversion.  On an object with both flags off, whenever
    StartLoadDIBBase (no mask, no resources, no standard conversion) does
    not fail, Load succeeds and leaves the same object; a Continue of
    StartLoadDIBBase (a JBIG2 image still to be decoded) is a plain success
    for Load. *)
Theorem Load_follows_StartLoadDIBBase (stream : CPDF_Stream)
    (d d' : CPDF_DIB) (r : LoadState) :
  m_bStdCS d = false -> m_bHasMask d = false ->
  StartLoadDIBBase (Some stream) false None None false kUnknown false d
    = Some (r, d') ->
  r <> kFail ->
  Load (Some stream) d = Some (true, d').
Proof.
  intros Hstd Hmask Hrun Hr.
  unfold StartLoadDIBBase, StartLoadDIBBase_body in Hrun.
  cbv [bindM gets retM modify deref] in Hrun. dib_simpl.
  set (w := GetIntegerFor (stream_dict stream) "Width") in *.
  set (h := GetIntegerFor (stream_dict stream) "Height") in *.
  destruct (negb (IsValidDimension w) || negb (IsValidDimension h)) eqn:Hdim.
  { injection Hrun as <- <-. done. }
  change (set_m_bLoadMask _ _)
    with (start_header stream false false kUnknown false d) in Hrun.
  rewrite headers_agree in Hrun by done.
  replace (if stream_inline stream then None else None)
    with (@None CPDF_Dictionary) in Hrun by by destruct (stream_inline stream).
  destruct (LoadColorInfo None None (load_header stream d))
    as [[ok d1]|] eqn:Hinfo; [|done].
  destruct ok; cbn [negb] in Hrun; [|by injection Hrun as <- <-].
  destruct (m_bDoBpcCheck d1 && _) eqn:Hcheck; [by injection Hrun as <- <-|].
  destruct (checked_src_size _ _ _ _) as [src_size|] eqn:Hsize;
    [|by injection Hrun as <- <-].
  dib_simpl.
  destruct (bool_decide (GetSize _ = 0) || _) eqn:Hdata;
    [by injection Hrun as <- <-|].
  destruct (CreateDecoder _) as [[created d2]|] eqn:Hcreate; [|done].
  destruct (decide (created = kFail)) as [|Hcreated];
    [by injection Hrun as <- <-|].
  destruct (ContinueToLoadMask d2) as [[loaded d3]|] eqn:Hcont; [|done].
  destruct loaded; cbn [negb] in Hrun; [|by injection Hrun as <- <-].
  (* the flags on the way *)
  assert (Hstd1 : m_bStdCS d1 = false).
  { apply LoadColorInfo_bStdCS in Hinfo. unfold same in Hinfo.
    rewrite Hinfo. by rewrite <- headers_agree. }
  assert (Hmask1 : m_bHasMask d1 = false).
  { apply LoadColorInfo_mask in Hinfo. apply Hinfo.
    by rewrite <- headers_agree. }
  assert (Hstd2 : m_bStdCS d2 = false).
  { apply CreateDecoder_bStdCS in Hcreate. unfold same in Hcreate.
    by rewrite Hcreate. }
  assert (Hmask2 : m_bHasMask d2 = false).
  { apply CreateDecoder_mask in Hcreate. by apply Hcreate. }
  assert (Hstd3 : m_bStdCS d3 = false).
  { apply ContinueToLoadMask_bStdCS in Hcont. unfold same in Hcont.
    by rewrite Hcont. }
  assert (Hmask3 : m_bHasMask d3 = false).
  { apply ContinueToLoadMask_mask in Hcont. by apply Hcont. }
  rewrite Hmask3 in Hrun.
  assert (Hd3 : d' = d3).
  { destruct (bool_decide (created = kContinue) || _).
    - by injection Hrun as <- <-.
    - rewrite std_conversion_off in Hrun by done. by injection Hrun as <- <-. }
  subst d'. clear Hrun.
  (* the same steps in Load *)
  unfold Load. rewrite !bind_modify, !bind_gets. dib_simpl. fold w h.
  rewrite Hdim. rewrite !bind_modify.
  change (set_m_bLoadMask _ _) with (load_header stream d).
  unfold bindM at 1. rewrite Hinfo. cbn [negb]. rewrite !bind_gets.
  rewrite Hcheck, Hsize. rewrite bind_modify.
  erewrite (bind_gets_deref m_pStreamAcc); [|reflexivity].
  dib_simpl. rewrite Hdata.
  unfold bindM at 1. rewrite Hcreate.
  destruct (decide (created = kFail)); [done|].
  by apply ContinueToLoadMask_as_in_Load.
Qed.

(** ** The scanline claims *)

(** Source acquisition finds the source row of a line. *)
Lemma source_row_line (d : CPDF_DIB) (line p : Z) (src : BytePtr) :
  source_row d line p src -> source_line d line p = Some (Some src).
Proof.
  intros [bitmap Hbm Hp Hline | dec row Hbm Hdec Hrow
          | acc Hbm Hdec Hacc Hline Hp0 Hsize Hmax].
  - unfold source_line. rewrite Hbm.
    rewrite bool_decide_eq_true_2 by done.
    by rewrite bool_decide_eq_false_2 by lia.
  - assert (Hun : uncached_line d line p = Some (Some (ptr_of row))).
    { unfold uncached_line. by rewrite Hdec, Hrow. }
    unfold source_line. destruct (m_pCachedBitmap d) as [bitmap|]; [|done].
    specialize (Hbm bitmap eq_refl).
    by rewrite bool_decide_eq_false_2 by lia.
  - assert (Hun : uncached_line d line p
                  = Some (Some (mkPtr (GetSpan acc) (line * p)))).
    { unfold uncached_line. rewrite Hdec, Hacc. cbn.
      assert (Hw1 : wrap32 ((line + 1) * p) = (line + 1) * p)
        by (unfold wrap32; apply Z.mod_small; nia).
      assert (Hw0 : wrap32 (line * p) = line * p)
        by (unfold wrap32; apply Z.mod_small; nia).
      rewrite Hw1, Hw0. by rewrite bool_decide_eq_true_2 by lia. }
    unfold source_line. destruct (m_pCachedBitmap d) as [bitmap|]; [|done].
    specialize (Hbm bitmap eq_refl).
    by rewrite bool_decide_eq_false_2 by lia.
Qed.

(** C2, amended.  For an image mask with default decode (one bit, one
    component, as LoadColorInfo leaves an image mask) and a line whose
    source row is available, GetScanline returns the line buffer, whose
    first src_pitch bytes are the bitwise complements of the bytes of that
    source row: row [line] of the cached bitmap, the scanline the decoder
    yields for [line], or the bytes of the stream data from
    [line * src_pitch] on. *)
Theorem image_mask_scanline_is_complement (d : CPDF_DIB) (line p : Z)
    (src : BytePtr) (buf row : list Z) :
  m_bImageMask d = true -> m_bDefaultDecode d = true ->
  m_bpc d = 1 -> m_nComponents d = 1 ->
  CalculatePitch8 1 1 (m_Width d) = Some p ->
  source_row d line p src ->
  ptr_bytes src p = Some row -> Forall is_byte row ->
  m_pLineBuf d = Some buf -> p <= Z.of_nat (length buf) ->
  let out := (bitwise_complement <$> row) ++ drop (Z.to_nat p) buf in
  GetScanline line d = Some (Some (ptr_of out), set_m_pLineBuf (Some out) d)
  /\ ptr_bytes (ptr_of out) p = Some (bitwise_complement <$> row).
Proof.
  intros Hmask Hdef Hbpc Hn Hpitch Hsrc Hrow Hbytes Hbuf Hlen out.
  apply source_row_line in Hsrc.
  assert (Hp0 : 0 <= p).
  { apply CalculatePitch8_inv in Hpitch.
    pose proof (Z.div_pos (1 * 1 * m_Width d + 7) 8). lia. }
  assert (Hout : invert_line src p buf = Some out).
  { rewrite (invert_line_spec src p buf row Hrow) by lia.
    unfold out. do 2 f_equal. apply Forall_fmap_ext_1.
    eapply Forall_impl; [exact Hbytes|]. intros b Hb. by apply u8_lnot. }
  split.
  - unfold GetScanline. cbv [bindM gets retM deref on_line_buf modify].
    rewrite Hbpc, Hn. rewrite bool_decide_eq_false_2 by done.
    rewrite Hpitch, Hsrc. cbn [Z.mul Pos.mul].
    change (wrap32 1) with 1. rewrite bool_decide_eq_true_2 by done.
    rewrite Hmask, Hdef. cbn [andb]. rewrite Hbuf, Hout. done.
  - apply ptr_bytes_of_app. rewrite length_fmap.
    by rewrite (ptr_bytes_length _ _ _ Hrow).
Qed.

Lemma swap_red_blue_Forall (P : Z -> Prop) (l : list Z) :
  Forall P l -> Forall P (swap_red_blue l).
Proof.
  induction l as [| | |a b c l IH] using triple_ind; [done..|].
  intros H. apply Forall_cons in H as [Ha H]. apply Forall_cons in H as [Hb H].
  apply Forall_cons in H as [Hc H]. cbn. repeat constructor; auto.
Qed.

Lemma AreColorIndicesOutOfBounds_from_total (indices : BytePtr)
    (comp_data : list DIB_COMP_DATA) (n : nat) (i : Z) :
  0 <= i -> i + Z.of_nat n <= Z.of_nat (length comp_data) ->
  (forall k, i <= k < i + Z.of_nat n -> is_Some (ptr_read indices k)) ->
  is_Some (AreColorIndicesOutOfBounds_from indices comp_data i n).
Proof.
  revert i. induction n as [|n IH]; intros i Hi Hlen Hread; [by eexists|].
  cbn [AreColorIndicesOutOfBounds_from].
  destruct (Hread i) as [index ->]; [lia|]. cbn.
  destruct (lookup_lt_is_Some_2 comp_data (Z.to_nat i)) as [datum ->]; [lia|].
  cbn. destruct (IsColorIndexOutOfBounds index datum); [by eexists|].
  apply IH; [lia|lia|]. intros k Hk. apply Hread. lia.
Qed.

(** The alpha pass over a row of 3-byte pixels runs to the end. *)
Lemma key_alpha_24bpp_total (d : CPDF_DIB) (src : BytePtr) (dest row : list Z) :
  ptr_bytes src (3 * m_Width d) = Some row ->
  (3 <= length (m_CompData d))%nat ->
  4 * m_Width d <= Z.of_nat (length dest) ->
  exists out, key_alpha_24bpp d src dest = Some out /\
              length out = length dest.
Proof.
  intros Hrow Hcomp Hlen. unfold key_alpha_24bpp.
  destruct (for_loop_total (fun (_ : Z) buf => length buf = length dest)
              (fun col dest =>
                 out ← AreColorIndicesOutOfBounds (ptr_add src (col * 3))
                         (m_CompData d) 3;
                 buf_write dest (3 + col * 4) (if out : bool then 255 else 0))
              (Z.to_nat (m_Width d)) 0 dest) as (out & Hrun & Hout);
    [done| |by exists out].
  intros k t Hk Ht.
  destruct (AreColorIndicesOutOfBounds_from_total (ptr_add src (k * 3))
              (m_CompData d) 3 0) as [outside Hout]; [done|cbn; lia| |].
  { intros j Hj. rewrite ptr_read_add.
    destruct (ptr_bytes_read src (3 * m_Width d) (k * 3 + j) row Hrow)
      as (b & -> & _); [lia|by eexists]. }
  unfold AreColorIndicesOutOfBounds. change (Z.to_nat 3) with 3%nat.
  rewrite Hout. cbn.
  rewrite buf_write_Some by lia. eexists. split; [done|].
  by rewrite length_insert.
Qed.

(** The interleaving pass runs to the end. *)
Lemma interleave_bgr_total (w : Z) (src : BytePtr) (dest row : list Z) :
  ptr_bytes src (3 * w) = Some row ->
  4 * w <= Z.of_nat (length dest) ->
  exists out, interleave_bgr w src dest = Some out /\
              length out = length dest.
Proof.
  intros Hrow Hlen. unfold interleave_bgr.
  destruct (for_loop_total (fun (_ : Z) buf => length buf = length dest)
              (fun col dest =>
                 s0 ← ptr_read src (col * 3);
                 dest ← buf_write dest (col * 4) s0;
                 s1 ← ptr_read src (col * 3 + 1);
                 dest ← buf_write dest (col * 4 + 1) s1;
                 s2 ← ptr_read src (col * 3 + 2);
                 buf_write dest (col * 4 + 2) s2)
              (Z.to_nat w) 0 dest) as (out & Hrun & Hout);
    [done| |by exists out].
  intros k t Hk Ht.
  destruct (ptr_bytes_read src (3 * w) (k * 3) row Hrow)
    as (s0 & -> & _); [lia|].
  destruct (ptr_bytes_read src (3 * w) (k * 3 + 1) row Hrow)
    as (s1 & -> & _); [lia|].
  destruct (ptr_bytes_read src (3 * w) (k * 3 + 2) row Hrow)
    as (s2 & -> & _); [lia|].
  cbn. rewrite buf_write_Some by lia. cbn.
  rewrite buf_write_Some by (rewrite length_insert; lia). cbn.
  rewrite buf_write_Some by (rewrite !length_insert; lia).
  eexists. split; [done|]. by rewrite !length_insert.
Qed.

(** The colour bytes of an interleaved row, as bytes of the 3-byte row. *)
Lemma interleave_bgr_bytes (w : Z) (src : BytePtr) (dest out row : list Z) :
  interleave_bgr w src dest = Some out ->
  ptr_bytes src (3 * w) = Some row -> Forall is_byte row ->
  forall col k, 0 <= col < w -> 0 <= k < 3 ->
    out !! Z.to_nat (4 * col + k) = row !! Z.to_nat (3 * col + k).
Proof.
  intros Hrun Hrow Hbytes col k Hcol Hk.
  destruct (interleave_bgr_colour w src dest out Hrun col Hcol)
    as (s0 & s1 & s2 & H0 & H1 & H2 & Ho0 & Ho1 & Ho2).
  assert (Hbyte : forall i s, 0 <= i < 3 * w -> ptr_read src i = Some s ->
                    row !! Z.to_nat i = Some s /\ u8 s = s).
  { intros i s Hi Hs.
    destruct (ptr_bytes_read src (3 * w) i row Hrow Hi) as (b & Hb & Hl).
    rewrite Hs in Hb. injection Hb as <-. split; [done|].
    apply u8_byte. eapply Forall_lookup_1; [exact Hbytes|exact Hl]. }
  rewrite ptr_read_of in Ho0, Ho1, Ho2 by lia.
  assert (k = 0 \/ k = 1 \/ k = 2) as [-> | [-> | ->]] by lia.
  - destruct (Hbyte (col * 3) s0) as [Hl Hu]; [lia|done|].
    rewrite Z.add_0_r, Ho0, Hu. rewrite <- Hl. f_equal. lia.
  - destruct (Hbyte (col * 3 + 1) s1) as [Hl Hu]; [lia|done|].
    rewrite Ho1, Hu. rewrite <- Hl. f_equal. lia.
  - destruct (Hbyte (col * 3 + 2) s2) as [Hl Hu]; [lia|done|].
    rewrite Ho2, Hu. rewrite <- Hl. f_equal. lia.
Qed.


(** C3, amended.  For a default-decoded image of 8 bits per component and
    3 components in DeviceRGB or CalRGB, the row the fast path writes is the
    source row with the first and the third byte of every pixel exchanged.
    For a line whose source row is available GetScanline returns that row
    when there is no colour key; with a colour key it returns 4-byte pixels
    whose first three bytes are those of the exchanged row.  A decoder
    whose colour space the JPX loader removed exchanges nothing: the bytes
    are those of the source row. *)
Theorem default_decode_rgb_swaps_red_and_blue (d : CPDF_DIB) (line p : Z)
    (src : BytePtr) (buf row : list Z) :
  m_bDefaultDecode d = true ->
  m_Family d = kDeviceRGB \/ m_Family d = kCalRGB ->
  m_bpc d = 8 -> m_nComponents d = 3 -> 0 <= m_Width d ->
  ptr_bytes src (3 * m_Width d) = Some row -> Forall is_byte row ->
  3 * m_Width d <= Z.of_nat (length buf) ->
  let swapped := swap_red_blue row in
  let out := swapped ++ drop (Z.to_nat (3 * m_Width d)) buf in
  TranslateScanline24bppDefaultDecode d buf src = Some (true, out) /\
  ptr_bytes (ptr_of out) (3 * m_Width d) = Some swapped /\
  (CalculatePitch8 (m_bpc d) (m_nComponents d) (m_Width d) = Some p ->
   source_row d line p src ->
   (is_Some (m_pColorSpace d) -> m_pLineBuf d = Some buf) ->
   (m_bColorKey d = false ->
    GetScanline line d =
      match m_pColorSpace d with
      | Some _ => Some (Some (ptr_of out), set_m_pLineBuf (Some out) d)
      | None => Some (Some src, d)
      end) /\
   (m_bColorKey d = true ->
    forall mbuf,
      m_pMaskedLine d = Some mbuf ->
      4 * m_Width d <= Z.of_nat (length mbuf) ->
      (3 <= length (m_CompData d))%nat ->
      exists bgra d',
        GetScanline line d = Some (Some (ptr_of bgra), d') /\
        length bgra = length mbuf /\
        forall col k, 0 <= col < m_Width d -> 0 <= k < 3 ->
          bgra !! Z.to_nat (4 * col + k) =
            match m_pColorSpace d with
            | Some _ => swapped
            | None => row
            end !! Z.to_nat (3 * col + k))).
Proof.
  intros Hdef Hfam Hbpc Hn Hw Hrow Hbytes Hbuf swapped out.
  assert (Hfast : TranslateScanline24bppDefaultDecode d buf src
                  = Some (true, out)).
  { unfold TranslateScanline24bppDefaultDecode.
    rewrite Hdef, Hbpc, Hn. cbn [negb].
    assert (Hrgb : negb (bool_decide (m_Family d = kDeviceRGB))
                   && negb (bool_decide (m_Family d = kCalRGB)) = false).
    { destruct Hfam as [-> | ->]; done. }
    rewrite Hrgb. rewrite !bool_decide_eq_true_2 by done. cbn [negb].
    rewrite (swap_rgb_8_spec _ _ _ row) by done. done. }
  assert (Hswapped : ptr_bytes (ptr_of out) (3 * m_Width d) = Some swapped).
  { apply ptr_bytes_of_app. unfold swapped. rewrite swap_red_blue_length.
    by rewrite (ptr_bytes_length _ _ _ Hrow). }
  assert (Htranslate : TranslateScanline24bpp d buf src = Some out).
  { unfold TranslateScanline24bpp. rewrite Hbpc.
    rewrite bool_decide_eq_false_2 by done. by rewrite Hfast. }
  split; [exact Hfast|]. split; [exact Hswapped|].
  intros Hpitch Hsrc Hline. apply source_row_line in Hsrc. split.
  - (* no colour key *)
    intros Hkey.
    unfold GetScanline. cbv [bindM gets retM deref on_line_buf modify].
    rewrite Hbpc, Hn in *. rewrite bool_decide_eq_false_2 by done.
    rewrite Hpitch, Hsrc, Hkey.
    change (wrap32 (8 * 3)) with 24.
    rewrite !bool_decide_eq_false_2 by lia. cbn [negb].
    destruct (m_pColorSpace d) as [cs|] eqn:Hcs.
    + rewrite bool_decide_eq_true_2 by done.
      rewrite (Hline ltac:(done)). unfold id. by rewrite Htranslate.
    + rewrite bool_decide_eq_false_2 by (by intros [? ?]). done.
  - (* colour key *)
    intros Hkey mbuf Hmasked Hmlen Hcomp.
    destruct (key_alpha_24bpp_total d src mbuf row Hrow Hcomp Hmlen)
      as (m1 & Halpha & Hm1).
    unfold GetScanline.
    cbv [bindM gets retM deref on_line_buf on_masked_line modify].
    rewrite Hbpc, Hn in *. rewrite bool_decide_eq_false_2 by done.
    rewrite Hpitch, Hsrc, Hkey.
    change (wrap32 (8 * 3)) with 24.
    rewrite !bool_decide_eq_false_2 by lia.
    rewrite !bool_decide_eq_true_2 by done. cbn [negb andb].
    rewrite Hmasked. unfold id. rewrite Halpha. dib_simpl.
    destruct (m_pColorSpace d) as [cs|] eqn:Hcs.
    + rewrite bool_decide_eq_true_2 by done.
      change (m_pLineBuf (set_m_pMaskedLine (Some m1) d)) with (m_pLineBuf d).
      rewrite (Hline ltac:(done)). rewrite Htranslate. dib_simpl.
      destruct (interleave_bgr_total (m_Width d) (ptr_of out) m1 swapped)
        as (bgra & Hinter & Hlen); [done|lia|].
      rewrite Hinter. eexists _, _. split; [done|]. split; [lia|].
      intros col k Hcol Hk.
      apply (interleave_bgr_bytes _ _ _ _ _ Hinter Hswapped); [|done..].
      by apply swap_red_blue_Forall.
    + rewrite bool_decide_eq_false_2 by (by intros [? ?]). dib_simpl.
      destruct (interleave_bgr_total (m_Width d) src m1 row)
        as (bgra & Hinter & Hlen); [done|lia|].
      rewrite Hinter. eexists _, _. split; [done|]. split; [lia|].
      intros col k Hcol Hk.
      by apply (interleave_bgr_bytes _ _ _ _ _ Hinter Hrow).
Qed.



Lemma memcpy_spec (dst : list Z) (src : BytePtr) (n : Z) (bytes : list Z) :
  ptr_bytes src n = Some bytes -> 0 <= n <= Z.of_nat (length dst) ->
  memcpy dst src n = Some (bytes ++ drop (Z.to_nat n) dst).
Proof.
  intros Hbytes Hn. unfold memcpy. rewrite Hbytes. cbn.
  by rewrite bool_decide_eq_true_2.
Qed.

(** C10.  With a cached bitmap of sufficient pitch, GetScanline at any line
    index at or beyond the bitmap's height is clamped to the last row: the
    source row it reads is row height - 1, which lies inside the pixel
    buffer of the bitmap; the call does what the call at height - 1 does
    and returns a row, never the null pointer; and the row returned holds
    the data of the last row: copied into the line buffer for a 1-bit image
    and for one 8-bit component, complemented for a default-decoded image
    mask, and the last row of the bitmap itself for an image of more than
    8 bits per pixel without colour space. *)
Theorem cached_bitmap_line_clamped (d : CPDF_DIB) (bitmap : CFX_DIBitmap)
    (line p : Z) :
  m_pCachedBitmap d = Some bitmap ->
  m_bpc d <> 0 ->
  CalculatePitch8 (m_bpc d) (m_nComponents d) (m_Width d) = Some p ->
  p <= bm_pitch bitmap ->
  0 < bm_height bitmap <= line ->
  bm_height bitmap * bm_pitch bitmap <= Z.of_nat (length (bm_buffer bitmap)) ->
  let last := bm_height bitmap - 1 in
  let last_row :=
    take (Z.to_nat p)
         (drop (Z.to_nat (last * bm_pitch bitmap)) (bm_buffer bitmap)) in
  (source_line d line p = Some (Some (CFX_GetScanline bitmap last)) /\
   ptr_bytes (CFX_GetScanline bitmap last) p = Some last_row /\
   0 <= last * bm_pitch bitmap /\
   last * bm_pitch bitmap + p <= Z.of_nat (length (bm_buffer bitmap))) /\
  (GetScanline line d = GetScanline last d /\
   forall r d', GetScanline line d = Some (r, d') -> is_Some r) /\
  (forall buf,
     m_pLineBuf d = Some buf -> p <= Z.of_nat (length buf) ->
     let copied := last_row ++ drop (Z.to_nat p) buf in
     let inverted :=
       (bitwise_complement <$> last_row) ++ drop (Z.to_nat p) buf in
     (wrap32 (m_bpc d * m_nComponents d) = 1 ->
      m_bImageMask d && m_bDefaultDecode d = true ->
      Forall is_byte last_row ->
      GetScanline line d
        = Some (Some (ptr_of inverted), set_m_pLineBuf (Some inverted) d)) /\
     (wrap32 (m_bpc d * m_nComponents d) = 1 ->
      m_bImageMask d && m_bDefaultDecode d = false ->
      m_bColorKey d = false ->
      GetScanline line d
        = Some (Some (ptr_of copied), set_m_pLineBuf (Some copied) d)) /\
     (m_bpc d = 8 -> m_nComponents d = 1 -> m_bColorKey d = false ->
      GetScanline line d
        = Some (Some (ptr_of copied), set_m_pLineBuf (Some copied) d))) /\
  (8 < wrap32 (m_bpc d * m_nComponents d) ->
   m_pColorSpace d = None -> m_bColorKey d = false ->
   GetScanline line d = Some (Some (CFX_GetScanline bitmap last), d)).
Proof.
  intros Hbm Hbpc Hpitch Hp Hline Hsize last last_row.
  assert (Hp0 : 0 <= p).
  { apply CalculatePitch8_inv in Hpitch as (-> & Hpos & _).
    by apply Z.div_pos; lia. }
  assert (Hsrc : source_line d line p
                 = Some (Some (CFX_GetScanline bitmap last))).
  { apply source_line_clamped; [done|done|lia]. }
  assert (Hlast : ptr_bytes (CFX_GetScanline bitmap last) p = Some last_row).
  { unfold CFX_GetScanline. apply ptr_bytes_slice; [subst last; nia|done|].
    subst last. nia. }
  split; [|split; [|split]].
  - split; [done|]. split; [done|]. subst last. nia.
  - split.
    + unfold GetScanline. cbv [bindM gets].
      rewrite bool_decide_eq_false_2 by done. rewrite Hpitch.
      rewrite Hsrc. subst last.
      by rewrite (source_line_last d bitmap p Hbm Hp).
    + intros r d' Hrun. unfold GetScanline in Hrun.
      rewrite !bind_gets in Hrun.
      rewrite bool_decide_eq_false_2 in Hrun by done.
      rewrite Hpitch in Hrun.
      match type of Hrun with
      | ?m d = _ => assert (Hrow : ensures (fun r _ => is_Some r) m)
      end.
      { repeat first [ apply ensures_ret; by eexists
                     | apply ensures_bind; intros ?
                     | case_match ]. }
      exact (Hrow _ _ _ Hrun).
  - intros buf Hbuf Hlen copied inverted.
    assert (Hcopy : memcpy buf (CFX_GetScanline bitmap last) p = Some copied).
    { by apply memcpy_spec. }
    split; [|split].
    + intros Hone Hmask Hbytes.
      assert (Hinv : invert_line (CFX_GetScanline bitmap last) p buf
                     = Some inverted).
      { rewrite (invert_line_spec _ p buf last_row Hlast) by lia.
        unfold inverted. do 2 f_equal. apply Forall_fmap_ext_1.
        eapply Forall_impl; [exact Hbytes|]. intros b Hb. by apply u8_lnot. }
      unfold GetScanline. cbv [bindM gets retM deref on_line_buf modify].
      rewrite bool_decide_eq_false_2 by done. rewrite Hpitch, Hsrc.
      rewrite bool_decide_eq_true_2 by done. rewrite Hmask.
      by rewrite Hbuf, Hinv.
    + intros Hone Hmask Hkey.
      unfold GetScanline. cbv [bindM gets retM deref on_line_buf modify].
      rewrite bool_decide_eq_false_2 by done. rewrite Hpitch, Hsrc.
      rewrite bool_decide_eq_true_2 by done. rewrite Hmask, Hkey. cbn [negb].
      by rewrite Hbuf, Hcopy.
    + intros Hb8 Hn1 Hkey.
      unfold GetScanline. cbv [bindM gets retM deref on_line_buf modify].
      rewrite bool_decide_eq_false_2 by done. rewrite Hpitch, Hsrc.
      rewrite Hb8, Hn1. change (wrap32 (8 * 1)) with 8.
      rewrite bool_decide_eq_false_2 by done.
      rewrite !bool_decide_eq_true_2 by done. rewrite Hkey. cbn [negb].
      by rewrite Hbuf, Hcopy.
  - intros Hdeep Hcs Hkey.
    unfold GetScanline. cbv [bindM gets retM deref on_line_buf modify].
    rewrite bool_decide_eq_false_2 by done. rewrite Hpitch, Hsrc.
    rewrite !bool_decide_eq_false_2 by lia. rewrite Hkey, Hcs. cbn [negb].
    rewrite bool_decide_eq_false_2 by (by intros [? ?]). done.
Qed.

End MoreProperties.

(** * Further runs on the concrete collaborators *)

Section MoreScenarios.
#[local] Existing Instance Demo.QFloat.
#[local] Existing Instance Demo.env.

(** S6: a Width of 0x20000 is rejected by Load. *)
Lemma invalid_dimension_witness :
  exists d', Load (Some Cases.wide_stream) new_CPDF_DIB = Some (false, d') /\
             m_bpc d' = m_bpc new_CPDF_DIB.
Proof.
  assert (Hw : GetIntegerFor (stream_dict Cases.wide_stream) "Width" = 131072)
    by (vm_compute; reflexivity).
  destruct (invalid_dimension_rejected Cases.wide_stream false None None false
              kUnknown false new_CPDF_DIB) as [_ (d' & Hrun & _ & Hbpc & _)].
  - rewrite Hw. lia.
  - exists d'. split; [exact Hrun|exact Hbpc].
Defined.

(** DCTDecode over a declared depth of 4 leaves 8 bits per component. *)
Lemma ValidateDictParam_dct_witness :
  exists d', ValidateDictParam "DCTDecode" (set_m_bpc_orig 4 new_CPDF_DIB)
               = Some (tt, d') /\ m_bpc d' = 8.
Proof.
  destruct (ValidateDictParam_post "DCTDecode" (set_m_bpc_orig 4 new_CPDF_DIB))
    as (d' & Hrun & _ & Hother).
  - cbn. lia.
  - exists d'. split; [exact Hrun|].
    destruct Hother as (_ & _ & _ & Hdct & _); [discriminate|].
    apply Hdct. reflexivity.
Defined.

(** A BitsPerComponent of 17 is rejected. *)
Lemma LoadColorInfo_rejects_witness :
  fst <$> LoadColorInfo None None Cases.deep_dib = Some false.
Proof.
  assert (Hbits : GetIntegerFor (list_to_map [("BitsPerComponent", ObjInteger 17)])
                    "BitsPerComponent" = 17) by (vm_compute; reflexivity).
  destruct (LoadColorInfo_rejects None None Cases.deep_dib
              (list_to_map [("BitsPerComponent", ObjInteger 17)]))
    as [_ Hbad].
  - reflexivity.
  - rewrite Hbad.
    + reflexivity.
    + vm_compute. eexists. reflexivity.
    + rewrite Hbits. lia.
    + rewrite Hbits. lia.
Defined.

(** A Mask array of three ranges on an 8-bit RGB image switches colour
    keying on, one clamped range per component. *)
Lemma color_key_ranges_witness :
  exists d',
    GetDecodeAndMaskArray (Cases.rgb_dib [("Mask", ObjArray Cases.key_array)])
      = Some (true, d') /\
    m_bColorKey d' = true /\ length (m_CompData d') = 3%nat.
Proof.
  destruct (color_key_ranges_clamped
              (Cases.rgb_dib [("Mask", ObjArray Cases.key_array)])
              (Demo.stock kDeviceRGB)
              (list_to_map [("Mask", ObjArray Cases.key_array)])
              (ObjArray Cases.key_array) Cases.key_array)
    as (d' & Hrun & Hkey & Hlen & _).
  - reflexivity.
  - reflexivity.
  - vm_compute; reflexivity.
  - vm_compute; reflexivity.
  - reflexivity.
  - cbn. lia.
  - cbn. lia.
  - cbn. lia.
  - exists d'. split; [exact Hrun|]. split; [exact Hkey|exact Hlen].
Defined.

(** With an SMask entry beside it the same Mask array is ignored. *)
Lemma color_key_edges_witness :
  exists d',
    GetDecodeAndMaskArray
      (Cases.rgb_dib [("SMask", ObjNull); ("Mask", ObjArray Cases.key_array)])
      = Some (true, d') /\
    m_bColorKey d' = false.
Proof.
  set (d := Cases.rgb_dib [("SMask", ObjNull);
                           ("Mask", ObjArray Cases.key_array)]).
  assert (Hobs : fst <$> GetDecodeAndMaskArray d = Some true)
    by (vm_compute; reflexivity).
  destruct (GetDecodeAndMaskArray d) as [[[|] d']|] eqn:Hrun;
    try discriminate Hobs.
  destruct (color_key_edges d d'
              (list_to_map [("SMask", ObjNull);
                            ("Mask", ObjArray Cases.key_array)]))
    as [Hsmask _].
  - reflexivity.
  - exact Hrun.
  - exists d'. split; [reflexivity|].
    destruct Hsmask as [Hkey _]; [vm_compute; reflexivity|].
    rewrite Hkey. reflexivity.
Defined.

(** S2: the colour information of an 8-bit DeviceRGB image. *)
Lemma LoadColorInfo_outcomes_witness :
  exists d',
    LoadColorInfo None None (load_header Demo.s2_stream new_CPDF_DIB)
      = Some (true, d') /\
    0 <= m_bpc_orig d' <= 16.
Proof.
  set (d := load_header Demo.s2_stream new_CPDF_DIB).
  assert (Hobs : fst <$> LoadColorInfo None None d = Some true)
    by (vm_compute; reflexivity).
  destruct (LoadColorInfo None None d) as [[[|] d']|] eqn:Hrun;
    try discriminate Hobs.
  destruct (LoadColorInfo_outcomes None None d d' (stream_dict Demo.s2_stream))
    as (_ & Hrange & _).
  - reflexivity.
  - exact Hrun.
  - exists d'. split; [reflexivity|exact Hrange].
Defined.

(** The byte 10110100 as four 2-bit fields: 2, 3, 1, 0. *)
Lemma GetBits8_fields_witness :
  exists codes,
    mapM (fun j : nat => GetBits8 (ptr_of [180]) (8 * 0 + 2 * Z.of_nat j) 2)
         (seq 0 (Z.to_nat (8 / 2))) = Some codes /\
    foldl (fun acc c => acc * 2 ^ 2 + c) 0 codes = 180.
Proof.
  destruct (GetBits8_fields_rebuild_byte (ptr_of [180]) 0 2 180)
    as (codes & Hread & _ & Hsum).
  - reflexivity.
  - unfold is_byte. lia.
  - right. left. reflexivity.
  - exists codes. split; [exact Hread|exact Hsum].
Defined.

(** One 16-bit RGB pixel 0x0102 0x0304 0x0506 comes out as 05 03 01. *)
Lemma default_decode_rgb16_witness :
  exists out,
    TranslateScanline24bppDefaultDecode Cases.rgb16_dib [0; 0; 0; 0]
      (ptr_of [1; 2; 3; 4; 5; 6]) = Some (true, out) /\
    out !! 0%nat = Some 5 /\ out !! 2%nat = Some 1.
Proof.
  destruct (default_decode_rgb16_keeps_high_bytes Cases.rgb16_dib
              (ptr_of [1; 2; 3; 4; 5; 6]) [0; 0; 0; 0] [1; 2; 3; 4; 5; 6])
    as (out & Hrun & _ & Hpix & _).
  - reflexivity.
  - left. reflexivity.
  - reflexivity.
  - reflexivity.
  - cbn. lia.
  - vm_compute; reflexivity.
  - repeat constructor; unfold is_byte; lia.
  - cbn. lia.
  - exists out. split; [exact Hrun|].
    destruct (Hpix 0) as (H0 & _ & H2); [cbn; lia|].
    split; [exact H0|exact H2].
Defined.

(** A new object has no bits per component: its rows are null. *)
Lemma GetScanline_null_witness :
  GetScanline 0 new_CPDF_DIB = Some (None, new_CPDF_DIB).
Proof.
  apply (proj1 (GetScanline_null_cases 0 new_CPDF_DIB)).
  left. reflexivity.
Defined.

(** Row 1 of a 2-pixel image with 3 bytes of data is a short read. *)
Lemma truncated_stream_witness :
  fst <$> GetScanline 1 Cases.raw_gray_dib
    = Some (Some (ptr_of [255; 255; 255; 255])).
Proof.
  destruct (truncated_stream_row_is_0xFF Cases.raw_gray_dib
              (mkAcc None (Some [1; 2; 3]) "" None) 1 2 [0; 0; 0; 0])
    as (_ & Hline & _).
  - discriminate.
  - vm_compute; reflexivity.
  - reflexivity.
  - reflexivity.
  - reflexivity.
  - lia.
  - cbn. lia.
  - cbn. lia.
  - rewrite Hline; reflexivity.
Defined.

(** Row 0 of the same image is the first two bytes of the data. *)
Lemma unfiltered_row_witness :
  fst <$> GetScanline 0 Cases.raw_gray_dib
    = Some (Some (ptr_of [1; 2; 0; 0])).
Proof.
  destruct (unfiltered_8bit_row_is_stream_slice Cases.raw_gray_dib
              (mkAcc None (Some [1; 2; 3]) "" None) 0 [0; 0; 0; 0])
    as [Hrun _].
  - reflexivity.
  - reflexivity.
  - reflexivity.
  - reflexivity.
  - reflexivity.
  - reflexivity.
  - lia.
  - cbn. lia.
  - cbn. lia.
  - cbn. lia.
  - reflexivity.
  - cbn. lia.
  - rewrite Hrun. reflexivity.
Defined.

(** The first pixel of 10110001 keyed on 1 is transparent, the second
    opaque. *)
Lemma one_bit_color_key_witness :
  exists out d' alpha0 alpha1,
    GetScanline 0 Cases.keyed_bits_dib = Some (Some out, d') /\
    ptr_read out (4 * 0 + 3) = Some alpha0 /\ alpha0 = 0 /\
    ptr_read out (4 * 1 + 3) = Some alpha1 /\ alpha1 = 255.
Proof.
  assert (Hobs : (fun r => bool_decide (is_Some (fst r)))
                   <$> GetScanline 0 Cases.keyed_bits_dib = Some true)
    by (vm_compute; reflexivity).
  destruct (GetScanline 0 Cases.keyed_bits_dib) as [[[out|] d']|] eqn:Hrun;
    try discriminate Hobs.
  pose proof (one_bit_color_key_alpha Cases.keyed_bits_dib d' 0 1
                (mkPtr [177] 0) out (mkComp 0%Q 1%Q 1 1)) as Hthm.
  assert (Hpix : forall col, 0 <= col < m_Width Cases.keyed_bits_dib ->
            exists (bit : bool) alpha,
              GetBitValue (mkPtr [177] 0) col = Some bit /\
              ptr_read out (4 * col + 3) = Some alpha /\
              let code := if bit then 1 else 0 in
              (alpha = 0 <-> 1 <= code <= 1) /\
              (alpha = 255 <-> ~ 1 <= code <= 1) /\
              (alpha = 0 ->
               ptr_read out (4 * col) = Some 0 /\
               ptr_read out (4 * col + 1) = Some 0 /\
               ptr_read out (4 * col + 2) = Some 0)).
  { apply Hthm.
    - reflexivity.
    - vm_compute; reflexivity.
    - reflexivity.
    - reflexivity.
    - cbn. lia.
    - cbn. lia.
    - constructor.
    - vm_compute; reflexivity.
    - vm_compute; reflexivity.
    - exact Hrun. }
  destruct (Hpix 0) as (b0 & a0 & Hb0 & Hr0 & Hin0 & _ & _); [cbn; lia|].
  destruct (Hpix 1) as (b1 & a1 & Hb1 & Hr1 & _ & Hout1 & _); [cbn; lia|].
  assert (b0 = true) as -> by (vm_compute in Hb0; congruence).
  assert (b1 = false) as -> by (vm_compute in Hb1; congruence).
  exists out, d', a0, a1. split; [reflexivity|].
  split; [exact Hr0|]. split; [apply Hin0; cbn; lia|].
  split; [exact Hr1|]. apply Hout1. cbn. lia.
Defined.

(** S2 started without a mask: no mask, and the matte colour of a new
    object. *)
Lemma StartLoadDIBBase_without_mask_witness :
  exists r d',
    StartLoadDIBBase (Some Demo.s2_stream) false None None false kUnknown false
      new_CPDF_DIB = Some (r, d') /\
    m_pMask d' = None /\ m_MatteColor d' = m_MatteColor new_CPDF_DIB.
Proof.
  assert (Hobs : is_Some (fst <$> StartLoadDIBBase (Some Demo.s2_stream) false
                            None None false kUnknown false new_CPDF_DIB))
    by (eexists; vm_compute; reflexivity).
  destruct (StartLoadDIBBase (Some Demo.s2_stream) false None None false
              kUnknown false new_CPDF_DIB) as [[r d']|] eqn:Hrun;
    [|by destruct Hobs].
  destruct (StartLoadDIBBase_without_mask (Some Demo.s2_stream) None None false
              kUnknown false new_CPDF_DIB d' r Hrun) as (Hmask & Hmatte & _).
  exists r, d'. split; [reflexivity|]. split; [exact Hmask|exact Hmatte].
Defined.

(** A 2-bit gray image gets a palette and nothing else changes. *)
Lemma LoadPalette_witness :
  exists d',
    LoadPalette Cases.gray2_dib = Some (tt, d') /\
    d' = set_m_palette (m_palette d') Cases.gray2_dib.
Proof.
  assert (Hobs : is_Some (fst <$> LoadPalette Cases.gray2_dib))
    by (eexists; vm_compute; reflexivity).
  destruct (LoadPalette Cases.gray2_dib) as [[[] d']|] eqn:Hrun;
    [|by destruct Hobs].
  destruct (LoadPalette_only_for_small_depths Cases.gray2_dib d' Hrun)
    as [Hframe _].
  exists d'. split; [reflexivity|exact Hframe].
Defined.

(** A 2x1 image of three 8-bit components gets a row of 8 bytes. *)
Lemma ContinueToLoadMask_witness :
  exists d' row,
    ContinueToLoadMask Cases.unbuffered_dib = Some (true, d') /\
    m_pLineBuf d' = Some row /\ Z.of_nat (length row) = m_Pitch d'.
Proof.
  assert (Hobs : fst <$> ContinueToLoadMask Cases.unbuffered_dib = Some true)
    by (vm_compute; reflexivity).
  destruct (ContinueToLoadMask Cases.unbuffered_dib) as [[[|] d']|] eqn:Hrun;
    try discriminate Hobs.
  destruct (ContinueToLoadMask_row_has_pitch_bytes Cases.unbuffered_dib d' Hrun)
    as ((row & Hrow & Hlen & _) & _).
  exists d', row. split; [reflexivity|]. split; [exact Hrow|exact Hlen].
Defined.

(** Two inline alpha bytes: the mask is started on them and the matte
    colour is 0xFFFFFFFF. *)
Lemma StartLoadMask_inline_witness :
  exists r d',
    StartLoadMask StartLoadDIBBase_mask Cases.inline_alpha_dib = Some (r, d') /\
    m_MatteColor d' = 4294967295 /\ r <> kFail.
Proof.
  assert (Hobs : is_Some (fst <$> StartLoadMask StartLoadDIBBase_mask
                            Cases.inline_alpha_dib))
    by (eexists; vm_compute; reflexivity).
  destruct (StartLoadMask StartLoadDIBBase_mask Cases.inline_alpha_dib)
    as [[r d']|] eqn:Hrun; [|by destruct Hobs].
  destruct (StartLoadMask_inline_alpha_first Cases.inline_alpha_dib d' r)
    as (st & sub & _ & Hmatte & Hr & _).
  - discriminate.
  - exact Hrun.
  - exists r, d'. split; [reflexivity|]. split; [exact Hmatte|exact Hr].
Defined.

(** JBIG2 data the codec rejects: Fail, and the bitmap is gone. *)
Lemma ContinueLoadDIBBase_jbig2_witness :
  exists d',
    ContinueLoadDIBBase Demo.no_pause Cases.jbig_rejected_dib = Some (kFail, d') /\
    GetBuffer d' = None.
Proof.
  set (acc := mkAcc None (Some [0; 1]) "JBIG2Decode" None).
  assert (Hobs : fst <$> Jbig2_step Demo.no_pause acc Cases.jbig_rejected_dib
                 = Some kError) by (vm_compute; reflexivity).
  destruct (Jbig2_step Demo.no_pause acc Cases.jbig_rejected_dib)
    as [[status d1]|] eqn:Hstep; [|discriminate Hobs].
  injection Hobs as ->.
  destruct (ContinueLoadDIBBase_jbig2 Demo.no_pause Cases.jbig_rejected_dib acc)
    as [_ Hcodec].
  - discriminate.
  - reflexivity.
  - reflexivity.
  - destruct (Hcodec eq_refl kError d1 Hstep) as (Herror & _).
    destruct (Herror eq_refl) as (d' & Hrun & _ & Hbuf & _).
    exists d'. split; [exact Hrun|exact Hbuf].
Defined.

(** S2 with a soft mask the codec rejects: Fail on the first resumption,
    Success on the second. *)
Lemma after_mask_failure_witness :
  exists d1,
    ContinueLoadDIBBase Demo.no_pause Demo.masked_dib = Some (kFail, d1) /\
    ContinueLoadDIBBase Demo.no_pause d1 = Some (kSuccess, d1).
Proof.
  assert (Hobs : (m_pMask Demo.masked_dib ≫=
                    fun mask => fst <$> ContinueLoadDIBBase Demo.no_pause mask)
                 = Some kFail) by (vm_compute; reflexivity).
  destruct (m_pMask Demo.masked_dib) as [mask|] eqn:Hmask;
    [|discriminate Hobs].
  cbn in Hobs.
  destruct (ContinueLoadDIBBase Demo.no_pause mask) as [[r failed]|] eqn:Hfail;
    [|discriminate Hobs].
  injection Hobs as ->.
  assert (Hobs' : fst <$> ContinueLoadDIBBase Demo.no_pause Demo.masked_dib
                  = Some kFail) by (vm_compute; reflexivity).
  destruct (ContinueLoadDIBBase Demo.no_pause Demo.masked_dib)
    as [[r d1]|] eqn:Hrun; [|discriminate Hobs'].
  injection Hobs' as ->.
  destruct (ContinueLoadDIBBase_after_mask_failure Demo.no_pause Demo.no_pause
              Demo.masked_dib d1 mask failed) as (_ & _ & Hagain).
  - vm_compute; reflexivity.
  - exact Hmask.
  - exact Hfail.
  - exact Hrun.
  - exists d1. split; [reflexivity|exact Hagain].
Defined.

(** A JBIG2 image: CreateDecoder answers Continue and marks the object. *)
Lemma CreateDecoder_outcomes_witness :
  exists d',
    CreateDecoder Cases.jbig_fresh_dib = Some (kContinue, d') /\
    m_Status d' = kSuccess.
Proof.
  assert (Hobs : fst <$> CreateDecoder Cases.jbig_fresh_dib = Some kContinue)
    by (vm_compute; reflexivity).
  destruct (CreateDecoder Cases.jbig_fresh_dib) as [[r d']|] eqn:Hrun;
    [|discriminate Hobs].
  injection Hobs as ->.
  destruct (CreateDecoder_outcomes Cases.jbig_fresh_dib d'
              (mkAcc None (Some [177; 5]) "JBIG2Decode" None) kContinue)
    as (_ & _ & Hcontinue & _).
  - reflexivity.
  - exact Hrun.
  - destruct (Hcontinue eq_refl) as (_ & Hstatus & _).
    exists d'. split; [reflexivity|exact Hstatus].
Defined.

(** An opaque pixel keeps its colour. *)
Lemma jpx_blend_pixel_witness :
  jpx_blend_pixel (ptr_of [10; 20; 30; 255]) (ptr_of [0; 0; 0])
    ([0; 0; 0], []) = Some ([10; 20; 30], [255]).
Proof.
  destruct (jpx_blend_pixel_against_white (ptr_of [10; 20; 30; 255])
              (ptr_of [0; 0; 0]) [0; 0; 0] [] 10 20 30 255) as [Hrun _].
  - reflexivity.
  - reflexivity.
  - reflexivity.
  - reflexivity.
  - unfold is_byte; lia.
  - unfold is_byte; lia.
  - unfold is_byte; lia.
  - unfold is_byte; lia.
  - cbn; lia.
  - cbn; lia.
  - rewrite Hrun. reflexivity.
Defined.

(** One ARGB pixel: one alpha byte, the pixel's fourth. *)
Lemma jpx_flatten_witness :
  exists rgb' alpha',
    jpx_flatten_with_alpha Cases.argb_pixel Cases.rgb_pixel 1 1 []
      = Some (rgb', alpha') /\
    Z.of_nat (length alpha') = 1.
Proof.
  assert (Hobs : is_Some (jpx_flatten_with_alpha Cases.argb_pixel
                            Cases.rgb_pixel 1 1 []))
    by (eexists; vm_compute; reflexivity).
  destruct (jpx_flatten_with_alpha Cases.argb_pixel Cases.rgb_pixel 1 1 [])
    as [[rgb' alpha']|] eqn:Hrun; [|by destruct Hobs].
  destruct (jpx_flatten_alpha_row_major Cases.argb_pixel Cases.rgb_pixel 1 1
              [] rgb' alpha') as (_ & extra & Hextra & Hlen & _).
  - lia.
  - lia.
  - exact Hrun.
  - exists rgb', alpha'. split; [reflexivity|].
    rewrite Hextra. cbn [app]. rewrite Hlen. reflexivity.
Defined.

(** S2: what StartLoadDIBBase loads, Load loads. *)
Lemma Load_follows_StartLoadDIBBase_witness :
  exists d', Load (Some Demo.s2_stream) new_CPDF_DIB = Some (true, d').
Proof.
  assert (Hobs : fst <$> StartLoadDIBBase (Some Demo.s2_stream) false None None
                           false kUnknown false new_CPDF_DIB = Some kSuccess)
    by (vm_compute; reflexivity).
  destruct (StartLoadDIBBase (Some Demo.s2_stream) false None None false
              kUnknown false new_CPDF_DIB) as [[r d']|] eqn:Hrun;
    [|discriminate Hobs].
  injection Hobs as ->.
  exists d'.
  apply (Load_follows_StartLoadDIBBase Demo.s2_stream new_CPDF_DIB d' kSuccess).
  - reflexivity.
  - reflexivity.
  - exact Hrun.
  - discriminate.
Defined.

(** The 4-bit pixel 1, 15, 8 comes out as 136, 255, 17. *)
Lemma default_decode_rgb_packed_witness :
  exists out,
    TranslateScanline24bppDefaultDecode Cases.rgb4_dib (replicate 8 0)
      (ptr_of [31; 128; 255]) = Some (true, out) /\
    out !! 0%nat = Some 136 /\ out !! 1%nat = Some 255 /\ out !! 2%nat = Some 17.
Proof.
  assert (Hobs : fst <$> TranslateScanline24bppDefaultDecode Cases.rgb4_dib
                           (replicate 8 0) (ptr_of [31; 128; 255]) = Some true)
    by (vm_compute; reflexivity).
  destruct (TranslateScanline24bppDefaultDecode Cases.rgb4_dib (replicate 8 0)
              (ptr_of [31; 128; 255])) as [[[|] out]|] eqn:Hrun;
    try discriminate Hobs.
  destruct (default_decode_rgb_packed_is_scaled Cases.rgb4_dib
              (ptr_of [31; 128; 255]) (replicate 8 0) out) with (col := 0)
    as (R & G & B & HR & HG & HB & _ & _ & _ & H0 & H1 & H2).
  - reflexivity.
  - left. reflexivity.
  - reflexivity.
  - cbn. lia.
  - exact Hrun.
  - cbn. lia.
  - vm_compute in HR, HG, HB.
    injection HR as <-. injection HG as <-. injection HB as <-.
    exists out. split; [reflexivity|].
    split; [exact H0|]. split; [exact H1|exact H2].
Defined.

(** The byte 0xA5 as two 4-bit pixels: 10 and 5. *)
Lemma packed_codes_row_witness :
  exists row d',
    GetScanline 0 Cases.gray4_dib = Some (Some (ptr_of row), d') /\
    row !! 0%nat = Some 10 /\ row !! 1%nat = Some 5.
Proof.
  assert (Hobs : (fun r => bool_decide (is_Some (fst r)))
                   <$> GetScanline 0 Cases.gray4_dib = Some true)
    by (vm_compute; reflexivity).
  destruct (GetScanline 0 Cases.gray4_dib) as [[[out|] d']|] eqn:Hrun;
    try discriminate Hobs.
  destruct (packed_codes_row_has_one_byte_per_pixel Cases.gray4_dib d' 0 1
              (mkPtr [165] 0) out) as (row & -> & _ & Hrow).
  - reflexivity.
  - discriminate.
  - discriminate.
  - vm_compute. discriminate.
  - reflexivity.
  - vm_compute; reflexivity.
  - vm_compute; reflexivity.
  - exact Hrun.
  - destruct (Hrow 0) as (c0 & Hc0 & Hr0 & _); [cbn; lia|].
    destruct (Hrow 1) as (c1 & Hc1 & Hr1 & _); [cbn; lia|].
    vm_compute in Hc0, Hc1. injection Hc0 as <-. injection Hc1 as <-.
    exists row, d'. split; [reflexivity|]. split; [exact Hr0|exact Hr1].
Defined.

(** S4: the colour bytes of the keyed pixel are those of the translated
    row. *)
Lemma color_key_row_witness :
  exists out d' translated s0,
    GetScanline 0 Demo.s4_dib = Some (Some out, d') /\
    ptr_read translated (0 * 3) = Some s0 /\
    ptr_read out (4 * 0) = Some (u8 s0).
Proof.
  assert (Hobs : (fun r => bool_decide (is_Some (fst r)))
                   <$> GetScanline 0 Demo.s4_dib = Some true)
    by (vm_compute; reflexivity).
  destruct (GetScanline 0 Demo.s4_dib) as [[[out|] d']|] eqn:Hrun;
    try discriminate Hobs.
  destruct (color_key_row_keeps_colour_bytes Demo.s4_dib d' 0 3
              (mkPtr [0; 0; 0] 0) out) as (translated & _ & _ & Hpix).
  - vm_compute; reflexivity.
  - vm_compute; reflexivity.
  - vm_compute; reflexivity.
  - vm_compute; reflexivity.
  - exact Hrun.
  - destruct (Hpix 0) as (s0 & s1 & s2 & H0 & _ & _ & Ho & _).
    + assert (Hw : m_Width Demo.s4_dib = 1) by (vm_compute; reflexivity).
      rewrite Hw. lia.
    + exists out, d', translated, s0.
      split; [reflexivity|]. split; [exact H0|exact Ho].
Defined.

(** Two 4-bit indices stored in the high bits: 0xF0 and 0x80 become 15
    and 8. *)
Lemma jpx_scale_indices_witness :
  exists out,
    jpx_scale_indices Cases.index_pixels 2 1 4 = Some out /\
    ptr_read (ptr_of out) (0 * 4 + 0) = Some 15 /\
    ptr_read (ptr_of out) (0 * 4 + 1) = Some 8.
Proof.
  assert (Hobs : is_Some (jpx_scale_indices Cases.index_pixels 2 1 4))
    by (eexists; vm_compute; reflexivity).
  destruct (jpx_scale_indices Cases.index_pixels 2 1 4) as [out|] eqn:Hrun;
    [|by destruct Hobs].
  destruct (jpx_scale_indices_shifts_every_index Cases.index_pixels 2 1 4 out)
    as [_ Hpix].
  - cbn. lia.
  - lia.
  - exact Hrun.
  - destruct (Hpix 0 0) as (v0 & Hv0 & Ho0); [lia|lia|].
    destruct (Hpix 0 1) as (v1 & Hv1 & Ho1); [lia|lia|].
    vm_compute in Hv0, Hv1. injection Hv0 as <-. injection Hv1 as <-.
    exists out. split; [reflexivity|]. split; [exact Ho0|exact Ho1].
Defined.

(** One decoded pixel 10 20 30 128 becomes the RGB pixel 10 20 30. *)
Lemma jpx_flatten_copy_witness :
  exists out,
    jpx_flatten Cases.argb_pixel Cases.rgb_pixel 1 1 = Some out /\
    ptr_read (ptr_of out) (0 * 4 + 0 * 3) = Some 10 /\
    ptr_read (ptr_of out) (0 * 4 + 0 * 3 + 2) = Some 30.
Proof.
  assert (Hobs : is_Some (jpx_flatten Cases.argb_pixel Cases.rgb_pixel 1 1))
    by (eexists; vm_compute; reflexivity).
  destruct (jpx_flatten Cases.argb_pixel Cases.rgb_pixel 1 1) as [out|] eqn:Hrun;
    [|by destruct Hobs].
  destruct (jpx_flatten_drops_fourth_byte Cases.argb_pixel Cases.rgb_pixel 1 1
              out) as [_ Hpix].
  - lia.
  - cbn. lia.
  - lia.
  - exact Hrun.
  - destruct (Hpix 0 0) as (s0 & s1 & s2 & H0 & _ & H2 & Ho0 & _ & Ho2);
      [lia|lia|].
    vm_compute in H0, H2. injection H0 as <-. injection H2 as <-.
    exists out. split; [reflexivity|]. split; [exact Ho0|exact Ho2].
Defined.

End MoreScenarios.

Section CodecScenarios.
#[local] Existing Instance Demo.QFloat.
#[local] Existing Instance Codecs.env.

(** The dictionary says 1x1, the JPEG header 2x1: the object takes the
    dimensions of the header. *)
Lemma CreateDCTDecoder_by_header_witness :
  exists d',
    CreateDCTDecoder Codecs.jpeg_data None Codecs.jpeg_dib = Some (true, d') /\
    m_Width d' = 2 /\ m_bpc d' = 8.
Proof.
  assert (Hobs : fst <$> CreateDCTDecoder Codecs.jpeg_data None Codecs.jpeg_dib
                 = Some true) by (vm_compute; reflexivity).
  destruct (CreateDCTDecoder Codecs.jpeg_data None Codecs.jpeg_dib)
    as [[[|] d']|] eqn:Hrun; try discriminate Hobs.
  destruct (CreateDCTDecoder_by_header Codecs.jpeg_data None Codecs.jpeg_dib d')
    as (info & Hinfo & _ & _ & Hw & _ & _ & Hbpc & _).
  - vm_compute; reflexivity.
  - exact Hrun.
  - exists d'. split; [reflexivity|].
    vm_compute in Hinfo. injection Hinfo as <-.
    split; [exact Hw|exact Hbpc].
Defined.

(** A JPX image of one RGB pixel without ColorSpace: 8 bits, 3 components. *)
Lemma LoadJpxBitmap_witness :
  exists bitmap d',
    LoadJpxBitmap Codecs.jpx_dib = Some (Some bitmap, d') /\
    m_bpc d' = 8 /\ m_nComponents d' = 3.
Proof.
  assert (Hobs : (fun r => bool_decide (is_Some (fst r)))
                   <$> LoadJpxBitmap Codecs.jpx_dib = Some true)
    by (vm_compute; reflexivity).
  destruct (LoadJpxBitmap Codecs.jpx_dib) as [[[bitmap|] d']|] eqn:Hrun;
    try discriminate Hobs.
  destruct (LoadJpxBitmap_success Codecs.jpx_dib d' bitmap Hrun)
    as (acc & decoder & Hacc & Hdec & _ & _ & _ & Hbpc & _ & Hn).
  exists bitmap, d'. split; [reflexivity|]. split; [exact Hbpc|].
  injection Hacc as <-. vm_compute in Hdec. injection Hdec as <-.
  exact Hn.
Defined.

End CodecScenarios.
(** * The scanline and mask claims on the concrete collaborators *)

Section ClaimScenarios.
#[local] Existing Instance Demo.QFloat.
#[local] Existing Instance Demo.env.

(** The source row of a line of an image read straight from its stream
    data. *)
Lemma stream_source_row (d : CPDF_DIB) (line p : Z) (data : list Z) :
  m_pCachedBitmap d = None -> m_pDecoder d = None ->
  acc_data <$> m_pStreamAcc d = Some (Some data) ->
  0 <= line -> 0 <= p ->
  (line + 1) * p <= Z.of_nat (length data) ->
  (line + 1) * p < 4294967296 ->
  source_row d line p (mkPtr data (line * p)).
Proof.
  intros Hbm Hdec Hdata Hline Hp Hsize Hmax.
  destruct (m_pStreamAcc d) as [acc|] eqn:Hacc; [|discriminate Hdata].
  injection Hdata as Hdata.
  assert (Hspan : GetSpan acc = data) by (unfold GetSpan; by rewrite Hdata).
  rewrite <- Hspan. apply (row_of_stream d line p acc); try done.
  - intros bitmap Hb. rewrite Hbm in Hb. discriminate Hb.
  - unfold GetSize. rewrite Hdata. exact Hsize.
Qed.



(** Two rows through the complement theorem.  S3: the row 10110001 comes
    back as 01001110.  The second row of an 8x2 image mask, 00000101,
    comes back as 11111010. *)
Lemma image_mask_rows_witness :
  fst <$> GetScanline 0 Demo.s3_dib = Some (Some (ptr_of [78; 0; 0; 0])) /\
  fst <$> GetScanline 1 Cases.mask_rows_dib
    = Some (Some (ptr_of [250; 0; 0; 0])).
Proof.
  split.
  - destruct (image_mask_scanline_is_complement Demo.s3_dib 0 1
                (mkPtr [177] (0 * 1)) [0; 0; 0; 0] [177]) as [Hrun _].
    + vm_compute; reflexivity.
    + vm_compute; reflexivity.
    + vm_compute; reflexivity.
    + vm_compute; reflexivity.
    + vm_compute; reflexivity.
    + apply stream_source_row; try (vm_compute; reflexivity);
        vm_compute; discriminate.
    + vm_compute; reflexivity.
    + repeat constructor; unfold is_byte; lia.
    + vm_compute; reflexivity.
    + vm_compute; discriminate.
    + rewrite Hrun. reflexivity.
  - destruct (image_mask_scanline_is_complement Cases.mask_rows_dib 1 1
                (mkPtr [177; 5] (1 * 1)) [0; 0; 0; 0] [5]) as [Hrun _].
    + vm_compute; reflexivity.
    + vm_compute; reflexivity.
    + vm_compute; reflexivity.
    + vm_compute; reflexivity.
    + vm_compute; reflexivity.
    + apply stream_source_row; try (vm_compute; reflexivity);
        vm_compute; discriminate.
    + vm_compute; reflexivity.
    + repeat constructor; unfold is_byte; lia.
    + vm_compute; reflexivity.
    + vm_compute; discriminate.
    + rewrite Hrun. reflexivity.
Defined.

(** A 16x2 image mask whose data stop inside the second row: line 1 is a
    line of the image and the first byte of its source row is 00001111,
    yet the row returned is 0xFF throughout, not the complement
    11110000. *)
Lemma image_mask_short_read_counterexample :
  let d := Cases.short_mask_dib in
  let first_byte :=
    (GetScanline 1 d ≫= fst) ≫= (fun out => ptr_read out 0) in
  (m_bImageMask d = true /\ m_bDefaultDecode d = true /\ m_Height d = 2) /\
  CalculatePitch8 (m_bpc d) (m_nComponents d) (m_Width d) = Some 2 /\
  acc_data <$> m_pStreamAcc d = Some (Some [177; 5; 15]) /\
  (GetScanline 1 d ≫= fst) ≫= (fun out => ptr_bytes out 2)
    = Some [255; 255] /\
  first_byte <> bitwise_complement <$> [177; 5; 15] !! Z.to_nat (1 * 2).
Proof.
  intros d first_byte. repeat split; try (vm_compute; reflexivity).
  vm_compute. discriminate.
Qed.

(** Three rows through the swap theorem.  S2: 10 20 30 40 50 60 comes back
    as 30 20 10 60 50 40.  The second row of a 2x2 DeviceRGB image,
    1 2 3 4 5 6, comes back as 3 2 1 6 5 4.  The second row of the keyed
    image, 15 35 55 15 35 61, comes back in 4-byte pixels that start
    55 35 15 and 61 35 15. *)
Lemma rgb_swap_rows_witness :
  fst <$> GetScanline 0 Demo.s2_dib
    = Some (Some (ptr_of [30; 20; 10; 60; 50; 40; 0; 0])) /\
  fst <$> GetScanline 1 Cases.rgb_rows_dib
    = Some (Some (ptr_of [3; 2; 1; 6; 5; 4; 0; 0])) /\
  (exists bgra d',
     GetScanline 1 Cases.keyed_rgb_dib = Some (Some (ptr_of bgra), d') /\
     take 3 bgra = [55; 35; 15] /\ take 3 (drop 4 bgra) = [61; 35; 15]).
Proof.
  split; [|split].
  - assert (Hw : m_Width Demo.s2_dib = 2) by (vm_compute; reflexivity).
    assert (Hcs : cs_ident <$> m_pColorSpace Demo.s2_dib = Some 2)
      by (vm_compute; reflexivity).
    destruct (default_decode_rgb_swaps_red_and_blue Demo.s2_dib 0 6
                (mkPtr [10; 20; 30; 40; 50; 60] (0 * 6))
                (replicate 8 0) [10; 20; 30; 40; 50; 60]) as (_ & _ & Hrun).
    + vm_compute; reflexivity.
    + left. vm_compute; reflexivity.
    + vm_compute; reflexivity.
    + vm_compute; reflexivity.
    + rewrite Hw. lia.
    + rewrite Hw. vm_compute; reflexivity.
    + repeat constructor; unfold is_byte; lia.
    + rewrite Hw. vm_compute; discriminate.
    + destruct Hrun as [Hplain _].
      * vm_compute; reflexivity.
      * apply stream_source_row; try (vm_compute; reflexivity);
          vm_compute; discriminate.
      * intros _. vm_compute; reflexivity.
      * rewrite Hplain by (vm_compute; reflexivity).
        destruct (m_pColorSpace Demo.s2_dib); [|discriminate Hcs].
        rewrite Hw. reflexivity.
  - assert (Hw : m_Width Cases.rgb_rows_dib = 2) by (vm_compute; reflexivity).
    assert (Hcs : cs_ident <$> m_pColorSpace Cases.rgb_rows_dib = Some 2)
      by (vm_compute; reflexivity).
    destruct (default_decode_rgb_swaps_red_and_blue Cases.rgb_rows_dib 1 6
                (mkPtr [10; 20; 30; 40; 50; 60; 1; 2; 3; 4; 5; 6] (1 * 6))
                (replicate 8 0) [1; 2; 3; 4; 5; 6]) as (_ & _ & Hrun).
    + vm_compute; reflexivity.
    + left. vm_compute; reflexivity.
    + vm_compute; reflexivity.
    + vm_compute; reflexivity.
    + rewrite Hw. lia.
    + rewrite Hw. vm_compute; reflexivity.
    + repeat constructor; unfold is_byte; lia.
    + rewrite Hw. vm_compute; discriminate.
    + destruct Hrun as [Hplain _].
      * vm_compute; reflexivity.
      * apply stream_source_row; try (vm_compute; reflexivity);
          vm_compute; discriminate.
      * intros _. vm_compute; reflexivity.
      * rewrite Hplain by (vm_compute; reflexivity).
        destruct (m_pColorSpace Cases.rgb_rows_dib); [|discriminate Hcs].
        rewrite Hw. reflexivity.
  - assert (Hw : m_Width Cases.keyed_rgb_dib = 2) by (vm_compute; reflexivity).
    assert (Hcs : cs_ident <$> m_pColorSpace Cases.keyed_rgb_dib = Some 2)
      by (vm_compute; reflexivity).
    destruct (default_decode_rgb_swaps_red_and_blue Cases.keyed_rgb_dib 1 6
                (mkPtr [0; 0; 0; 0; 0; 0; 15; 35; 55; 15; 35; 61] (1 * 6))
                (replicate 8 0) [15; 35; 55; 15; 35; 61]) as (_ & _ & Hrun).
    + vm_compute; reflexivity.
    + left. vm_compute; reflexivity.
    + vm_compute; reflexivity.
    + vm_compute; reflexivity.
    + rewrite Hw. lia.
    + rewrite Hw. vm_compute; reflexivity.
    + repeat constructor; unfold is_byte; lia.
    + rewrite Hw. vm_compute; discriminate.
    + destruct Hrun as [_ Hkeyed].
      * vm_compute; reflexivity.
      * apply stream_source_row; try (vm_compute; reflexivity);
          vm_compute; discriminate.
      * intros _. vm_compute; reflexivity.
      * destruct (Hkeyed ltac:(vm_compute; reflexivity) (replicate 8 0))
          as (bgra & d' & Hrow & Hlen & Hbytes).
        { vm_compute; reflexivity. }
        { rewrite Hw. vm_compute; discriminate. }
        { vm_compute. lia. }
        exists bgra, d'. split; [exact Hrow|].
        destruct (m_pColorSpace Cases.keyed_rgb_dib); [|discriminate Hcs].
        rewrite Hw in Hbytes.
        pose proof (Hbytes 0 0 ltac:(lia) ltac:(lia)) as H00.
        pose proof (Hbytes 0 1 ltac:(lia) ltac:(lia)) as H01.
        pose proof (Hbytes 0 2 ltac:(lia) ltac:(lia)) as H02.
        pose proof (Hbytes 1 0 ltac:(lia) ltac:(lia)) as H10.
        pose proof (Hbytes 1 1 ltac:(lia) ltac:(lia)) as H11.
        pose proof (Hbytes 1 2 ltac:(lia) ltac:(lia)) as H12.

        destruct bgra as [|b0 [|b1 [|b2 [|b3 [|b4 [|b5 [|b6 rest]]]]]]];
          try discriminate Hlen.
        vm_compute in H00, H01, H02, H10, H11, H12. cbn. rewrite take_0.
        split; congruence.
Defined.

(** Two default-decoded DeviceRGB images of 8 bits against the exchange of
    R and B in every output row.  With a colour key the row of line 1 has
    4-byte pixels: its first six bytes are not the six source bytes with R
    and B exchanged.  With data that stop inside the second row, line 1 is
    0xFF throughout although the first pixel of its source row is
    1 2 3. *)
Lemma rgb_swap_counterexample :
  let output (d : CPDF_DIB) (n : Z) :=
    (GetScanline 1 d ≫= fst) ≫= (fun out => ptr_bytes out n) in
  let source (d : CPDF_DIB) :=
    (fun acc => take 6 (drop 6 (GetSpan acc))) <$> m_pStreamAcc d in
  let rgb8 (d : CPDF_DIB) :=
    m_bDefaultDecode d = true /\ m_bpc d = 8 /\ m_nComponents d = 3 /\
    m_Family d = kDeviceRGB /\ m_Width d = 2 /\ m_Height d = 2 in
  (rgb8 Cases.keyed_rgb_dib /\
   source Cases.keyed_rgb_dib = Some [15; 35; 55; 15; 35; 61] /\
   output Cases.keyed_rgb_dib 8 = Some [55; 35; 15; 0; 61; 35; 15; 255] /\
   output Cases.keyed_rgb_dib 6
     <> swap_red_blue <$> source Cases.keyed_rgb_dib) /\
  (rgb8 Cases.short_rgb_dib /\
   source Cases.short_rgb_dib = Some [1; 2; 3] /\
   output Cases.short_rgb_dib 6 = Some [255; 255; 255; 255; 255; 255] /\
   output Cases.short_rgb_dib 3
     <> swap_red_blue <$> source Cases.short_rgb_dib).
Proof.
  intros output source rgb8.
  repeat split; try (vm_compute; reflexivity); vm_compute; discriminate.
Qed.

(** Two images with a soft mask the JBIG2 codec rejects, through the mask
    theorem.  The DeviceRGB image waits on its mask: the resumed load
    drops the mask and reports Fail.  The JBIG2 image continues its mask
    at the end of its own decoding: the mask is dropped and the report is
    Success. *)
Lemma mask_failure_witness :
  (exists d',
     ContinueLoadDIBBase Demo.no_pause Demo.masked_dib = Some (kFail, d')
     /\ m_pMask d' = None) /\
  (exists d',
     ContinueLoadDIBBase Demo.no_pause Cases.jbig_masked_dib
       = Some (kSuccess, d')
     /\ m_pMask d' = None).
Proof.
  split.
  - assert (Hobs : (m_pMask Demo.masked_dib ≫=
                      fun mask => fst <$> ContinueLoadDIBBase Demo.no_pause mask)
                   = Some kFail) by (vm_compute; reflexivity).
    destruct (m_pMask Demo.masked_dib) as [mask|] eqn:Hmask;
      [|discriminate Hobs].
    cbn in Hobs.
    destruct (ContinueLoadDIBBase Demo.no_pause mask) as [[r failed]|] eqn:Hfail;
      [|discriminate Hobs].
    injection Hobs as ->.
    destruct (mask_failure_detaches_mask Demo.no_pause Demo.masked_dib)
      as [_ Hcontinue].
    destruct (Hcontinue mask failed Hmask Hfail) as (_ & _ & Hwaiting).
    apply Hwaiting. vm_compute; reflexivity.
  - assert (Hobs : (m_pMask Cases.jbig_masked_dib ≫=
                      fun mask => fst <$> ContinueLoadDIBBase Demo.no_pause mask)
                   = Some kFail) by (vm_compute; reflexivity).
    destruct (m_pMask Cases.jbig_masked_dib) as [mask|] eqn:Hmask;
      [|discriminate Hobs].
    cbn in Hobs.
    destruct (ContinueLoadDIBBase Demo.no_pause mask) as [[r failed]|] eqn:Hfail;
      [|discriminate Hobs].
    injection Hobs as ->.
    assert (Hst : match m_pStreamAcc Cases.jbig_masked_dib with
                  | Some acc =>
                      match Jbig2_step Demo.no_pause acc Cases.jbig_masked_dib with
                      | Some r => Some (acc_decoder acc, fst r)
                      | None => None
                      end
                  | None => None
                  end = Some ("JBIG2Decode", kDecodeFinished))
      by (vm_compute; reflexivity).
    destruct (m_pStreamAcc Cases.jbig_masked_dib) as [acc|] eqn:Hacc;
      [|discriminate Hst].
    destruct (Jbig2_step Demo.no_pause acc Cases.jbig_masked_dib)
      as [[status d1]|] eqn:Hstep; [|discriminate Hst].
    injection Hst as Hdec ->.
    destruct (mask_failure_detaches_mask Demo.no_pause Cases.jbig_masked_dib)
      as [_ Hcontinue].
    destruct (Hcontinue mask failed Hmask Hfail) as (_ & Hjbig & _).
    apply (Hjbig acc kDecodeFinished d1).
    + vm_compute; reflexivity.
    + exact Hacc.
    + exact Hdec.
    + exact Hstep.
    + discriminate.
    + discriminate.
    + vm_compute; reflexivity.
Defined.

(** A DeviceRGB image with a soft mask in JBIG2 that the codec rejects,
    against the best-effort rule of the spec: start leaves the decoder
    waiting on its mask, the mask's resumed load fails, and
    ContinueLoadDIBBase reports Fail for the primary, not Success.  Asked
    again, the same object reports Success.  For a JBIG2 image with the
    same soft mask the failure of the mask is not reported: the answer is
    Success. *)
Lemma resumed_mask_failure_counterexample :
  let outcome (r : LoadState * CPDF_DIB) :=
    (fst r, bool_decide (is_Some (m_pMask (snd r)))) in
  (fst <$> Demo.start Demo.masked_stream true = Some kContinue /\
   m_Status Demo.masked_dib = kContinue /\
   (m_pMask Demo.masked_dib ≫=
      fun mask => fst <$> ContinueLoadDIBBase Demo.no_pause mask)
     = Some kFail /\
   outcome <$> ContinueLoadDIBBase Demo.no_pause Demo.masked_dib
     = Some (kFail, false) /\
   (ContinueLoadDIBBase Demo.no_pause Demo.masked_dib ≫=
      fun r => outcome <$> ContinueLoadDIBBase Demo.no_pause (snd r))
     = Some (kSuccess, false)) /\
  (fst <$> Demo.start Cases.jbig_masked_stream true = Some kContinue /\
   m_Status Cases.jbig_masked_dib = kSuccess /\
   (m_pMask Cases.jbig_masked_dib ≫=
      fun mask => fst <$> ContinueLoadDIBBase Demo.no_pause mask)
     = Some kFail /\
   outcome <$> ContinueLoadDIBBase Demo.no_pause Cases.jbig_masked_dib
     = Some (kSuccess, false)).
Proof. intros outcome. repeat split; vm_compute; reflexivity. Qed.

(** A line index beyond the cached JBIG2 bitmap of an 8x2 image mask
    returns the complement of its last row, 00000101. *)
Lemma cached_bitmap_clamp_witness :
  fst <$> GetScanline 5 Cases.jbig_rows_dib
    = Some (Some (ptr_of [250; 0; 0; 0])) /\
  GetScanline 5 Cases.jbig_rows_dib = GetScanline 1 Cases.jbig_rows_dib.
Proof.
  destruct (cached_bitmap_line_clamped Cases.jbig_rows_dib
              (mkBitmap 8 2 k1bppMask 4 [177; 0; 0; 0; 5; 0; 0; 0]) 5 1)
    as (_ & [Hsame _] & Hcopy & _).
  - vm_compute; reflexivity.
  - vm_compute; discriminate.
  - vm_compute; reflexivity.
  - vm_compute; discriminate.
  - vm_compute. split; [reflexivity|discriminate].
  - vm_compute; discriminate.
  - split; [|exact Hsame].
    destruct (Hcopy [0; 0; 0; 0]) as (Hinverted & _).
    + vm_compute; reflexivity.
    + vm_compute; discriminate.
    + rewrite Hinverted.
      * reflexivity.
      * vm_compute; reflexivity.
      * vm_compute; reflexivity.
      * change (Forall is_byte [5]).
        repeat constructor; unfold is_byte; lia.
Defined.

End ClaimScenarios.
